(* ===== verification/_CoqProject ===== *)
-Q . S2P
Prelude.v
PyStr.v
Regex.v
FormatRules.v
XmlDoc.v
Specfile.v
SysFs.v
Setup.v
FsWf.v
Generator.v
Templates.v
Bootstrap.v
Customize.v
PrepareRoot.v
Cleanup.v
ConfigLinks.v
Loader.v
Platform.v
