(* ===== verification/Prelude.v ===== *)
(** * A verification development of boltlinux/distro-tools

    The repository is the core of the Bolt Linux package-build and
    image-generation toolchain.  This development models, as executable Rocq
    definitions, the Python code under [src/] and proves what makes it
    correct.  The program has four parts, and they interact as follows.

    - [src/package/lib/boltlinux/package/boltpack/specfile.py], class
      [Specfile]: a package specification (an XML document) is parsed,
      checked against a RELAX NG schema found on a fixed search path
      ([validate_structure]), then every version-, name-, email- and
      date-bearing attribute is checked against a Python regular expression
      ([validate_format]), all violations being collected before one
      [MalformedSpecfile] error is raised.  The validated document answers
      queries: [source_name], [latest_version] ([epoch:version-revision] of
      the newest changelog release), [binary_packages], [upstream_version],
      [summary].
    - [src/image-gen/lib/boltlinux/osimage/generator.py], class
      [ImageGenerator]: [prepare] bootstraps a system root (directory
      skeleton with explicit modes, the [/var/run] link, the optional QEMU
      binary, the opkg configuration files, the host's network files, an
      [opkg update]); [customize] loads the directives of an image
      specification and applies them in document order, with an environment
      computed by [_prepare_environment] (allow-list plus four injected
      identity variables); [cleanup] rewrites the configuration, drops
      [resolv.conf] and empties the scratch directories while restoring
      their owner and mode.
    - [src/package/setup.py]: the setuptools script that installs the
      [boltlinux.package] packages, their helper scripts and the RELAX NG
      schema as package data, which [Specfile] then looks for.
    - [src/package/lib/boltlinux/package/boltpack/platform.py], class
      [Platform]: host introspection used by the build tools: executable
      search along [PATH], the [KEY=VALUE] lookup in [/etc/target] and
      [/etc/os-release], and the machine/target/tools descriptors derived
      from them.

    Files of the development (in dependency order):

    - [Prelude] (this file): the exception type shared by all components
      (the [boltlinux.error] classes and the Python built-in exceptions the
      code raises or catches), the result monad [res] with stdpp's
      [x ← c; k] notation, a fold with early exit ([res_fold], a Python
      [for] loop whose body may raise), the hint databases [bolt] and
      [bolt_rw] and the tactic [res_simp].
    - [PyStr]: the Python string built-ins the code calls ([str.lower],
      [str.strip], [str.split], [str.splitlines], [str.startswith], [in],
      [os.path.join], text-mode reading and line iteration), on ASCII
      strings.
    - [Regex]: the fragment of Python's [re] module the code uses, as an
      abstract syntax, a relational semantics over positions (anchors [^]
      and [$] included, with Python's rule that [$] also matches before a
      final newline) and an executable matcher [ends] proved sound and
      complete for it ([ends_correct]); [re_match] is
      [re.match(p, s) is not None].  The whole-word languages [lang] of
      anchor-free patterns are characterised constructor by constructor.
    - [FormatRules]: the ten patterns of the [specification] table of
      [Specfile.validate_format] (with their source text), and the
      languages of the strip, name and dependency-version rules
      ([strip_rule_lang], [name_rule_lang], [source_dep_version_rule_lang],
      [binary_dep_version_rule_lang]).
    - [XmlDoc]: the lxml element tree and the XPath fragment the code
      queries (child and descendant steps, name tests, [[1]], attributes,
      [string()]), evaluated in document order without duplicates.
    - [Specfile]: [Specfile.__init__], [validate_structure] (search path,
      [RuntimeError] without a schema), [validate_format] (collect-all) and
      the accessors, over the class [SpecHost] that stands for lxml's parser
      and RELAX NG validator and for [os.path.exists].
    - [SysFs]: the world the image generator acts on (a file-system map
      from paths to directories, files and links with owner and mode, the
      environment, the effective ids, the umask, the log), the I/O monad
      [io] (the world survives an exception, as in Python), and the [os]
      and [shutil] calls after CPython and Linux, with their step lemmas.
    - [Setup]: [src/package/setup.py], the [setup(...)] call as a record
      ([setup_call], [VERSION]), where setuptools installs its package
      data and data files ([installed_files]), and the first entry of
      [Specfile.RELAXNG_SCHEMA_SEARCH_PATH] computed by [normpath] from the
      module directory ([schema_entry]); the host of an installation
      ([installed_host]) composes the two with [validate_structure].
    - [FsWf]: the invariant of the file system ([fs_wf]: a tree rooted at
      a directory, every mode within [0o7777]), decided by [fs_wf_b];
      [io_invariant P m], that [m] keeps a property [P] of the world
      whether it returns or raises, with [io_preserves] its instance for
      [world_wf]; the rules for bind, loops and [try] for every [P], one
      lemma per call of [SysFs] for the invariant and one for [ids_are]
      (no call changes the effective ids or the umask), gathered in the
      hint database [bolt_wf] that the tactic [io_wf] uses to prove a
      composed method.
    - [Generator]: [ImageGenerator] ([__init__], [prepare], [customize],
      [cleanup] and the helpers) over the class [GenHost] that stands for
      the collaborators not under [src/] (the osimage [Platform],
      [UserInfo], [SpecfileParser.load], [opkg update]), with the theorems
      on the environment scoper and the directive loop.
    - [Templates]: a type checker for [str.format] templates
      ([format_fields], the names of their fields), sound and complete for
      the formatter ([py_format_typed]), and the typing of the six
      configuration templates against the constructor's context.
    - [Bootstrap]: the theorems on [prepare] and [cleanup] as they act on
      the file system: directory table, configuration files, QEMU binary,
      clean-up round trip, the invariant, the mode bounds.
    - [Customize]: the contract of the directive pipeline as a small-step
      machine ([pipeline_step], [pipeline_fails]) and the refinement
      theorems that [apply_parts] and [customize] implement it.
    - [PrepareRoot]: [prepare] composed end to end from the step theorems
      of [Bootstrap] and [SysFs]: the stages [stage_dirs], [stage_link],
      [stage_config], [stage_copies] of [prepare_root], each stated with
      the root paths it may write ([only_at]) and the identity it keeps,
      then the entry check and the log line ([prepare_unfold]); the layout
      it leaves is [prepared].
    - [Cleanup]: [cleanup] composed the same way ([cleanup_front], then the
      loop over [DIRS_TO_CLEAN]), and [cleanup] after [prepare] and an
      [opkg update] that writes under [var/lib] only
      ([opkg_writes_var_lib]); a cleaned root is a fixed point of
      [cleanup] ([write_config_files_fixed], [clean_dirs_fixed]).
    - [ConfigLinks]: [_write_config_files] on a root whose [etc/passwd] is
      a symbolic link to the host's [/etc/passwd]: the write follows the
      link ([link_dest] resolves an absolute target from the host root).
    - [Loader]: the [open] and [SpecfileParser.load] of [customize]; the
      parser, not under [src/], is modelled from the specification (tags
      resolved to directive kinds in document order, an unknown tag raising
      [MalformedSpecfile]) over a scanner of the document syntax that is a
      parameter, and [loader_host] plugs it into a [GenHost].
    - [Platform]: every static method of the boltpack [Platform] over the
      class [PlatformHost] (environment, file tests and reads, subprocess
      output, package manager).

    What the theorems show, by group:

    - validation: [validate_format] reports exactly the attributes that
      violate their rule, all of them, in table then document order
      ([format_errors_complete], [collect_format_errors_spec],
      [validate_format_ok_iff]); structure comes
      first and the first existing schema decides ([specfile_init_ok],
      [specfile_init_structure_first], [validate_structure_first_schema],
      [validate_structure_no_schema]); what each pattern accepts.
    - the document model: [binary_packages] lists every package name in
      document order, duplicates kept ([binary_packages_spec]); the
      version [latest_version] composes is read back into its parts by the
      strict reader [parse_version] (colon after a non-empty epoch, [-]
      before a non-empty revision) when the revision is given or the
      version has no [-], and every string the reader accepts is the
      composition of its parts ([latest_version_roundtrip]); for every
      non-empty revision [r], a version [v-r] without revision and a
      version [v] with revision [r] compose to the same string
      ([latest_version_ambiguous]).
    - packaging: in a source checkout the first schema entry is the
      checkout's [package/relaxng/package.rng.xml]
      ([schema_entry_checkout]); an installation made by [setup.py] alone
      finds no schema at all, so [validate_structure] raises
      [RuntimeError] for every document ([installed_schema_not_found]).
    - environment scoping: the computed environment is the allow-list
      plus the four identity variables, which the ambient environment
      cannot override ([prepare_environment_spec],
      [prepare_environment_identity]).
    - the directive pipeline (refinement): the loop of [customize] returns
      exactly after a run of pipeline steps over every part and raises
      exactly the error of the first failing part, in the world it left
      ([apply_parts_refines], [apply_parts_fail_fast], [apply_parts_seq]);
      [customize] on a directory is the pipeline over the loaded parts, on
      the resolved root, with the scoped environment ([customize_refines]);
      with the loader, an unknown directive tag stops [customize] before
      any directive runs ([customize_unknown_directive]).
    - the system root: the directory table is created with exact modes
      and nothing else changes ([create_dirs_root]); permission errors
      propagate ([create_dirs_denied], [prepare_denied]); the entry points
      refuse a non-directory untouched ([entry_points_require_dir]); the
      clean-up restores owner and mode of [/tmp] and [/var/tmp] exactly and
      empties them ([clean_dir_restores], [clean_dirs_restore]); on a
      root with both scratch directories [cleanup] succeeds, rewrites the
      six configuration files, drops [resolv.conf] and writes nothing else
      ([cleanup_prepared_ok]), and a second [cleanup] of its result
      succeeds and changes nothing ([cleanup_idempotent]); and on every
      empty root [cleanup] right
      after [prepare] fails because [/var/tmp] is never created
      ([prepare_then_cleanup_fails], on the sample host
      [cleanup_after_prepare_fails]);
      a created directory holds its table mode reduced to twelve bits
      ([create_dir_mode_bounds]).  End to end, [prepare] run as root on an
      empty root without QEMU hands [opkg update] a root with every
      directory, the link, every configuration file and the host's network
      files in place and nothing else written; the [hosts] template it
      writes is replaced by the host's [/etc/hosts] ([prepare_fresh]).
      With QEMU, the binary the host has lands at the same path under the
      root with its mode ([copy_qemu_copies]); an architecture with a
      table entry whose binary is missing is an error
      ([copy_qemu_missing]), the first matching prefix decides
      ([qemu_binary_for_first]).
    - containment: the configuration writes are not confined to the
      root: run as root on a root whose [etc/passwd] links to
      [/etc/passwd], [_write_config_files] succeeds and overwrites the
      host's [/etc/passwd] with the image template, the link unchanged
      ([write_config_files_follow_link]).
    - the invariant of the file-system model: every modelled call, hence
      [prepare] (given that [opkg update] keeps it) and [cleanup], keeps the
      file system well formed on every path, errors included
      ([prepare_preserves_wf], [cleanup_preserves_wf]); these are lemmas of
      the model that the composed theorems rely on.
    - host introspection: [find_executable] returns the first hit of the
      search path ([find_executable_spec]), which starts in the working
      directory when [PATH] is unset ([find_executable_path_unset]);
      [/etc/target] files read back ([key_value_file_lookup_roundtrip]);
      [tools_type] ends in ["None"] and [is_bolt] raises without
      [/etc/os-release] ([tools_type_default], [is_bolt_no_os_release],
      [is_bolt_ok_iff]); the [re.sub] of [_dpkg_build_flags] terminates,
      leaves other values alone and leaves no [-fdebug-prefix-map=VALUE]
      option behind ([strip_debug_prefix_map_no_option]).
    - the reference forms used by the proofs: the copy loop of
      [_prepare_environment] equals a map filter ([copy_allowed_filter]),
      and the scan of [strip_debug_prefix_map] reaches the end of its
      input on its fuel ([strip_debug_prefix_map_terminates]).
    - typing: every configuration template is well formed and names only
      keys of the constructor's context, whatever its arguments
      ([templates_well_typed]).
    - the pipeline machine: every run of [pipeline_step] is finite, and
      the configuration [apply_parts] stops in is the final one
      ([pipeline_terminates], a lemma on the contract of [Customize]).

    Assumptions of the composed theorems: they run as root (euid 0), as
    the image tools do, and [prepare_then_cleanup_fails] assumes of the
    external [opkg update] only that it succeeds, keeps the user and
    writes under [var/lib] ([opkg_writes_var_lib]);
    [write_config_files_follow_link] assumes the other configuration paths
    are absent or regular files, as in a root [prepare] made.

    Bounds and fuel: symbolic links are followed at most [max_symlinks] =
    40 times, Linux's [MAXSYMLINKS], after which the lookup fails with
    [ELOOP] as Linux does; the scan of [strip_debug_prefix_map] is given the
    length of its input as fuel, enough because every step consumes a
    character ([strip_debug_prefix_map_terminates]); every other recursion
    is structural.  Modes are [Z] values masked as the kernel masks them
    ([0o1777] for [mkdir], [0o7777] for [chmod]).

    Not modelled: the XML parser and XInclude of lxml, the RELAX NG
    validator itself (the schema file is not under [src/]),
    the serializer [SpecfileSerializer] behind [Specfile.serialize] (not
    under [src/]; a function of the document, the field [spec_serializer]
    of [SpecHost]), the syntax of image specifications that [SpecfileParser] scans (the
    specification does not describe it) and the directives' own [apply]
    bodies (records of the model), the formatting of log records, the
    behaviour of setuptools beyond where it puts the files, and the bodies of
    the external processes (opkg, uname, gcc, dpkg-buildflags), which are
    parameters of the model.  The insertion order of the Python dicts
    ([env], build flags) is not kept: they are [gmap]s.

    Strings are ASCII [string]s: Python's [\d] and [\s] also accept
    non-ASCII digits and spaces, which the model does not represent. *)

From stdpp Require Export base list gmap strings.
From Stdlib Require Export Ascii ZArith Lia.

Declare Scope bolt_scope.
Delimit Scope bolt_scope with bolt.

(** ** Exceptions *)

(** The [errno] of an [OSError] the file-system calls raise; [ENOERRNO]
    stands for an [OSError] raised without one (such as [shutil.rmtree]'s
    refusal of a symbolic link). *)
Inductive errno : Type :=
| ENOENT | EEXIST | ENOTDIR | EISDIR | EACCES | EPERM | ELOOP | EBUSY | ENOERRNO.

#[export] Instance errno_eq_dec : EqDecision errno.
Proof. solve_decision. Defined.

(** The exceptions raised or caught by the modelled code:
    [InvocationError] and [MalformedSpecfile] are the classes of
    [boltlinux.error], [GeneratorError] is [ImageGenerator.Error],
    [ShutilError] is [shutil.Error] (raised by [copy2] on the same file),
    [ProcessError] a failed external command, the others are Python
    built-ins. *)
Inductive exn : Type :=
| InvocationError (msg : string)
| MalformedSpecfile (msg : string)
| GeneratorError (msg : string)
| RuntimeError (msg : string)
| IndexError
| KeyError (key : string)
| ValueError (msg : string)
| AttributeError (msg : string)
| OSError (e : errno) (path : string)
| ShutilError (msg : string)
| ProcessError (cmd : string) (code : Z).

#[export] Instance exn_eq_dec : EqDecision exn.
Proof. solve_decision. Defined.

(** ** The result monad: a Python call returns a value or raises *)

Inductive res (A : Type) : Type :=
| Ok (a : A)
| Err (e : exn).
Arguments Ok {A} a.
Arguments Err {A} e.

#[export] Instance res_ret : MRet res := λ _ a, Ok a.
#[export] Instance res_bind : MBind res :=
  λ _ _ f m, match m with Ok a => f a | Err e => Err e end.

Notation "'raise' e" := (Err e) (at level 10, e at level 9) : bolt_scope.
Open Scope bolt_scope.

Definition is_ok {A} (r : res A) : bool :=
  match r with Ok _ => true | Err _ => false end.

(** A [for] loop whose body may raise: the first exception stops it. *)
Fixpoint res_fold {A B} (f : A → B → res A) (a : A) (l : list B) : res A :=
  match l with
  | [] => Ok a
  | x :: l' => a' ← f a x; res_fold f a' l'
  end.

(** ** Generic lemmas on [res] *)

Lemma bind_Ok {A B} (a : A) (f : A → res B) : (Ok a ≫= f) = f a.
Proof. reflexivity. Qed.

Lemma bind_Err {A B} (e : exn) (f : A → res B) : (Err e ≫= f) = Err e.
Proof. reflexivity. Qed.

Lemma bind_eq_Ok {A B} (m : res A) (f : A → res B) b :
  (m ≫= f) = Ok b ↔ ∃ a, m = Ok a ∧ f a = Ok b.
Proof. destruct m; simpl; split; [eauto | by intros (?&[=->]&?) | done | by intros (?&?&?)]. Qed.

Lemma bind_eq_Err {A B} (m : res A) (f : A → res B) e :
  (m ≫= f) = Err e ↔ m = Err e ∨ ∃ a, m = Ok a ∧ f a = Err e.
Proof.
  destruct m; simpl; split.
  - eauto.
  - by intros [|(?&[=->]&?)].
  - by intros [=->]; left.
  - by intros [[=->]|(?&?&?)].
Qed.

Lemma res_fold_app {A B} (f : A → B → res A) a l1 l2 :
  res_fold f a (l1 ++ l2) = (a' ← res_fold f a l1; res_fold f a' l2).
Proof.
  revert a; induction l1 as [|x l1 IH]; intros a; simpl; [done|].
  destruct (f a x); simpl; auto.
Qed.

(** A fold over a list whose body never raises is a [foldl]. *)
Lemma res_fold_total {A B} (f : A → B → A) a l :
  res_fold (λ a x, Ok (f a x)) a l = Ok (foldl f a l).
Proof. revert a; induction l; simpl; auto. Qed.

(** An invariant preserved by every successful step holds at the end. *)
Lemma res_fold_invariant {A B} (P : A → Prop) (f : A → B → res A) a l a' :
  P a → (∀ x b b', x ∈ l → P b → f b x = Ok b' → P b') →
  res_fold f a l = Ok a' → P a'.
Proof.
  revert a; induction l as [|x l IH]; simpl; intros a Ha Hstep.
  - by intros [=<-].
  - destruct (f a x) eqn:E; simpl; [|done].
    apply IH; [eapply Hstep; eauto; left|].
    intros; eapply Hstep; eauto; by right.
Qed.

(** The loop [for x in l: out.append(f(x))] with a body that may raise:
    it returns the images of all elements, in order, or the error of the
    first element whose image raises. *)
Lemma res_fold_snoc_ok {A B} (f : B → res A) acc l out :
  res_fold (λ acc x, y ← f x; Ok (acc ++ [y])) acc l = Ok out ↔
  ∃ ys, out = acc ++ ys ∧ Forall2 (λ x y, f x = Ok y) l ys.
Proof.
  revert acc. induction l as [|x l IH]; intros acc; simpl.
  - split; [intros [= <-]; exists []; by rewrite app_nil_r|].
    intros (ys&->&Hys). apply Forall2_nil_inv_l in Hys as ->. by rewrite app_nil_r.
  - destruct (f x) as [y|e] eqn:E; simpl.
    + rewrite IH. split.
      * intros (ys&->&Hys). exists (y :: ys). split; [by rewrite <-app_assoc|by constructor].
      * intros (ys&->&Hys). apply Forall2_cons_inv_l in Hys as (y'&ys'&Hy&Hys&->).
        rewrite E in Hy. injection Hy as <-. exists ys'. split; [by rewrite <-app_assoc|done].
    + split; [done|]. intros (ys&_&Hys). apply Forall2_cons_inv_l in Hys as (y'&_&Hy&_).
      congruence.
Qed.

Lemma res_fold_snoc_err {A B} (f : B → res A) acc l e :
  res_fold (λ acc x, y ← f x; Ok (acc ++ [y])) acc l = Err e ↔
  ∃ l1 x l2, l = l1 ++ x :: l2 ∧ Forall (λ x, ∃ y, f x = Ok y) l1 ∧ f x = Err e.
Proof.
  revert acc. induction l as [|x l IH]; intros acc; simpl.
  - split; [done|]. intros ([|]&?&?&?&_); simplify_list_eq.
  - destruct (f x) as [y|e'] eqn:E; simpl.
    + rewrite IH. split.
      * intros (l1&x'&l2&->&Hl1&Hx). exists (x :: l1), x', l2.
        split_and!; [done| |done]. constructor; eauto.
      * intros ([|x1 l1]&x'&l2&Heq&Hl1&Hx); simplify_list_eq; [congruence|].
        apply Forall_cons in Hl1 as [_ Hl1]. by exists l1, x', l2.
    + split.
      * intros [= <-]. exists [], x, l. split_and!; [done|constructor|done].
      * intros ([|x1 l1]&x'&l2&Heq&Hl1&Hx); simplify_list_eq; [congruence|].
        apply Forall_cons in Hl1 as [[y Hy] _]. congruence.
Qed.

(** ** String concatenation ([String.append] is [simpl never] under stdpp) *)

Lemma string_app_nil_l (s : string) : "" +:+ s = s.
Proof. reflexivity. Qed.

Lemma string_app_cons c (s t : string) : String c s +:+ t = String c (s +:+ t).
Proof. reflexivity. Qed.

Lemma string_app_nil_r (s : string) : s +:+ "" = s.
Proof. induction s as [|c s IH]; [done|]. by rewrite string_app_cons, IH. Qed.

Lemma string_app_assoc (s t u : string) : s +:+ (t +:+ u) = (s +:+ t) +:+ u.
Proof. induction s as [|c s IH]; [done|]. by rewrite !string_app_cons, IH. Qed.

Create HintDb bolt discriminated.
Create Rewrite HintDb bolt_rw.
#[export] Hint Rewrite @bind_Ok @bind_Err @res_fold_app
  string_app_nil_l string_app_cons string_app_nil_r : bolt_rw.

(** [res_simp] rewrites binds of known results and splits a successful bind
    in the hypotheses into its two halves. *)
Ltac res_simp :=
  repeat match goal with
  | H : (_ ≫= _) = Ok _ |- _ =>
      apply bind_eq_Ok in H; destruct H as (?&?&H)
  | H : Ok _ = Ok _ |- _ => injection H as H
  | H : Ok _ = Err _ |- _ => discriminate H
  | H : Err _ = Ok _ |- _ => discriminate H
  | _ => progress (autorewrite with bolt_rw in *)
  end.
