(* ===== verification/PyStr.v ===== *)
(** * Python string built-ins used by the modelled code

    [str.lower], [str.strip], [str.split] with a one-character separator
    (with and without [maxsplit=1]), [str.startswith], iteration over the
    lines of a text file, and [os.path.join], on ASCII strings.  They are
    the semantics of the Python runtime, written from its documentation; the
    components call them where the source does. *)

From S2P Require Import Prelude.
From Stdlib Require DecimalString.

(** ** Character classes *)

Definition ascii_code (c : ascii) : nat := nat_of_ascii c.

Definition in_range (lo hi : nat) (c : ascii) : bool :=
  (lo <=? ascii_code c) && (ascii_code c <=? hi).

Definition is_digit (c : ascii) : bool := in_range 48 57 c.
Definition is_upper (c : ascii) : bool := in_range 65 90 c.
Definition is_lower (c : ascii) : bool := in_range 97 122 c.
Definition is_alpha (c : ascii) : bool := is_upper c || is_lower c.
Definition is_alnum (c : ascii) : bool := is_alpha c || is_digit c.

(** [str.isspace] on ASCII: tab, line feed, vertical tab, form feed,
    carriage return, the four separators 0x1c-0x1f, and space. *)
Definition is_py_space (c : ascii) : bool :=
  in_range 9 13 c || in_range 28 32 c.

Definition newline : ascii := ascii_of_nat 10.
Definition slash : ascii := "/"%char.

(** ** [str.lower] *)

Definition lower_char (c : ascii) : ascii :=
  if is_upper c then ascii_of_nat (ascii_code c + 32) else c.

Fixpoint py_lower (s : string) : string :=
  match s with
  | EmptyString => EmptyString
  | String c s' => String (lower_char c) (py_lower s')
  end.

(** ** [str.strip] *)

Fixpoint lstrip (s : string) : string :=
  match s with
  | String c s' => if is_py_space c then lstrip s' else s
  | EmptyString => EmptyString
  end.

Fixpoint rstrip (s : string) : string :=
  match s with
  | EmptyString => EmptyString
  | String c s' =>
      match rstrip s' with
      | EmptyString => if is_py_space c then EmptyString else String c EmptyString
      | r => String c r
      end
  end.

Definition py_strip (s : string) : string := rstrip (lstrip s).

(** ** [str.split] with a one-character separator *)

(** [s.split(c, 1)]: one piece when [c] does not occur, else the text
    before its first occurrence and the rest. *)
Fixpoint py_split1 (c : ascii) (s : string) : list string :=
  match s with
  | EmptyString => [EmptyString]
  | String d s' =>
      if decide (d = c) then [EmptyString; s']
      else match py_split1 c s' with
           | [a] => [String d a]
           | a :: rest => String d a :: rest
           | [] => []
           end
  end.

(** [s.split(c)]: all pieces; [""] splits into [[""]]. *)
Fixpoint py_split (c : ascii) (s : string) : list string :=
  match s with
  | EmptyString => [EmptyString]
  | String d s' =>
      if decide (d = c) then EmptyString :: py_split c s'
      else match py_split c s' with
           | a :: rest => String d a :: rest
           | [] => []
           end
  end.

(** [s.split(c, 1)[0]] and [s.split(c)[0]]: the text before the first [c]. *)
Fixpoint before_char (c : ascii) (s : string) : string :=
  match s with
  | EmptyString => EmptyString
  | String d s' => if decide (d = c) then EmptyString else String d (before_char c s')
  end.

(** ** [str.startswith] *)

Definition py_startswith (s prefix : string) : bool := String.prefix prefix s.

(** ** Iterating over an open text file: lines keep their newline *)

Fixpoint py_lines_go (cur : string) (s : string) : list string :=
  match s with
  | EmptyString => if String.eqb cur "" then [] else [cur]
  | String c s' =>
      if decide (c = newline) then (cur +:+ String c EmptyString) :: py_lines_go "" s'
      else py_lines_go (cur +:+ String c EmptyString) s'
  end.

Definition py_lines (s : string) : list string := py_lines_go "" s.

(** ** Text mode, [str.splitlines], [in] *)

Definition carriage_return : ascii := ascii_of_nat 13.

(** Reading a file in text mode ([newline=None]): [\r\n] and [\r] become
    [\n]. *)
Fixpoint universal_newlines (s : string) : string :=
  match s with
  | EmptyString => EmptyString
  | String c s' =>
      if decide (c = carriage_return) then
        match s' with
        | String d s'' =>
            if decide (d = newline) then String newline (universal_newlines s'')
            else String newline (universal_newlines s')
        | EmptyString => String newline EmptyString
        end
      else String c (universal_newlines s')
  end.

(** The line boundaries of [str.splitlines] among ASCII characters:
    [\n], [\r], [\v], [\f], [\x1c], [\x1d], [\x1e]. *)
Definition is_line_break (c : ascii) : bool :=
  in_range 10 13 c || in_range 28 30 c.

(** [str.splitlines()]: the lines without their ends; [\r\n] is one end;
    no empty last line. *)
Fixpoint py_splitlines_go (cur : string) (s : string) : list string :=
  match s with
  | EmptyString => if String.eqb cur "" then [] else [cur]
  | String c s' =>
      if is_line_break c then
        cur :: (if decide (c = carriage_return) then
                  match s' with
                  | String d s'' => if decide (d = newline) then py_splitlines_go "" s''
                                    else py_splitlines_go "" s'
                  | EmptyString => []
                  end
                else py_splitlines_go "" s')
      else py_splitlines_go (cur +:+ String c EmptyString) s'
  end.

Definition py_splitlines (s : string) : list string := py_splitlines_go "" s.

(** [sub in s] *)
Fixpoint py_contains (sub s : string) : bool :=
  String.prefix sub s ||
  match s with
  | EmptyString => false
  | String _ s' => py_contains sub s'
  end.

(** The length of the longest prefix of [s] whose characters satisfy [p]. *)
Fixpoint span_count (p : ascii → bool) (s : string) : nat :=
  match s with
  | String c s' => if p c then S (span_count p s') else 0
  | EmptyString => 0
  end.

(** [s[n:]] *)
Fixpoint str_drop (n : nat) (s : string) : string :=
  match n, s with
  | 0, _ => s
  | S n', String _ s' => str_drop n' s'
  | S _, EmptyString => EmptyString
  end.

(** Every character of [w] satisfies [P]. *)
Fixpoint str_all (P : ascii → bool) (w : string) : bool :=
  match w with
  | EmptyString => true
  | String c w' => P c && str_all P w'
  end.

(** ** [os.path.join(a, b)] for two components *)

Definition ends_with_slash (s : string) : bool :=
  match String.get (String.length s - 1) s with
  | Some c => bool_decide (c = slash)
  | None => false
  end.

Definition os_path_join (a b : string) : string :=
  if py_startswith b "/" then b
  else if String.eqb a "" || ends_with_slash a then a +:+ b
  else a +:+ "/" +:+ b.

(** ** [sep.join(items)], [str(n)] and [os.path.basename] *)

Definition nl : string := String newline EmptyString.

Fixpoint py_join (sep : string) (items : list string) : string :=
  match items with
  | [] => ""
  | [x] => x
  | x :: rest => x +:+ sep +:+ py_join sep rest
  end.

Definition py_str_nat (n : nat) : string :=
  DecimalString.NilEmpty.string_of_uint (Nat.to_uint n).

(** The text after the last [/]. *)
Fixpoint os_path_basename_go (cur : string) (s : string) : string :=
  match s with
  | EmptyString => cur
  | String c s' =>
      if decide (c = slash) then os_path_basename_go "" s'
      else os_path_basename_go (cur +:+ String c EmptyString) s'
  end.

Definition os_path_basename (s : string) : string := os_path_basename_go "" s.

(** ** Lemmas *)

Lemma str_all_app P (w1 w2 : string) :
  str_all P (w1 +:+ w2) = str_all P w1 && str_all P w2.
Proof. induction w1 as [|c w1 IH]; [done|]. rewrite string_app_cons. simpl. by rewrite IH, andb_assoc. Qed.

Lemma str_all_ext P Q (w : string) : (∀ c, P c = Q c) → str_all P w = str_all Q w.
Proof. intros H. induction w as [|c w IH]; simpl; [done|]. by rewrite H, IH. Qed.

Lemma str_all_impl (P Q : ascii → bool) (w : string) :
  (∀ c, P c = true → Q c = true) → str_all P w = true → str_all Q w = true.
Proof.
  intros H. induction w as [|c w IH]; simpl; [done|].
  intros [Hc Hw]%andb_prop. by rewrite H, IH.
Qed.


Lemma py_split1_no_sep c s :
  str_all (λ d, negb (bool_decide (d = c))) s = true → py_split1 c s = [s].
Proof.
  induction s as [|d s IH]; simpl; [done|]. intros [Hd Hs]%andb_prop.
  rewrite decide_False by (intros ->; by rewrite bool_decide_true in Hd). by rewrite IH.
Qed.

Lemma py_split1_app c k v :
  str_all (λ d, negb (bool_decide (d = c))) k = true →
  py_split1 c (k +:+ String c v) = [k; v].
Proof.
  induction k as [|d k IH]; simpl; [by rewrite decide_True|]. intros [Hd Hk]%andb_prop.
  rewrite decide_False by (intros ->; by rewrite bool_decide_true in Hd). by rewrite IH.
Qed.

Lemma lstrip_no_space s :
  (∀ c s', s = String c s' → is_py_space c = false) → lstrip s = s.
Proof. destruct s as [|c s]; simpl; [done|]. intros H. by rewrite (H c s eq_refl). Qed.

Lemma rstrip_app_newline s :
  rstrip (s +:+ String newline EmptyString) = rstrip s.
Proof. induction s as [|c s IH]; simpl; [done|]. by rewrite IH. Qed.

Lemma py_lower_app s t : py_lower (s +:+ t) = py_lower s +:+ py_lower t.
Proof. induction s as [|c s IH]; simpl; [done|]. by rewrite IH. Qed.

#[export] Hint Rewrite py_lower_app : bolt_rw.

Lemma lstrip_length s : String.length (lstrip s) ≤ String.length s.
Proof. induction s as [|c s IH]; simpl; [done|]. destruct (is_py_space c); simpl; lia. Qed.

Lemma rstrip_length s : String.length (rstrip s) ≤ String.length s.
Proof.
  induction s as [|c s IH]; simpl; [done|].
  destruct (rstrip s) eqn:E; [destruct (is_py_space c)|]; simpl in *; lia.
Qed.

Lemma lstrip_same_length s : String.length (lstrip s) = String.length s → lstrip s = s.
Proof.
  destruct s as [|c s]; simpl; [done|]. destruct (is_py_space c); [|done].
  pose proof (lstrip_length s). lia.
Qed.

(** A field that [str.strip()] leaves alone keeps doing so with a newline
    after it. *)
Lemma py_strip_app_newline v : py_strip v = v → py_strip (v +:+ nl) = v.
Proof.
  unfold py_strip. intros Hv.
  assert (Hl : lstrip v = v).
  { apply lstrip_same_length. pose proof (lstrip_length v). pose proof (rstrip_length (lstrip v)).
    rewrite Hv in *. lia. }
  destruct v as [|c v]; [done|].
  assert (Hc : is_py_space c = false).
  { simpl in Hl. destruct (is_py_space c) eqn:E; [|done].
    pose proof (lstrip_length v). apply (f_equal String.length) in Hl. simpl in Hl. lia. }
  unfold nl. rewrite string_app_cons. simpl lstrip at 1. rewrite Hc.
  change (rstrip (String c v +:+ String newline EmptyString) = String c v).
  by rewrite rstrip_app_newline, <-Hl at 1.
Qed.

(** Reading a line that ends in a newline and holds no other. *)
Lemma py_lines_go_line cur x rest :
  str_all (λ c, negb (bool_decide (c = newline))) x = true →
  py_lines_go cur (x +:+ String newline rest) = (cur +:+ x +:+ nl) :: py_lines_go "" rest.
Proof.
  revert cur. induction x as [|c x IH]; intros cur; simpl.
  - intros _. by rewrite string_app_nil_l.
  - intros [Hc Hx]%andb_prop. rewrite decide_False by (intros ->; by rewrite bool_decide_true in Hc).
    rewrite IH by done. by rewrite <-string_app_assoc, string_app_cons, string_app_nil_l.
Qed.

(** Text without a carriage return reads back unchanged. *)
Lemma universal_newlines_id s :
  str_all (λ c, negb (bool_decide (c = carriage_return))) s = true → universal_newlines s = s.
Proof.
  induction s as [|c s IH]; simpl; [done|]. intros [Hc Hs]%andb_prop.
  rewrite decide_False by (intros ->; by rewrite bool_decide_true in Hc). by rewrite IH.
Qed.

Lemma py_split_no_sep c s :
  str_all (λ d, negb (bool_decide (d = c))) s = true → py_split c s = [s].
Proof.
  induction s as [|d s IH]; simpl; [done|]. intros [Hd Hs]%andb_prop.
  rewrite decide_False by (intros ->; by rewrite bool_decide_true in Hd). by rewrite IH.
Qed.

Lemma py_split_app c k v :
  str_all (λ d, negb (bool_decide (d = c))) k = true →
  py_split c (k +:+ String c v) = k :: py_split c v.
Proof.
  induction k as [|d k IH]; simpl; [by rewrite decide_True|]. intros [Hd Hk]%andb_prop.
  rewrite decide_False by (intros ->; by rewrite bool_decide_true in Hd). by rewrite IH.
Qed.

(** [s.split(c)] undoes [c.join(items)] when no item holds [c]. *)
Lemma py_split_join c items :
  Forall (λ x, str_all (λ d, negb (bool_decide (d = c))) x = true) items → items ≠ [] →
  py_split c (py_join (String c EmptyString) items) = items.
Proof.
  induction 1 as [|x items Hx Hitems IH]; [done|]. intros _.
  destruct items as [|y items]; [by apply py_split_no_sep|].
  change (py_join (String c EmptyString) (x :: y :: items)) with
    (x +:+ String c EmptyString +:+ py_join (String c EmptyString) (y :: items)).
  rewrite string_app_cons, string_app_nil_l, py_split_app by done. f_equal. by apply IH.
Qed.
