(* ===== verification/Regex.v ===== *)
(** * The fragment of Python's [re] module used by the code

    Abstract syntax of the patterns of [specfile.py] and [generator.py]:
    literal characters, bracket classes (with [\d] and [\s] items),
    concatenation, alternation, bounded and unbounded repetition (greedy or
    lazy), groups, and the anchors [^] and [$].

    [rmatch s r i j] says that [r] matches the text of [s] between positions
    [i] and [j].  [^] matches at position 0 only and [$] at the end of [s]
    or just before a final newline, as in Python without [re.MULTILINE].
    Laziness and capture do not change which texts a pattern matches, so the
    semantics ignores them; [re.match(p, s)] succeeds iff [p] matches some
    prefix of [s], which is [re_match].

    [ends s r i] computes the list of all such [j]; the repetition is
    unrolled at most [length s] times beyond its minimum, which
    [ends_correct] shows is enough: an iteration that consumes nothing can
    be dropped. *)

From S2P Require Import Prelude PyStr.

(** ** Syntax *)

Inductive class_item : Type :=
| CChar (c : ascii)            (** a literal character *)
| CRange (lo hi : ascii)       (** [a-z] *)
| CDigit                       (** [\d] *)
| CSpace.                      (** [\s] *)

Definition item_mem (it : class_item) (c : ascii) : bool :=
  match it with
  | CChar d => bool_decide (c = d)
  | CRange lo hi => in_range (ascii_code lo) (ascii_code hi) c
  | CDigit => is_digit c
  | CSpace => is_py_space c
  end.

Definition class_mem (its : list class_item) (c : ascii) : bool :=
  existsb (λ it, item_mem it c) its.

Inductive regex : Type :=
| REmpty                                   (** the empty pattern *)
| RChar (c : ascii)                        (** a literal character *)
| RClass (its : list class_item)           (** [[...]], [\d], [\s] *)
| RSeq (r1 r2 : regex)                     (** [r1r2] *)
| RAlt (r1 r2 : regex)                     (** [r1|r2] *)
| RRep (mn : nat) (mx : option nat) (greedy : bool) (r : regex)
                                           (** [r{mn,mx}], [r*], [r+?], ... *)
| RGroup (r : regex)                       (** a capturing group *)
| RBol                                     (** [^] *)
| REol.                                    (** [$] *)

(** Surface forms. *)
Definition r_star r := RRep 0 None true r.
Definition r_plus r := RRep 1 None true r.
Definition r_plus_lazy r := RRep 1 None false r.
Definition r_opt r := RRep 0 (Some 1) true r.
Definition r_count n r := RRep n (Some n) true r.
Definition r_digit := RClass [CDigit].
Definition r_space := RClass [CSpace].

Fixpoint r_lit (s : string) : regex :=
  match s with
  | EmptyString => REmpty
  | String c EmptyString => RChar c
  | String c s' => RSeq (RChar c) (r_lit s')
  end.

Fixpoint r_seq (rs : list regex) : regex :=
  match rs with
  | [] => REmpty
  | [r] => r
  | r :: rs' => RSeq r (r_seq rs')
  end.

Fixpoint r_alts (rs : list regex) : regex :=
  match rs with
  | [] => REmpty
  | [r] => r
  | r :: rs' => RAlt r (r_alts rs')
  end.

Definition below (mx : option nat) (n : nat) : Prop :=
  match mx with None => True | Some m => n ≤ m end.

#[export] Instance below_dec mx n : Decision (below mx n).
Proof. destruct mx; simpl; apply _. Defined.

(** ** Semantics *)

Section Semantics.
Variable s : string.

Definition at_eol (i : nat) : Prop :=
  i = String.length s ∨ (S i = String.length s ∧ String.get i s = Some newline).

#[export] Instance at_eol_dec i : Decision (at_eol i).
Proof. unfold at_eol. apply _. Defined.

Inductive rmatch : regex → nat → nat → Prop :=
| M_empty i : rmatch REmpty i i
| M_char c i : String.get i s = Some c → rmatch (RChar c) i (S i)
| M_class its i c :
    String.get i s = Some c → class_mem its c = true → rmatch (RClass its) i (S i)
| M_seq r1 r2 i k j : rmatch r1 i k → rmatch r2 k j → rmatch (RSeq r1 r2) i j
| M_alt_l r1 r2 i j : rmatch r1 i j → rmatch (RAlt r1 r2) i j
| M_alt_r r1 r2 i j : rmatch r2 i j → rmatch (RAlt r1 r2) i j
| M_rep mn mx g r n i j :
    mn ≤ n → below mx n → riter r n i j → rmatch (RRep mn mx g r) i j
| M_group r i j : rmatch r i j → rmatch (RGroup r) i j
| M_bol : rmatch RBol 0 0
| M_eol i : at_eol i → rmatch REol i i
with riter : regex → nat → nat → nat → Prop :=
| I_zero r i : riter r 0 i i
| I_succ r n i k j : rmatch r i k → riter r n k j → riter r (S n) i j.

(** ** The matcher *)

Definition step (f : nat → list nat) (X : list nat) : list nat :=
  remove_dups (X ≫= f).

(** Positions after exactly [n] iterations. *)
Fixpoint pow_step (f : nat → list nat) (n : nat) (X : list nat) : list nat :=
  match n with 0 => X | S n => pow_step f n (step f X) end.

(** Positions after at most [n] iterations. *)
Fixpoint collect (f : nat → list nat) (n : nat) (X : list nat) : list nat :=
  match n with 0 => X | S n => X ++ collect f n (step f X) end.

Definition rep_extra (mn : nat) (mx : option nat) : nat :=
  match mx with
  | None => String.length s
  | Some m => Nat.min (m - mn) (String.length s)
  end.

Fixpoint ends (r : regex) (i : nat) : list nat :=
  match r with
  | REmpty => [i]
  | RChar c =>
      match String.get i s with
      | Some d => if decide (d = c) then [S i] else []
      | None => []
      end
  | RClass its =>
      match String.get i s with
      | Some d => if class_mem its d then [S i] else []
      | None => []
      end
  | RSeq r1 r2 => remove_dups (ends r1 i ≫= ends r2)
  | RAlt r1 r2 => remove_dups (ends r1 i ++ ends r2 i)
  | RRep mn mx _ r =>
      if decide (below mx mn)
      then remove_dups (collect (ends r) (rep_extra mn mx) (pow_step (ends r) mn [i]))
      else []
  | RGroup r => ends r i
  | RBol => if decide (i = 0) then [0] else []
  | REol => if decide (at_eol i) then [i] else []
  end.

End Semantics.

(** [re.match(p, s) is not None]. *)
Definition re_match (r : regex) (s : string) : bool :=
  bool_decide (ends s r 0 ≠ []).

Scheme rmatch_mut := Induction for rmatch Sort Prop
  with riter_mut := Induction for riter Sort Prop.

(** ** Positions only move forward *)

Lemma get_lt (s : string) i c : String.get i s = Some c → i < String.length s.
Proof.
  revert i; induction s as [|d s IH]; intros [|i]; simpl; try done.
  - lia.
  - intros H%IH. lia.
Qed.

Lemma rmatch_bounds s r i j :
  rmatch s r i j → i ≤ j ∧ j ≤ Nat.max i (String.length s).
Proof.
  revert r i j.
  apply (rmatch_mut s (λ r i j _, i ≤ j ∧ j ≤ Nat.max i (String.length s))
                      (λ r n i j _, i ≤ j ∧ j ≤ Nat.max i (String.length s)));
    intros; try match goal with H : String.get _ _ = Some _ |- _ => apply get_lt in H end;
    try destruct a as [-> | [<- _]]; lia.
Qed.

Lemma riter_bounds s r n i j :
  riter s r n i j → i ≤ j ∧ j ≤ Nat.max i (String.length s).
Proof.
  induction 1 as [|r n i k j Hm _ IH]; [lia|].
  apply rmatch_bounds in Hm. lia.
Qed.

(** ** Iterations compose and empty iterations can be dropped *)

Section Iter.
Context (s : string) (r : regex).

Lemma riter_app a b i k j : riter s r a i k → riter s r b k j → riter s r (a + b) i j.
Proof.
  induction 1 as [|r' n i' k' j' Hm _ IH]; simpl; [done|].
  intros H. econstructor; eauto.
Qed.

Lemma riter_split a b i j :
  riter s r (a + b) i j → ∃ k, riter s r a i k ∧ riter s r b k j.
Proof.
  revert i; induction a as [|a IH]; intros i H; simpl in H.
  - exists i; split; [constructor | done].
  - inversion H as [|? ? ? k ? Hm Hit]; subst.
    destruct (IH _ Hit) as (k'&H1&H2). exists k'. split; [econstructor|]; eauto.
Qed.

Lemma riter_drop_empty n i j :
  riter s r (S n) i j → j - i ≤ n → riter s r n i j.
Proof.
  revert i; induction n as [|n IH]; intros i H Hle;
    inversion H as [|? ? ? k ? Hm Hit]; subst;
    pose proof (rmatch_bounds _ _ _ _ Hm) as [Hik _];
    destruct (decide (k = i)) as [->|Hne]; auto.
  - inversion Hit; subst. lia.
  - pose proof (riter_bounds _ _ _ _ _ Hit) as [Hkj _].
    econstructor; [exact Hm|]. apply IH; [done | lia].
Qed.

(** Enough iterations: at most [j - i] beyond the minimum. *)
Lemma riter_shorten mn n i j :
  riter s r n i j → mn ≤ n →
  ∃ n', mn ≤ n' ≤ n ∧ n' ≤ mn + (j - i) ∧ riter s r n' i j.
Proof.
  induction n as [n IH] using lt_wf_ind; intros H Hmn.
  destruct (decide (n ≤ mn + (j - i))) as [Hle|Hgt]; [exists n; repeat split; first [lia | done]|].
  destruct n as [|m]; [lia|].
  apply riter_drop_empty in H; [|lia].
  destruct (IH m ltac:(lia) H ltac:(lia)) as (n'&?&?&?). exists n'. repeat split; first [lia | done].
Qed.

Section WithF.
Context (f : nat → list nat).
Hypothesis Hf : ∀ x y, y ∈ f x ↔ rmatch s r x y.

Lemma step_spec X y : y ∈ step f X ↔ ∃ x, x ∈ X ∧ rmatch s r x y.
Proof.
  unfold step. rewrite elem_of_remove_dups, list_elem_of_bind.
  split; intros (x&?&?); exists x; split; try apply Hf; done.
Qed.

Lemma pow_step_spec n X j :
  j ∈ pow_step f n X ↔ ∃ x, x ∈ X ∧ riter s r n x j.
Proof.
  revert X; induction n as [|n IH]; intros X; simpl.
  - split; [intros; exists j; split; [done|constructor]|].
    intros (x&?&Hit). inversion Hit; subst; done.
  - rewrite IH. split.
    + intros (y&(x&Hx&Hm)%step_spec&Hit). exists x. split; [done|]. econstructor; eauto.
    + intros (x&Hx&Hit). inversion Hit as [|? ? ? k ? Hm Hit']; subst.
      exists k. split; [apply step_spec; eauto | done].
Qed.

Lemma collect_spec n X j :
  j ∈ collect f n X ↔ ∃ x k, x ∈ X ∧ k ≤ n ∧ riter s r k x j.
Proof.
  revert X; induction n as [|n IH]; intros X; simpl.
  - split; [intros; exists j, 0; repeat split; [done | lia | constructor]|].
    intros (x&k&Hx&Hk&Hit). assert (k = 0) as -> by lia.
    inversion Hit; subst; done.
  - rewrite elem_of_app, IH. split.
    + intros [Hj | (y&k&(x&Hx&Hm)%step_spec&Hk&Hit)].
      * exists j, 0. repeat split; [done | lia | constructor].
      * exists x, (S k). repeat split; [done | lia | econstructor; eauto].
    + intros (x&[|k]&Hx&Hk&Hit).
      * left. inversion Hit; subst; done.
      * right. inversion Hit as [|? ? ? y ? Hm Hit']; subst.
        exists y, k. repeat split; [apply step_spec; eauto | lia | done].
Qed.

End WithF.
End Iter.

(** ** The matcher is sound and complete *)

Lemma rep_ends_spec s r mn mx i j (f : nat → list nat) :
  (∀ x y, y ∈ f x ↔ rmatch s r x y) → below mx mn →
  j ∈ collect f (rep_extra s mn mx) (pow_step f mn [i]) ↔
  ∃ n, mn ≤ n ∧ below mx n ∧ riter s r n i j.
Proof.
  intros Hf Hb. rewrite collect_spec by done. split.
  - intros (x&k&Hx&Hk&Hit2).
    apply (pow_step_spec s r f Hf) in Hx as (i'&Hi'%list_elem_of_singleton&Hit1). subst i'.
    exists (mn + k). split; [lia|]. split; [|eapply riter_app; eauto].
    unfold rep_extra in Hk. destruct mx; simpl in *; lia.
  - intros (n&Hmn&Hbn&Hit).
    destruct (riter_shorten s r mn n i j Hit Hmn) as (n'&Hn'&Hn''&Hit').
    pose proof (riter_bounds _ _ _ _ _ Hit') as [Hij Hjs].
    replace n' with (mn + (n' - mn)) in Hit' by lia.
    apply riter_split in Hit' as (x&H1&H2).
    exists x, (n' - mn). repeat split.
    + apply (pow_step_spec s r f Hf). exists i. split; [left | done].
    + unfold rep_extra. destruct mx; simpl in *; lia.
    + done.
Qed.

Theorem ends_correct s r i j : j ∈ ends s r i ↔ rmatch s r i j.
Proof.
  revert i j; induction r as [| c | its | r1 IH1 r2 IH2 | r1 IH1 r2 IH2
                             | mn mx g r IH | r IH | |]; intros i j; simpl.
  - rewrite list_elem_of_singleton. split; [intros ->; constructor | by inversion 1].
  - destruct (String.get i s) as [d|] eqn:E; [case_decide; subst|];
      rewrite ?list_elem_of_singleton;
      (split; [intros; subst; try constructor; set_solver | inversion 1; congruence]).
  - destruct (String.get i s) as [d|] eqn:E; [destruct (class_mem its d) eqn:Ec|];
      rewrite ?list_elem_of_singleton;
      (split; [intros; subst; try (econstructor; eauto); set_solver
              | inversion 1; subst; congruence]).
  - rewrite elem_of_remove_dups, list_elem_of_bind. split.
    + intros (k&Hj%IH2&Hk%IH1). econstructor; eauto.
    + inversion 1; subst. eexists; rewrite IH1, IH2; eauto.
  - rewrite elem_of_remove_dups, elem_of_app, IH1, IH2. split.
    + intros [|]; [apply M_alt_l | apply M_alt_r]; done.
    + inversion 1; subst; auto.
  - case_decide as Hb.
    + rewrite elem_of_remove_dups, rep_ends_spec by done. split.
      * intros (n&?&?&?). econstructor; eauto.
      * inversion 1; subst. eauto.
    + split; [set_solver|]. inversion 1; subst.
      destruct mx; simpl in *; [lia | done].
  - rewrite IH. split; [constructor; done | inversion 1; subst; done].
  - case_decide; subst; rewrite ?list_elem_of_singleton;
      (split; [intros; subst; try constructor; set_solver | inversion 1; subst; done]).
  - case_decide; rewrite ?list_elem_of_singleton;
      (split; [intros; subst; try constructor; set_solver | inversion 1; subst; done]).
Qed.

Theorem re_match_correct r s : re_match r s = true ↔ ∃ j, rmatch s r 0 j.
Proof.
  unfold re_match. rewrite bool_decide_eq_true.
  setoid_rewrite <-ends_correct. split.
  - destruct (ends s r 0) as [|j l]; [done|]. intros _. exists j. left.
  - intros (j&Hj) Hnil. rewrite Hnil in Hj. set_solver.
Qed.

(** ** Constructor-wise characterisations of [rmatch] *)

Section Inversion.
Context (s : string).

Lemma rmatch_empty_iff i j : rmatch s REmpty i j ↔ j = i.
Proof. split; [by inversion 1 | intros ->; constructor]. Qed.

Lemma rmatch_char_iff c i j : rmatch s (RChar c) i j ↔ j = S i ∧ String.get i s = Some c.
Proof. split; [inversion 1; auto | intros [-> ?]; by constructor]. Qed.

Lemma rmatch_class_iff its i j :
  rmatch s (RClass its) i j ↔ j = S i ∧ ∃ c, String.get i s = Some c ∧ class_mem its c = true.
Proof. split; [inversion 1; subst; eauto | intros [-> (c&?&?)]; econstructor; eauto]. Qed.

Lemma rmatch_seq_iff r1 r2 i j :
  rmatch s (RSeq r1 r2) i j ↔ ∃ k, rmatch s r1 i k ∧ rmatch s r2 k j.
Proof. split; [inversion 1; subst; eauto | intros (k&?&?); econstructor; eauto]. Qed.

Lemma rmatch_alt_iff r1 r2 i j :
  rmatch s (RAlt r1 r2) i j ↔ rmatch s r1 i j ∨ rmatch s r2 i j.
Proof.
  split; [inversion 1; subst; auto|].
  intros [|]; [apply M_alt_l | apply M_alt_r]; done.
Qed.

Lemma rmatch_rep_iff mn mx g r i j :
  rmatch s (RRep mn mx g r) i j ↔ ∃ n, mn ≤ n ∧ below mx n ∧ riter s r n i j.
Proof. split; [inversion 1; subst; eauto | intros (n&?&?&?); econstructor; eauto]. Qed.

Lemma rmatch_group_iff r i j : rmatch s (RGroup r) i j ↔ rmatch s r i j.
Proof. split; [inversion 1; subst; auto | constructor; done]. Qed.

Lemma rmatch_bol_iff i j : rmatch s RBol i j ↔ i = 0 ∧ j = 0.
Proof. split; [inversion 1; auto | intros [-> ->]; constructor]. Qed.

Lemma rmatch_eol_iff i j : rmatch s REol i j ↔ j = i ∧ at_eol s i.
Proof. split; [inversion 1; subst; auto | intros [-> ?]; by constructor]. Qed.

Lemma rmatch_r_seq_cons r rs i j :
  rmatch s (r_seq (r :: rs)) i j ↔ ∃ k, rmatch s r i k ∧ rmatch s (r_seq rs) k j.
Proof.
  destruct rs as [|r' rs]; simpl.
  - setoid_rewrite rmatch_empty_iff. split; [eauto | by intros (k&?&->)].
  - apply rmatch_seq_iff.
Qed.

End Inversion.

#[export] Hint Rewrite rmatch_empty_iff rmatch_char_iff rmatch_class_iff rmatch_seq_iff
  rmatch_alt_iff rmatch_rep_iff rmatch_group_iff rmatch_bol_iff rmatch_eol_iff
  rmatch_r_seq_cons : bolt_rw.

Lemma re_match_alt r1 r2 s : re_match (RAlt r1 r2) s = re_match r1 s || re_match r2 s.
Proof.
  apply eq_bool_prop_intro. rewrite orb_True, !Is_true_true, !re_match_correct.
  setoid_rewrite rmatch_alt_iff. naive_solver.
Qed.

(** ** Whole-word semantics of patterns without anchors *)

Fixpoint anchor_free (r : regex) : bool :=
  match r with
  | RBol | REol => false
  | RSeq r1 r2 | RAlt r1 r2 => anchor_free r1 && anchor_free r2
  | RRep _ _ _ r | RGroup r => anchor_free r
  | REmpty | RChar _ | RClass _ => true
  end.

(** [lang r w]: [r] matches the whole of [w]. *)
Definition lang (r : regex) (w : string) : Prop := rmatch w r 0 (String.length w).

(** [w] is the concatenation of [n] words of [lang r]. *)
Fixpoint lang_pow (r : regex) (n : nat) (w : string) : Prop :=
  match n with
  | 0 => w = EmptyString
  | S n => ∃ w1 w2, w = w1 +:+ w2 ∧ lang r w1 ∧ lang_pow r n w2
  end.

Lemma length_append (s1 s2 : string) :
  String.length (s1 +:+ s2) = String.length s1 + String.length s2.
Proof. induction s1; simpl; auto. Qed.

Lemma split_string_at k (w : string) :
  k ≤ String.length w → ∃ w1 w2, w = w1 +:+ w2 ∧ String.length w1 = k.
Proof.
  revert w; induction k as [|k IH]; intros w Hk.
  - by exists "", w.
  - destruct w as [|c w]; simpl in Hk; [lia|].
    destruct (IH w ltac:(lia)) as (w1&w2&->&<-). by exists (String c w1), w2.
Qed.

(** Moving a match between two strings that agree on the matched text:
    position [p] of [t] is position [φ p] of [s], from [dom] on. *)
Section Transport.
Context (s t : string) (φ : nat → nat) (dom : nat).
Hypothesis Hφ : ∀ p, dom ≤ p → φ (S p) = S (φ p).

Definition agree (a b : nat) : Prop := ∀ p, a ≤ p < b → String.get (φ p) s = String.get p t.

Lemma agree_sub a b a' b' : agree a b → a ≤ a' → b' ≤ b → agree a' b'.
Proof. intros H ?? p ?. apply H. lia. Qed.

Lemma rmatch_transport_mut r a b :
  rmatch t r a b → anchor_free r = true → dom ≤ a → agree a b → rmatch s r (φ a) (φ b).
Proof.
  revert r a b.
  apply (rmatch_mut t
    (λ r a b _, anchor_free r = true → dom ≤ a → agree a b → rmatch s r (φ a) (φ b))
    (λ r n a b _, anchor_free r = true → dom ≤ a → agree a b → riter s r n (φ a) (φ b)));
    simpl.
  - intros i _ _ _. constructor.
  - intros c i e _ Hd Hag. rewrite Hφ by done. constructor. rewrite Hag; [done | lia].
  - intros its i c e Hc _ Hd Hag. rewrite Hφ by done.
    econstructor; [rewrite Hag; [exact e | lia] | done].
  - intros r1 r2 i k j H1 IH1 H2 IH2 [Ha1 Ha2]%andb_prop Hd Hag.
    pose proof (rmatch_bounds _ _ _ _ H1). pose proof (rmatch_bounds _ _ _ _ H2).
    econstructor; [apply IH1 | apply IH2]; auto; first [lia | eapply agree_sub; [exact Hag | lia | lia]].
  - intros r1 r2 i j _ IH [??]%andb_prop Hd Hag. apply M_alt_l; auto.
  - intros r1 r2 i j _ IH [??]%andb_prop Hd Hag. apply M_alt_r; auto.
  - intros mn mx g r n i j ?? _ IH Ha Hd Hag. econstructor; eauto.
  - intros r i j _ IH Ha Hd Hag. constructor; auto.
  - done.
  - done.
  - intros r i _ _ _. constructor.
  - intros r n i k j H1 IH1 H2 IH2 Ha Hd Hag.
    pose proof (rmatch_bounds _ _ _ _ H1). pose proof (riter_bounds _ _ _ _ _ H2).
    econstructor; [apply IH1 | apply IH2]; auto; first [lia | eapply agree_sub; [exact Hag | lia | lia]].
Qed.

Lemma riter_transport r n a b :
  riter t r n a b → anchor_free r = true → dom ≤ a → agree a b → riter s r n (φ a) (φ b).
Proof.
  induction 1 as [|r n i k j H1 H2 IH]; intros Ha Hd Hag; [constructor|].
  pose proof (rmatch_bounds _ _ _ _ H1). pose proof (riter_bounds _ _ _ _ _ H2).
  econstructor; [apply rmatch_transport_mut | apply IH]; auto;
    first [lia | eapply agree_sub; [exact Hag | lia | lia]].
Qed.

End Transport.

(** The text of [w1 +:+ w2] at [p] is [w1]'s below [length w1], [w2]'s above. *)
Lemma get_app_l (w1 w2 : string) p :
  p < String.length w1 → String.get p (w1 +:+ w2) = String.get p w1.
Proof. intros. by rewrite <-String.append_correct1. Qed.

Lemma get_app_r (w1 w2 : string) p :
  String.get (String.length w1 + p) (w1 +:+ w2) = String.get p w2.
Proof. by rewrite Nat.add_comm, <-String.append_correct2. Qed.

Section Split.
Context (w1 w2 : string).
Let n1 := String.length w1.
Let n2 := String.length w2.

Lemma rmatch_prefix_iff r :
  anchor_free r = true → rmatch (w1 +:+ w2) r 0 n1 ↔ lang r w1.
Proof.
  intros Ha. unfold lang. split; intros H.
  - apply (rmatch_transport_mut w1 (w1 +:+ w2) id 0) in H; auto.
    intros p ?. unfold id. rewrite get_app_l; [done | lia].
  - apply (rmatch_transport_mut (w1 +:+ w2) w1 id 0) in H; auto.
    intros p ?. unfold id. rewrite get_app_l; [done | lia].
Qed.

Lemma agree_suffix_back :
  agree w2 (w1 +:+ w2) (λ p, p - n1) n1 (n1 + n2).
Proof. intros p ?. rewrite <-(get_app_r w1 w2). f_equal. unfold n1 in *. lia. Qed.

Lemma agree_suffix_fwd : agree (w1 +:+ w2) w2 (λ p, n1 + p) 0 n2.
Proof. intros p ?. apply get_app_r. Qed.

Lemma rmatch_suffix_iff r :
  anchor_free r = true → rmatch (w1 +:+ w2) r n1 (n1 + n2) ↔ lang r w2.
Proof.
  intros Ha. unfold lang. split; intros H.
  - pose proof (rmatch_transport_mut w2 (w1 +:+ w2) (λ p, p - n1) n1
                  ltac:(intros; cbv beta; lia) _ _ _ H Ha (Nat.le_refl _) agree_suffix_back) as H'.
    cbv beta in H'. by replace (n1 - n1) with 0 in H' by lia;
      replace (n1 + n2 - n1) with n2 in H' by lia.
  - pose proof (rmatch_transport_mut (w1 +:+ w2) w2 (λ p, n1 + p) 0
                  ltac:(intros; cbv beta; lia) _ _ _ H Ha (le_0_n _) agree_suffix_fwd) as H'.
    cbv beta in H'. by rewrite Nat.add_0_r in H'.
Qed.

Lemma riter_suffix_iff r n :
  anchor_free r = true → riter (w1 +:+ w2) r n n1 (n1 + n2) ↔ riter w2 r n 0 n2.
Proof.
  intros Ha. split; intros H.
  - pose proof (riter_transport w2 (w1 +:+ w2) (λ p, p - n1) n1
                  ltac:(intros; cbv beta; lia) _ _ _ _ H Ha (Nat.le_refl _) agree_suffix_back) as H'.
    cbv beta in H'. by replace (n1 - n1) with 0 in H' by lia;
      replace (n1 + n2 - n1) with n2 in H' by lia.
  - pose proof (riter_transport (w1 +:+ w2) w2 (λ p, n1 + p) 0
                  ltac:(intros; cbv beta; lia) _ _ _ _ H Ha (le_0_n _) agree_suffix_fwd) as H'.
    cbv beta in H'. by rewrite Nat.add_0_r in H'.
Qed.

End Split.

Lemma rmatch_split_at (w : string) k (P : string → string → Prop) :
  k ≤ String.length w →
  (∀ w1 w2, w = w1 +:+ w2 → String.length w1 = k → P w1 w2) →
  ∃ w1 w2, w = w1 +:+ w2 ∧ String.length w1 = k ∧ P w1 w2.
Proof. intros Hk HP. destruct (split_string_at k w Hk) as (w1&w2&->&<-). eauto 10. Qed.

Section Lang.
Context (r1 r2 : regex) (Ha1 : anchor_free r1 = true) (Ha2 : anchor_free r2 = true).

Lemma lang_seq_iff w :
  lang (RSeq r1 r2) w ↔ ∃ w1 w2, w = w1 +:+ w2 ∧ lang r1 w1 ∧ lang r2 w2.
Proof.
  unfold lang at 1. rewrite rmatch_seq_iff. split.
  - intros (k&H1&H2). pose proof (rmatch_bounds _ _ _ _ H1) as [_ Hk].
    destruct (split_string_at k w ltac:(lia)) as (w1&w2&->&<-).
    rewrite length_append in H2.
    exists w1, w2. rewrite <-rmatch_prefix_iff, <-rmatch_suffix_iff by done. eauto.
  - intros (w1&w2&->&H1&H2). exists (String.length w1). rewrite length_append.
    rewrite rmatch_prefix_iff, rmatch_suffix_iff by done. auto.
Qed.

Lemma lang_alt_iff w : lang (RAlt r1 r2) w ↔ lang r1 w ∨ lang r2 w.
Proof. apply rmatch_alt_iff. Qed.

End Lang.

Lemma lang_empty_iff w : lang REmpty w ↔ w = EmptyString.
Proof.
  unfold lang. rewrite rmatch_empty_iff.
  destruct w; simpl; split; congruence.
Qed.

Lemma lang_class_iff its w :
  lang (RClass its) w ↔ ∃ c, w = String c EmptyString ∧ class_mem its c = true.
Proof.
  unfold lang. rewrite rmatch_class_iff.
  split; [intros [Hl (c&Hc&?)] | intros (c&->&?); split; [done | eauto]].
  destruct w as [|d [|e w]]; simpl in *; try lia. injection Hc as ->. eauto.
Qed.

Lemma lang_char_iff c w : lang (RChar c) w ↔ w = String c EmptyString.
Proof.
  unfold lang. rewrite rmatch_char_iff.
  split; [intros [Hl Hc] | intros ->; split; done].
  destruct w as [|d [|e w]]; simpl in *; try lia. by injection Hc as ->.
Qed.

Lemma lang_group_iff r w : lang (RGroup r) w ↔ lang r w.
Proof. apply rmatch_group_iff. Qed.

Lemma riter_lang_pow r n w :
  anchor_free r = true → riter w r n 0 (String.length w) ↔ lang_pow r n w.
Proof.
  intros Ha. revert w; induction n as [|n IH]; intros w; simpl.
  - split; [inversion 1; by destruct w | intros ->; constructor].
  - split.
    + inversion 1 as [|? ? ? k ? H1 H2]; subst.
      pose proof (riter_bounds _ _ _ _ _ H2) as [Hk _].
      destruct (split_string_at k w ltac:(lia)) as (w1&w2&->&<-).
      rewrite length_append, riter_suffix_iff in H2 by done.
      exists w1, w2. rewrite <-rmatch_prefix_iff, <-IH by done. eauto.
    + intros (w1&w2&->&H1&H2). rewrite length_append.
      econstructor; [apply rmatch_prefix_iff; eauto | apply riter_suffix_iff, IH; auto].
Qed.

Lemma lang_rep_iff mn mx g r w :
  anchor_free r = true →
  lang (RRep mn mx g r) w ↔ ∃ n, mn ≤ n ∧ below mx n ∧ lang_pow r n w.
Proof.
  intros Ha. unfold lang at 1. rewrite rmatch_rep_iff.
  setoid_rewrite riter_lang_pow; [done|]. done.
Qed.

(** A repeated character class: a word of the class's characters whose
    length is within the bounds. *)
Lemma lang_pow_class its n w :
  lang_pow (RClass its) n w ↔ String.length w = n ∧ str_all (class_mem its) w = true.
Proof.
  revert w; induction n as [|n IH]; intros w; simpl.
  - split; [intros ->; done | intros [? _]; by destruct w].
  - setoid_rewrite IH. setoid_rewrite lang_class_iff. split.
    + intros (?&w2&->&(c&->&Hc)&Hl&Hw2). rewrite !string_app_cons, !string_app_nil_l.
      simpl. rewrite Hc, Hw2. auto.
    + destruct w as [|c w]; simpl; [lia|]. intros [Hl [Hc Hw]%andb_prop].
      exists (String c EmptyString), w. eauto 10.
Qed.

Lemma lang_class_rep_iff mn mx g its w :
  lang (RRep mn mx g (RClass its)) w ↔
  mn ≤ String.length w ∧ below mx (String.length w) ∧ str_all (class_mem its) w = true.
Proof.
  rewrite lang_rep_iff by done. setoid_rewrite lang_pow_class.
  split; [intros (n&?&?&<-&?); auto | intros (?&?&?); eauto].
Qed.

#[export] Hint Rewrite lang_empty_iff lang_class_iff lang_char_iff lang_group_iff
  lang_class_rep_iff : bolt_rw.

(** ** Patterns anchored at both ends *)

(** [re.match("^r$", s)]: [s] is a word of [r], possibly followed by a
    single newline. *)
Theorem re_match_anchored r s :
  anchor_free r = true →
  re_match (r_seq [RBol; r; REol]) s = true ↔
  lang r s ∨ ∃ w, s = w +:+ String newline EmptyString ∧ lang r w.
Proof.
  intros Ha. rewrite re_match_correct. simpl.
  setoid_rewrite rmatch_seq_iff. setoid_rewrite rmatch_seq_iff.
  setoid_rewrite rmatch_bol_iff. setoid_rewrite rmatch_eol_iff. split.
  - intros (j&k&[_ ->]&l&Hm&->&[Hl|[Hl Hn]]); [subst; left; done|].
    right. destruct (split_string_at l s ltac:(lia)) as (w&w2&->&<-).
    rewrite length_append in Hl.
    destruct w2 as [|c [|d w2]]; simpl in Hl; try lia.
    rewrite <-(Nat.add_0_r (String.length w)), get_app_r in Hn. injection Hn as ->.
    exists w. split; [done|]. by apply rmatch_prefix_iff in Hm.
  - intros [Hs | (w&->&Hw)].
    + exists (String.length s), 0. split; [done|]. exists (String.length s). split; [done|].
      split; [done|]. by left.
    + exists (String.length w), 0. split; [done|]. exists (String.length w).
      split; [by apply rmatch_prefix_iff|]. split; [done|]. right.
      rewrite length_append. simpl. split; [lia|].
      rewrite <-(Nat.add_0_r (String.length w)), get_app_r. done.
Qed.

(** ** Helpers for characterising the languages of concrete patterns *)

(** [s] satisfies [P], possibly followed by one newline. *)
Definition with_newline (P : string → Prop) (s : string) : Prop :=
  P s ∨ ∃ w, s = w +:+ String newline EmptyString ∧ P w.

Lemma with_newline_iff (P Q : string → Prop) s :
  (∀ w, P w ↔ Q w) → with_newline P s ↔ with_newline Q s.
Proof. intros H. unfold with_newline. setoid_rewrite H. done. Qed.

Lemma class_mem_app its1 its2 c : class_mem (its1 ++ its2) c = class_mem its1 c || class_mem its2 c.
Proof. apply existsb_app. Qed.

Lemma class_mem_single it c : class_mem [it] c = item_mem it c.
Proof. simpl. apply orb_false_r. Qed.

Lemma lang_star_iff r w : anchor_free r = true → lang (r_star r) w ↔ ∃ n, lang_pow r n w.
Proof. intros Ha. unfold r_star. rewrite lang_rep_iff by done. split; [naive_solver|]. intros [n ?]. exists n. repeat split; [lia|done]. Qed.

Lemma lang_r_seq_cons r rs w :
  anchor_free r = true → anchor_free (r_seq rs) = true →
  lang (r_seq (r :: rs)) w ↔ ∃ w1 w2, w = w1 +:+ w2 ∧ lang r w1 ∧ lang (r_seq rs) w2.
Proof.
  intros Ha Has. destruct rs as [|r' rs].
  - simpl. setoid_rewrite lang_empty_iff. split; [|intros (?&?&->&?&->); by rewrite string_app_nil_r].
    intros H. exists w, "". by rewrite string_app_nil_r.
  - apply lang_seq_iff; done.
Qed.

Lemma re_match_r_anchored rs s :
  anchor_free (r_seq rs) = true →
  re_match (r_seq [RBol; r_seq rs; REol]) s = true ↔ with_newline (lang (r_seq rs)) s.
Proof. apply re_match_anchored. Qed.

Lemma lang_r_alts_char3 a b c w :
  lang (r_alts [RChar a; RChar b; RChar c]) w ↔
  ∃ d, w = String d EmptyString ∧ (d = a ∨ d = b ∨ d = c).
Proof.
  simpl. rewrite !lang_alt_iff, !lang_char_iff by done.
  split; [intros [->|[->| ->]]; eauto | intros (d&->&[->|[->| ->]]); auto].
Qed.

Lemma anchor_free_r_lit s : anchor_free (r_lit s) = true.
Proof. induction s as [|c [|d s] IH]; simpl in *; auto. Qed.

Lemma lang_r_lit s w : lang (r_lit s) w ↔ w = s.
Proof.
  revert w; induction s as [|c [|d s] IH]; intros w.
  - apply lang_empty_iff.
  - apply lang_char_iff.
  - change (lang (RSeq (RChar c) (r_lit (String d s))) w ↔ w = String c (String d s)).
    rewrite lang_seq_iff by (done || apply anchor_free_r_lit).
    setoid_rewrite lang_char_iff. setoid_rewrite IH.
    split; [by intros (?&?&->&->&->) | intros ->; by exists (String c ""), (String d s)].
Qed.

Lemma lang_opt_iff r w : anchor_free r = true → lang (r_opt r) w ↔ w = EmptyString ∨ lang r w.
Proof.
  intros Ha. unfold r_opt. rewrite lang_rep_iff by done. split.
  - intros (n&_&Hn&Hp). destruct n as [|[|n]]; simpl in *; [auto| |lia].
    destruct Hp as (w1&w2&->&H1&->). right. by rewrite string_app_nil_r.
  - intros [->|H]; [exists 0; simpl; split_and!; auto; lia|].
    exists 1. simpl. split_and!; [lia|lia|]. exists w, "". by rewrite string_app_nil_r.
Qed.

Lemma lang_plus_class_iff g its w :
  lang (RRep 1 None g (RClass its)) w ↔ w ≠ EmptyString ∧ str_all (class_mem its) w = true.
Proof.
  rewrite lang_class_rep_iff. simpl.
  split; [intros (?&_&?); split; [by intros ->; simpl in *; lia | done]|].
  intros [Hne ?]. split_and!; [|done|done]. destruct w; [done|simpl; lia].
Qed.

Lemma str_all_class_single it (w : string) :
  str_all (class_mem [it]) w = str_all (item_mem it) w.
Proof. apply str_all_ext. intros c. apply class_mem_single. Qed.
