(* ===== verification/FormatRules.v ===== *)
(** * The field grammars of [Specfile.validate_format]

    The ten regular expressions of the [specification] table of
    [specfile.py] (lines 98-109), written in the syntax of [Regex], and the
    languages they accept: a strip level, a package name, a dependency
    version constraint (with or without the [==] sentinel), a release
    epoch, version and revision, a maintainer email and a changelog date.

    Each rule is anchored with [^...$]; by [re_match_anchored] it accepts a
    word of its body, or such a word followed by one newline. *)

From S2P Require Import Prelude PyStr Regex.

(** ** Character classes of the patterns *)

Definition alnum_items : list class_item :=
  [CRange "a"%char "z"%char; CRange "A"%char "Z"%char; CRange "0"%char "9"%char].

(** [[-.+~a-zA-Z0-9]]: the characters of an upstream version. *)
Definition version_items : list class_item :=
  [CChar "-"%char; CChar "."%char; CChar "+"%char; CChar "~"%char] ++ alnum_items.

(** [[.~+a-zA-Z0-9]]: the characters of a revision. *)
Definition revision_items : list class_item :=
  [CChar "."%char; CChar "~"%char; CChar "+"%char] ++ alnum_items.

(** [[-_%.a-zA-Z0-9]] and [[-.a-z0-9]]: the two halves of an email. *)
Definition email_local_items : list class_item :=
  [CChar "-"%char; CChar "_"%char; CChar "%"%char; CChar "."%char] ++ alnum_items.
Definition email_domain_items : list class_item :=
  [CChar "-"%char; CChar "."%char; CRange "a"%char "z"%char; CRange "0"%char "9"%char].

Definition r_anchored (rs : list regex) : regex := r_seq [RBol; r_seq rs; REol].

(** ** The rules, in the order of the table *)

(** For [//patchset/@strip] and [//patchset/file/@strip]: a positive
    decimal without leading zero. *)
Definition strip_text : string := "^[1-9]\d*$".
Definition strip_re : regex :=
  r_anchored [RClass [CRange "1"%char "9"%char]; r_star r_digit].

(** For the [name] of [source] and [package] elements: alphanumeric runs
    separated by [+], [-] or [.]. *)
Definition name_text : string := "^[a-zA-Z0-9]*(?:(?:\+|-|\.)[a-zA-Z0-9]*)*$".
Definition name_re : regex :=
  r_anchored [r_star (RClass alnum_items);
              r_star (r_seq [r_alts [RChar "+"%char; RChar "-"%char; RChar "."%char];
                             r_star (RClass alnum_items)])].

(** A dependency constraint: an operator, blanks, an optional [epoch:], an
    upstream version and an optional [-revision]. *)
Definition dep_constraint_body : list regex :=
  [r_alts [r_lit "<<"; r_lit "<="; r_lit "="; r_lit ">="; r_lit ">>"];
   r_star r_space;
   r_opt (r_seq [RGroup (r_plus r_digit); RChar ":"%char]);
   RGroup (r_plus_lazy (RClass version_items));
   RRep 0 (Some 1) true (r_seq [RChar "-"%char; RGroup (r_plus (RClass revision_items))])].

(** The rule for [//binary//package/@version]: a constraint or [==]. *)
Definition binary_dep_version_text : string :=
  "(?:^(?:<<|<=|=|>=|>>)\s*(?:(\d+):)?([-.+~a-zA-Z0-9]+?)(?:-([.~+a-zA-Z0-9]+)){0,1}$)|(?:^==$)".
Definition binary_dep_version_re : regex :=
  RAlt (r_anchored dep_constraint_body) (r_anchored [r_lit "=="]).

(** The rule for [//source//package/@version]: a constraint only. *)
Definition source_dep_version_text : string :=
  "(?:^(?:<<|<=|=|>=|>>)\s*(?:(\d+):)?([-.+~a-zA-Z0-9]+?)(?:-([.~+a-zA-Z0-9]+)){0,1}$)".
Definition source_dep_version_re : regex := r_anchored dep_constraint_body.

(** For [//changelog/release/@epoch]: decimal digits. *)
Definition epoch_text : string := "^\d+$".
Definition epoch_re : regex := r_anchored [r_plus r_digit].

(** For [//changelog/release/@version]: a version and an optional revision. *)
Definition release_version_text : string :=
  "^([-.+~a-zA-Z0-9]+?)(?:-([.~+a-zA-Z0-9]+)){0,1}$".
Definition release_version_re : regex :=
  r_anchored [RGroup (r_plus_lazy (RClass version_items));
              RRep 0 (Some 1) true
                (r_seq [RChar "-"%char; RGroup (r_plus (RClass revision_items))])].

(** For [//changelog/release/@revision]. *)
Definition revision_text : string := "^[.~+a-zA-Z0-9]+$".
Definition revision_re : regex := r_anchored [r_plus (RClass revision_items)].

(** For [//changelog/release/@email]. *)
Definition email_text : string := "^[-_%.a-zA-Z0-9]+@[-.a-z0-9]+\.[a-z]{2,4}$".
Definition email_re : regex :=
  r_anchored [r_plus (RClass email_local_items); RChar "@"%char;
              r_plus (RClass email_domain_items); RChar "."%char;
              RRep 2 (Some 4) true (RClass [CRange "a"%char "z"%char])].

(** For [//changelog/release/@date]: date, time and a numeric, [GMT]/[UTC]
    offset or named zone. *)
Definition date_text : string :=
  "^\d{4}-\d{2}-\d{2}\s+\d{2}:\d{2}:\d{2}\s*(?:((?:-|\+)\d{2}:?\d{2})|(?:(?:GMT|UTC)(?:(?:-|\+)\d{1,2}))|[a-zA-Z]+)$".
Definition date_re : regex :=
  r_anchored
    [r_count 4 r_digit; RChar "-"%char; r_count 2 r_digit; RChar "-"%char; r_count 2 r_digit;
     r_plus r_space;
     r_count 2 r_digit; RChar ":"%char; r_count 2 r_digit; RChar ":"%char; r_count 2 r_digit;
     r_star r_space;
     r_alts [RGroup (r_seq [r_alts [RChar "-"%char; RChar "+"%char]; r_count 2 r_digit;
                            r_opt (RChar ":"%char); r_count 2 r_digit]);
             r_seq [r_alts [r_lit "GMT"; r_lit "UTC"];
                    r_seq [r_alts [RChar "-"%char; RChar "+"%char]; RRep 1 (Some 2) true r_digit]];
             r_plus (RClass [CRange "a"%char "z"%char; CRange "A"%char "Z"%char])]].

(** ** The languages of the rules *)

Lemma re_match_rule rs s :
  anchor_free (r_seq rs) = true →
  re_match (r_anchored rs) s = true ↔ with_newline (lang (r_seq rs)) s.
Proof. apply re_match_r_anchored. Qed.

(** A positive decimal without leading zero. *)
Definition positive_decimal (w : string) : bool :=
  match w with
  | String c w' => in_range 49 57 c && str_all is_digit w'
  | EmptyString => false
  end.

Lemma strip_body_lang w :
  lang (r_seq [RClass [CRange "1"%char "9"%char]; r_star r_digit]) w ↔ positive_decimal w = true.
Proof.
  simpl. rewrite lang_seq_iff by done. setoid_rewrite lang_class_iff.
  unfold r_star, r_digit. setoid_rewrite lang_class_rep_iff. split.
  - intros (?&w2&->&(c&->&Hc)&_&_&Hw2). rewrite string_app_cons, string_app_nil_l. simpl.
    rewrite class_mem_single in Hc. change (in_range 49 57 c = true) in Hc. rewrite Hc.
    erewrite str_all_ext; [exact Hw2|]. intros d. simpl. by rewrite orb_false_r.
  - destruct w as [|c w]; [done|]. simpl. intros [Hc Hw]%andb_prop.
    exists (String c ""), w. split; [done|]. split.
    + exists c. split; [done|]. simpl. rewrite orb_false_r. exact Hc.
    + split; [lia|]. split; [done|].
      erewrite str_all_ext; [exact Hw|]. intros d. simpl. by rewrite orb_false_r.
Qed.

(** The characters a package name may contain. *)
Definition name_char (c : ascii) : bool :=
  class_mem alnum_items c || bool_decide (c = "+"%char ∨ c = "-"%char ∨ c = "."%char).

Definition name_sep_run : regex :=
  r_seq [r_alts [RChar "+"%char; RChar "-"%char; RChar "."%char]; r_star (RClass alnum_items)].

Lemma name_sep_run_lang w :
  lang name_sep_run w ↔
  ∃ c w', w = String c w' ∧ (c = "+"%char ∨ c = "-"%char ∨ c = "."%char) ∧
          str_all (class_mem alnum_items) w' = true.
Proof.
  unfold name_sep_run. simpl r_seq. rewrite lang_seq_iff by done.
  setoid_rewrite lang_r_alts_char3. unfold r_star. setoid_rewrite lang_class_rep_iff.
  split.
  - intros (?&w'&->&(c&->&Hc)&_&_&Hw'). exists c, w'. by rewrite string_app_cons, string_app_nil_l.
  - intros (c&w'&->&Hc&Hw'). exists (String c ""), w'. split; [done|].
    split; [eauto|]. split; [lia|done].
Qed.

Lemma name_sep_pow_chars n w :
  lang_pow name_sep_run n w → str_all name_char w = true.
Proof.
  revert w; induction n as [|n IH]; intros w; simpl; [by intros ->|].
  intros (w1&w2&->&(c&w'&->&Hc&Hw')%name_sep_run_lang&Hw2%IH).
  rewrite str_all_app, Hw2, andb_true_r. simpl.
  apply andb_true_intro. split.
  - unfold name_char. rewrite bool_decide_eq_true_2 by done. apply orb_true_r.
  - eapply str_all_impl; [|exact Hw']. intros d Hd. unfold name_char. by rewrite Hd.
Qed.

Lemma name_chars_split w :
  str_all name_char w = true →
  ∃ w1 w2, w = w1 +:+ w2 ∧ str_all (class_mem alnum_items) w1 = true ∧
           ∃ n, lang_pow name_sep_run n w2.
Proof.
  induction w as [|c w IH]; simpl.
  - intros _. exists "", "". split; [done|]. split; [done|]. by exists 0.
  - intros [Hc (w1&w2&->&Hw1&n&Hn)%IH]%andb_prop.
    unfold name_char in Hc. destruct (class_mem alnum_items c) eqn:Ha.
    + exists (String c w1), w2. split; [done|]. cbn [str_all]. rewrite Ha, Hw1. eauto.
    + apply bool_decide_eq_true in Hc.
      exists "", (String c w1 +:+ w2). split; [done|]. split; [done|].
      exists (S n), (String c w1), w2. split; [done|]. split; [|done].
      apply name_sep_run_lang. eauto 10.
Qed.

Lemma name_body_lang w :
  lang (r_seq [r_star (RClass alnum_items); r_star name_sep_run]) w ↔
  str_all name_char w = true.
Proof.
  simpl r_seq. rewrite lang_seq_iff by done. unfold r_star at 1.
  setoid_rewrite lang_class_rep_iff. setoid_rewrite lang_star_iff; [|done].
  split.
  - intros (w1&w2&->&(_&_&Hw1)&n&Hn). rewrite str_all_app, (name_sep_pow_chars n w2 Hn).
    rewrite andb_true_r. eapply str_all_impl; [|exact Hw1]. intros d Hd. unfold name_char. by rewrite Hd.
  - intros (w1&w2&->&Hw1&n&Hn)%name_chars_split. exists w1, w2. split; [done|].
    split; [split; [lia | done] | eauto].
Qed.

(** ** The dependency version constraint *)

Definition dep_operators : list string := ["<<"; "<="; "="; ">="; ">>"].

(** [ep] is empty or a decimal followed by a colon. *)
Definition epoch_prefix (ep : string) : Prop :=
  ep = "" ∨ ∃ e, ep = e +:+ ":" ∧ e ≠ "" ∧ str_all is_digit e = true.

(** An operator, blanks, an optional epoch and a non-empty version. *)
Definition dep_shape (w : string) : Prop :=
  ∃ op sp ep v, w = op +:+ sp +:+ ep +:+ v ∧ op ∈ dep_operators ∧
    str_all is_py_space sp = true ∧ epoch_prefix ep ∧
    v ≠ "" ∧ str_all (class_mem version_items) v = true.

Lemma dep_operator_lang w :
  lang (r_alts [r_lit "<<"; r_lit "<="; r_lit "="; r_lit ">="; r_lit ">>"]) w ↔ w ∈ dep_operators.
Proof.
  cbn [r_alts]. rewrite !lang_alt_iff by (done || apply anchor_free_r_lit).
  rewrite !lang_r_lit. unfold dep_operators. rewrite !elem_of_cons, elem_of_nil. naive_solver.
Qed.

Lemma dep_epoch_lang w :
  lang (r_opt (r_seq [RGroup (r_plus r_digit); RChar ":"%char])) w ↔ epoch_prefix w.
Proof.
  rewrite lang_opt_iff by done. simpl r_seq. rewrite lang_seq_iff by done.
  setoid_rewrite lang_group_iff. setoid_rewrite lang_plus_class_iff. setoid_rewrite lang_char_iff.
  unfold epoch_prefix. split.
  - intros [->|(e&?&->&[He1 He2]&->)]; [auto|right]. exists e. split_and!; [done|done|].
    erewrite str_all_ext; [exact He2|]. intros d. simpl. by rewrite orb_false_r.
  - intros [->|(e&->&He1&He2)]; [auto|right]. exists e, ":". split_and!; [done|done| |done].
    erewrite str_all_ext; [exact He2|]. intros d. simpl. by rewrite orb_false_r.
Qed.

Lemma revision_items_version c :
  class_mem revision_items c = true → class_mem version_items c = true.
Proof.
  unfold revision_items, version_items. rewrite !class_mem_app.
  simpl. rewrite !orb_false_r. intros H. repeat (apply orb_prop in H as [H|H]); rewrite ?H, ?orb_true_r; done.
Qed.

Lemma dep_version_lang w :
  lang (r_seq [RGroup (r_plus_lazy (RClass version_items));
               RRep 0 (Some 1) true (r_seq [RChar "-"%char; RGroup (r_plus (RClass revision_items))])]) w ↔
  w ≠ "" ∧ str_all (class_mem version_items) w = true.
Proof.
  simpl r_seq. rewrite lang_seq_iff by done. setoid_rewrite lang_group_iff.
  unfold r_plus_lazy. setoid_rewrite lang_plus_class_iff.
  change (RRep 0 (Some 1) true ?r) with (r_opt r). setoid_rewrite lang_opt_iff; [|done].
  setoid_rewrite lang_seq_iff; [|done|done]. setoid_rewrite lang_char_iff.
  setoid_rewrite lang_group_iff. unfold r_plus. setoid_rewrite lang_plus_class_iff.
  split.
  - intros (v&rv&->&[Hv1 Hv2]&[->|(?&r&->&->&_&Hr)]).
    + by rewrite string_app_nil_r.
    + split; [by destruct v|]. rewrite str_all_app, Hv2. simpl.
      eapply str_all_impl; [exact revision_items_version|exact Hr].
  - intros [Hne Hw]. exists w, "". rewrite string_app_nil_r. auto.
Qed.

Lemma dep_body_lang w : lang (r_seq dep_constraint_body) w ↔ dep_shape w.
Proof.
  unfold dep_constraint_body.
  rewrite lang_r_seq_cons by done. setoid_rewrite lang_r_seq_cons; [|done..].
  setoid_rewrite lang_r_seq_cons; [|done..].
  setoid_rewrite dep_operator_lang. setoid_rewrite dep_epoch_lang.
  setoid_rewrite dep_version_lang. unfold r_star, r_space.
  setoid_rewrite lang_class_rep_iff. setoid_rewrite str_all_class_single.
  unfold dep_shape. split.
  - intros (op&?&->&Hop&sp&?&->&(_&_&Hsp)&ep&v&->&Hep&Hv1&Hv2). exists op, sp, ep, v. auto 10.
  - intros (op&sp&ep&v&->&Hop&Hsp&Hep&Hv1&Hv2).
    exists op, (sp +:+ ep +:+ v). split; [done|]. split; [done|].
    exists sp, (ep +:+ v). split; [done|]. split; [split_and!; [lia|done|done]|].
    exists ep, v. auto.
Qed.

(** C14: The rule of [//source//package/@version] accepts exactly the dependency
    constraints, possibly followed by one newline. *)
Lemma source_dep_version_rule_lang s :
  re_match source_dep_version_re s = true ↔ with_newline dep_shape s.
Proof.
  unfold source_dep_version_re. rewrite re_match_rule by done.
  apply with_newline_iff, dep_body_lang.
Qed.

(** C31: The strip rule accepts exactly the positive decimals without a leading
    zero, possibly followed by one newline. *)
Theorem strip_rule_lang s :
  re_match strip_re s = true ↔ with_newline (λ w, positive_decimal w = true) s.
Proof.
  unfold strip_re. rewrite re_match_rule by done.
  apply with_newline_iff, strip_body_lang.
Qed.

(** C30: The name rule accepts exactly the words over letters, digits, [+], [-]
    and [.] (the empty word, and separators at either end or doubled,
    included), possibly followed by one newline. *)
Theorem name_rule_lang s :
  re_match name_re s = true ↔ with_newline (λ w, str_all name_char w = true) s.
Proof.
  unfold name_re. rewrite re_match_rule by done.
  apply with_newline_iff. intros w. exact (name_body_lang w).
Qed.

(** C15: The rule of [//binary//package/@version] accepts the dependency
    constraints and the sentinel [==], each possibly followed by one
    newline. *)
Theorem binary_dep_version_rule_lang s :
  re_match binary_dep_version_re s = true ↔
  with_newline dep_shape s ∨ with_newline (λ w, w = "==") s.
Proof.
  unfold binary_dep_version_re. rewrite re_match_alt, orb_true_iff.
  rewrite !re_match_rule by done. f_equiv.
  - apply with_newline_iff, dep_body_lang.
  - apply with_newline_iff. intros w. apply lang_r_lit.
Qed.
