(* ===== verification/XmlDoc.v ===== *)
(** * The parsed specification document and the XPath queries on it

    An lxml element tree: elements with a tag, attributes, the source line
    ([sourceline]) and children, and text nodes.  The queries of
    [specfile.py] are location paths of child ([/]) and descendant ([//])
    steps with a name test ([package], or [*[name() = 'source' or name() =
    'package']]) and possibly the positional predicate [[1]], ending in an
    attribute ([/@name]) or an element.

    XPath returns a node set in document order.  For such paths a node is in
    the set iff the chain of its ancestors' tags (root element first)
    matches the steps, so [xpath_elems] walks the tree in preorder and keeps
    the elements whose chain matches: document order and the absence of
    duplicates (a [package] under two nested [binary] elements is selected
    once by [//binary//package]) hold by construction.  The positional
    predicate [x[1]] keeps an [x] element only if no earlier sibling is an
    [x]; each chain entry records that. *)

From S2P Require Import Prelude PyStr.

Inductive xnode : Type :=
| XElem (tag : string) (attrs : list (string * string)) (line : nat) (kids : list xnode)
| XText (text : string).

(** [element.attrib.get(name)]; attribute names are unique in an element. *)
Fixpoint attr_lookup (name : string) (attrs : list (string * string)) : option string :=
  match attrs with
  | [] => None
  | (k, v) :: rest => if String.eqb k name then Some v else attr_lookup name rest
  end.

(** ** Location paths *)

Inductive axis : Type := Child | Descendant.

Inductive name_test : Type :=
| NameIs (n : string)              (** [package] *)
| NameIn (ns : list string).       (** [*[name() = 'a' or name() = 'b']] *)

Record xstep : Type := XStep { xs_axis : axis; xs_test : name_test; xs_first : bool }.

Definition child (n : string) : xstep := XStep Child (NameIs n) false.
Definition child_first (n : string) : xstep := XStep Child (NameIs n) true.
Definition desc (n : string) : xstep := XStep Descendant (NameIs n) false.

(** An element's position: its tag and whether it is the first of its
    siblings with that tag, for each ancestor-or-self from the root. *)
Definition chain : Type := list (string * bool).

Definition test_ok (t : name_test) (tag : string) : bool :=
  match t with
  | NameIs n => String.eqb tag n
  | NameIn ns => existsb (String.eqb tag) ns
  end.

Definition step_ok (st : xstep) (e : string * bool) : bool :=
  test_ok (xs_test st) e.1 && (negb (xs_first st) || e.2).

(** The steps, read from the document node, lead to the element. *)
Fixpoint path_match (ss : list xstep) (ch : chain) : bool :=
  match ss with
  | [] => match ch with [] => true | _ => false end
  | st :: ss' =>
      match xs_axis st with
      | Child =>
          match ch with
          | e :: ch' => step_ok st e && path_match ss' ch'
          | [] => false
          end
      | Descendant =>
          (fix skip (ch : chain) : bool :=
             match ch with
             | [] => false
             | e :: ch' => (step_ok st e && path_match ss' ch') || skip ch'
             end) ch
      end
  end.

(** ** Document order *)

Fixpoint preorder (anc : chain) (first : bool) (n : xnode) : list (chain * xnode) :=
  match n with
  | XText _ => []
  | XElem tag _ _ kids =>
      let ch := anc ++ [(tag, first)] in
      (ch, n) ::
      (fix go (seen : list string) (ks : list xnode) : list (chain * xnode) :=
         match ks with
         | [] => []
         | k :: ks' =>
             match k with
             | XElem t _ _ _ => preorder ch (negb (existsb (String.eqb t) seen)) k ++ go (t :: seen) ks'
             | XText _ => go seen ks'
             end
         end) [] kids
  end.

(** [doc.xpath(path)] for a path selecting elements. *)
Definition xpath_elems (doc : xnode) (ss : list xstep) : list xnode :=
  omap (λ '(ch, n), if path_match ss ch then Some n else None) (preorder [] true doc).

(** What lxml returns for an attribute: its value, [getparent().tag],
    [getparent().sourceline] and [attrname]. *)
Record attr_hit : Type := AttrHit {
  ah_parent_tag : string;
  ah_line : nat;
  ah_name : string;
  ah_value : string
}.

Definition attr_of (a : string) (n : xnode) : option attr_hit :=
  match n with
  | XElem tag attrs line _ => AttrHit tag line a <$> attr_lookup a attrs
  | XText _ => None
  end.

(** [doc.xpath(path + "/@" + a)]. *)
Definition xpath_attr (doc : xnode) (ss : list xstep) (a : string) : list attr_hit :=
  omap (attr_of a) (xpath_elems doc ss).

(** The string value of a node: its text descendants, in order. *)
Fixpoint string_value (n : xnode) : string :=
  match n with
  | XText t => t
  | XElem _ _ _ kids =>
      (fix go (ks : list xnode) : string :=
         match ks with [] => "" | k :: ks' => string_value k +:+ go ks' end) kids
  end.

(** [doc.xpath("string(" + path + ")")]: the string value of the first
    selected node, the empty string when there is none. *)
Definition xpath_string (doc : xnode) (ss : list xstep) : string :=
  match xpath_elems doc ss with
  | n :: _ => string_value n
  | [] => ""
  end.
