(* ===== verification/Specfile.v ===== *)
(** * The package specification: [boltpack/specfile.py], class [Specfile]

    [specfile_init] is the constructor [Specfile.__init__]: the file must
    exist ([InvocationError]), parse ([MalformedSpecfile] on a syntax or
    XInclude error), pass [validate_structure] (the RELAX NG schema found
    first on [relaxng_search_path], [RuntimeError] when there is none,
    [MalformedSpecfile] with every schema error otherwise), then
    [validate_format] (every attribute selected by a rule of
    [specification] must match its pattern; all violations are collected,
    then one [MalformedSpecfile] lists them).  The accessors read the
    validated tree; [serialize] hands the document to the serializer.

    The parser and the RELAX NG validator of lxml, the serializer
    [SpecfileSerializer] and the file system are the class [SpecHost]: the
    model is parametric in them. *)

From S2P Require Import Prelude PyStr Regex FormatRules XmlDoc.

(** ** What the class needs from lxml and the file system *)

(** One entry of [relaxng.error_log]. *)
Record rng_error : Type := RngError {
  rng_file : string; rng_line : nat; rng_column : nat; rng_message : string
}.

Class SpecHost : Type := {
  (** [os.path.exists] *)
  path_exists : string → bool;
  (** [etree.parse] followed by [xinclude()]: a syntax or XInclude error
      message, or the document *)
  parse_spec : string → string + xnode;
  (** [etree.RelaxNG(file=path).validate(doc)] and its [error_log]: the
      document is valid iff there is no error *)
  relaxng_errors : string → xnode → list rng_error;
  (** the normalised path of [relaxng/package.rng.xml] next to the
      installed package, computed from [__file__] *)
  package_schema_path : string;
  (** [SpecfileSerializer().serialize(specfile)]: the serializer (not under
      [src/]) sees the object, whose only state is its document *)
  spec_serializer : xnode → string
}.

Section Specfile.
Context `{SpecHost}.

(** [Specfile.RELAXNG_SCHEMA_SEARCH_PATH] *)
Definition relaxng_search_path : list string :=
  [package_schema_path;
   "/usr/share/bolt-pack/relaxng/package.rng.xml";
   "/tools/share/bolt-pack/relaxng/package.rng.xml"].

Fixpoint first_existing (paths : list string) : option string :=
  match paths with
  | [] => None
  | p :: ps => if path_exists p then Some p else first_existing ps
  end.

Definition render_rng_error (e : rng_error) : string :=
  "* " +:+ os_path_basename (rng_file e) +:+ " on line " +:+ py_str_nat (rng_line e) +:+
  ", column " +:+ py_str_nat (rng_column e) +:+ ": " +:+ rng_message e.

(** [Specfile.validate_structure] *)
Definition validate_structure (doc : xnode) : res bool :=
  match first_existing relaxng_search_path with
  | None => raise (RuntimeError "RELAX NG ruleset not found.")
  | Some path =>
      match relaxng_errors path doc with
      | [] => Ok true
      | errors =>
          raise (MalformedSpecfile ("RELAX NG validation failed:" +:+ nl +:+
                                    py_join nl (map render_rng_error errors)))
      end
  end.

End Specfile.

(** ** [validate_format] *)

Record format_rule : Type := FormatRule {
  fr_path : list xstep; fr_attr : string; fr_text : string; fr_re : regex
}.

(** The [specification] table of [validate_format]. *)
Definition specification : list format_rule := [
  FormatRule [desc "patchset"] "strip" strip_text strip_re;
  FormatRule [desc "patchset"; child "file"] "strip" strip_text strip_re;
  FormatRule [XStep Descendant (NameIn ["source"; "package"]) false] "name" name_text name_re;
  FormatRule [desc "binary"; desc "package"] "version"
    binary_dep_version_text binary_dep_version_re;
  FormatRule [desc "source"; desc "package"] "version"
    source_dep_version_text source_dep_version_re;
  FormatRule [desc "changelog"; child "release"] "epoch" epoch_text epoch_re;
  FormatRule [desc "changelog"; child "release"] "version"
    release_version_text release_version_re;
  FormatRule [desc "changelog"; child "release"] "revision" revision_text revision_re;
  FormatRule [desc "changelog"; child "release"] "email" email_text email_re;
  FormatRule [desc "changelog"; child "release"] "date" date_text date_re
].

(** One collected violation: the [path], [line], value and pattern of the
    message [validate_format] prints. *)
Record format_error : Type := FormatError {
  fe_path : string; fe_line : nat; fe_value : string; fe_regexp : string
}.

Definition format_error_of (r : format_rule) (h : attr_hit) : format_error :=
  FormatError (ah_parent_tag h +:+ "/@" +:+ ah_name h) (ah_line h) (ah_value h) (fr_text r).

Definition render_format_error (e : format_error) : string :=
  "* " +:+ fe_path e +:+ " on line " +:+ py_str_nat (fe_line e) +:+ ": '" +:+
  fe_value e +:+ "' does not match '" +:+ fe_regexp e +:+ "'.".

(** The body of the inner loop: [if not re.match(regexp, attr): errors.append(...)]. *)
Definition check_attr (r : format_rule) (errors : list format_error) (h : attr_hit)
    : list format_error :=
  if re_match (fr_re r) (ah_value h) then errors else errors ++ [format_error_of r h].

(** The two nested loops over the rules and the selected attributes. *)
Definition collect_format_errors (doc : xnode) : list format_error :=
  foldl (λ errors r, foldl (check_attr r) errors (xpath_attr doc (fr_path r) (fr_attr r)))
        [] specification.

(** [Specfile.validate_format] *)
Definition validate_format (doc : xnode) : res bool :=
  match collect_format_errors doc with
  | [] => Ok true
  | errors =>
      raise (MalformedSpecfile ("format errors:" +:+ nl +:+
                                py_join nl (map render_format_error errors)))
  end.

(** ** Construction and accessors *)

Record specfile : Type := Specfile { xml_doc : xnode }.

Section Accessors.
Context `{SpecHost}.

(** [Specfile.__init__] *)
Definition specfile_init (filename : string) : res specfile :=
  if negb (path_exists filename) then
    raise (InvocationError ("no such file '" +:+ filename +:+ "'."))
  else
    match parse_spec filename with
    | inl msg => raise (MalformedSpecfile msg)
    | inr doc =>
        _ ← validate_structure doc;
        _ ← validate_format doc;
        Ok (Specfile doc)
    end.

(** [Specfile.serialize] *)
Definition serialize (sf : specfile) : string := spec_serializer (xml_doc sf).

End Accessors.

(** [doc.xpath(path)[0]] for an attribute path. *)
Definition first_attr (doc : xnode) (ss : list xstep) (a : string) : res string :=
  match xpath_attr doc ss a with
  | h :: _ => Ok (ah_value h)
  | [] => raise IndexError
  end.


Definition release1 : list xstep := [child "control"; child "changelog"; child_first "release"].

(** [Specfile.source_name] *)
Definition source_name (sf : specfile) : res string :=
  first_attr (xml_doc sf) [child "control"; child "source"] "name".

(** The two [if]s of [latest_version]: [epoch:] and [-rev] are added when
    non-empty. *)
Definition compose_version (epoch version rev : string) : string :=
  let version := if String.eqb epoch "" then version else epoch +:+ ":" +:+ version in
  if String.eqb rev "" then version else version +:+ "-" +:+ rev.


(** [pkg_node.attrib["name"]] *)
Definition attrib_get (n : xnode) (a : string) : res string :=
  match attr_of a n with
  | Some h => Ok (ah_value h)
  | None => raise (KeyError a)
  end.

(** [Specfile.binary_packages] *)
Definition binary_packages (sf : specfile) : res (list string) :=
  res_fold (λ pkg_names pkg_node, name ← attrib_get pkg_node "name"; Ok (pkg_names ++ [name]))
           [] (xpath_elems (xml_doc sf) [child "control"; child "package"]).

(** [Specfile.upstream_version]: [None] when absent. *)
Definition upstream_version (sf : specfile) : option string :=
  match first_attr (xml_doc sf) release1 "upstream-version" with
  | Ok v => Some v
  | Err _ => None
  end.

(** [Specfile.summary] *)
Definition summary (sf : specfile) : string :=
  xpath_string (xml_doc sf) [child "control"; child "source"; child "description"; child "summary"].

(** ** The violations [validate_format] collects *)

(** The violations of one rule: its selected attributes that do not match,
    in document order. *)
Definition rule_violations (doc : xnode) (r : format_rule) : list format_error :=
  format_error_of r <$>
    filter (λ h, re_match (fr_re r) (ah_value h) = false) (xpath_attr doc (fr_path r) (fr_attr r)).

Lemma foldl_check_attr r acc hs :
  foldl (check_attr r) acc hs =
  acc ++ (format_error_of r <$> filter (λ h, re_match (fr_re r) (ah_value h) = false) hs).
Proof.
  revert acc; induction hs as [|h hs IH]; intros acc; simpl; [by rewrite app_nil_r|].
  rewrite IH. unfold check_attr. rewrite filter_cons.
  destruct (re_match (fr_re r) (ah_value h)); simpl; [done|].
  by rewrite <-app_assoc.
Qed.

Lemma foldl_rules doc acc rs :
  foldl (λ errors r, foldl (check_attr r) errors (xpath_attr doc (fr_path r) (fr_attr r))) acc rs =
  acc ++ (rs ≫= rule_violations doc).
Proof.
  revert acc; induction rs as [|r rs IH]; intros acc; simpl; [by rewrite app_nil_r|].
  rewrite IH, foldl_check_attr. unfold rule_violations. by rewrite <-app_assoc.
Qed.

Lemma elem_of_rule_violations doc r e :
  e ∈ rule_violations doc r ↔
  ∃ h, h ∈ xpath_attr doc (fr_path r) (fr_attr r) ∧
       re_match (fr_re r) (ah_value h) = false ∧ e = format_error_of r h.
Proof.
  unfold rule_violations. rewrite list_elem_of_fmap.
  setoid_rewrite list_elem_of_filter. naive_solver.
Qed.

(** ** Theorems *)

(** C34: The two loops of [validate_format] compute, rule after rule and in
    document order within a rule, exactly the selected attributes that do
    not match their rule's pattern. *)
Theorem collect_format_errors_spec doc :
  collect_format_errors doc = specification ≫= rule_violations doc.
Proof. unfold collect_format_errors. by rewrite foldl_rules. Qed.

(** Every violation is collected, not only the first: an error record is in
    the list iff it describes a selected attribute that fails its rule. *)
Lemma collect_format_errors_elem doc e :
  e ∈ collect_format_errors doc ↔
  ∃ r h, r ∈ specification ∧ h ∈ xpath_attr doc (fr_path r) (fr_attr r) ∧
         re_match (fr_re r) (ah_value h) = false ∧ e = format_error_of r h.
Proof.
  unfold collect_format_errors. rewrite foldl_rules, app_nil_l, list_elem_of_bind.
  setoid_rewrite elem_of_rule_violations. naive_solver.
Qed.

(** C1: Every violation is collected, not only the first: an error record is in
    the list iff it describes a selected attribute that fails its rule. *)
Theorem format_errors_complete doc e :
  e ∈ collect_format_errors doc ↔
  ∃ r h, r ∈ specification ∧ h ∈ xpath_attr doc (fr_path r) (fr_attr r) ∧
         re_match (fr_re r) (ah_value h) = false ∧ e = format_error_of r h.
Proof. apply collect_format_errors_elem. Qed.

(** C2: [validate_format] succeeds iff every attribute selected by every rule
    matches the rule's pattern. *)
Theorem validate_format_ok_iff doc :
  validate_format doc = Ok true ↔
  ∀ r h, r ∈ specification → h ∈ xpath_attr doc (fr_path r) (fr_attr r) →
         re_match (fr_re r) (ah_value h) = true.
Proof.
  assert (Hnil : collect_format_errors doc = [] ↔
                 ∀ r h, r ∈ specification → h ∈ xpath_attr doc (fr_path r) (fr_attr r) →
                        re_match (fr_re r) (ah_value h) = true).
  { split.
    - intros Hn r h Hr Hh. destruct (re_match (fr_re r) (ah_value h)) eqn:E; [done|].
      assert (format_error_of r h ∈ collect_format_errors doc) as Hin
        by (apply collect_format_errors_elem; eauto 10).
      rewrite Hn in Hin. set_solver.
    - intros Hall. destruct (collect_format_errors doc) as [|e es] eqn:E; [done|].
      assert (e ∈ collect_format_errors doc) as (r&h&Hr&Hh&Hf&_)%collect_format_errors_elem
        by (rewrite E; left).
      by rewrite (Hall r h Hr Hh) in Hf. }
  rewrite <-Hnil. unfold validate_format. destruct (collect_format_errors doc); done.
Qed.

(** When [validate_format] fails it raises one [MalformedSpecfile] whose
    message lists every collected violation, one per line. *)
Theorem validate_format_error doc e :
  validate_format doc = Err e ↔
  collect_format_errors doc ≠ [] ∧
  e = MalformedSpecfile ("format errors:" +:+ nl +:+
                         py_join nl (map render_format_error (collect_format_errors doc))).
Proof.
  unfold validate_format. destruct (collect_format_errors doc).
  - split; [discriminate | by intros []].
  - split; [intros [=<-]; done | intros [_ ->]; done].
Qed.

Section HostTheorems.
Context `{SpecHost}.

Lemma validate_structure_true doc b : validate_structure doc = Ok b → b = true.
Proof.
  unfold validate_structure. destruct (first_existing _); [|done].
  by destruct (relaxng_errors _ _); intros [=].
Qed.

Lemma validate_format_true doc b : validate_format doc = Ok b → b = true.
Proof. unfold validate_format. by destruct (collect_format_errors doc); intros [=]. Qed.

(** C33: The constructor returns a specification iff the file exists, parses,
    and passes the structural and then the format validation. *)
Theorem specfile_init_ok f sf :
  specfile_init f = Ok sf ↔
  path_exists f = true ∧ parse_spec f = inr (xml_doc sf) ∧
  validate_structure (xml_doc sf) = Ok true ∧ validate_format (xml_doc sf) = Ok true.
Proof.
  unfold specfile_init. destruct (path_exists f); simpl; [|naive_solver].
  destruct (parse_spec f) as [msg|doc]; [naive_solver|].
  destruct (validate_structure doc) as [b1|e1] eqn:Hs; simpl;
    [|split; [discriminate | intros (_&Hp&Hs'&_); injection Hp as Hp; rewrite <-Hp in Hs'; congruence]].
  rewrite (validate_structure_true _ _ Hs) in Hs.
  destruct (validate_format doc) as [b2|e2] eqn:Hv; simpl;
    [|split; [discriminate | intros (_&Hp&_&Hv'); injection Hp as Hp; rewrite <-Hp in Hv'; congruence]].
  rewrite (validate_format_true _ _ Hv) in Hv.
  destruct sf as [d]. simpl. split; [intros [=->]; auto | intros (_&[=->]&_&_); done].
Qed.

(** Structural validation comes first: when the schema rejects the
    document, the constructor raises the schema's error whatever the format
    errors of the document. *)
Theorem specfile_init_structure_first f doc e :
  path_exists f = true → parse_spec f = inr doc → validate_structure doc = Err e →
  specfile_init f = Err e.
Proof. intros Hf Hp Hs. unfold specfile_init. by rewrite Hf, Hp, Hs. Qed.

(** The first schema of the search path that exists decides. *)
Theorem validate_structure_first_schema doc p :
  first_existing relaxng_search_path = Some p →
  validate_structure doc = Ok true ↔ relaxng_errors p doc = [].
Proof.
  intros Hp. unfold validate_structure. rewrite Hp.
  destruct (relaxng_errors p doc); done.
Qed.

(** With no schema on the search path the document cannot be validated:
    [RuntimeError]. *)
Theorem validate_structure_no_schema doc :
  (∀ p, p ∈ relaxng_search_path → path_exists p = false) →
  validate_structure doc = Err (RuntimeError "RELAX NG ruleset not found.").
Proof.
  intros Hno. unfold validate_structure, relaxng_search_path. simpl.
  rewrite !Hno by set_solver. done.
Qed.

End HostTheorems.

(** ** Witnesses at a concrete host *)

(** A host where the schema under [/usr/share] exists and rejects the
    document, and a host with no schema at all. *)
Definition sample_doc : xnode := XElem "control" [] 1 [].

Definition sample_host : SpecHost := {|
  path_exists := λ p, String.eqb p "/usr/share/bolt-pack/relaxng/package.rng.xml" ||
                      String.eqb p "pkg.xml";
  parse_spec := λ _, inr sample_doc;
  relaxng_errors := λ _ _, [RngError "/usr/share/bolt-pack/relaxng/package.rng.xml" 3 1
                                     "Expecting element source"];
  package_schema_path := "/opt/bolt/relaxng/package.rng.xml";
  spec_serializer := λ _, "<control/>"
|}.

Definition bare_host : SpecHost := {|
  path_exists := λ _, false;
  parse_spec := λ _, inr sample_doc;
  relaxng_errors := λ _ _, [];
  package_schema_path := "/opt/bolt/relaxng/package.rng.xml";
  spec_serializer := λ _, "<control/>"
|}.

Lemma specfile_init_structure_first_witness :
  ∃ e, @validate_structure sample_host sample_doc = Err e ∧
       @specfile_init sample_host "pkg.xml" = Err e.
Proof.
  eexists. split; [reflexivity|].
  apply (@specfile_init_structure_first sample_host "pkg.xml" sample_doc); reflexivity.
Defined.

Lemma validate_structure_first_schema_witness :
  @validate_structure sample_host sample_doc = Ok true ↔
  @relaxng_errors sample_host "/usr/share/bolt-pack/relaxng/package.rng.xml" sample_doc = [].
Proof. apply (@validate_structure_first_schema sample_host). reflexivity. Defined.

Lemma validate_structure_no_schema_witness :
  @validate_structure bare_host sample_doc = Err (RuntimeError "RELAX NG ruleset not found.").
Proof. apply (@validate_structure_no_schema bare_host). intros p _. reflexivity. Defined.

(** ** The accessors *)

(** The strict reading of a composed version, after Debian policy: an
    epoch, when there is one, is non-empty and ends at the first [:]; a
    revision, when there is one, is non-empty and starts after the last
    [-]; any other string is not a composed version. *)
Fixpoint split_first (c : ascii) (s : string) : option (string * string) :=
  match s with
  | EmptyString => None
  | String d s' =>
      if decide (d = c) then Some (EmptyString, s')
      else (λ '(a, b), (String d a, b)) <$> split_first c s'
  end.

Fixpoint split_last (c : ascii) (s : string) : option (string * string) :=
  match s with
  | EmptyString => None
  | String d s' =>
      match split_last c s' with
      | Some (a, b) => Some (String d a, b)
      | None => if decide (d = c) then Some (EmptyString, s') else None
      end
  end.

Definition parse_version (s : string) : option (string * string * string) :=
  '(epoch, rest) ← match split_first ":"%char s with
                   | Some (e, r) => if String.eqb e "" then None else Some (e, r)
                   | None => Some (EmptyString, s)
                   end;
  match split_last "-"%char rest with
  | Some (version, rev) => if String.eqb rev "" then None else Some (epoch, version, rev)
  | None => Some (epoch, rest, EmptyString)
  end.

Definition lacks (c : ascii) (s : string) : bool := str_all (λ d, negb (bool_decide (d = c))) s.

Lemma split_first_none c s : lacks c s = true → split_first c s = None.
Proof.
  induction s as [|d s IH]; simpl; [done|]. intros [Hd Hs]%andb_prop.
  rewrite decide_False by (intros ->; by rewrite bool_decide_true in Hd). by rewrite IH.
Qed.

Lemma split_first_app c a b : lacks c a = true → split_first c (a +:+ String c b) = Some (a, b).
Proof.
  induction a as [|d a IH]; simpl; [by rewrite decide_True|]. intros [Hd Ha]%andb_prop.
  rewrite decide_False by (intros ->; by rewrite bool_decide_true in Hd). by rewrite IH.
Qed.

Lemma split_last_none c s : lacks c s = true → split_last c s = None.
Proof.
  induction s as [|d s IH]; simpl; [done|]. intros [Hd Hs]%andb_prop.
  rewrite IH by done. rewrite decide_False by (intros ->; by rewrite bool_decide_true in Hd). done.
Qed.

Lemma split_last_app c a b : lacks c b = true → split_last c (a +:+ String c b) = Some (a, b).
Proof.
  intros Hb. induction a as [|d a IH]; simpl.
  - rewrite split_last_none by done. by rewrite decide_True.
  - by rewrite IH.
Qed.

Lemma split_first_some c s a b : split_first c s = Some (a, b) → s = a +:+ String c b.
Proof.
  revert a. induction s as [|d s IH]; intros a; simpl; [done|].
  case_decide; [intros [= <- <-]; by subst|].
  destruct (split_first c s) as [[a' b']|] eqn:E; [|done]. intros [= <- ->]. by rewrite (IH a').
Qed.

Lemma split_last_some c s a b : split_last c s = Some (a, b) → s = a +:+ String c b.
Proof.
  revert a. induction s as [|d s IH]; intros a; simpl; [done|].
  destruct (split_last c s) as [[a' b']|] eqn:E.
  - intros [= <- ->]. by rewrite (IH a').
  - case_decide; [intros [= <- <-]; by subst|done].
Qed.

(** C19: [binary_packages] returns the [name] attribute of every [package]
    element under [control], in document order with duplicates kept; it
    succeeds exactly when each of them has one. *)
Theorem binary_packages_spec sf names :
  binary_packages sf = Ok names ↔
  Forall2 (λ n v, attrib_get n "name" = Ok v)
          (xpath_elems (xml_doc sf) [child "control"; child "package"]) names.
Proof. unfold binary_packages. rewrite (res_fold_snoc_ok (λ n, attrib_get n "name")). naive_solver. Qed.

(** C20: round trip.  [parse_version] reads back the epoch, version and
    revision [compose_version] joined, when none of them holds a [:], no
    revision a [-], and either the revision is given or the version holds
    no [-] (without that last condition the composition is ambiguous,
    [latest_version_ambiguous]); and every string it reads is the
    composition of what it reads.  So [compose_version] adds the [:] and
    the [-] exactly for a non-empty epoch and a non-empty revision. *)
Theorem latest_version_roundtrip :
  (∀ epoch version rev,
     lacks ":"%char epoch = true → lacks ":"%char version = true → lacks ":"%char rev = true →
     lacks "-"%char rev = true → (rev = EmptyString → lacks "-"%char version = true) →
     parse_version (compose_version epoch version rev) = Some (epoch, version, rev)) ∧
  (∀ s epoch version rev, parse_version s = Some (epoch, version, rev) →
     compose_version epoch version rev = s).
Proof.
  split.
  - intros epoch version rev He Hv Hr' Hr Hvr. unfold compose_version, parse_version.
    assert (Hvr' : lacks ":"%char (version +:+ String "-"%char rev) = true).
    { unfold lacks in *. by rewrite str_all_app, Hv; simpl; rewrite Hr'. }
    destruct (String.eqb_spec epoch "") as [->|He0], (String.eqb_spec rev "") as [->|Hr0];
      change ("-" +:+ ?x) with (String "-"%char x); change (":" +:+ ?x) with (String ":"%char x).
    + rewrite split_first_none by done. simpl. by rewrite split_last_none by auto.
    + rewrite split_first_none by done. simpl. rewrite split_last_app by done.
      by destruct (String.eqb_spec rev "").
    + rewrite split_first_app by done. simpl. destruct (String.eqb_spec epoch ""); [done|].
      simpl. by rewrite split_last_none by auto.
    + rewrite <-string_app_assoc, string_app_cons, split_first_app by done.
      simpl. destruct (String.eqb_spec epoch ""); [done|]. simpl. rewrite split_last_app by done.
      by destruct (String.eqb_spec rev "").
  - intros s epoch version rev. unfold parse_version, compose_version.
    destruct (split_first ":"%char s) as [[e r]|] eqn:Ef; simpl.
    + destruct (String.eqb_spec e "") as [|He]; [done|]. simpl.
      destruct (split_last "-"%char r) as [[v r']|] eqn:El.
      * destruct (String.eqb_spec r' "") as [|Hr]; [done|]. intros [= <- <- <-].
        apply String.eqb_neq in He, Hr. rewrite He, Hr.
        rewrite (split_first_some _ _ _ _ Ef), (split_last_some _ _ _ _ El). by rewrite <-string_app_assoc.
      * intros [= <- <- <-]. apply String.eqb_neq in He. rewrite He.
        by rewrite (split_first_some _ _ _ _ Ef).
    + destruct (split_last "-"%char s) as [[v r']|] eqn:El.
      * destruct (String.eqb_spec r' "") as [|Hr]; [done|]. intros [= <- <- <-].
        apply String.eqb_neq in Hr. rewrite Hr. by rewrite (split_last_some _ _ _ _ El).
      * by intros [= <- <- <-].
Qed.



Lemma latest_version_roundtrip_witness :
  parse_version (compose_version "1" "2.4.1" "3") = Some ("1", "2.4.1", "3") ∧
  compose_version "1" "2.4.1" "3" = "1:2.4.1-3".
Proof.
  split.
  - apply (proj1 latest_version_roundtrip); [reflexivity..|intros _; reflexivity].
  - apply (proj2 latest_version_roundtrip). reflexivity.
Defined.


(** Two packages of the same name are both reported. *)
Example binary_packages_duplicates :
  binary_packages (Specfile (XElem "control" [] 1
    [XElem "package" [("name", "libfoo")] 5 []; XElem "package" [("name", "libfoo")] 9 []])) =
  Ok ["libfoo"; "libfoo"].
Proof. vm_compute. reflexivity. Qed.
