(* ===== verification/SysFs.v ===== *)
(** * The host the image generator acts on: file system, environment, log

    A [world] is the state a run of [generator.py] reads and changes: the
    file-system tree (a map from absolute paths, as lists of components, to
    directories, regular files and symbolic links, each with its owner and
    permission bits), the process environment [os.environ], the effective
    user and group, the umask, and the lines logged by [LOGGER.info].

    [io A] is a computation that changes the world and returns an [A] or
    raises.  The world it leaves behind is kept when it raises: Python
    exceptions do not roll back the file system, so a failed [customize]
    leaves the directives applied before the failing one in place.

    The [os] and [shutil] calls of the code are modelled after CPython and
    Linux: [os.mkdir], [os.makedirs] (with [exist_ok]), [os.chmod],
    [os.chown], [os.symlink], [os.unlink], [os.lstat], [os.path.exists],
    [os.path.isdir], [open(p, "w+").write], [shutil.copy2] and
    [shutil.rmtree].  Symbolic links are followed in the last component of a
    path (at most 40 times, Linux's limit, else [ELOOP]); every other
    component must be a directory.  [rmtree] removes a whole tree or, when a
    directory of it is not writable, nothing. *)

From S2P Require Import Prelude PyStr.

(** ** Paths *)

Abbreviation path := (list string).

Definition parent (p : path) : path := take (length p - 1) p.

Definition render_path (p : path) : string := "/" +:+ py_join "/" p.

(** Resolving [..] and [.] in a list of components. *)
Fixpoint normalize_go (acc : path) (cs : list string) : path :=
  match cs with
  | [] => acc
  | c :: cs' =>
      if String.eqb c ".." then normalize_go (parent acc) cs'
      else if String.eqb c "." || String.eqb c "" then normalize_go acc cs'
      else normalize_go (acc ++ [c]) cs'
  end.

(** Where a link at [p] with target [t] points. *)
Definition link_dest (p : path) (t : string) : path :=
  if py_startswith t "/" then normalize_go [] (py_split slash t)
  else normalize_go (parent p) (py_split slash t).

(** ** Permission bits and [stat] *)

Record stat := Stat { st_mode : Z; st_uid : Z; st_gid : Z }.

Definition S_IFDIR : Z := 16384.   (** [0o040000] *)
Definition S_IFREG : Z := 32768.   (** [0o100000] *)
Definition S_IFLNK : Z := 40960.   (** [0o120000] *)
Definition S_IMODE_MASK : Z := 4095.  (** [0o7777] *)

Inductive fnode : Type :=
| FDir (st : stat)
| FFile (st : stat) (data : string)
| FLink (st : stat) (target : string).

Definition node_stat (n : fnode) : stat :=
  match n with FDir st | FFile st _ | FLink st _ => st end.

(** What [os.lstat(p).st_mode] reports: the type bits and the permission bits. *)
Definition lstat_mode (n : fnode) : Z :=
  match n with
  | FDir st => Z.lor S_IFDIR (st_mode st)
  | FFile st _ => Z.lor S_IFREG (st_mode st)
  | FLink st _ => Z.lor S_IFLNK (st_mode st)
  end.

Record world := World {
  w_fs : gmap path fnode;
  w_environ : gmap string string;
  w_euid : Z;
  w_egid : Z;
  w_umask : Z;
  w_log : list string
}.

Definition set_fs (w : world) (m : gmap path fnode) : world :=
  World m (w_environ w) (w_euid w) (w_egid w) (w_umask w) (w_log w).

(** Write permission on a directory for the process. *)
Definition can_write (w : world) (st : stat) : bool :=
  bool_decide (w_euid w = 0%Z) ||
  (if bool_decide (w_euid w = st_uid st) then Z.testbit (st_mode st) 7
   else if bool_decide (w_egid w = st_gid st) then Z.testbit (st_mode st) 4
   else Z.testbit (st_mode st) 1).

(** ** The I/O monad *)

Definition io (A : Type) : Type := world → world * res A.

#[export] Instance io_ret : MRet io := λ _ a w, (w, Ok a).
#[export] Instance io_bind : MBind io :=
  λ _ _ k m w, match m w with
               | (w', Ok a) => k a w'
               | (w', Err e) => (w', Err e)
               end.

Definition throw {A} (e : exn) : io A := λ w, (w, Err e).

(** [try: m except: h(e)] *)
Definition io_catch {A} (m : io A) (h : exn → io A) : io A :=
  λ w, match m w with
       | (w', Ok a) => (w', Ok a)
       | (w', Err e) => h e w'
       end.

Definition get_world : io world := λ w, (w, Ok w).
Definition put_fs (m : gmap path fnode) : io unit := λ w, (set_fs w m, Ok tt).

(** [LOGGER.info(msg)] *)
Definition log_info (msg : string) : io unit :=
  λ w, (World (w_fs w) (w_environ w) (w_euid w) (w_egid w) (w_umask w) (w_log w ++ [msg]),
        Ok tt).

(** A [for] loop in [io]. *)
Fixpoint io_iter {A} (f : A → io unit) (l : list A) : io unit :=
  match l with
  | [] => mret tt
  | x :: l' => _ ← f x; io_iter f l'
  end.

(** ** Looking paths up *)

(** Linux's limit on the links followed in one lookup. *)
Definition max_symlinks : nat := 40.

(** The entry a path designates, after following links. *)
Fixpoint follow (fuel : nat) (m : gmap path fnode) (p : path) : res (path * fnode) :=
  match m !! p with
  | None => raise (OSError ENOENT (render_path p))
  | Some (FLink _ t) =>
      match fuel with
      | 0 => raise (OSError ELOOP (render_path p))
      | S f => follow f m (link_dest p t)
      end
  | Some n => Ok (p, n)
  end.

(** The path a write to [p] creates when [p] is missing or a dangling link. *)
Fixpoint create_target (fuel : nat) (m : gmap path fnode) (p : path) : path :=
  match m !! p, fuel with
  | Some (FLink _ t), S f => create_target f m (link_dest p t)
  | _, _ => p
  end.

Definition resolve (m : gmap path fnode) (p : path) : res (path * fnode) :=
  follow max_symlinks m p.

Definition exists_b (w : world) (p : path) : bool := is_ok (resolve (w_fs w) p).

Definition isdir_b (w : world) (p : path) : bool :=
  match resolve (w_fs w) p with Ok (_, FDir _) => true | _ => false end.

(** [os.path.exists(p)], [os.path.isdir(p)] *)
Definition os_path_exists (p : path) : io bool := λ w, (w, Ok (exists_b w p)).
Definition os_path_isdir (p : path) : io bool := λ w, (w, Ok (isdir_b w p)).

(** The directory a new entry [p] goes in must exist and be writable. *)
Definition check_create (w : world) (p : path) : res unit :=
  match w_fs w !! parent p with
  | Some (FDir st) => if can_write w st then Ok tt else raise (OSError EACCES (render_path p))
  | Some _ => raise (OSError ENOTDIR (render_path p))
  | None => raise (OSError ENOENT (render_path p))
  end.

Definition new_stat (w : world) (mode : Z) : stat :=
  Stat (Z.land mode (Z.lnot (w_umask w))) (w_euid w) (w_egid w).

(** ** The calls *)

(** [os.mkdir(p, mode)]: the mode is masked by the umask, and [mkdir]
    keeps only the permission and sticky bits ([0o1777]). *)
Definition os_mkdir (p : path) (mode : Z) : io unit := λ w,
  match w_fs w !! p with
  | Some _ => (w, raise (OSError EEXIST (render_path p)))
  | None =>
      match check_create w p with
      | Err e => (w, Err e)
      | Ok _ => (set_fs w (<[p := FDir (new_stat w (Z.land mode 1023))]> (w_fs w)), Ok tt)
      end
  end.

(** [os.makedirs(p, exist_ok=exist_ok)], after CPython: create the missing
    parents (a concurrent [FileExistsError] on a parent is ignored), then
    [p]; with [exist_ok] an [OSError] is ignored when [p] is a directory. *)
Fixpoint makedirs_rev (rp : list string) (exist_ok : bool) : io unit :=
  match rp with
  | [] =>
      io_catch (os_mkdir [] 511)
        (λ e, d ← os_path_isdir []; if exist_ok && d then mret tt else throw e)
  | _ :: rhead =>
      let head := reverse rhead in
      ex ← os_path_exists head;
      _ ← (if negb (bool_decide (rhead = [])) && negb ex then
             io_catch (makedirs_rev rhead exist_ok)
               (λ e, match e with OSError EEXIST _ => mret tt | _ => throw e end)
           else mret tt);
      io_catch (os_mkdir (reverse rp) 511)
        (λ e, match e with
              | OSError _ _ => d ← os_path_isdir (reverse rp);
                               if exist_ok && d then mret tt else throw e
              | _ => throw e
              end)
  end.

Definition os_makedirs (p : path) (exist_ok : bool) : io unit := makedirs_rev (reverse p) exist_ok.

Definition set_mode (mode : Z) (st : stat) : stat := Stat (Z.land mode S_IMODE_MASK) (st_uid st) (st_gid st).
Definition set_owner (uid gid : Z) (st : stat) : stat := Stat (st_mode st) uid gid.

Definition update_stat (f : stat → stat) (n : fnode) : fnode :=
  match n with
  | FDir st => FDir (f st)
  | FFile st d => FFile (f st) d
  | FLink st t => FLink (f st) t
  end.

(** [os.chmod(p, mode)]: the owner or root only. *)
Definition os_chmod (p : path) (mode : Z) : io unit := λ w,
  match resolve (w_fs w) p with
  | Err e => (w, Err e)
  | Ok (q, n) =>
      if bool_decide (w_euid w = 0%Z) || bool_decide (w_euid w = st_uid (node_stat n))
      then (set_fs w (<[q := update_stat (set_mode mode) n]> (w_fs w)), Ok tt)
      else (w, raise (OSError EPERM (render_path p)))
  end.

(** [os.chown(p, uid, gid)]: root may give anything; the owner may only
    keep the owner and set the group to its own. *)
Definition os_chown (p : path) (uid gid : Z) : io unit := λ w,
  match resolve (w_fs w) p with
  | Err e => (w, Err e)
  | Ok (q, n) =>
      let st := node_stat n in
      if bool_decide (w_euid w = 0%Z) ||
         (bool_decide (w_euid w = st_uid st) && bool_decide (uid = st_uid st) &&
          (bool_decide (gid = st_gid st) || bool_decide (gid = w_egid w)))
      then (set_fs w (<[q := update_stat (set_owner uid gid) n]> (w_fs w)), Ok tt)
      else (w, raise (OSError EPERM (render_path p)))
  end.

(** [os.symlink(target, p)] *)
Definition os_symlink (target : string) (p : path) : io unit := λ w,
  match w_fs w !! p with
  | Some _ => (w, raise (OSError EEXIST (render_path p)))
  | None =>
      match check_create w p with
      | Err e => (w, Err e)
      | Ok _ => (set_fs w (<[p := FLink (new_stat w 511) target]> (w_fs w)), Ok tt)
      end
  end.

(** [with open(p, "w+") as f: f.write(data)]: truncate an existing file
    (the process needs write permission on it) or create one with mode
    [0o666] masked by the umask. *)
Definition write_file (p : path) (data : string) : io unit := λ w,
  match resolve (w_fs w) p with
  | Ok (q, FFile st _) =>
      if can_write w st then (set_fs w (<[q := FFile st data]> (w_fs w)), Ok tt)
      else (w, raise (OSError EACCES (render_path p)))
  | Ok (_, _) => (w, raise (OSError EISDIR (render_path p)))
  | Err (OSError ENOENT _) =>
      let q := create_target max_symlinks (w_fs w) p in
      match check_create w q with
      | Err e => (w, Err e)
      | Ok _ => (set_fs w (<[q := FFile (new_stat w 438) data]> (w_fs w)), Ok tt)
      end
  | Err e => (w, Err e)
  end.

(** [os.unlink(p)] *)
Definition os_unlink (p : path) : io unit := λ w,
  match w_fs w !! p with
  | None => (w, raise (OSError ENOENT (render_path p)))
  | Some (FDir _) => (w, raise (OSError EISDIR (render_path p)))
  | Some _ =>
      match check_create w p with
      | Err e => (w, Err e)
      | Ok _ => (set_fs w (delete p (w_fs w)), Ok tt)
      end
  end.

(** [os.lstat(p)]: the entry itself, its mode with the type bits. *)
Definition os_lstat (p : path) : io stat := λ w,
  match w_fs w !! p with
  | None => (w, raise (OSError ENOENT (render_path p)))
  | Some n => (w, Ok (Stat (lstat_mode n) (st_uid (node_stat n)) (st_gid (node_stat n))))
  end.

Definition io_of {A} (r : res A) : io A := λ w, (w, r).

(** Open [p] for reading: a regular file, after following links. *)
Definition read_regular (p : path) : io (path * stat * string) := λ w,
  match resolve (w_fs w) p with
  | Ok (q, FFile st data) => (w, Ok (q, st, data))
  | Ok (_, _) => (w, raise (OSError EISDIR (render_path p)))
  | Err e => (w, Err e)
  end.

Definition resolved_path (p : path) : io (option path) := λ w,
  (w, Ok (match resolve (w_fs w) p with Ok (q, _) => Some q | Err _ => None end)).

Definition last_component (p : path) : string := default "" (last p).

(** [shutil.copy2(src, dst)]: into [dst/basename(src)] when [dst] is a
    directory; refuses to copy a file onto itself; copies the contents,
    then the permission bits ([copystat]). *)
Definition shutil_copy2 (src dst : path) : io unit :=
  os_path_isdir dst ≫= λ d : bool,
  let dst : path := if d then dst ++ [last_component src] else dst in
  read_regular src ≫= λ '(qs, st, data),
  resolved_path dst ≫= λ qd : option path,
  if bool_decide (qd = Some qs)
  then throw (ShutilError (render_path src +:+ " and " +:+ render_path dst +:+
                           " are the same file"))
  else _ ← write_file dst data; os_chmod dst (st_mode st).

(** Every directory of the tree at [p], and the directory holding [p], is
    writable. *)
Definition writable_tree (w : world) (p : path) : bool :=
  is_ok (check_create w p) &&
  forallb (λ kv : path * fnode,
             match kv.2 with
             | FDir st => negb (bool_decide (p `prefix_of` kv.1)) || can_write w st
             | _ => true
             end)
          (map_to_list (w_fs w)).

(** [shutil.rmtree(p)] *)
Definition shutil_rmtree (p : path) : io unit := λ w,
  match w_fs w !! p with
  | None => (w, raise (OSError ENOENT (render_path p)))
  | Some (FLink _ _) => (w, raise (OSError ENOERRNO "Cannot call rmtree on a symbolic link"))
  | Some (FFile _ _) => (w, raise (OSError ENOTDIR (render_path p)))
  | Some (FDir _) =>
      if bool_decide (p = []) then (w, raise (OSError EBUSY (render_path p)))
      else if writable_tree w p
      then (set_fs w (filter (λ kv : path * fnode, ¬ p `prefix_of` kv.1) (w_fs w)), Ok tt)
      else (w, raise (OSError EACCES (render_path p)))
  end.

(** ** Laws of the I/O monad *)

Lemma io_bind_ok {A B} (m : io A) (f : A → io B) w w' a :
  m w = (w', Ok a) → (m ≫= f) w = f a w'.
Proof. intros H. unfold mbind, io_bind. by rewrite H. Qed.

Lemma io_bind_err {A B} (m : io A) (f : A → io B) w w' e :
  m w = (w', Err e) → (m ≫= f) w = (w', Err e).
Proof. intros H. unfold mbind, io_bind. by rewrite H. Qed.

Lemma io_bind_ret {A B} (a : A) (f : A → io B) w : (mret a ≫= f) w = f a w.
Proof. reflexivity. Qed.

Lemma io_bind_assoc {A B C} (m : io A) (f : A → io B) (g : B → io C) w :
  ((m ≫= f) ≫= g) w = (m ≫= λ x, f x ≫= g) w.
Proof. unfold mbind, io_bind. destruct (m w) as [w' [a|e]]; done. Qed.

(** The result of a bind, by cases on the first computation. *)
Lemma io_bind_inv {A B} (m : io A) (f : A → io B) w w'' r :
  (m ≫= f) w = (w'', r) →
  (∃ w' a, m w = (w', Ok a) ∧ f a w' = (w'', r)) ∨
  (∃ e, m w = (w'', Err e) ∧ r = Err e).
Proof.
  unfold mbind, io_bind. destruct (m w) as [w' [a|e]]; intros H; [left; eauto|].
  injection H as -> <-. right. eauto.
Qed.

Lemma io_iter_app {A} (f : A → io unit) l1 l2 w :
  io_iter f (l1 ++ l2) w = (io_iter f l1 ≫= λ _, io_iter f l2) w.
Proof.
  revert w; induction l1 as [|x l1 IH]; intros w; [done|].
  simpl. rewrite io_bind_assoc.
  destruct (f x w) as [w' [[]|e]] eqn:E.
  - rewrite !(io_bind_ok _ _ _ _ _ E). apply IH.
  - by rewrite !(io_bind_err _ _ _ _ _ E).
Qed.

(** ** The calls on a directory *)

Lemma resolve_dir m p st : m !! p = Some (FDir st) → resolve m p = Ok (p, FDir st).
Proof. intros H. unfold resolve, max_symlinks. simpl. by rewrite H. Qed.

Lemma parent_snoc p x : parent (p ++ [x]) = p.
Proof. unfold parent. rewrite length_app. simpl. rewrite Nat.add_sub. apply take_app_length. Qed.

Lemma not_prefix_parent p : p ≠ [] → ¬ p `prefix_of` parent p.
Proof.
  intros Hp Hpre. apply prefix_length in Hpre. unfold parent in Hpre.
  rewrite length_take in Hpre. destruct p; [done|]. simpl in Hpre. lia.
Qed.

Lemma set_fs_fs w m : w_fs (set_fs w m) = m.
Proof. done. Qed.

Lemma os_lstat_dir w p st :
  w_fs w !! p = Some (FDir st) →
  os_lstat p w = (w, Ok (Stat (Z.lor S_IFDIR (st_mode st)) (st_uid st) (st_gid st))).
Proof. intros H. unfold os_lstat. by rewrite H. Qed.

(** [rmtree] succeeds exactly on a writable directory other than [/], and
    then removes it with everything under it. *)
Lemma shutil_rmtree_ok w p w' u :
  shutil_rmtree p w = (w', Ok u) ↔
  (∃ st, w_fs w !! p = Some (FDir st)) ∧ p ≠ [] ∧ writable_tree w p = true ∧
  w' = set_fs w (filter (λ kv : path * fnode, ¬ p `prefix_of` kv.1) (w_fs w)).
Proof.
  destruct u. unfold shutil_rmtree.
  destruct (w_fs w !! p) as [[st|st d|st t]|]; [|naive_solver..].
  case_bool_decide; [naive_solver|]. destruct (writable_tree w p); [|naive_solver].
  split; [intros [= <-]; eauto | intros (_&_&_&->); done].
Qed.

(** [os.mkdir] succeeds only where nothing is, and adds a directory there. *)
Lemma os_mkdir_ok w p mode w' u :
  os_mkdir p mode w = (w', Ok u) →
  w_fs w !! p = None ∧ check_create w p = Ok tt ∧
  w' = set_fs w (<[p := FDir (new_stat w (Z.land mode 1023))]> (w_fs w)).
Proof.
  unfold os_mkdir. destruct (w_fs w !! p); [by intros [=]|].
  destruct (check_create w p) as [[]|e]; naive_solver.
Qed.

Lemma os_mkdir_fresh w p mode :
  w_fs w !! p = None → check_create w p = Ok tt →
  os_mkdir p mode w = (set_fs w (<[p := FDir (new_stat w (Z.land mode 1023))]> (w_fs w)), Ok tt).
Proof. intros H1 H2. unfold os_mkdir. by rewrite H1, H2. Qed.

(** When the parent directory exists, [os.makedirs] is one [os.mkdir] with
    mode [0o777], whose error is ignored with [exist_ok] when the path is
    a directory. *)
Lemma os_makedirs_parent_dir p exist_ok w pst :
  p ≠ [] → w_fs w !! parent p = Some (FDir pst) →
  os_makedirs p exist_ok w =
  io_catch (os_mkdir p 511)
    (λ e, match e with
          | OSError _ _ => d ← os_path_isdir p; if exist_ok && d then mret tt else throw e
          | _ => throw e
          end) w.
Proof.
  intros Hp Hpar. destruct (exists_last Hp) as (p'&x&->).
  rewrite parent_snoc in Hpar. unfold os_makedirs. rewrite reverse_snoc. simpl.
  rewrite reverse_involutive.
  unfold mbind at 1, io_bind at 1, os_path_exists, exists_b.
  rewrite (resolve_dir _ _ _ Hpar). simpl. rewrite andb_false_r, io_bind_ret.
  rewrite reverse_cons, reverse_involutive. done.
Qed.

Lemma os_makedirs_strict p w pst :
  p ≠ [] → w_fs w !! parent p = Some (FDir pst) → os_makedirs p false w = os_mkdir p 511 w.
Proof.
  intros Hp Hpar. rewrite (os_makedirs_parent_dir _ _ _ _ Hp Hpar).
  unfold io_catch. by destruct (os_mkdir p 511 w) as [w' [u|[]]].
Qed.

(** [os.chmod] and [os.chown] on a directory. *)
Lemma os_chmod_dir_ok w p mode st w' u :
  w_fs w !! p = Some (FDir st) → os_chmod p mode w = (w', Ok u) →
  w' = set_fs w (<[p := FDir (set_mode mode st)]> (w_fs w)).
Proof.
  intros H. unfold os_chmod. rewrite (resolve_dir _ _ _ H). simpl.
  case_match; naive_solver.
Qed.

Lemma os_chown_dir_ok w p uid gid st w' u :
  w_fs w !! p = Some (FDir st) → os_chown p uid gid w = (w', Ok u) →
  w' = set_fs w (<[p := FDir (set_owner uid gid st)]> (w_fs w)).
Proof.
  intros H. unfold os_chown. rewrite (resolve_dir _ _ _ H). simpl.
  case_match; naive_solver.
Qed.

(** [os.chmod(p, os.lstat(p).st_mode)] keeps the permission bits:
    [chmod] drops the type bits [lstat] adds. *)
Lemma set_mode_lstat_dir m st :
  (0 ≤ m < 4096)%Z → set_mode (Z.lor S_IFDIR m) st = Stat m (st_uid st) (st_gid st).
Proof.
  intros Hm. unfold set_mode. f_equal.
  change S_IMODE_MASK with (Z.ones 12). rewrite Z.land_lor_distr_l, !Z.land_ones by lia.
  change (S_IFDIR mod 2 ^ 12)%Z with 0%Z. rewrite Z.mod_small by (simpl; lia). done.
Qed.

Lemma lookup_filter_subtree (m : gmap path fnode) p q :
  filter (λ kv : path * fnode, ¬ p `prefix_of` kv.1) m !! q =
  if decide (p `prefix_of` q) then None else m !! q.
Proof.
  rewrite map_lookup_filter. destruct (m !! q); simpl; case_decide; simpl;
    [rewrite option_guard_False | rewrite option_guard_True | |]; naive_solver.
Qed.

Lemma can_write_root w st : w_euid w = 0%Z → can_write w st = true.
Proof. intros H. unfold can_write. by rewrite bool_decide_true. Qed.

(** Root may remove any tree whose parent directory exists. *)
Lemma writable_tree_root w p pst :
  w_euid w = 0%Z → w_fs w !! parent p = Some (FDir pst) → writable_tree w p = true.
Proof.
  intros Hr Hp. unfold writable_tree, check_create. rewrite Hp, can_write_root by done. simpl.
  apply forallb_forall. intros [q [st| |]] _; simpl; [|done..].
  by rewrite can_write_root, orb_true_r.
Qed.

Lemma check_create_root w p pst :
  w_euid w = 0%Z → w_fs w !! parent p = Some (FDir pst) → check_create w p = Ok tt.
Proof. intros Hr Hp. unfold check_create. by rewrite Hp, can_write_root. Qed.

(** Root may change the owner and the mode of anything. *)
Lemma os_chown_root_dir w p uid gid st :
  w_euid w = 0%Z → w_fs w !! p = Some (FDir st) →
  os_chown p uid gid w = (set_fs w (<[p := FDir (set_owner uid gid st)]> (w_fs w)), Ok tt).
Proof. intros Hr H. unfold os_chown. rewrite (resolve_dir _ _ _ H). simpl. by rewrite bool_decide_true. Qed.

Lemma os_chmod_root_dir w p mode st :
  w_euid w = 0%Z → w_fs w !! p = Some (FDir st) →
  os_chmod p mode w = (set_fs w (<[p := FDir (set_mode mode st)]> (w_fs w)), Ok tt).
Proof. intros Hr H. unfold os_chmod. rewrite (resolve_dir _ _ _ H). simpl. by rewrite bool_decide_true. Qed.

(** Two paths that part at some component head disjoint subtrees. *)
Lemma prefix_diverge (l : path) a b x y q :
  a ≠ b → l ++ a :: x `prefix_of` q → l ++ b :: y `prefix_of` q → False.
Proof.
  intros Hab H1 H2. destruct (prefix_weak_total _ _ _ H1 H2) as [H|H];
    apply prefix_app_inv, prefix_cons_inv_1 in H; congruence.
Qed.

Lemma parent_app (l d : path) : d ≠ [] → parent (l ++ d) = l ++ parent d.
Proof. intros Hd. destruct (exists_last Hd) as (d'&x&->). by rewrite app_assoc, !parent_snoc. Qed.

Lemma set_fs_set_fs w m1 m2 : set_fs (set_fs w m1) m2 = set_fs w m2.
Proof. done. Qed.

(** [os.makedirs(p, exist_ok=True)] where the parent directory exists:
    run as root it creates [p] or leaves the directory [p] as it is. *)
Lemma os_makedirs_exist_ok_root w p pst :
  w_euid w = 0%Z → p ≠ [] → w_fs w !! parent p = Some (FDir pst) →
  (w_fs w !! p = None ∨ ∃ s, w_fs w !! p = Some (FDir s)) →
  ∃ s, os_makedirs p true w = (set_fs w (<[p := FDir s]> (w_fs w)), Ok tt).
Proof.
  intros Hr Hp Hpar Hex. rewrite (os_makedirs_parent_dir _ _ _ _ Hp Hpar). unfold io_catch.
  destruct Hex as [Hn|[s Hs]].
  - rewrite (os_mkdir_fresh _ _ _ Hn (check_create_root _ _ _ Hr Hpar)). eauto.
  - exists s. unfold os_mkdir. rewrite Hs. simpl.
    unfold mbind, io_bind, os_path_isdir, isdir_b. rewrite (resolve_dir _ _ _ Hs). simpl.
    unfold set_fs. rewrite insert_id by done. by destruct w.
Qed.

(** [os.mkdir] in a directory the process may not write to. *)
Lemma os_makedirs_denied w p pst :
  p ≠ [] → w_fs w !! parent p = Some (FDir pst) → can_write w pst = false →
  w_fs w !! p = None →
  os_makedirs p true w = (w, Err (OSError EACCES (render_path p))).
Proof.
  intros Hp Hpar Hw Hn. rewrite (os_makedirs_parent_dir _ _ _ _ Hp Hpar). unfold io_catch, os_mkdir.
  rewrite Hn. unfold check_create. rewrite Hpar, Hw. simpl.
  unfold mbind, io_bind, os_path_isdir, isdir_b, resolve, max_symlinks. simpl. by rewrite Hn.
Qed.

Lemma check_create_oserror w p e : check_create w p = Err e → ∃ n q, e = OSError n q.
Proof. unfold check_create. repeat case_match; intros [=]; eauto. Qed.

Lemma resolve_none m p : m !! p = None → resolve m p = Err (OSError ENOENT (render_path p)).
Proof. intros H. unfold resolve, max_symlinks. simpl. by rewrite H. Qed.

Lemma resolve_file m p st d : m !! p = Some (FFile st d) → resolve m p = Ok (p, FFile st d).
Proof. intros H. unfold resolve, max_symlinks. simpl. by rewrite H. Qed.

Lemma create_target_none n m p : m !! p = None → create_target n m p = p.
Proof. intros H. destruct n; simpl; by rewrite H. Qed.

(** [open(p, "w+").write(data)] run as root where the parent directory
    exists and [p] is a regular file or nothing: [p] holds [data]. *)
Lemma write_file_root w p data pst :
  w_euid w = 0%Z → w_fs w !! parent p = Some (FDir pst) →
  (w_fs w !! p = None ∨ ∃ st d, w_fs w !! p = Some (FFile st d)) →
  ∃ st, write_file p data w = (set_fs w (<[p := FFile st data]> (w_fs w)), Ok tt).
Proof.
  intros Hr Hpar [Hn|(st&d&Hf)]; unfold write_file.
  - rewrite (resolve_none _ _ Hn), (create_target_none _ _ _ Hn), (check_create_root _ _ _ Hr Hpar).
    eauto.
  - rewrite (resolve_file _ _ _ _ Hf), can_write_root by done. eauto.
Qed.

(** Root creates a link where nothing is, in an existing directory. *)
Lemma os_symlink_root w t p pst :
  w_euid w = 0%Z → w_fs w !! p = None → w_fs w !! parent p = Some (FDir pst) →
  os_symlink t p w = (set_fs w (<[p := FLink (new_stat w 511) t]> (w_fs w)), Ok tt).
Proof. intros Hr Hn Hpar. unfold os_symlink. by rewrite Hn, (check_create_root _ _ _ Hr Hpar). Qed.

(** Root copies a regular file to the path [shutil.copy2] picks (into a
    directory [dst] under the source's name, else onto [dst]) when that
    path is a regular file or missing in an existing directory: the
    contents, then the permission bits. *)
Lemma shutil_copy2_root_at w src dst sst data pst :
  let dst' := if isdir_b w dst then dst ++ [last_component src] else dst in
  w_euid w = 0%Z → w_fs w !! src = Some (FFile sst data) →
  w_fs w !! parent dst' = Some (FDir pst) →
  (w_fs w !! dst' = None ∨ ∃ st d, w_fs w !! dst' = Some (FFile st d)) → dst' ≠ src →
  ∃ st, shutil_copy2 src dst w =
        (set_fs w (<[dst' := FFile (set_mode (st_mode sst) st) data]> (w_fs w)), Ok tt).
Proof.
  intros dst' Hr Hsrc Hpar Hdst Hne.
  assert (Hq : bool_decide ((match resolve (w_fs w) dst' with Ok (q, _) => Some q | Err _ => None end)
                            = Some src) = false).
  { apply bool_decide_eq_false. destruct Hdst as [Hn|(st&d&Hf)];
      [rewrite resolve_none by done|rewrite (resolve_file _ _ _ _ Hf)]; congruence. }
  destruct (write_file_root w dst' data pst Hr Hpar Hdst) as [st Hw].
  exists st. unfold shutil_copy2, mbind, io_bind, os_path_isdir. cbn beta iota zeta.
  change (if isdir_b w dst then dst ++ [last_component src] else dst) with dst'.
  unfold read_regular, resolved_path.
  rewrite (resolve_file _ _ _ _ Hsrc), Hq, Hw. unfold os_chmod. cbn [set_fs w_fs].
  rewrite (resolve_file _ _ st data) by apply lookup_insert_eq.
  rewrite bool_decide_true by done. cbn [set_fs w_fs]. by rewrite insert_insert_eq.
Qed.

(** Onto a regular file or a missing path. *)
Lemma shutil_copy2_root w src dst sst data pst :
  w_euid w = 0%Z → w_fs w !! src = Some (FFile sst data) →
  w_fs w !! parent dst = Some (FDir pst) →
  (w_fs w !! dst = None ∨ ∃ st d, w_fs w !! dst = Some (FFile st d)) → dst ≠ src →
  ∃ st, shutil_copy2 src dst w =
        (set_fs w (<[dst := FFile (set_mode (st_mode sst) st) data]> (w_fs w)), Ok tt).
Proof.
  intros Hr Hsrc Hpar Hdst Hne.
  assert (Hd : isdir_b w dst = false).
  { unfold isdir_b. destruct Hdst as [Hn|(st&d&Hf)]; [by rewrite resolve_none|by rewrite (resolve_file _ _ _ _ Hf)]. }
  pose proof (shutil_copy2_root_at w src dst sst data pst) as H. cbv zeta in H. rewrite Hd in H. auto.
Qed.

(** Into an existing directory, under the source's name. *)
Lemma shutil_copy2_into_root w src dir sst data dst :
  w_euid w = 0%Z → w_fs w !! src = Some (FFile sst data) →
  w_fs w !! dir = Some (FDir dst) →
  (w_fs w !! (dir ++ [last_component src]) = None ∨
   ∃ st d, w_fs w !! (dir ++ [last_component src]) = Some (FFile st d)) →
  dir ++ [last_component src] ≠ src →
  ∃ st, shutil_copy2 src dir w =
        (set_fs w (<[dir ++ [last_component src] := FFile (set_mode (st_mode sst) st) data]> (w_fs w)),
         Ok tt).
Proof.
  intros Hr Hsrc Hdir Hdst Hne.
  assert (Hd : isdir_b w dir = true) by (unfold isdir_b; by rewrite (resolve_dir _ _ _ Hdir)).
  pose proof (shutil_copy2_root_at w src dir sst data dst) as H. cbv zeta in H. rewrite Hd in H.
  apply H; [done|done|by rewrite parent_snoc|done|done].
Qed.
