(* ===== verification/Setup.v ===== *)
(** * The packaging script [src/package/setup.py] and the schema search

    [setup.py] is one call of [setuptools.setup]: the version comes from
    [BOLT_DISTRO_TOOLS_VERSION] (default ["0.0.0"]), the packages live under
    [lib], and the package data of [boltlinux.package.boltpack] ships the
    RELAX NG schema [relaxng/package.rng.xml] next to the module.
    [setup_call] is that call as a record, [installed_files] where
    setuptools puts the package data (below the site directory) and the
    data files (below the prefix).

    [Specfile.RELAXNG_SCHEMA_SEARCH_PATH] starts with [schema_entry]: the
    normalised path four levels above the directory of [specfile.py].  In a
    source checkout that is [package/relaxng/package.rng.xml]
    ([schema_entry_checkout]); in an installation it is
    [<parent of site>/relaxng/package.rng.xml], where setuptools put
    nothing.  [installed_schema_not_found] composes the two: on a host
    whose only files are those of the installation, [validate_structure]
    raises [RuntimeError], the schema shipped by [setup.py] being on no
    entry of the search path. *)

From S2P Require Import Prelude PyStr XmlDoc Specfile SysFs.

(** ** [setup.py] *)

(** [VERSION = os.environ.get("BOLT_DISTRO_TOOLS_VERSION", "0.0.0")] *)
Definition VERSION (environ : gmap string string) : string :=
  default "0.0.0" (environ !! "BOLT_DISTRO_TOOLS_VERSION").

(** The keyword arguments of [setup(...)]; dicts as association lists in
    the order written. *)
Record setup_args : Type := SetupArgs {
  s_name : string;
  s_version : string;
  s_url : string;
  s_author : string;
  s_author_email : string;
  s_license : string;
  s_packages : list string;
  s_data_files : list (string * list string);
  s_package_data : list (string * list string);
  s_package_dir : list (string * string);
  s_platforms : list string;
  s_classifiers : list string;
  s_keywords : string;
  s_description : string;
  s_long_description : string
}.

Definition setup_call (environ : gmap string string) : setup_args := {|
  s_name := "bolt-package";
  s_version := VERSION environ;
  s_url := "https://github.com/boltlinux/bolt-distro-tools";
  s_author := "Tobias Koch";
  s_author_email := "tobias.koch@gmail.com";
  s_license := "MIT";
  s_packages := ["boltlinux.package"; "boltlinux.package.boltpack"; "boltlinux.package.deb2bolt"];
  s_data_files := [("bin", ["bin/bolt-pack"; "bin/deb2bolt"])];
  s_package_data := [("boltlinux.package.boltpack",
                      ["helpers/python.sh"; "helpers/arch.sh"; "relaxng/package.rng.xml"])];
  s_package_dir := [("", "lib")];
  s_platforms := ["Linux"];
  s_classifiers := ["Development Status :: 5 - Production/Stable";
                    "Intended Audience :: Developers";
                    "Topic :: Software Development :: Build Tools";
                    "License :: OSI Approved :: MIT License";
                    "Programming Language :: Python :: 3"];
  s_keywords := "Bolt Linux packaging development";
  s_description := "Bolt Linux packaging scripts and tools";
  s_long_description := "Bolt Linux packaging scripts and tools"
|}.

(** ** The installation *)

(** The directory of a package below the site directory. *)
Definition package_path (pkg : string) : path := py_split "."%char pkg.

(** What setuptools installs: the package data of each listed package
    below [site], each data file in its directory below [prefix]. *)
Definition installed_files (site prefix : path) (a : setup_args) : list path :=
  (s_package_data a ≫= λ '(pkg, files),
     if bool_decide (pkg ∈ s_packages a)
     then (λ f, site ++ package_path pkg ++ py_split slash f) <$> files else []) ++
  (s_data_files a ≫= λ '(dir, files),
     (λ f, prefix ++ py_split slash dir ++ [os_path_basename f]) <$> files).

(** ** The first entry of [RELAXNG_SCHEMA_SEARCH_PATH] *)

(** [os.path.normpath(os.path.join(os.path.dirname(os.path.realpath(__file__)),
    "..", "..", "..", "..", "relaxng", "package.rng.xml"))], given the
    resolved directory of [specfile.py]. *)
Definition schema_entry (module_dir : path) : path :=
  normalize_go [] (module_dir ++ [".."; ".."; ".."; ".."; "relaxng"; "package.rng.xml"]).

(** A component of a resolved path: not empty, not [.] or [..], no [/]. *)
Definition plain (c : string) : bool :=
  negb (String.eqb c "") && negb (String.eqb c ".") && negb (String.eqb c "..") &&
  str_all (λ d, negb (bool_decide (d = slash))) c.

Definition plain_path (p : path) : Prop := Forall (λ c, plain c = true) p.

#[export] Instance plain_path_dec p : Decision (plain_path p).
Proof. unfold plain_path. apply _. Defined.

(** The host of an installation: the files are those [setup.py] installed,
    [specfile.py] sits in the directory of its package below [site]. *)
Definition installed_host (environ : gmap string string) (site prefix : path)
    (parse : string → string + xnode) (rng : string → xnode → list rng_error)
    (ser : xnode → string) : SpecHost := {|
  path_exists := λ s, existsb (λ p, String.eqb (render_path p) s)
                              (installed_files site prefix (setup_call environ));
  parse_spec := parse;
  relaxng_errors := rng;
  package_schema_path :=
    render_path (schema_entry (site ++ package_path "boltlinux.package.boltpack"));
  spec_serializer := ser
|}.

(** ** Paths *)

Lemma normalize_go_app acc cs1 cs2 :
  normalize_go acc (cs1 ++ cs2) = normalize_go (normalize_go acc cs1) cs2.
Proof. revert acc. induction cs1 as [|c cs1 IH]; intros acc; simpl; [done|]. by case_match; [|case_match]. Qed.

Lemma normalize_go_plain acc cs : plain_path cs → normalize_go acc cs = acc ++ cs.
Proof.
  intros Hcs. revert acc. induction Hcs as [|c cs Hc _ IH]; intros acc; simpl; [by rewrite app_nil_r|].
  unfold plain in Hc. destruct (String.eqb c "..") , (String.eqb c "."), (String.eqb c "");
    simpl in Hc |- *; try done. by rewrite IH, <-app_assoc.
Qed.

Lemma parent_length p : length (parent p) ≤ length p.
Proof. unfold parent. rewrite length_take. lia. Qed.

(** Four levels up from the package directory, below any site directory. *)
Lemma schema_entry_site site :
  plain_path site →
  schema_entry (site ++ ["boltlinux"; "package"; "boltpack"]) = parent site ++ ["relaxng"; "package.rng.xml"].
Proof.
  intros Hsite. unfold schema_entry.
  rewrite <-(app_assoc site), (normalize_go_app [] site), (normalize_go_plain [] site Hsite).
  rewrite app_nil_l. cbn -[parent].
  rewrite !parent_snoc. by rewrite <-app_assoc.
Qed.

(** In a source checkout, [package/lib/boltlinux/package/boltpack],
    the first entry of the search path is [package/relaxng/package.rng.xml]
    of the same checkout. *)
Theorem schema_entry_checkout root :
  plain_path root →
  schema_entry (root ++ ["package"; "lib"] ++ package_path "boltlinux.package.boltpack") =
  root ++ ["package"; "relaxng"; "package.rng.xml"].
Proof.
  intros Hroot. change (package_path "boltlinux.package.boltpack") with ["boltlinux"; "package"; "boltpack"].
  rewrite app_assoc, schema_entry_site.
  - change ["package"; "lib"] with (["package"] ++ ["lib"]).
    rewrite app_assoc, parent_snoc. by rewrite <-app_assoc.
  - apply Forall_app. split; [done|]. repeat constructor.
Qed.

(** The rendered path determines the path, for plain components. *)
Lemma render_path_inj p q :
  plain_path p → plain_path q → p ≠ [] → q ≠ [] → render_path p = render_path q → p = q.
Proof.
  intros Hp Hq Hp0 Hq0 H.
  assert (H' : py_join "/" p = py_join "/" q) by (unfold render_path in H; by injection H).
  assert (Hsplit : ∀ r, plain_path r → r ≠ [] → py_split slash (py_join "/" r) = r).
  { intros r Hr Hr0. apply py_split_join; [|done].
    eapply Forall_impl; [exact Hr|]. intros c Hc. unfold plain in Hc.
    by apply andb_prop in Hc as [_ Hc]. }
  transitivity (py_split slash (py_join "/" p)); [by rewrite Hsplit|].
  rewrite H'. by apply Hsplit.
Qed.

Lemma installed_files_eq environ site prefix :
  installed_files site prefix (setup_call environ) =
  [site ++ ["boltlinux"; "package"; "boltpack"; "helpers"; "python.sh"];
   site ++ ["boltlinux"; "package"; "boltpack"; "helpers"; "arch.sh"];
   site ++ ["boltlinux"; "package"; "boltpack"; "relaxng"; "package.rng.xml"];
   prefix ++ ["bin"; "bolt-pack"];
   prefix ++ ["bin"; "deb2bolt"]].
Proof. reflexivity. Qed.

Lemma plain_path_app p q : plain_path p → plain_path q → plain_path (p ++ q).
Proof. intros. by apply Forall_app. Qed.

Lemma plain_path_parent p : plain_path p → plain_path (parent p).
Proof. intros Hp. unfold parent. by apply Forall_take. Qed.

Lemma app_ne_nil_r (p q : path) : q ≠ [] → p ++ q ≠ [].
Proof. intros Hq H. by apply app_eq_nil in H as [_ ?]. Qed.

#[local] Hint Resolve plain_path_app plain_path_parent app_ne_nil_r : bolt.

(** A path with a plain last part that is none of the installed files does
    not exist on the host of the installation. *)
Lemma installed_exists_false environ site prefix e :
  plain_path site → plain_path prefix → plain_path e → e ≠ [] →
  e ∉ installed_files site prefix (setup_call environ) →
  existsb (λ p, String.eqb (render_path p) (render_path e))
          (installed_files site prefix (setup_call environ)) = false.
Proof.
  intros Hs Hp He He0 Hnot. apply not_true_iff_false. rewrite existsb_exists.
  intros (p&Hin&Heq%String.eqb_eq). apply Hnot.
  enough (p = e) as <- by (by apply list_elem_of_In).
  rewrite installed_files_eq in Hin. simpl in Hin.
  repeat destruct Hin as [<-|Hin]; try done;
    (apply render_path_inj; [apply plain_path_app; [done|repeat constructor]|done|
                             apply app_ne_nil_r; done|done|done]).
Qed.

(** Two different paths, seen from their last components or their lengths. *)
Ltac path_neq H :=
  first [ apply (f_equal reverse) in H; rewrite ?reverse_app in H; unfold reverse in H; simpl in H;
          congruence
        | apply (f_equal length) in H; rewrite ?length_app in H; simpl in H;
          match type of H with context [length (parent ?s)] => pose proof (parent_length s) end;
          lia ].

Lemma schema_entry_not_installed environ site prefix :
  plain_path site →
  parent site ++ ["relaxng"; "package.rng.xml"] ∉ installed_files site prefix (setup_call environ).
Proof.
  intros Hs. rewrite installed_files_eq, !elem_of_cons, elem_of_nil.
  intros [H|[H|[H|[H|[H|[]]]]]]; path_neq H.
Qed.

Lemma fixed_entries_not_installed environ site prefix top :
  top = "usr" ∨ top = "tools" →
  [top; "share"; "bolt-pack"; "relaxng"; "package.rng.xml"] ∉ installed_files site prefix (setup_call environ).
Proof.
  intros [-> | ->]; rewrite installed_files_eq, !elem_of_cons, elem_of_nil;
  intros [H|[H|[H|[H|[H|[]]]]]]; path_neq H.
Qed.

(** C18: An installation made by [setup.py] cannot validate a specification:
    on a host whose only files are the ones [setup.py] installs (below any
    site directory and prefix of plain components), none of the three
    entries of [RELAXNG_SCHEMA_SEARCH_PATH] exists, so [validate_structure]
    raises [RuntimeError("RELAX NG ruleset not found.")] for every
    document.  The schema that [setup.py] ships as package data lies next
    to [specfile.py], where the search path never looks. *)
Theorem installed_schema_not_found environ site prefix parse rng ser doc :
  plain_path site → plain_path prefix →
  @validate_structure (installed_host environ site prefix parse rng ser) doc =
    Err (RuntimeError "RELAX NG ruleset not found.").
Proof.
  intros Hs Hp. unfold validate_structure, relaxng_search_path. cbn [first_existing].
  change (package_path "boltlinux.package.boltpack") with ["boltlinux"; "package"; "boltpack"].
  cbn [path_exists package_schema_path installed_host]. rewrite schema_entry_site by done.
  change "/usr/share/bolt-pack/relaxng/package.rng.xml" with
    (render_path ["usr"; "share"; "bolt-pack"; "relaxng"; "package.rng.xml"]).
  change "/tools/share/bolt-pack/relaxng/package.rng.xml" with
    (render_path ["tools"; "share"; "bolt-pack"; "relaxng"; "package.rng.xml"]).
  rewrite !installed_exists_false; try done;
    solve [apply schema_entry_not_installed; done
          |apply fixed_entries_not_installed; tauto
          |apply plain_path_app; [by apply plain_path_parent|repeat constructor]
          |apply app_ne_nil_r; done
          |repeat constructor].
Qed.

(** ** Witnesses *)

Definition dist_packages : path := ["usr"; "lib"; "python3"; "dist-packages"].

Lemma schema_entry_checkout_witness :
  plain_path ["home"; "builder"; "distro-tools"] ∧
  schema_entry (["home"; "builder"; "distro-tools"] ++ ["package"; "lib"] ++
                package_path "boltlinux.package.boltpack") =
  ["home"; "builder"; "distro-tools"] ++ ["package"; "relaxng"; "package.rng.xml"].
Proof.
  assert (H : plain_path ["home"; "builder"; "distro-tools"])
    by (apply (bool_decide_unpack _); vm_compute; reflexivity).
  split; [exact H | apply schema_entry_checkout; exact H].
Defined.

Lemma installed_schema_not_found_witness :
  plain_path dist_packages ∧ plain_path ["usr"] ∧
  @path_exists (installed_host ∅ dist_packages ["usr"] (λ _, inr sample_doc) (λ _ _, []) (λ _, ""))
    "/usr/lib/python3/dist-packages/boltlinux/package/boltpack/relaxng/package.rng.xml" = true ∧
  @validate_structure (installed_host ∅ dist_packages ["usr"] (λ _, inr sample_doc) (λ _ _, []) (λ _, ""))
    sample_doc = Err (RuntimeError "RELAX NG ruleset not found.").
Proof.
  assert (H1 : plain_path dist_packages) by (apply (bool_decide_unpack _); vm_compute; reflexivity).
  assert (H2 : plain_path ["usr"]) by (apply (bool_decide_unpack _); vm_compute; reflexivity).
  split; [exact H1|]. split; [exact H2|]. split; [vm_compute; reflexivity|].
  apply installed_schema_not_found; [exact H1|exact H2].
Defined.
