(* ===== verification/FsWf.v ===== *)
(** * The well-formedness of the file system, and the calls that keep it

    A file system is well formed ([fs_wf]) when it is a tree rooted at a
    directory (every entry other than [/] sits in a directory of the map)
    and every permission mode fits the twelve bits [0o7777] that [stat]
    keeps.  [io_invariant P m] says that [m] keeps the property [P] of
    the world, whether it returns or raises: Python does not roll back,
    so the world after an exception counts too.  [io_preserves m] is the
    case of well-formedness; [ids_are] (the effective ids and the umask)
    is the other property every call keeps.

    The section ends with one lemma per call of [SysFs] ([os.mkdir],
    [os.makedirs], [os.chmod], [os.chown], [os.symlink], [open(...).write],
    [os.unlink], [shutil.rmtree], [shutil.copy2], the queries) and the
    rules for [≫=], [io_iter] and [io_catch]; they form the hint database
    [bolt_wf], and [io_wf] proves the invariant of a composed method by
    unfolding it down to these calls. *)

From S2P Require Import Prelude PyStr SysFs.

Definition is_dir (n : fnode) : bool := match n with FDir _ => true | _ => false end.

Definition mode_ok (n : fnode) : Prop := (0 ≤ st_mode (node_stat n) < 4096)%Z.

Definition fs_wf (m : gmap path fnode) : Prop :=
  (∃ st, m !! [] = Some (FDir st)) ∧
  (∀ p n, m !! p = Some n → p ≠ [] → ∃ st, m !! parent p = Some (FDir st)) ∧
  (∀ p n, m !! p = Some n → mode_ok n).

Definition world_wf (w : world) : Prop := fs_wf (w_fs w).

(** [m] keeps the property [P] of the world, whether it returns or raises. *)
Definition io_invariant (P : world → Prop) {A} (m : io A) : Prop := ∀ w, P w → P (fst (m w)).

(** [m] keeps the well-formedness of the file system. *)
Abbreviation io_preserves := (io_invariant world_wf).

Create HintDb bolt_wf discriminated.

(** The invariant, decided entry by entry. *)
Definition dir_at (m : gmap path fnode) (p : path) : bool :=
  match m !! p with Some (FDir _) => true | _ => false end.

Definition fs_wf_b (m : gmap path fnode) : bool :=
  dir_at m [] &&
  forallb (λ kv : path * fnode,
             (bool_decide (kv.1 = []) || dir_at m (parent kv.1)) &&
             bool_decide (0 ≤ st_mode (node_stat kv.2) < 4096)%Z)
          (map_to_list m).

Lemma dir_at_spec m p : dir_at m p = true ↔ ∃ st, m !! p = Some (FDir st).
Proof. unfold dir_at. destruct (m !! p) as [[]|]; naive_solver. Qed.

Lemma fs_wf_b_spec m : fs_wf_b m = true ↔ fs_wf m.
Proof.
  unfold fs_wf_b, fs_wf, mode_ok. rewrite andb_true_iff, dir_at_spec, forallb_forall.
  setoid_rewrite andb_true_iff. setoid_rewrite orb_true_iff.
  setoid_rewrite dir_at_spec. setoid_rewrite bool_decide_eq_true.
  split.
  - intros [Hr Hall].
    assert (∀ p n, m !! p = Some n →
              (p = [] ∨ ∃ st, m !! parent p = Some (FDir st)) ∧
              (0 ≤ st_mode (node_stat n) < 4096)%Z) as Hpn.
    { intros p n Hp. apply (Hall (p, n)). by rewrite <-list_elem_of_In, elem_of_map_to_list. }
    split_and!; [done| |]; intros p n Hp; [intros Hne|]; destruct (Hpn p n Hp) as [[]]; done.
  - intros (Hr&Htree&Hmodes). split; [done|]. intros [p n] Hpn.
    rewrite <-list_elem_of_In, elem_of_map_to_list in Hpn. simpl.
    split; [destruct (decide (p = [])); [by left|right; eauto]|eauto].
Qed.

#[export] Instance fs_wf_dec m : Decision (fs_wf m).
Proof. destruct (fs_wf_b m) eqn:E; [left|right]; rewrite <-fs_wf_b_spec; congruence. Defined.

#[export] Instance world_wf_dec w : Decision (world_wf w) := fs_wf_dec (w_fs w).

(** ** Modes *)

Lemma land_bounded a b n :
  (0 ≤ n)%Z → (0 ≤ a < 2 ^ n)%Z → (0 ≤ Z.land a b < 2 ^ n)%Z.
Proof.
  intros Hn Ha. rewrite <-(Z.mod_small a (2 ^ n)) by done.
  rewrite <-Z.land_ones by done. rewrite <-Z.land_assoc, (Z.land_comm (Z.ones n)), Z.land_assoc.
  rewrite Z.land_ones by done. apply Z.mod_pos_bound. lia.
Qed.

Lemma new_stat_mode_ok w mode : (0 ≤ mode < 4096)%Z → (0 ≤ st_mode (new_stat w mode) < 4096)%Z.
Proof. intros H. apply (land_bounded _ _ 12); [lia | done]. Qed.

Lemma land_mask_bound mode k : (0 ≤ k)%Z → (0 ≤ Z.land mode (Z.ones k) < 2 ^ k)%Z.
Proof. intros Hk. rewrite Z.land_ones by done. apply Z.mod_pos_bound. lia. Qed.

Lemma set_mode_ok mode st : (0 ≤ st_mode (set_mode mode st) < 4096)%Z.
Proof. apply (land_mask_bound mode 12). lia. Qed.

(** ** Changing one entry *)

Lemma parent_prefix p : parent p `prefix_of` p.
Proof. apply prefix_take. Qed.

Lemma parent_ne p : p ≠ [] → parent p ≠ p.
Proof. intros Hp Heq. apply (not_prefix_parent p Hp). rewrite Heq. done. Qed.

Lemma fs_wf_insert m p n :
  fs_wf m → mode_ok n →
  (p = [] → is_dir n = true) →
  (p ≠ [] → ∃ st, m !! parent p = Some (FDir st)) →
  (∀ x, m !! p = Some x → is_dir x = true → is_dir n = true) →
  fs_wf (<[p := n]> m).
Proof.
  intros ([st0 Hroot]&Htree&Hmodes) Hn Hroot' Hpar Hdir. split_and!.
  - destruct (decide (p = [])) as [->|Hp].
    + rewrite lookup_insert_eq. destruct n; [eauto|by specialize (Hroot' eq_refl)..].
    + rewrite lookup_insert_ne by congruence. eauto.
  - intros q x Hq Hqne. destruct (decide (p = q)) as [<-|Hpq].
    + destruct (Hpar Hqne) as [st Hst]. exists st. rewrite lookup_insert_ne; [done|].
      intros Heq. apply (parent_ne p Hqne). done.
    + rewrite lookup_insert_ne in Hq by done. destruct (Htree q x Hq Hqne) as [st Hst].
      destruct (decide (p = parent q)) as [Hpp|Hpp].
      * subst p. rewrite lookup_insert_eq.
        specialize (Hdir _ Hst eq_refl). destruct n; [eauto|done..].
      * rewrite lookup_insert_ne by done. eauto.
  - intros q x Hq. destruct (decide (p = q)) as [<-|Hpq].
    + rewrite lookup_insert_eq in Hq. by injection Hq as <-.
    + rewrite lookup_insert_ne in Hq by done. eauto.
Qed.

Lemma fs_wf_delete m p :
  fs_wf m → p ≠ [] → (∀ x, m !! p = Some x → is_dir x = false) → fs_wf (delete p m).
Proof.
  intros ([st0 Hroot]&Htree&Hmodes) Hp Hnd. split_and!.
  - rewrite lookup_delete_ne by congruence. eauto.
  - intros q x Hq Hqne. rewrite lookup_delete_Some in Hq. destruct Hq as [Hpq Hq].
    destruct (Htree q x Hq Hqne) as [st Hst]. exists st.
    rewrite lookup_delete_ne; [done|]. intros ->. by specialize (Hnd _ Hst).
  - intros q x Hq. rewrite lookup_delete_Some in Hq. destruct Hq as [_ Hq]. eauto.
Qed.

Lemma fs_wf_filter_subtree m p :
  fs_wf m → p ≠ [] → fs_wf (filter (λ kv : path * fnode, ¬ p `prefix_of` kv.1) m).
Proof.
  intros ([st0 Hroot]&Htree&Hmodes) Hp. split_and!.
  - exists st0. rewrite lookup_filter_subtree, decide_False; [done|].
    intros Hpre. apply Hp. by apply prefix_nil_inv.
  - intros q x Hq Hqne. rewrite lookup_filter_subtree in Hq.
    case_decide as Hpq; [done|]. destruct (Htree q x Hq Hqne) as [st Hst]. exists st.
    rewrite lookup_filter_subtree, decide_False; [done|].
    intros Hpre. apply Hpq. etrans; [exact Hpre|apply parent_prefix].
  - intros q x Hq. rewrite lookup_filter_subtree in Hq. case_decide; [done|]. eauto.
Qed.

(** A change of one entry that keeps its kind, and the creation of a new
    entry where [check_create] allows it. *)
Lemma fs_wf_update m p n n' :
  fs_wf m → m !! p = Some n → mode_ok n' → is_dir n' = is_dir n → fs_wf (<[p := n']> m).
Proof.
  intros Hwf Hp Hn Hd. pose proof Hwf as ([st0 Hroot]&Htree&_). apply fs_wf_insert; [done..| | |].
  - intros ->. rewrite Hroot in Hp. injection Hp as <-. by rewrite Hd.
  - intros Hne. eauto.
  - intros x Hx. rewrite Hp in Hx. injection Hx as <-. by rewrite Hd.
Qed.

Lemma fs_wf_create w p n u :
  fs_wf (w_fs w) → w_fs w !! p = None → check_create w p = Ok u → mode_ok n →
  fs_wf (<[p := n]> (w_fs w)).
Proof.
  intros Hwf Hp Hc Hn. pose proof Hwf as ([st0 Hroot]&_). unfold check_create in Hc.
  apply fs_wf_insert; [done..| | |].
  - intros ->. congruence.
  - intros _. destruct (w_fs w !! parent p) as [[]|]; [eauto|done..].
  - intros x Hx. congruence.
Qed.

Lemma follow_lookup n m p q x : follow n m p = Ok (q, x) → m !! q = Some x.
Proof.
  revert p; induction n as [|n IH]; intros p; simpl;
    destruct (m !! p) as [[]|] eqn:E; intros H; simplify_eq; eauto.
Qed.

Lemma follow_enoent n m p s :
  follow n m p = Err (OSError ENOENT s) → m !! create_target n m p = None.
Proof.
  revert p; induction n as [|n IH]; intros p; simpl;
    destruct (m !! p) as [[]|] eqn:E; intros H; simplify_eq; eauto.
Qed.

Lemma is_dir_update f n : is_dir (update_stat f n) = is_dir n.
Proof. by destruct n. Qed.

Lemma node_stat_update f n : node_stat (update_stat f n) = f (node_stat n).
Proof. by destruct n. Qed.

(** ** The combinators *)

Section Combinators.
Context (P : world → Prop).

Lemma io_invariant_ret {A} (a : A) : io_invariant P (mret a).
Proof. intros w Hw. done. Qed.

Lemma io_invariant_throw {A} e : io_invariant P (throw (A:=A) e).
Proof. intros w Hw. done. Qed.

Lemma io_invariant_of {A} (r : res A) : io_invariant P (io_of r).
Proof. intros w Hw. done. Qed.

Lemma io_invariant_get_world : io_invariant P get_world.
Proof. intros w Hw. done. Qed.

Lemma io_invariant_bind {A B} (m : io A) (f : A → io B) :
  io_invariant P m → (∀ a, io_invariant P (f a)) → io_invariant P (m ≫= f).
Proof.
  intros Hm Hf w Hw. unfold mbind, io_bind. specialize (Hm w Hw).
  destruct (m w) as [w' [a|e]]; [apply Hf|]; done.
Qed.

Lemma io_invariant_catch {A} (m : io A) (h : exn → io A) :
  io_invariant P m → (∀ e, io_invariant P (h e)) → io_invariant P (io_catch m h).
Proof.
  intros Hm Hh w Hw. unfold io_catch. specialize (Hm w Hw).
  destruct (m w) as [w' [a|e]]; [|apply Hh]; done.
Qed.

Lemma io_invariant_iter {A} (f : A → io unit) l :
  (∀ x, io_invariant P (f x)) → io_invariant P (io_iter f l).
Proof.
  intros Hf. induction l as [|x l IH]; simpl; [apply io_invariant_ret|].
  by apply io_invariant_bind.
Qed.

End Combinators.

Lemma io_preserves_log_info msg : io_preserves (log_info msg).
Proof. intros w Hw. done. Qed.

(** A query leaves the file system as it is. *)
Lemma io_preserves_query {A} (m : io A) : (∀ w, w_fs (fst (m w)) = w_fs w) → io_preserves m.
Proof. intros Hq w Hw. unfold world_wf. by rewrite Hq. Qed.

#[export] Hint Resolve io_invariant_ret io_invariant_throw io_invariant_of
  io_invariant_get_world io_preserves_log_info : bolt_wf.

(** Unfold a composed method down to the calls of the hint database. *)
Ltac io_wf :=
  repeat match goal with
  | |- io_invariant _ (_ ≫= _) => apply io_invariant_bind; [|intros ?; cbv beta zeta]
  | |- io_invariant _ (io_catch _ _) => apply io_invariant_catch; [|intros ?; cbv beta zeta]
  | |- io_invariant _ (io_iter _ _) => apply io_invariant_iter; intros ?; cbv beta zeta
  | |- io_invariant _ (match ?x with _ => _ end) => destruct x
  | |- io_invariant _ (if ?b then _ else _) => destruct b
  | |- io_invariant _ _ => solve [eauto with bolt_wf]
  end.

(** ** The calls *)

Ltac wf_simpl := unfold world_wf; cbn [fst set_fs w_fs].

Lemma fs_wf_mode m p n : fs_wf m → m !! p = Some n → mode_ok n.
Proof. intros (_&_&Hmodes) Hp. eauto. Qed.

Lemma new_stat_ok w mode : (0 ≤ mode < 4096)%Z → ∀ d, mode_ok (FFile (new_stat w mode) d).
Proof. intros H d. by apply new_stat_mode_ok. Qed.

Lemma os_mkdir_wf p mode : io_preserves (os_mkdir p mode).
Proof.
  intros w Hw. unfold os_mkdir.
  destruct (w_fs w !! p) eqn:E; [exact Hw|]. destruct (check_create w p) eqn:C; [|exact Hw].
  wf_simpl. eapply fs_wf_create; [done|done|exact C|]. apply new_stat_mode_ok.
  pose proof (land_mask_bound mode 10). change 1023%Z with (Z.ones 10). lia.
Qed.

Lemma os_symlink_wf t p : io_preserves (os_symlink t p).
Proof.
  intros w Hw. unfold os_symlink.
  destruct (w_fs w !! p) eqn:E; [exact Hw|]. destruct (check_create w p) eqn:C; [|exact Hw].
  wf_simpl. eapply fs_wf_create; [done|done|exact C|]. apply new_stat_mode_ok. lia.
Qed.

Lemma os_chmod_wf p mode : io_preserves (os_chmod p mode).
Proof.
  intros w Hw. unfold os_chmod.
  destruct (resolve (w_fs w) p) as [[q n]|e] eqn:E; [|exact Hw].
  destruct (_ || _); [|exact Hw]. wf_simpl.
  apply (fs_wf_update _ q n); [done|by eapply follow_lookup| |apply is_dir_update].
  unfold mode_ok. rewrite node_stat_update. apply set_mode_ok.
Qed.

Lemma os_chown_wf p uid gid : io_preserves (os_chown p uid gid).
Proof.
  intros w Hw. unfold os_chown.
  destruct (resolve (w_fs w) p) as [[q n]|e] eqn:E; [|exact Hw].
  destruct (_ || _); [|exact Hw]. wf_simpl. apply follow_lookup in E.
  apply (fs_wf_update _ q n); [done..| |apply is_dir_update].
  unfold mode_ok. rewrite node_stat_update. exact (fs_wf_mode _ _ _ Hw E).
Qed.

Lemma write_file_wf p data : io_preserves (write_file p data).
Proof.
  intros w Hw. unfold write_file.
  destruct (resolve (w_fs w) p) as [[q n]|e] eqn:E.
  - destruct n as [st|st d|st t]; [exact Hw| |exact Hw].
    destruct (can_write w st); [|exact Hw]. wf_simpl. apply follow_lookup in E.
    apply (fs_wf_update _ q (FFile st d)); [done..| |done].
    exact (fs_wf_mode _ _ _ Hw E).
  - destruct e as [| | | | | | | |[] s| |]; try exact Hw.
    apply follow_enoent in E. destruct (check_create _ _) eqn:C; [|exact Hw].
    wf_simpl. eapply fs_wf_create; [done|done|exact C|]. apply new_stat_ok. lia.
Qed.

Lemma os_unlink_wf p : io_preserves (os_unlink p).
Proof.
  intros w Hw. unfold os_unlink.
  destruct (w_fs w !! p) as [[st|st d|st t]|] eqn:E; try exact Hw;
    (destruct (check_create w p); [|exact Hw]); wf_simpl;
    (apply fs_wf_delete; [done| |by intros x Hx; simplify_eq]);
    intros ->; destruct Hw as ([st0 Hroot]&_); congruence.
Qed.

Lemma shutil_rmtree_wf p : io_preserves (shutil_rmtree p).
Proof.
  intros w Hw. unfold shutil_rmtree.
  destruct (w_fs w !! p) as [[st|st d|st t]|]; try exact Hw.
  case_bool_decide; [exact Hw|]. destruct (writable_tree w p); [|exact Hw].
  wf_simpl. by apply fs_wf_filter_subtree.
Qed.

Lemma os_lstat_wf p : io_preserves (os_lstat p).
Proof. apply io_preserves_query. intros w. unfold os_lstat. by case_match. Qed.

Lemma os_path_exists_wf p : io_preserves (os_path_exists p).
Proof. by apply io_preserves_query. Qed.

Lemma os_path_isdir_wf p : io_preserves (os_path_isdir p).
Proof. by apply io_preserves_query. Qed.

Lemma read_regular_wf p : io_preserves (read_regular p).
Proof. apply io_preserves_query. intros w. unfold read_regular. by repeat case_match. Qed.

Lemma resolved_path_wf p : io_preserves (resolved_path p).
Proof. by apply io_preserves_query. Qed.

#[export] Hint Resolve os_mkdir_wf os_symlink_wf os_chmod_wf os_chown_wf write_file_wf
  os_unlink_wf shutil_rmtree_wf os_lstat_wf os_path_exists_wf os_path_isdir_wf
  read_regular_wf resolved_path_wf : bolt_wf.

Lemma makedirs_rev_wf rp exist_ok : io_preserves (makedirs_rev rp exist_ok).
Proof. induction rp as [|x rp IH]; simpl; io_wf. Qed.

Lemma os_makedirs_wf p exist_ok : io_preserves (os_makedirs p exist_ok).
Proof. apply makedirs_rev_wf. Qed.

Lemma shutil_copy2_wf src dst : io_preserves (shutil_copy2 src dst).
Proof. unfold shutil_copy2. io_wf. Qed.

#[export] Hint Resolve os_makedirs_wf shutil_copy2_wf : bolt_wf.

(** ** The process identity

    No call of [SysFs] changes the effective user, group or umask of the
    process: they change the file system and the log only.  [io_wf] proves
    the same of a composed method from these hints. *)

Definition ids_are (euid egid umask : Z) (w : world) : Prop :=
  w_euid w = euid ∧ w_egid w = egid ∧ w_umask w = umask.

Ltac ids_call := intros ? ? ? w Hw; repeat (case_match || case_bool_decide); exact Hw.

Lemma os_mkdir_ids p mode : ∀ e g u, io_invariant (ids_are e g u) (os_mkdir p mode).
Proof. unfold os_mkdir. ids_call. Qed.
Lemma os_symlink_ids t p : ∀ e g u, io_invariant (ids_are e g u) (os_symlink t p).
Proof. unfold os_symlink. ids_call. Qed.
Lemma os_chmod_ids p mode : ∀ e g u, io_invariant (ids_are e g u) (os_chmod p mode).
Proof. unfold os_chmod. ids_call. Qed.
Lemma os_chown_ids p uid gid : ∀ e g u, io_invariant (ids_are e g u) (os_chown p uid gid).
Proof. unfold os_chown. ids_call. Qed.
Lemma write_file_ids p data : ∀ e g u, io_invariant (ids_are e g u) (write_file p data).
Proof. unfold write_file. ids_call. Qed.
Lemma os_unlink_ids p : ∀ e g u, io_invariant (ids_are e g u) (os_unlink p).
Proof. unfold os_unlink. ids_call. Qed.
Lemma shutil_rmtree_ids p : ∀ e g u, io_invariant (ids_are e g u) (shutil_rmtree p).
Proof. unfold shutil_rmtree. ids_call. Qed.
Lemma os_lstat_ids p : ∀ e g u, io_invariant (ids_are e g u) (os_lstat p).
Proof. unfold os_lstat. ids_call. Qed.
Lemma os_path_exists_ids p : ∀ e g u, io_invariant (ids_are e g u) (os_path_exists p).
Proof. unfold os_path_exists. ids_call. Qed.
Lemma os_path_isdir_ids p : ∀ e g u, io_invariant (ids_are e g u) (os_path_isdir p).
Proof. unfold os_path_isdir. ids_call. Qed.
Lemma read_regular_ids p : ∀ e g u, io_invariant (ids_are e g u) (read_regular p).
Proof. unfold read_regular. ids_call. Qed.
Lemma resolved_path_ids p : ∀ e g u, io_invariant (ids_are e g u) (resolved_path p).
Proof. unfold resolved_path. ids_call. Qed.
Lemma log_info_ids msg : ∀ e g u, io_invariant (ids_are e g u) (log_info msg).
Proof. unfold log_info. ids_call. Qed.

#[export] Hint Resolve os_mkdir_ids os_symlink_ids os_chmod_ids os_chown_ids write_file_ids
  os_unlink_ids shutil_rmtree_ids os_lstat_ids os_path_exists_ids os_path_isdir_ids
  read_regular_ids resolved_path_ids log_info_ids : bolt_wf.

Lemma os_makedirs_ids p exist_ok : ∀ e g u, io_invariant (ids_are e g u) (os_makedirs p exist_ok).
Proof. intros e g u. unfold os_makedirs. generalize (reverse p). intros rp. induction rp; simpl; io_wf. Qed.

Lemma shutil_copy2_ids src dst : ∀ e g u, io_invariant (ids_are e g u) (shutil_copy2 src dst).
Proof. intros e g u. unfold shutil_copy2. io_wf. Qed.

#[export] Hint Resolve os_makedirs_ids shutil_copy2_ids : bolt_wf.

(** ** The mode bits of [chmod] *)

Lemma set_mode_mod mode st : st_mode (set_mode mode st) = (mode mod 4096)%Z.
Proof. apply (Z.land_ones mode 12). lia. Qed.

(** A successful [os.chmod(p, mode)] stores [mode mod 0o10000] on the
    entry [p] resolves to, a value in [[0, 0o7777]] whatever the integer
    passed. *)
Theorem os_chmod_mode_bounds p mode w w' u :
  os_chmod p mode w = (w', Ok u) →
  ∃ q n, resolve (w_fs w) p = Ok (q, n) ∧
    w_fs w' !! q = Some (update_stat (set_mode mode) n) ∧
    st_mode (node_stat (update_stat (set_mode mode) n)) = (mode mod 4096)%Z ∧
    (0 ≤ mode mod 4096 < 4096)%Z.
Proof.
  unfold os_chmod. destruct (resolve (w_fs w) p) as [[q n]|e] eqn:E; [|done].
  destruct (_ || _); [|done]. intros [= <- _]. exists q, n. split_and!; [done| |..].
  - cbn [set_fs w_fs]. apply lookup_insert_eq.
  - rewrite node_stat_update. apply set_mode_mod.
  - pose proof (Z.mod_pos_bound mode 4096). lia.
  - pose proof (Z.mod_pos_bound mode 4096). lia.
Qed.

(** Changing the stat of an entry does not change where paths lead. *)
Lemma follow_update n m p q x f :
  m !! q = Some x →
  follow n (<[q := update_stat f x]> m) p =
  match follow n m p with
  | Ok (q', y) => Ok (q', if bool_decide (q' = q) then update_stat f y else y)
  | Err e => Err e
  end.
Proof.
  intros Hq. revert p. induction n as [|n IH]; intros p; simpl;
    (destruct (decide (q = p)) as [<-|Hne];
     [rewrite lookup_insert_eq, Hq; destruct x; simpl; rewrite ?bool_decide_true by done; try done
     |rewrite lookup_insert_ne by done; destruct (m !! p) as [[]|]; try done;
      simpl; rewrite bool_decide_false by congruence; done]).
Qed.

(** When [os.makedirs(p, exist_ok=True)] returns, [p] is a directory. *)
Lemma makedirs_rev_isdir rp w w' u :
  makedirs_rev rp true w = (w', Ok u) → isdir_b w' (reverse rp) = true.
Proof.
  assert (Hmk : ∀ p mode w w1, os_mkdir p mode w = (w1, Ok ()) → isdir_b w1 p = true).
  { intros p mode w0 w1. unfold os_mkdir. destruct (w_fs w0 !! p); [done|].
    destruct (check_create w0 p); [|done]. intros [= <-]. unfold isdir_b.
    rewrite (resolve_dir _ _ (new_stat w0 (Z.land mode 1023))); [done|]. apply lookup_insert_eq. }
  assert (Hcatch : ∀ p w0 (h : exn → io unit),
            (∀ e w1 w2, h e w1 = (w2, Ok ()) → isdir_b w2 p = true) →
            io_catch (os_mkdir p 511) h w0 = (w', Ok u) → isdir_b w' p = true).
  { intros p w0 h Hh. unfold io_catch. destruct (os_mkdir p 511 w0) as [w1 [[]|e]] eqn:E.
    - intros [= <-]. by eapply Hmk.
    - destruct u. apply Hh. }
  destruct rp as [|x rhead]; simpl.
  - apply Hcatch. intros e w1 w2. unfold mbind, io_bind, os_path_isdir.
    destruct (isdir_b w1 []) eqn:D; simpl; [by intros [= <-]|done].
  - intros H. apply io_bind_inv in H as [(w1&ex&_&H)|(e&_&?)]; [|done].
    apply io_bind_inv in H as [(w2&[]&_&H)|(e&_&?)]; [|done].
    revert H. apply Hcatch. intros [| | | | | | | |e s| |] w3 w4; try done.
    unfold mbind, io_bind, os_path_isdir.
    destruct (isdir_b w3 _) eqn:D; simpl; [by intros [= <-]|done].
Qed.
