(* ===== verification/Generator.v ===== *)
(** * The image generator: [osimage/generator.py], class [ImageGenerator]

    [generator_init] is [ImageGenerator.__init__] (its fields and the
    [context] the templates are formatted with).  [prepare], [customize]
    and [cleanup] are the three public methods, [io] computations on the
    [world] of [SysFs]; [prepare_environment], [copy_qemu_to_sysroot] and
    [write_config_files] are the helpers.  The collaborators that are not
    under [src/] (the [miscellaneous.platform] helpers, [UserInfo], the
    directive loader [SpecfileParser.load], [Subprocess.run] of [opkg]) are
    the fields of the class [GenHost]; a directive is a [directive] record
    whose [d_apply] is its [apply(sysroot, env=env)] method.  The theorems
    here are those of the environment scoper and the directive loop; those
    on the file system are in [Bootstrap], the pipeline contract in
    [Customize]. *)

From S2P Require Import Prelude PyStr SysFs.

(** ** [str.format] on the templates *)

(** [template.format] with the context as keyword arguments, for templates whose fields are plain names:
    [{name}] is replaced by [ctx[name]] ([KeyError] when missing), [{{] and
    [}}] stand for braces. *)
Fixpoint py_format_go (ctx : gmap string string) (field : option string) (s : string)
    : res string :=
  match s, field with
  | EmptyString, None => Ok ""
  | EmptyString, Some _ => raise (ValueError "expected '}' before end of string")
  | String c s', Some name =>
      if decide (c = "}"%char) then
        match ctx !! name with
        | Some v => r ← py_format_go ctx None s'; Ok (v +:+ r)
        | None => raise (KeyError name)
        end
      else py_format_go ctx (Some (name +:+ String c "")) s'
  | String c s', None =>
      if decide (c = "{"%char) then
        match s' with
        | String d s'' =>
            if decide (d = "{"%char) then r ← py_format_go ctx None s''; Ok (String c r)
            else py_format_go ctx (Some "") s'
        | EmptyString => py_format_go ctx (Some "") s'
        end
      else if decide (c = "}"%char) then
        match s' with
        | String d s'' =>
            if decide (d = "}"%char) then r ← py_format_go ctx None s''; Ok (String c r)
            else raise (ValueError "Single '}' encountered in format string")
        | EmptyString => raise (ValueError "Single '}' encountered in format string")
        end
      else r ← py_format_go ctx None s'; Ok (String c r)
  end.

Definition py_format (template : string) (ctx : gmap string string) : res string :=
  py_format_go ctx None template.

(** The double quote, which the messages of the code contain. *)
Definition dquote : string := String (ascii_of_nat 34) "".

(** ** The class attributes *)

Definition OPKG_OPTIONS_TEMPLATE : string :=
"dest root /

option signature_type usign
option no_install_recommends
option force_removal_of_dependent_packages
option force_postinstall

{opt_check_sig}
".

Definition OPKG_FEEDS_TEMPLATE : string :=
"src/gz main {repo_base}/{release}/core/{arch}/{libc}/main
".

Definition OPKG_ARCH_TEMPLATE : string :=
"arch {arch} 1
arch all 1
".

Definition DIRS_TO_CREATE : list (Z * path) := [
  (493%Z, ["dev"]);                 (** [0o0755] *)
  (493%Z, ["etc"]);
  (493%Z, ["etc"; "opkg"]);
  (493%Z, ["etc"; "opkg"; "usign"]);
  (493%Z, ["proc"]);
  (493%Z, ["run"]);
  (493%Z, ["sys"]);
  (1023%Z, ["tmp"]);                (** [0o1777] *)
  (493%Z, ["usr"]);
  (493%Z, ["usr"; "bin"]);
  (493%Z, ["var"])
].

Definition DIRS_TO_CLEAN : list path := [["tmp"]; ["var"; "tmp"]].

Definition ETC_PASSWD : string :=
"root:x:0:0:root:/root:/bin/sh
daemon:x:1:1:daemon:/usr/sbin:/usr/sbin/nologin
bin:x:2:2:bin:/bin:/usr/sbin/nologin
sys:x:3:3:sys:/dev:/usr/sbin/nologin
sync:x:4:65534:sync:/bin:/bin/sync
games:x:5:60:games:/usr/games:/usr/sbin/nologin
man:x:6:12:man:/var/cache/man:/usr/sbin/nologin
lp:x:7:7:lp:/var/spool/lpd:/usr/sbin/nologin
mail:x:8:8:mail:/var/mail:/usr/sbin/nologin
news:x:9:9:news:/var/spool/news:/usr/sbin/nologin
uucp:x:10:10:uucp:/var/spool/uucp:/usr/sbin/nologin
proxy:x:13:13:proxy:/bin:/usr/sbin/nologin
www-data:x:33:33:www-data:/var/www:/usr/sbin/nologin
backup:x:34:34:backup:/var/backups:/usr/sbin/nologin
list:x:38:38:Mailing List Manager:/var/list:/usr/sbin/nologin
irc:x:39:39:ircd:/var/run/ircd:/usr/sbin/nologin
nobody:x:65534:65534:nobody:/nonexistent:/usr/sbin/nologin
".

Definition ETC_GROUP : string :=
"root:x:0:
daemon:x:1:
bin:x:2:
sys:x:3:
adm:x:4:
tty:x:5:
disk:x:6:
lp:x:7:
mail:x:8:
news:x:9:
uucp:x:10:
man:x:12:
proxy:x:13:
kmem:x:15:
dialout:x:20:
fax:x:21:
voice:x:22:
cdrom:x:24:
floppy:x:25:
tape:x:26:
sudo:x:27:
audio:x:29:
dip:x:30:
www-data:x:33:
backup:x:34:
operator:x:37:
list:x:38:
irc:x:39:
src:x:40:
shadow:x:42:
utmp:x:43:
video:x:44:
sasl:x:45:
plugdev:x:46:
staff:x:50:
games:x:60:
users:x:100:
nogroup:x:65534:
".

Definition ETC_HOSTS : string :=
"127.0.0.1 localhost

::1     localhost ip6-localhost ip6-loopback
ff02::1 ip6-allnodes
ff02::2 ip6-allrouters
".

(** ** Collaborators *)

(** A parsed directive of an image specification: its class name (for the
    log line) and its [apply(sysroot, env=env)] method. *)
Record directive : Type := Directive {
  d_class : string;
  d_apply : path → gmap string string → io unit
}.

Class GenHost : Type := {
  (** [Platform.uname("-m")] *)
  host_machine : string;
  (** [Platform.target_for_machine(arch)] *)
  target_for_machine : string → string;
  (** [UserInfo.cache_dir()], the empty string when unknown *)
  user_cache_dir : string;
  (** [Platform.find_executable(name)] *)
  find_executable : world → string → option path;
  (** [open(specfile)] and [SpecfileParser.load(f)]: the directives with
      their line ranges *)
  load_parts : string → io (list (nat * nat * directive));
  (** [Subprocess.run(sysroot, "opkg", ["opkg", "--offline-root", sysroot, "update"])] *)
  opkg_update : path → io unit
}.

(** ** The generator *)

Record generator : Type := Generator {
  g_release : string;
  g_arch : string;
  g_libc : string;
  g_verify : bool;
  g_copy_qemu : bool;
  g_repo_base : string;
  g_cache_dir : string;
  g_context : gmap string string
}.

Section Generator.
Context `{GenHost}.

(** [x or default] for an optional string argument. *)
Definition py_or (x : option string) (default : string) : string :=
  match x with
  | Some v => if String.eqb v "" then default else v
  | None => default
  end.

(** [ImageGenerator.__init__(release, arch, libc, verify, copy_qemu,
    repo_base, cache_dir)] *)
Definition generator_init (release arch libc : string) (verify copy_qemu : bool)
    (repo_base cache_dir : option string) : res generator :=
  let repo_base := py_or repo_base "http://archive.boltlinux.org/dists" in
  let cache_dir := py_or cache_dir user_cache_dir in
  if String.eqb cache_dir "" then
    raise (GeneratorError "unable to determine cache directory location.")
  else
    let opt_check_sig := if verify then "option check_signature" else "" in
    let context : gmap string string :=
      <["release" := release]> $ <["libc" := libc]> $ <["arch" := arch]> $
      <["host_arch" := host_machine]> $ <["machine" := arch]> $
      <["target_type" := target_for_machine arch]> $
      <["opt_check_sig" := opt_check_sig]> $ {["repo_base" := repo_base]} in
    Ok (Generator release arch libc verify copy_qemu repo_base cache_dir context).

(** [os.path.realpath(p)] for an existing path: the links followed. *)
Definition os_path_realpath (p : path) : io path := λ w,
  (w, Ok (match resolve (w_fs w) p with Ok (q, _) => q | Err _ => p end)).

(** ** [_prepare_environment] *)

Definition entries_to_keep : list string :=
  ["DISPLAY"; "SSH_CONNECTION"; "SSH_CLIENT"; "SSH_TTY"; "USER"; "TERM"; "HOME"].

Definition keep_env_key (key : string) : bool :=
  py_startswith key "BOLT_" || existsb (String.eqb key) entries_to_keep.

(** The loop over [os.environ]: keep the allowed keys. *)
Definition copy_allowed (environ : gmap string string) : gmap string string :=
  foldl (λ env kv, if keep_env_key kv.1 then <[kv.1 := kv.2]> env else env)
        ∅ (map_to_list environ).

(** The four keys the user cannot override. *)
Definition inject_identity (g : generator) (sysroot : path) (env : gmap string string)
    : gmap string string :=
  <["BOLT_LIBC" := g_libc g]> $ <["BOLT_ARCH" := g_arch g]> $
  <["BOLT_RELEASE" := g_release g]> $ <["BOLT_SYSROOT" := render_path sysroot]> env.

(** [ImageGenerator._prepare_environment(sysroot)] *)
Definition prepare_environment (g : generator) (sysroot : path) : io (gmap string string) :=
  λ w, (w, Ok (inject_identity g sysroot (copy_allowed (w_environ w)))).

(** ** [_write_config_files] *)

Definition conffile_list : list path :=
  [["etc"; "opkg"; "arch.conf"]; ["etc"; "opkg"; "options.conf"]; ["etc"; "opkg"; "feeds.conf"];
   ["etc"; "passwd"]; ["etc"; "group"]; ["etc"; "hosts"]].

Definition template_list : list string :=
  [OPKG_ARCH_TEMPLATE; OPKG_OPTIONS_TEMPLATE; OPKG_FEEDS_TEMPLATE; ETC_PASSWD; ETC_GROUP; ETC_HOSTS].

(** [with open(sysroot + conffile, "w+") as f: f.write(template.format(...))]:
    the file is truncated before the template is formatted. *)
Definition write_config_file (g : generator) (sysroot : path) (ct : path * string) : io unit :=
  _ ← write_file (sysroot ++ ct.1) "";
  text ← io_of (py_format ct.2 (g_context g));
  write_file (sysroot ++ ct.1) text.

(** [ImageGenerator._write_config_files(sysroot)] *)
Definition write_config_files (g : generator) (sysroot : path) : io unit :=
  io_iter (write_config_file g sysroot) (zip conffile_list template_list).

(** ** [_copy_qemu_to_sysroot] *)

Definition qemu_prefix_map : list (string * string) := [
  ("aarch64", "qemu-aarch64-static");
  ("arm", "qemu-arm-static");
  ("mips64el", "qemu-mips64el-static");
  ("mipsel", "qemu-mipsel-static");
  ("powerpc64el", "qemu-ppc64le-static");
  ("powerpc64le", "qemu-ppc64le-static");
  ("ppc64le", "qemu-ppc64le-static");
  ("powerpc", "qemu-ppc-static");
  ("riscv64", "qemu-riscv64-static");
  ("s390x", "qemu-s390x-static")
].

(** The loop over [prefix_map]: the binary of the first prefix of [arch],
    the empty string when none is. *)
Fixpoint qemu_binary_for (arch : string) (m : list (string * string)) : string :=
  match m with
  | [] => ""
  | (prefix, binary) :: m' => if py_startswith arch prefix then binary else qemu_binary_for arch m'
  end.

(** [ImageGenerator._copy_qemu_to_sysroot(sysroot)] *)
Definition copy_qemu_to_sysroot (g : generator) (sysroot : path) : io unit :=
  let qemu_user_static := qemu_binary_for (g_arch g) qemu_prefix_map in
  if String.eqb qemu_user_static "" then mret tt else
  get_world ≫= λ w,
  match find_executable w qemu_user_static with
  | None => throw (GeneratorError ("could not find QEMU executable " +:+ dquote +:+
                                   qemu_user_static +:+ dquote +:+ "."))
  | Some qemu_exe =>
      let target_dir := sysroot ++ parent qemu_exe in
      os_path_exists target_dir ≫= λ ex : bool,
      _ ← (if ex then mret tt else os_makedirs target_dir true);
      _ ← log_info ("copying QEMU binary " +:+ dquote +:+ render_path qemu_exe +:+ dquote +:+ ".");
      shutil_copy2 qemu_exe target_dir
  end.

(** ** The public methods *)

Definition no_such_directory (sysroot : path) : exn :=
  GeneratorError ("no such directory: " +:+ render_path sysroot).

(** The check the three methods start with. *)
Definition require_dir (sysroot : path) : io unit :=
  os_path_isdir sysroot ≫= λ d : bool, if d then mret tt else throw (no_such_directory sysroot).

(** One iteration of the loop over [DIRS_TO_CREATE]. *)
Definition create_dir (sysroot : path) (md : Z * path) : io unit :=
  let full_path := sysroot ++ md.2 in
  _ ← os_makedirs full_path true;
  os_chmod full_path md.1.

(** The loop over [DIRS_TO_CREATE]. *)
Definition create_dirs (sysroot : path) : io unit := io_iter (create_dir sysroot) DIRS_TO_CREATE.

(** [prepare] up to the [opkg update]. *)
Definition prepare_root (g : generator) (sysroot : path) : io unit :=
  _ ← create_dirs sysroot;
  let var_run_symlink := sysroot ++ ["var"; "run"] in
  os_path_exists var_run_symlink ≫= λ ex : bool,
  _ ← (if ex then mret tt else os_symlink "../run" var_run_symlink);
  _ ← (if g_copy_qemu g then copy_qemu_to_sysroot g sysroot else mret tt);
  _ ← write_config_files g sysroot;
  io_iter (λ f : path, shutil_copy2 f (sysroot ++ f)) [["etc"; "hosts"]; ["etc"; "resolv.conf"]].

(** [ImageGenerator.prepare(sysroot)] *)
Definition prepare (g : generator) (sysroot : path) : io unit :=
  _ ← require_dir sysroot;
  _ ← log_info "preparing system root.";
  sysroot ← os_path_realpath sysroot;
  _ ← prepare_root g sysroot;
  opkg_update sysroot.

(** [re.sub(r"([a-z])([A-Z])", r"\1 \2", name)]: a space between a
    lower-case letter and the upper-case letter after it. *)
Fixpoint split_camel (s : string) : string :=
  match s with
  | String a ((String b s') as rest) =>
      if is_lower a && is_upper b then String a (String " "%char (String b (split_camel s')))
      else String a (split_camel rest)
  | _ => s
  end.

(** The log line before a directive is applied. *)
Definition applying_message (p : nat * nat * directive) : string :=
  let '(start_line, end_line, d) := p in
  "applying " +:+ py_lower (split_camel (d_class d)) +:+ " from line " +:+
  py_str_nat start_line +:+ " to " +:+ py_str_nat end_line +:+ ".".

(** The loop of [customize]: log, then apply, each directive in order. *)
Definition apply_parts (sysroot : path) (env : gmap string string)
    (parts : list (nat * nat * directive)) : io unit :=
  io_iter (λ p, _ ← log_info (applying_message p); d_apply p.2 sysroot env) parts.

(** [ImageGenerator.customize(sysroot, specfile)] *)
Definition customize (g : generator) (sysroot : path) (specfile : string) : io unit :=
  _ ← require_dir sysroot;
  _ ← log_info "================";
  _ ← log_info ("loading specfile " +:+ specfile);
  _ ← log_info "================";
  sysroot ← os_path_realpath sysroot;
  parts ← load_parts specfile;
  env ← prepare_environment g sysroot;
  apply_parts sysroot env parts.

(** [try: os.unlink(sysroot + "/etc/resolv.conf") except OSError: pass] *)
Definition drop_resolv_conf (sysroot : path) : io unit :=
  io_catch (os_unlink (sysroot ++ ["etc"; "resolv.conf"]))
           (λ e, match e with OSError _ _ => mret tt | _ => throw e end).

(** One iteration of the loop over [DIRS_TO_CLEAN]. *)
Definition clean_dir (sysroot : path) (directory : path) : io unit :=
  let full_path := sysroot ++ directory in
  st ← os_lstat full_path;
  _ ← shutil_rmtree full_path;
  _ ← os_makedirs full_path false;
  _ ← os_chown full_path (st_uid st) (st_gid st);
  os_chmod full_path (st_mode st).

(** [ImageGenerator.cleanup(sysroot)] *)
Definition cleanup (g : generator) (sysroot : path) : io unit :=
  _ ← require_dir sysroot;
  sysroot ← os_path_realpath sysroot;
  _ ← write_config_files g sysroot;
  _ ← drop_resolv_conf sysroot;
  io_iter (clean_dir sysroot) DIRS_TO_CLEAN.

End Generator.

(** ** The environment scoper *)

Section EnvLemmas.
Context (keep : string → bool).

Let step (env : gmap string string) (kv : string * string) : gmap string string :=
  if keep kv.1 then <[kv.1 := kv.2]> env else env.

Lemma foldl_keep_absent (l : list (string * string)) acc k :
  k ∉ l.*1 ∨ keep k = false → foldl step acc l !! k = acc !! k.
Proof.
  revert acc; induction l as [|[k' v'] l IH]; intros acc Hk; simpl; [done|].
  rewrite IH; [|destruct Hk as [Hk|]; [left; set_solver | by right]].
  unfold step; simpl. destruct (keep k') eqn:E; [|done].
  rewrite lookup_insert_ne; [done|]. intros ->. destruct Hk as [Hk|Hk]; [set_solver | congruence].
Qed.

Lemma foldl_keep_present (l : list (string * string)) acc k v :
  NoDup l.*1 → (k, v) ∈ l → keep k = true → foldl step acc l !! k = Some v.
Proof.
  revert acc; induction l as [|[k' v'] l IH]; intros acc Hnd Hin Hk; simpl; [set_solver|].
  simpl in Hnd. apply NoDup_cons in Hnd as [Hnin Hnd].
  apply elem_of_cons in Hin as [[=-> ->]|Hin].
  - rewrite foldl_keep_absent by (left; done). unfold step; simpl. rewrite Hk. apply lookup_insert_eq.
  - by apply IH.
Qed.

End EnvLemmas.

(** The loop over [os.environ] keeps exactly the allowed variables, with
    their values. *)
Lemma copy_allowed_lookup environ k :
  copy_allowed environ !! k = if keep_env_key k then environ !! k else None.
Proof.
  unfold copy_allowed. destruct (keep_env_key k) eqn:Hk.
  - destruct (environ !! k) as [v|] eqn:E.
    + apply foldl_keep_present; [apply NoDup_fst_map_to_list | by apply elem_of_map_to_list | done].
    + rewrite foldl_keep_absent; [done|left]. intros ([? v]&->&Hin)%list_elem_of_fmap.
      apply elem_of_map_to_list in Hin. simpl in E. congruence.
  - rewrite foldl_keep_absent; [done | by right].
Qed.

(** equivalence. The loop over [os.environ] computes the map filter
    that keeps the keys [keep_env_key] allows: the imperative copy and the
    reference definition agree on every environment. *)
Theorem copy_allowed_filter environ :
  copy_allowed environ = filter (λ kv : string * string, keep_env_key kv.1 = true) environ.
Proof.
  apply map_eq. intros k. rewrite copy_allowed_lookup, map_lookup_filter.
  destruct (environ !! k) as [v|]; simpl; [|by case_match].
  destruct (keep_env_key k) eqn:Hk; simpl; rewrite ?option_guard_True, ?option_guard_False by done;
    done.
Qed.

Definition injected_keys : list string := ["BOLT_SYSROOT"; "BOLT_RELEASE"; "BOLT_ARCH"; "BOLT_LIBC"].

(** The environment every directive sees, as the specification states it:
    the four identity variables, then the allowed variables of the ambient
    environment, nothing else. *)
Definition scoped_env_spec (g : generator) (sysroot : path) (environ : gmap string string)
    (k : string) : option string :=
  if String.eqb k "BOLT_SYSROOT" then Some (render_path sysroot)
  else if String.eqb k "BOLT_RELEASE" then Some (g_release g)
  else if String.eqb k "BOLT_ARCH" then Some (g_arch g)
  else if String.eqb k "BOLT_LIBC" then Some (g_libc g)
  else if keep_env_key k then environ !! k else None.

Lemma inject_identity_lookup g sysroot env k :
  inject_identity g sysroot env !! k =
  if String.eqb k "BOLT_SYSROOT" then Some (render_path sysroot)
  else if String.eqb k "BOLT_RELEASE" then Some (g_release g)
  else if String.eqb k "BOLT_ARCH" then Some (g_arch g)
  else if String.eqb k "BOLT_LIBC" then Some (g_libc g)
  else env !! k.
Proof.
  unfold inject_identity.
  destruct (String.eqb_spec k "BOLT_SYSROOT") as [->|H1]; [by simplify_map_eq|].
  destruct (String.eqb_spec k "BOLT_RELEASE") as [->|H2]; [by simplify_map_eq|].
  destruct (String.eqb_spec k "BOLT_ARCH") as [->|H3]; [by simplify_map_eq|].
  destruct (String.eqb_spec k "BOLT_LIBC") as [->|H4]; [by simplify_map_eq|].
  by rewrite !lookup_insert_ne by congruence.
Qed.

(** C32: [_prepare_environment] computes the specified environment: it changes
    nothing in the world, and maps every key as [scoped_env_spec] says. *)
Theorem prepare_environment_spec g sysroot w :
  ∃ env, prepare_environment g sysroot w = (w, Ok env) ∧
         ∀ k, env !! k = scoped_env_spec g sysroot (w_environ w) k.
Proof.
  eexists. split; [reflexivity|]. intros k.
  rewrite inject_identity_lookup, copy_allowed_lookup. done.
Qed.

(** C3: The identity variables cannot be overridden: whatever the ambient
    environment holds (a [BOLT_SYSROOT=/malicious] included), the
    environment passed to the directives carries the generator's values. *)
Theorem prepare_environment_identity g sysroot w env :
  snd (prepare_environment g sysroot w) = Ok env →
  env !! "BOLT_SYSROOT" = Some (render_path sysroot) ∧
  env !! "BOLT_RELEASE" = Some (g_release g) ∧
  env !! "BOLT_ARCH" = Some (g_arch g) ∧
  env !! "BOLT_LIBC" = Some (g_libc g).
Proof.
  simpl. intros [= <-]. rewrite !inject_identity_lookup. done.
Qed.

(** ** The directive loop *)

(** A failure stops the loop: when the directives up to the [k]-th fail,
    running the whole list gives the same world and the same error; no
    later directive is applied or even logged. *)
Theorem apply_parts_fail_fast sysroot env ps1 ps2 w w' e :
  apply_parts sysroot env ps1 w = (w', Err e) →
  apply_parts sysroot env (ps1 ++ ps2) w = (w', Err e).
Proof.
  unfold apply_parts. intros H. rewrite io_iter_app. by rewrite (io_bind_err _ _ _ _ _ H).
Qed.

(** Document order: the directives run one after the other, the second
    list starting in the world the first one left. *)
Theorem apply_parts_seq sysroot env ps1 ps2 w w1 :
  apply_parts sysroot env ps1 w = (w1, Ok tt) →
  apply_parts sysroot env (ps1 ++ ps2) w = apply_parts sysroot env ps2 w1.
Proof.
  unfold apply_parts. intros H. rewrite io_iter_app. by rewrite (io_bind_ok _ _ _ _ _ H).
Qed.

(** ** Witnesses at a concrete world *)

Definition sample_root : path := ["srv"; "root"].

Definition sample_world : world :=
  World (<[ [] := FDir (Stat 493 0 0) ]> $ <[ ["srv"] := FDir (Stat 493 0 0) ]> $
         {[ sample_root := FDir (Stat 493 0 0) ]})
        (<["BOLT_SYSROOT" := "/malicious"]> $ <["HOME" := "/root"]> $ {["PATH" := "/bin"]})
        0 0 18 [].

Definition sample_generator : generator :=
  Generator "stable" "aarch64" "musl" true false "http://archive.boltlinux.org/dists"
            "/root/.cache" ∅.

(** A directive that logs, and one that fails like a command exiting
    with status 1. *)
Definition ok_directive : directive := Directive "AddUser" (λ _ _, log_info "user added").
Definition failing_directive : directive :=
  Directive "RunCommand" (λ _ _, throw (ProcessError "false" 1)).

Lemma prepare_environment_identity_witness :
  ∃ env, snd (prepare_environment sample_generator sample_root sample_world) = Ok env ∧
         env !! "BOLT_SYSROOT" = Some (render_path sample_root).
Proof.
  eexists. split; [reflexivity|].
  apply (prepare_environment_identity sample_generator sample_root sample_world). reflexivity.
Defined.

Lemma apply_parts_fail_fast_witness :
  ∃ w' e, apply_parts sample_root ∅ [(1, 3, failing_directive)] sample_world = (w', Err e) ∧
          apply_parts sample_root ∅ ([(1, 3, failing_directive)] ++ [(4, 6, ok_directive)])
                      sample_world = (w', Err e).
Proof.
  do 2 eexists. split; [reflexivity|].
  apply apply_parts_fail_fast. reflexivity.
Defined.

Lemma apply_parts_seq_witness :
  ∃ w1, apply_parts sample_root ∅ [(1, 2, ok_directive)] sample_world = (w1, Ok tt) ∧
        apply_parts sample_root ∅ ([(1, 2, ok_directive)] ++ [(3, 5, failing_directive)])
                    sample_world =
        apply_parts sample_root ∅ [(3, 5, failing_directive)] w1.
Proof.
  eexists. split; [reflexivity|].
  apply apply_parts_seq. reflexivity.
Defined.

(** A host where [opkg update] succeeds and no QEMU binary is installed,
    and a machine whose [/etc] holds [hosts] and [resolv.conf]. *)
Definition sample_gen_host : GenHost := {|
  host_machine := "x86_64";
  target_for_machine := λ a, a +:+ "-linux-musl";
  user_cache_dir := "/root/.cache";
  find_executable := λ _ _, None;
  load_parts := λ _, mret [];
  opkg_update := λ _, mret tt
|}.

Definition host_world : world :=
  World (<[ [] := FDir (Stat 493 0 0) ]> $ <[ ["etc"] := FDir (Stat 493 0 0) ]> $
         <[ ["etc"; "hosts"] := FFile (Stat 420 0 0) "127.0.0.1 builder" ]> $
         <[ ["etc"; "resolv.conf"] := FFile (Stat 420 0 0) "nameserver 192.0.2.1" ]> $
         <[ ["srv"] := FDir (Stat 493 0 0) ]> $ {[ sample_root := FDir (Stat 493 0 0) ]})
        {["HOME" := "/root"]} 0 0 18 [].

(** The generator [ImageGenerator("stable", "aarch64")] builds on that host. *)
Definition stable_aarch64 : generator :=
  match @generator_init sample_gen_host "stable" "aarch64" "musl" true false None None with
  | Ok g => g
  | Err _ => sample_generator
  end.
