(* ===== verification/Templates.v ===== *)
(** * The configuration templates are well typed against the generator's context

    [_write_config_files] formats six templates with [str.format] and the
    keyword arguments of [ImageGenerator.context].  A template is a string
    with replacement fields [{name}] and escaped braces [{{], [}}];
    [format_fields] is its type checker: the names of its fields, in order,
    or [None] when the template is malformed (an unbalanced brace).  The
    formatter succeeds exactly on well-formed templates whose fields are all
    keys of the context ([py_format_typed]), so the typing judgement
    [template_typed ctx t] rules out [KeyError] and [ValueError].

    [templates_well_typed] is the type property of the generator: for every
    way [__init__] can succeed, every template of [template_list] is well
    typed against the context it builds. *)

From S2P Require Import Prelude PyStr SysFs Generator.

(** The fields of a template, after the structure of [py_format_go]. *)
Fixpoint format_fields_go (field : option string) (s : string) : option (list string) :=
  match s, field with
  | EmptyString, None => Some []
  | EmptyString, Some _ => None
  | String c s', Some name =>
      if decide (c = "}"%char) then fs ← format_fields_go None s'; Some (name :: fs)
      else format_fields_go (Some (name +:+ String c "")) s'
  | String c s', None =>
      if decide (c = "{"%char) then
        match s' with
        | String d s'' =>
            if decide (d = "{"%char) then format_fields_go None s''
            else format_fields_go (Some "") s'
        | EmptyString => format_fields_go (Some "") s'
        end
      else if decide (c = "}"%char) then
        match s' with
        | String d s'' => if decide (d = "}"%char) then format_fields_go None s'' else None
        | EmptyString => None
        end
      else format_fields_go None s'
  end.

Definition format_fields (t : string) : option (list string) := format_fields_go None t.

(** [ctx ⊢ t]: the template is well formed and names only keys of [ctx]. *)
Definition template_typed (ctx : gmap string string) (t : string) : Prop :=
  ∃ fs, format_fields t = Some fs ∧ Forall (λ f, f ∈ dom ctx) fs.

#[export] Instance template_typed_dec ctx t : Decision (template_typed ctx t).
Proof.
  unfold template_typed. destruct (format_fields t) as [fs|].
  - destruct (decide (Forall (λ f, f ∈ dom ctx) fs)); [left; eauto|right; naive_solver].
  - right. naive_solver.
Defined.

(** ** The checker against the formatter *)

Lemma res_bind_app_ok (m : res string) (f : string → string) :
  (∃ r, (x ← m; Ok (f x)) = Ok r) ↔ ∃ r, m = Ok r.
Proof. destruct m; simpl; naive_solver. Qed.

Lemma fields_bind_cons (P : string → Prop) n (o : option (list string)) :
  (∃ fs, (fs' ← o; Some (n :: fs')) = Some fs ∧ Forall P fs) ↔ P n ∧ ∃ fs, o = Some fs ∧ Forall P fs.
Proof.
  destruct o as [fs|]; simpl; [|naive_solver]. split.
  - intros (? & [= <-] & Hfs). apply Forall_cons in Hfs. naive_solver.
  - intros [Hn (? & [= <-] & Hfs)]. eexists; split; [done|by constructor].
Qed.

Lemma py_format_go_typed ctx s field :
  (∃ r, py_format_go ctx field s = Ok r) ↔
  (∃ fs, format_fields_go field s = Some fs ∧ Forall (λ f, is_Some (ctx !! f)) fs).
Proof.
  revert field.
  induction s as [s IH] using (well_founded_induction (Wf_nat.well_founded_ltof _ String.length)).
  intros field. destruct s as [|c s']; destruct field as [name|]; simpl.
  - split; [by intros [r Hr]|by intros (fs&Hfs&_)].
  - split; intros _; [exists []|exists ""]; done.
  - case_decide.
    + rewrite fields_bind_cons. destruct (ctx !! name) eqn:E.
      * rewrite res_bind_app_ok, IH by (unfold Wf_nat.ltof; simpl; lia). naive_solver.
      * split; [by intros [r Hr]|intros [[? ?] _]; done].
    + apply IH. unfold Wf_nat.ltof. simpl. lia.
  - case_decide.
    + destruct s' as [|d s'']; [apply IH; unfold Wf_nat.ltof; simpl; lia|].
      case_decide; [rewrite res_bind_app_ok|]; apply IH; unfold Wf_nat.ltof; simpl; lia.
    + case_decide.
      * destruct s' as [|d s'']; [split; [by intros [r Hr]|by intros (?&?&_)]|].
        case_decide; [rewrite res_bind_app_ok; apply IH; unfold Wf_nat.ltof; simpl; lia|].
        split; [by intros [r Hr]|by intros (?&?&_)].
      * rewrite res_bind_app_ok. apply IH. unfold Wf_nat.ltof. simpl. lia.
Qed.

(** The typing judgement is exactly the absence of an error from
    [template.format] with the context as keywords. *)
Lemma py_format_typed ctx t : template_typed ctx t ↔ ∃ text, py_format t ctx = Ok text.
Proof.
  unfold template_typed, py_format, format_fields. rewrite py_format_go_typed.
  setoid_rewrite Forall_forall. setoid_rewrite elem_of_dom. done.
Qed.

(** ** The templates of [_write_config_files] *)

(** C22: type. Whatever arguments [ImageGenerator.__init__] succeeds with,
    each of the six templates of [_write_config_files] is well formed and
    names only keys of the context the constructor builds ([release],
    [arch], [libc], [repo_base], [opt_check_sig]); formatting them never
    raises. *)
Theorem templates_well_typed `{GenHost} release arch libc verify copy_qemu repo_base cache_dir g :
  generator_init release arch libc verify copy_qemu repo_base cache_dir = Ok g →
  Forall (template_typed (g_context g)) template_list.
Proof.
  unfold generator_init. destruct (String.eqb _ "") eqn:E; [discriminate|]. intros [= <-].
  cbn [g_context]. repeat constructor; eexists; (split; [reflexivity|]);
    repeat constructor; apply elem_of_dom; simplify_map_eq; eauto.
Qed.

Lemma templates_well_typed_witness :
  @generator_init sample_gen_host "stable" "aarch64" "musl" true false None None = Ok stable_aarch64 ∧
  Forall (template_typed (g_context stable_aarch64)) template_list.
Proof.
  assert (H : @generator_init sample_gen_host "stable" "aarch64" "musl" true false None None =
              Ok stable_aarch64) by reflexivity.
  split; [exact H|]. exact (@templates_well_typed sample_gen_host _ _ _ _ _ _ _ _ H).
Defined.
