(* ===== verification/Bootstrap.v ===== *)
(** * [prepare] and [cleanup] on the file system

    The theorems about the two methods of [ImageGenerator] that shape a
    system root, proved on the [SysFs] model: the directory table of
    [prepare] ([create_dirs_root], [create_dirs_denied],
    [prepare_denied]), the configuration files ([config_files_render],
    [write_config_files_root]), the QEMU binary ([qemu_binary_for_first],
    [copy_qemu_no_match], [copy_qemu_missing]), the constructor's error
    ([generator_init_error]), the entry-point check
    ([entry_points_require_dir]), the best-effort removal of
    [resolv.conf] ([drop_resolv_conf_never_raises]) and the owner and mode
    round trip of the scratch directories ([clean_dir_restores],
    [clean_dirs_restore]), the mode a created directory holds
    ([create_dir_mode_bounds]) and the invariant of [FsWf] through both
    methods, on every error path ([cleanup_preserves_wf],
    [prepare_preserves_wf]), with the witnesses on concrete worlds. *)

From S2P Require Import Prelude PyStr SysFs FsWf Generator.

(** ** The directories of [prepare] *)

(** Each entry of the list names a directory below the system root whose
    parent is the system root or an earlier entry. *)
Fixpoint dirs_ready (made : list path) (ds : list (Z * path)) : bool :=
  match ds with
  | [] => true
  | (_, d) :: ds' =>
      bool_decide (d ≠ []) && (bool_decide (parent d = []) || bool_decide (parent d ∈ made)) &&
      dirs_ready (d :: made) ds'
  end.

Lemma app_ne_head (l d d' : path) : d' ≠ d → l ++ d' ≠ l ++ d.
Proof. intros Hne H. by apply app_inv_head in H. Qed.

Lemma app_ne_self (l d : path) : d ≠ [] → l ≠ l ++ d.
Proof. intros Hd H. apply (f_equal length) in H. rewrite length_app in H. destruct d; [done|]. simpl in H. lia. Qed.

(** One iteration, run as root where the parent exists and nothing but a
    directory is in the way: the directory is there with mode [m]. *)
Lemma create_dir_root sysroot m d w pst :
  w_euid w = 0%Z → d ≠ [] → w_fs w !! parent (sysroot ++ d) = Some (FDir pst) →
  (w_fs w !! (sysroot ++ d) = None ∨ ∃ s, w_fs w !! (sysroot ++ d) = Some (FDir s)) →
  ∃ s, create_dir sysroot (m, d) w =
       (set_fs w (<[sysroot ++ d := FDir (set_mode m s)]> (w_fs w)), Ok tt).
Proof.
  intros Hr Hd Hpar Hex. assert (Hne : sysroot ++ d ≠ []) by (by intros []%app_eq_nil).
  destruct (os_makedirs_exist_ok_root _ _ _ Hr Hne Hpar Hex) as [s Hmk].
  exists s. unfold create_dir. cbv zeta. cbn [snd fst]. rewrite (io_bind_ok _ _ _ _ _ Hmk).
  rewrite (os_chmod_root_dir (set_fs w (<[sysroot ++ d := FDir s]> (w_fs w))) _ _ _ Hr
             (lookup_insert_eq _ _ _)).
  by rewrite set_fs_set_fs, set_fs_fs, insert_insert_eq.
Qed.

Section CreateDirs.
Context (sysroot : path) (s0 : stat).

(** Entries are directories, or nothing, below the root. *)
Definition dirs_clear (w : world) (ds : list (Z * path)) : Prop :=
  ∀ md, md ∈ ds → w_fs w !! (sysroot ++ md.2) = None ∨
                  ∃ s, w_fs w !! (sysroot ++ md.2) = Some (FDir s).

Lemma create_dirs_loop ds : ∀ made w,
  w_euid w = 0%Z → w_fs w !! sysroot = Some (FDir s0) →
  (∀ d, d ∈ made → ∃ s, w_fs w !! (sysroot ++ d) = Some (FDir s)) →
  dirs_ready made ds = true → dirs_clear w ds → NoDup (snd <$> ds) →
  ∃ w', io_iter (create_dir sysroot) ds w = (w', Ok tt) ∧
        (∀ m d, (m, d) ∈ ds → ∃ s, w_fs w' !! (sysroot ++ d) = Some (FDir s) ∧
                                   st_mode s = Z.land m S_IMODE_MASK) ∧
        (∀ q, (∀ md, md ∈ ds → q ≠ sysroot ++ md.2) → w_fs w' !! q = w_fs w !! q).
Proof.
  induction ds as [|[m d] ds IH]; intros made w Hr H0 Hmade Hready Hex Hnd.
  { exists w. split; [done|]. split; [|done]. intros ?? []%elem_of_nil. }
  apply andb_prop in Hready as [[Hd Hpar]%andb_prop Hready]. apply bool_decide_eq_true in Hd.
  assert (Hpst : ∃ pst, w_fs w !! parent (sysroot ++ d) = Some (FDir pst)).
  { rewrite parent_app by done.
    apply orb_prop in Hpar as [Hp|Hp]; apply bool_decide_eq_true in Hp; [|by apply Hmade].
    rewrite Hp, app_nil_r. eauto. }
  destruct Hpst as [pst Hpst].
  destruct (create_dir_root sysroot m d w pst Hr Hd Hpst (Hex (m, d) (list_elem_of_here _ _)))
    as [s Hstep].
  rewrite fmap_cons, NoDup_cons in Hnd. destruct Hnd as [Hnin Hnd]. simpl in Hnin.
  set (w1 := set_fs w (<[sysroot ++ d := FDir (set_mode m s)]> (w_fs w))) in Hstep.
  assert (Hw1d : w_fs w1 !! (sysroot ++ d) = Some (FDir (set_mode m s))).
  { unfold w1. rewrite set_fs_fs. apply lookup_insert_eq. }
  assert (Hw1 : ∀ d', d' ≠ d → w_fs w1 !! (sysroot ++ d') = w_fs w !! (sysroot ++ d')).
  { intros d' Hne. unfold w1. rewrite set_fs_fs, lookup_insert_ne; [done|]. by apply not_eq_sym, app_ne_head. }
  destruct (IH (d :: made) w1) as (w'&Hrun&Hmodes&Hframe); [done| | |done| |done|].
  - unfold w1. rewrite set_fs_fs, lookup_insert_ne; [done|]. by apply not_eq_sym, app_ne_self.
  - intros d' [->|Hd']%elem_of_cons; [rewrite Hw1d; eauto|].
    destruct (decide (d' = d)) as [->|Hne]; [rewrite Hw1d; eauto|].
    rewrite Hw1 by done. by apply Hmade.
  - intros [m' d'] Hin. cbn [snd]. destruct (decide (d' = d)) as [->|Hne]; [rewrite Hw1d; eauto|].
    rewrite Hw1 by done. apply (Hex (m', d')). by apply list_elem_of_further.
  - exists w'. split; [cbn [io_iter]; by rewrite (io_bind_ok _ _ _ _ _ Hstep)|]. split.
    + intros m0 d0 [[= -> ->]|Hin]%elem_of_cons; [|by apply Hmodes].
      exists (set_mode m s). split; [|done]. rewrite Hframe; [exact Hw1d|].
      intros [m' d'] Hin Heq. apply app_inv_head in Heq. simpl in Heq. subst d'.
      apply Hnin, list_elem_of_fmap. by exists (m', d).
    + intros q Hq. rewrite Hframe by (intros md Hmd; apply Hq; by apply list_elem_of_further).
      unfold w1. rewrite set_fs_fs, lookup_insert_ne; [done|].
      apply not_eq_sym, (Hq (m, d)), list_elem_of_here.
Qed.

End CreateDirs.

(** The loop over the whole table, run as root on a clear root. *)
Lemma create_dirs_table sysroot s0 w :
  w_euid w = 0%Z → w_fs w !! sysroot = Some (FDir s0) → dirs_clear sysroot w DIRS_TO_CREATE →
  ∃ w', create_dirs sysroot w = (w', Ok tt) ∧
        (∀ m d, (m, d) ∈ DIRS_TO_CREATE →
                ∃ s, w_fs w' !! (sysroot ++ d) = Some (FDir s) ∧ st_mode s = m) ∧
        (∀ q, (∀ md, md ∈ DIRS_TO_CREATE → q ≠ sysroot ++ md.2) → w_fs w' !! q = w_fs w !! q).
Proof.
  intros Hr H0 Hclear.
  destruct (create_dirs_loop sysroot s0 DIRS_TO_CREATE [] w Hr H0) as (w'&Hrun&Hmodes&Hframe);
    [by intros ? ?%elem_of_nil | reflexivity | done | apply (bool_decide_unpack _); vm_compute; done|].
  assert (Hm : Forall (λ md : Z * path, Z.land md.1 S_IMODE_MASK = md.1) DIRS_TO_CREATE).
  { apply (bool_decide_unpack _). vm_compute. done. }
  exists w'. split; [done|]. split; [|done].
  intros m d Hin. destruct (Hmodes m d Hin) as (s&Hs&Hmode). exists s. split; [done|].
  rewrite Hmode. rewrite Forall_forall in Hm. apply (Hm (m, d) Hin).
Qed.

(** C7: [prepare] run as root on a system root where nothing but directories
    is in the way of [DIRS_TO_CREATE]: every directory of the table exists
    afterwards with exactly the table's mode ([0o755], and [0o1777] for
    [/tmp]), and no other entry of the file system has changed. *)
Theorem create_dirs_root sysroot s0 w :
  w_euid w = 0%Z → w_fs w !! sysroot = Some (FDir s0) → dirs_clear sysroot w DIRS_TO_CREATE →
  ∃ w', create_dirs sysroot w = (w', Ok tt) ∧
        (∀ m d, (m, d) ∈ DIRS_TO_CREATE →
                ∃ s, w_fs w' !! (sysroot ++ d) = Some (FDir s) ∧ st_mode s = m) ∧
        (∀ q, (∀ md, md ∈ DIRS_TO_CREATE → q ≠ sysroot ++ md.2) → w_fs w' !! q = w_fs w !! q).
Proof. apply create_dirs_table. Qed.

(** A filesystem error is propagated, not swallowed: when the process may
    not write to the system root and [/dev] is missing, the first
    [os.makedirs] raises [PermissionError] and the loop stops there, with
    the file system unchanged. *)
Lemma create_dirs_eacces sysroot s0 w :
  w_fs w !! sysroot = Some (FDir s0) → can_write w s0 = false →
  w_fs w !! (sysroot ++ ["dev"]) = None →
  create_dirs sysroot w = (w, Err (OSError EACCES (render_path (sysroot ++ ["dev"])))).
Proof.
  intros H0 Hw Hn. unfold create_dirs, DIRS_TO_CREATE. cbn [io_iter].
  apply io_bind_err. unfold create_dir. cbv zeta. cbn [snd fst]. apply io_bind_err.
  apply (os_makedirs_denied _ _ s0); [by intros []%app_eq_nil | by rewrite parent_snoc | done | done].
Qed.

(** A filesystem error is propagated, not swallowed: when the process may
    not write to the system root and [/dev] is missing, the first
    [os.makedirs] raises [PermissionError] and the loop stops there, with
    the file system unchanged. *)
Theorem create_dirs_denied sysroot s0 w :
  w_fs w !! sysroot = Some (FDir s0) → can_write w s0 = false →
  w_fs w !! (sysroot ++ ["dev"]) = None →
  create_dirs sysroot w = (w, Err (OSError EACCES (render_path (sysroot ++ ["dev"])))).
Proof. apply create_dirs_eacces. Qed.

(** ** The configuration files *)

(** The text of each configuration file for the arguments of
    [ImageGenerator(release, arch, libc, verify, ..., repo_base)]: the
    architecture declaration, the global options with the signature check
    toggled by [verify], the single feed, and the fixed identity and
    network files. *)
Definition opkg_options_text (verify : bool) : string :=
  "dest root /" +:+ nl +:+ nl +:+
  "option signature_type usign" +:+ nl +:+ "option no_install_recommends" +:+ nl +:+
  "option force_removal_of_dependent_packages" +:+ nl +:+ "option force_postinstall" +:+ nl +:+
  nl +:+ (if verify then "option check_signature" else "") +:+ nl.

Definition expected_config (release arch libc : string) (verify : bool) (repo_base : string)
    : list (path * string) :=
  [(["etc"; "opkg"; "arch.conf"], "arch " +:+ arch +:+ " 1" +:+ nl +:+ "arch all 1" +:+ nl);
   (["etc"; "opkg"; "options.conf"], opkg_options_text verify);
   (["etc"; "opkg"; "feeds.conf"],
    "src/gz main " +:+ repo_base +:+ "/" +:+ release +:+ "/core/" +:+ arch +:+ "/" +:+ libc +:+
    "/main" +:+ nl);
   (["etc"; "passwd"], ETC_PASSWD); (["etc"; "group"], ETC_GROUP); (["etc"; "hosts"], ETC_HOSTS)].

(** Every template of [_write_config_files] formats, with the context of
    the constructor, to the text of its file. *)
Lemma config_files_text `{GenHost} release arch libc verify copy_qemu repo_base cache_dir g :
  generator_init release arch libc verify copy_qemu repo_base cache_dir = Ok g →
  (λ ct : path * string, (ct.1, py_format ct.2 (g_context g))) <$> zip conffile_list template_list =
  (λ pt : path * string, (pt.1, Ok pt.2)) <$>
    expected_config release arch libc verify (py_or repo_base "http://archive.boltlinux.org/dists").
Proof.
  unfold generator_init. destruct (String.eqb _ "") eqn:E; [discriminate|]. intros [= <-].
  destruct verify; vm_compute; reflexivity.
Qed.

(** Every template of [_write_config_files] formats, with the context of
    the constructor, to the text of its file. *)
Theorem config_files_render `{GenHost} release arch libc verify copy_qemu repo_base cache_dir g :
  generator_init release arch libc verify copy_qemu repo_base cache_dir = Ok g →
  (λ ct : path * string, (ct.1, py_format ct.2 (g_context g))) <$> zip conffile_list template_list =
  (λ pt : path * string, (pt.1, Ok pt.2)) <$>
    expected_config release arch libc verify (py_or repo_base "http://archive.boltlinux.org/dists").
Proof. apply config_files_text. Qed.

Section WriteConfig.
Context (g : generator) (sysroot : path).

(** One file, run as root where its directory exists and the file is a
    regular file or nothing. *)
Lemma write_config_file_root p t text w pst :
  w_euid w = 0%Z → py_format t (g_context g) = Ok text → sysroot ++ p ≠ [] →
  w_fs w !! parent (sysroot ++ p) = Some (FDir pst) →
  (w_fs w !! (sysroot ++ p) = None ∨ ∃ st d, w_fs w !! (sysroot ++ p) = Some (FFile st d)) →
  ∃ st, write_config_file g sysroot (p, t) w =
        (set_fs w (<[sysroot ++ p := FFile st text]> (w_fs w)), Ok tt).
Proof.
  intros Hr Hf Hne Hpar Hex. destruct (write_file_root w (sysroot ++ p) "" pst Hr Hpar Hex) as [st1 H1].
  unfold write_config_file. cbn [fst snd]. rewrite (io_bind_ok _ _ _ _ _ H1), Hf.
  set (w1 := set_fs w (<[sysroot ++ p := FFile st1 ""]> (w_fs w))).
  assert (Hpar1 : w_fs w1 !! parent (sysroot ++ p) = Some (FDir pst)).
  { unfold w1. rewrite set_fs_fs, lookup_insert_ne; [done|]. apply not_eq_sym, parent_ne, Hne. }
  destruct (write_file_root w1 (sysroot ++ p) text pst Hr Hpar1) as [st2 H2].
  { right. exists st1, "". unfold w1. rewrite set_fs_fs. apply lookup_insert_eq. }
  exists st2. rewrite (io_bind_ok _ _ _ _ _ (eq_refl : io_of (Ok text) w1 = (w1, Ok text))), H2.
  unfold w1. by rewrite set_fs_set_fs, set_fs_fs, insert_insert_eq.
Qed.

(** A configuration entry is ready: its directory exists and the file is
    a regular file or nothing. *)
Definition conf_ready (w : world) (ct : path * string) : Prop :=
  sysroot ++ ct.1 ≠ [] ∧ (∃ pst, w_fs w !! parent (sysroot ++ ct.1) = Some (FDir pst)) ∧
  (w_fs w !! (sysroot ++ ct.1) = None ∨ ∃ st d, w_fs w !! (sysroot ++ ct.1) = Some (FFile st d)).

Lemma write_config_loop cts : ∀ w,
  w_euid w = 0%Z → NoDup (fst <$> cts) →
  Forall (conf_ready w) cts →
  Forall (λ ct, Forall (λ ct', parent (sysroot ++ ct.1) ≠ sysroot ++ ct'.1) cts) cts →
  Forall (λ ct, ∃ text, py_format ct.2 (g_context g) = Ok text) cts →
  ∃ w', io_iter (write_config_file g sysroot) cts w = (w', Ok tt) ∧
        (∀ p t text, (p, t) ∈ cts → py_format t (g_context g) = Ok text →
                     ∃ st, w_fs w' !! (sysroot ++ p) = Some (FFile st text)) ∧
        (∀ q, (∀ ct, ct ∈ cts → q ≠ sysroot ++ ct.1) → w_fs w' !! q = w_fs w !! q).
Proof.
  induction cts as [|[p t] cts IH]; intros w Hr Hnd Hready Hdist Hfmt.
  { exists w. split; [done|]. split; [|done]. intros ??? []%elem_of_nil. }
  apply Forall_cons in Hready as [(Hne&[pst Hpar]&Hex) Hready].
  apply Forall_cons in Hfmt as [[text Htext] Hfmt].
  pose proof (Forall_inv Hdist) as Hd0. apply Forall_inv_tail in Hdist.
  rewrite fmap_cons, NoDup_cons in Hnd. destruct Hnd as [Hnin Hnd]. cbn [fst snd] in *.
  destruct (write_config_file_root p t text w pst Hr Htext Hne Hpar Hex) as [st Hstep].
  set (w1 := set_fs w (<[sysroot ++ p := FFile st text]> (w_fs w))) in Hstep.
  assert (Hw1 : ∀ q, q ≠ sysroot ++ p → w_fs w1 !! q = w_fs w !! q).
  { intros q Hq. unfold w1. rewrite set_fs_fs, lookup_insert_ne; [done|]. congruence. }
  assert (Hnot : ∀ ct, ct ∈ cts → sysroot ++ ct.1 ≠ sysroot ++ p).
  { intros [p' t'] Hin Heq. apply app_inv_head in Heq. simpl in Heq. subst p'.
    apply Hnin, list_elem_of_fmap. by exists (p, t'). }
  destruct (IH w1) as (w'&Hrun&Htexts&Hframe); [done|done| | |done|].
  - apply Forall_forall. intros [p' t'] Hin.
    destruct (proj1 (Forall_forall _ _) Hready _ Hin) as (Hne'&[pst' Hpar']&Hex').
    pose proof (proj1 (Forall_forall _ _) Hdist _ Hin) as Hd'. cbn [fst] in *.
    split; [done|]. split.
    + exists pst'. rewrite Hw1; [done|]. by apply Forall_inv in Hd'.
    + by rewrite Hw1 by (apply (Hnot (p', t')), Hin).
  - eapply Forall_impl; [exact Hdist|]. intros ct Hct. by apply Forall_inv_tail in Hct.
  - exists w'. split; [cbn [io_iter]; by rewrite (io_bind_ok _ _ _ _ _ Hstep)|]. split.
    + intros p0 t0 text0 [[= -> ->]|Hin]%elem_of_cons Hf0; [|by apply (Htexts p0 t0)].
      exists st. rewrite Htext in Hf0. injection Hf0 as <-.
      rewrite Hframe; [unfold w1; rewrite set_fs_fs; apply lookup_insert_eq|].
      intros ct Hct. apply not_eq_sym, Hnot, Hct.
    + intros q Hq. rewrite Hframe by (intros ct Hct; apply Hq; by apply list_elem_of_further).
      apply Hw1, (Hq (p, t)), list_elem_of_here.
Qed.

End WriteConfig.

Lemma conf_paths_apart :
  Forall (λ ct : path * string,
            Forall (λ ct' : path * string, ct.1 ≠ [] ∧ parent ct.1 ≠ ct'.1)
                   (zip conffile_list template_list))
         (zip conffile_list template_list).
Proof. apply (bool_decide_unpack _). vm_compute. reflexivity. Qed.

Lemma conf_paths_fst : fst <$> zip conffile_list template_list = conffile_list.
Proof. reflexivity. Qed.

(** The six files written, run as root. *)
Lemma write_config_files_texts `{GenHost} release arch libc verify copy_qemu repo_base cache_dir
    g sysroot w est ost :
  generator_init release arch libc verify copy_qemu repo_base cache_dir = Ok g →
  w_euid w = 0%Z →
  w_fs w !! (sysroot ++ ["etc"]) = Some (FDir est) →
  w_fs w !! (sysroot ++ ["etc"; "opkg"]) = Some (FDir ost) →
  (∀ p, p ∈ conffile_list →
        w_fs w !! (sysroot ++ p) = None ∨ ∃ st d, w_fs w !! (sysroot ++ p) = Some (FFile st d)) →
  ∃ w', write_config_files g sysroot w = (w', Ok tt) ∧
        (∀ p text, (p, text) ∈ expected_config release arch libc verify
                                 (py_or repo_base "http://archive.boltlinux.org/dists") →
                   ∃ st, w_fs w' !! (sysroot ++ p) = Some (FFile st text)) ∧
        (∀ q, (∀ p, p ∈ conffile_list → q ≠ sysroot ++ p) → w_fs w' !! q = w_fs w !! q).
Proof.
  intros Hinit Hr Hetc Hopkg Hex. pose proof (config_files_text _ _ _ _ _ _ _ _ Hinit) as Hrender.
  set (L := zip conffile_list template_list) in *.
  assert (Hin1 : ∀ ct, ct ∈ L → ct.1 ∈ conffile_list).
  { intros ct Hct. rewrite <-conf_paths_fst. by apply list_elem_of_fmap_2. }
  destruct (write_config_loop g sysroot L w Hr) as (w'&Hrun&Htexts&Hframe).
  - apply (bool_decide_unpack _). vm_compute. reflexivity.
  - apply Forall_forall. intros ct Hct. pose proof (Hin1 _ Hct) as Hc1.
    unfold L, conffile_list, template_list in Hct. cbn [zip zip_with] in Hct.
    repeat (apply elem_of_cons in Hct as [->|Hct];
            [split; [by intros []%app_eq_nil|]; split;
             [rewrite parent_app by done; eexists; first [exact Hopkg | exact Hetc] | by apply Hex] |]).
    by apply elem_of_nil in Hct.
  - eapply Forall_impl; [apply conf_paths_apart|]. intros ct Hct.
    eapply Forall_impl; [apply Hct|]. intros ct' [Hne Hp].
    rewrite parent_app by done. by apply app_ne_head.
  - apply Forall_forall. intros ct Hct.
    assert (Hm : (ct.1, py_format ct.2 (g_context g)) ∈
                 (λ pt : path * string, (pt.1, Ok pt.2)) <$>
                   expected_config release arch libc verify
                     (py_or repo_base "http://archive.boltlinux.org/dists")).
    { rewrite <-Hrender. apply list_elem_of_fmap. by exists ct. }
    apply list_elem_of_fmap in Hm as (pt&[= _ Hpt]&_). eauto.
  - exists w'. split; [exact Hrun|]. split.
    + intros p text Hpt.
      assert (Hm : (p, Ok text) ∈ (λ ct : path * string, (ct.1, py_format ct.2 (g_context g))) <$> L).
      { rewrite Hrender. apply list_elem_of_fmap. by exists (p, text). }
      apply list_elem_of_fmap in Hm as ([p' t']&[= Hp Hf]&Hct). cbn [fst snd] in *. subst p'.
      by apply (Htexts p t').
    + intros q Hq. apply Hframe. intros ct Hct. by apply Hq, Hin1.
Qed.

(** C8: [_write_config_files] run as root on a system root whose [etc] and
    [etc/opkg] exist and where each configuration file is a regular file or
    missing: it succeeds, each file holds exactly its text (the feed
    [src/gz main <repo_base>/<release>/core/<arch>/<libc>/main], the
    options with [option check_signature] iff [verify], ...), and nothing
    else has changed. *)
Theorem write_config_files_root `{GenHost} release arch libc verify copy_qemu repo_base cache_dir
    g sysroot w est ost :
  generator_init release arch libc verify copy_qemu repo_base cache_dir = Ok g →
  w_euid w = 0%Z →
  w_fs w !! (sysroot ++ ["etc"]) = Some (FDir est) →
  w_fs w !! (sysroot ++ ["etc"; "opkg"]) = Some (FDir ost) →
  (∀ p, p ∈ conffile_list →
        w_fs w !! (sysroot ++ p) = None ∨ ∃ st d, w_fs w !! (sysroot ++ p) = Some (FFile st d)) →
  ∃ w', write_config_files g sysroot w = (w', Ok tt) ∧
        (∀ p text, (p, text) ∈ expected_config release arch libc verify
                                 (py_or repo_base "http://archive.boltlinux.org/dists") →
                   ∃ st, w_fs w' !! (sysroot ++ p) = Some (FFile st text)) ∧
        (∀ q, (∀ p, p ∈ conffile_list → q ≠ sysroot ++ p) → w_fs w' !! q = w_fs w !! q).
Proof. apply write_config_files_texts. Qed.

(** ** The QEMU binary and the constructor *)

(** C29: The loop over [prefix_map] picks the binary of the first prefix of
    the architecture in the table's order, and [""] when none is a
    prefix. *)
Theorem qemu_binary_for_first arch m b :
  qemu_binary_for arch m = b ↔
  (∃ pre prefix post, m = pre ++ (prefix, b) :: post ∧ py_startswith arch prefix = true ∧
                      Forall (λ pb : string * string, py_startswith arch pb.1 = false) pre) ∨
  (Forall (λ pb : string * string, py_startswith arch pb.1 = false) m ∧ b = "").
Proof.
  induction m as [|[prefix b'] m IH]; simpl.
  { split; [intros <-; right; done|]. intros [([|]&?&?&?&_)|[_ <-]]; [discriminate..|done]. }
  destruct (py_startswith arch prefix) eqn:E.
  - split; [intros <-; left; exists [], prefix, m; auto|].
    intros [([|[p0 b0] pre]&p&post&Hm&Hp&Hpre)|[Hall _]].
    + by injection Hm as -> -> ->.
    + injection Hm as -> -> ->. inversion Hpre. simpl in *. congruence.
    + inversion Hall. simpl in *. congruence.
  - rewrite IH. split.
    + intros [(pre&p&post&->&Hp&Hpre)|[Hall ->]]; [left; exists ((prefix, b') :: pre), p, post|right];
        auto.
    + intros [([|[p0 b0] pre]&p&post&Hm&Hp&Hpre)|[Hall ->]].
      * injection Hm as -> -> ->. exfalso. congruence.
      * injection Hm as -> -> ->. inversion Hpre. left. exists pre, p, post. auto.
      * inversion Hall. right. auto.
Qed.

(** An architecture without an entry in the table needs no QEMU binary:
    [_copy_qemu_to_sysroot] does nothing. *)
Theorem copy_qemu_no_match `{GenHost} g sysroot w :
  qemu_binary_for (g_arch g) qemu_prefix_map = "" → copy_qemu_to_sysroot g sysroot w = (w, Ok tt).
Proof. intros Hq. unfold copy_qemu_to_sysroot. by rewrite Hq. Qed.

(** An architecture with an entry whose binary the host lacks is an
    error: [ImageGenerator.Error('could not find QEMU executable "..."')],
    raised before anything is copied. *)
Theorem copy_qemu_missing `{GenHost} g sysroot w :
  qemu_binary_for (g_arch g) qemu_prefix_map ≠ "" →
  find_executable w (qemu_binary_for (g_arch g) qemu_prefix_map) = None →
  copy_qemu_to_sysroot g sysroot w =
  (w, Err (GeneratorError ("could not find QEMU executable " +:+ dquote +:+
                           qemu_binary_for (g_arch g) qemu_prefix_map +:+ dquote +:+ "."))).
Proof.
  intros Hq Hf. unfold copy_qemu_to_sysroot.
  destruct (String.eqb_spec (qemu_binary_for (g_arch g) qemu_prefix_map) "") as [E|_]; [done|].
  unfold mbind, io_bind, get_world. by rewrite Hf.
Qed.

(** The constructor fails exactly when neither the argument nor
    [UserInfo.cache_dir()] gives a cache directory. *)
Theorem generator_init_error `{GenHost} release arch libc verify copy_qemu repo_base cache_dir e :
  generator_init release arch libc verify copy_qemu repo_base cache_dir = Err e ↔
  py_or cache_dir user_cache_dir = "" ∧
  e = GeneratorError "unable to determine cache directory location.".
Proof.
  unfold generator_init. destruct (String.eqb_spec (py_or cache_dir user_cache_dir) "") as [->|Hne].
  - split; [intros [= <-]; done | intros [_ ->]; done].
  - split; [discriminate | intros [? _]; done].
Qed.

(** ** The removal of [resolv.conf] *)

(** C25: The [except OSError: pass] of [cleanup] swallows every error of
    [os.unlink], not only a missing file: the step never raises, and when
    [etc/resolv.conf] is a directory, or the process may not remove it,
    [cleanup] goes on with the world unchanged. *)
Theorem drop_resolv_conf_never_raises sysroot w :
  ∃ w', drop_resolv_conf sysroot w = (w', Ok tt) ∧
        (w' = w ∨ w' = set_fs w (delete (sysroot ++ ["etc"; "resolv.conf"]) (w_fs w))).
Proof.
  unfold drop_resolv_conf, io_catch, os_unlink.
  destruct (w_fs w !! _) as [[st|st d|st t]|]; [by eauto| | |by eauto];
    (destruct (check_create w _) as [[]|e] eqn:E; [by eauto|]);
    apply check_create_oserror in E as (?&?&->); by eauto.
Qed.

(** ** The entry points on a path that is not a directory *)

Lemma require_dir_false sysroot w :
  isdir_b w sysroot = false → require_dir sysroot w = (w, Err (no_such_directory sysroot)).
Proof. intros H. unfold require_dir, mbind, io_bind, os_path_isdir. by rewrite H. Qed.

Lemma require_dir_true sysroot w : isdir_b w sysroot = true → require_dir sysroot w = (w, Ok tt).
Proof. intros H. unfold require_dir, mbind, io_bind, os_path_isdir. by rewrite H. Qed.

(** C16: [prepare], [customize] and [cleanup] on a path that is not an
    existing directory raise [ImageGenerator.Error("no such directory:
    ...")] before touching anything: the world is unchanged, nothing is
    logged. *)
Theorem entry_points_require_dir `{GenHost} g sysroot specfile w :
  isdir_b w sysroot = false →
  prepare g sysroot w = (w, Err (no_such_directory sysroot)) ∧
  customize g sysroot specfile w = (w, Err (no_such_directory sysroot)) ∧
  cleanup g sysroot w = (w, Err (no_such_directory sysroot)).
Proof.
  intros Hd. unfold prepare, customize, cleanup.
  by rewrite !(io_bind_err _ _ _ _ _ (require_dir_false _ _ Hd)).
Qed.

(** The error reaches the caller of [prepare]: on a system root the
    process may not write to, [prepare] raises the [PermissionError] of
    [os.makedirs] and has changed nothing in the file system (it has only
    logged "preparing system root."). *)
Theorem prepare_denied `{GenHost} g sysroot s0 w :
  w_fs w !! sysroot = Some (FDir s0) → can_write w s0 = false →
  w_fs w !! (sysroot ++ ["dev"]) = None →
  ∃ w', prepare g sysroot w = (w', Err (OSError EACCES (render_path (sysroot ++ ["dev"])))) ∧
        w_fs w' = w_fs w.
Proof.
  intros H0 Hw Hn. unfold prepare.
  assert (Hd : isdir_b w sysroot = true) by (unfold isdir_b; by rewrite (resolve_dir _ _ _ H0)).
  rewrite (io_bind_ok _ _ _ _ _ (require_dir_true _ _ Hd)).
  set (wl := World (w_fs w) (w_environ w) (w_euid w) (w_egid w) (w_umask w)
                   (w_log w ++ ["preparing system root."])).
  rewrite (io_bind_ok _ _ _ _ _ (eq_refl : log_info "preparing system root." w = (wl, Ok tt))).
  assert (Hreal : os_path_realpath sysroot wl = (wl, Ok sysroot)).
  { unfold os_path_realpath. by rewrite (resolve_dir (w_fs wl) _ _ H0). }
  rewrite (io_bind_ok _ _ _ _ _ Hreal).
  assert (Hc : create_dirs sysroot wl = (wl, Err (OSError EACCES (render_path (sysroot ++ ["dev"])))))
    by (by apply (create_dirs_eacces _ s0)).
  exists wl. unfold prepare_root. by rewrite !(io_bind_err _ _ _ _ _ (io_bind_err _ _ _ _ _ Hc)).
Qed.

(** ** The clean-up of a scratch directory *)

Section CleanDir.
Context (sysroot directory : path) (st pst : stat).
Let full_path := sysroot ++ directory.

(** The state after the five calls of one iteration, when they succeed. *)
Lemma clean_dir_ok_inv w w' :
  w_fs w !! full_path = Some (FDir st) → w_fs w !! parent full_path = Some (FDir pst) →
  clean_dir sysroot directory w = (w', Ok tt) →
  full_path ≠ [] ∧
  ∃ ns, w_fs w' = <[full_path := FDir (set_mode (Z.lor S_IFDIR (st_mode st))
                                          (set_owner (st_uid st) (st_gid st) ns))]>
                  (<[full_path := FDir (set_owner (st_uid st) (st_gid st) ns)]>
                   (<[full_path := FDir ns]>
                    (filter (λ kv : path * fnode, ¬ full_path `prefix_of` kv.1) (w_fs w)))).
Proof.
  intros Hp Hpar Hrun. unfold clean_dir in Hrun. fold full_path in Hrun.
  rewrite (io_bind_ok _ _ _ _ _ (os_lstat_dir _ _ _ Hp)) in Hrun. simpl in Hrun.
  apply io_bind_inv in Hrun as [(w1&[]&Hrm&Hrun)|(?&_&[=])].
  apply shutil_rmtree_ok in Hrm as (_&Hne&_&->).
  assert (Hpar1 : w_fs (set_fs w (filter (λ kv : path * fnode, ¬ full_path `prefix_of` kv.1) (w_fs w)))
                  !! parent full_path = Some (FDir pst)).
  { rewrite set_fs_fs, lookup_filter_subtree, decide_False by (by apply not_prefix_parent). done. }
  apply io_bind_inv in Hrun as [(w2&[]&Hmk&Hrun)|(?&_&[=])].
  rewrite (os_makedirs_strict _ _ _ Hne Hpar1) in Hmk.
  apply os_mkdir_ok in Hmk as (_&_&->).
  apply io_bind_inv in Hrun as [(w3&[]&Hch&Hrun)|(?&_&[=])].
  apply (os_chown_dir_ok _ _ _ _ _ _ _ (lookup_insert_eq _ _ _)) in Hch. subst w3.
  apply (os_chmod_dir_ok _ _ _ _ _ _ (lookup_insert_eq _ _ _)) in Hrun. subst w'.
  split; [done|]. eexists. reflexivity.
Qed.

(** Restoring the captured owner and mode: after a successful iteration
    the scratch directory is back with exactly the [stat] it had (owner,
    group, permission and sticky bits), nothing is left under it, and every
    entry outside it is as before. *)
Lemma clean_dir_restores_stat w w' :
  w_fs w !! (sysroot ++ directory) = Some (FDir st) →
  w_fs w !! parent (sysroot ++ directory) = Some (FDir pst) →
  (0 ≤ st_mode st < 4096)%Z →
  clean_dir sysroot directory w = (w', Ok tt) →
  w_fs w' !! (sysroot ++ directory) = Some (FDir st) ∧
  (∀ q, (sysroot ++ directory) `prefix_of` q → q ≠ sysroot ++ directory → w_fs w' !! q = None) ∧
  (∀ q, ¬ (sysroot ++ directory) `prefix_of` q → w_fs w' !! q = w_fs w !! q).
Proof.
  fold full_path. intros Hp Hpar Hm Hrun.
  destruct (clean_dir_ok_inv _ _ Hp Hpar Hrun) as (Hne&ns&->).
  split; [|split].
  - rewrite lookup_insert_eq, set_mode_lstat_dir by done. by destruct st.
  - intros q Hq Hqne. rewrite !lookup_insert_ne by congruence.
    by rewrite lookup_filter_subtree, decide_True.
  - intros q Hq. assert (full_path ≠ q) by (intros ->; apply Hq; done).
    rewrite !lookup_insert_ne by done. by rewrite lookup_filter_subtree, decide_False.
Qed.

(** Restoring the captured owner and mode: after a successful iteration
    the scratch directory is back with exactly the [stat] it had (owner,
    group, permission and sticky bits), nothing is left under it, and every
    entry outside it is as before. *)
Theorem clean_dir_restores w w' :
  w_fs w !! (sysroot ++ directory) = Some (FDir st) →
  w_fs w !! parent (sysroot ++ directory) = Some (FDir pst) →
  (0 ≤ st_mode st < 4096)%Z →
  clean_dir sysroot directory w = (w', Ok tt) →
  w_fs w' !! (sysroot ++ directory) = Some (FDir st) ∧
  (∀ q, (sysroot ++ directory) `prefix_of` q → q ≠ sysroot ++ directory → w_fs w' !! q = None) ∧
  (∀ q, ¬ (sysroot ++ directory) `prefix_of` q → w_fs w' !! q = w_fs w !! q).
Proof. apply clean_dir_restores_stat. Qed.

(** Run as root (as the image tools are), an iteration on an existing
    scratch directory other than [/] succeeds. *)
Theorem clean_dir_root_ok w :
  w_euid w = 0%Z →
  w_fs w !! (sysroot ++ directory) = Some (FDir st) →
  w_fs w !! parent (sysroot ++ directory) = Some (FDir pst) →
  sysroot ++ directory ≠ [] →
  ∃ w', clean_dir sysroot directory w = (w', Ok tt).
Proof.
  fold full_path. intros Hr Hp Hpar Hne. unfold clean_dir. fold full_path.
  rewrite (io_bind_ok _ _ _ _ _ (os_lstat_dir _ _ _ Hp)). simpl.
  set (w1 := set_fs w (filter (λ kv : path * fnode, ¬ full_path `prefix_of` kv.1) (w_fs w))).
  assert (Hrm : shutil_rmtree full_path w = (w1, Ok tt)).
  { apply shutil_rmtree_ok. eauto 6 using writable_tree_root. }
  assert (Hpar1 : w_fs w1 !! parent full_path = Some (FDir pst)).
  { unfold w1. rewrite set_fs_fs, lookup_filter_subtree, decide_False by (by apply not_prefix_parent).
    done. }
  assert (Hnone : w_fs w1 !! full_path = None).
  { unfold w1. by rewrite set_fs_fs, lookup_filter_subtree, decide_True. }
  rewrite (io_bind_ok _ _ _ _ _ Hrm).
  rewrite (io_bind_ok _ _ _ _ _ (eq_trans (os_makedirs_strict full_path w1 pst Hne Hpar1)
             (os_mkdir_fresh _ _ _ Hnone (check_create_root w1 full_path pst Hr Hpar1)))).
  set (w2 := set_fs w1 (<[full_path := FDir (new_stat w1 (Z.land 511 1023))]> (w_fs w1))).
  rewrite (io_bind_ok _ _ w2 _ _ (os_chown_root_dir w2 _ _ _ _ Hr (lookup_insert_eq _ _ _))).
  eexists. apply (os_chmod_root_dir (set_fs w2 _) _ _ _ Hr (lookup_insert_eq _ _ _)).
Qed.

End CleanDir.

(** The loop over [DIRS_TO_CLEAN]. *)
Definition scratch_ok (w : world) (sysroot : path) (st_tmp st_var_tmp : stat) : Prop :=
  w_fs w !! (sysroot ++ ["tmp"]) = Some (FDir st_tmp) ∧
  w_fs w !! (sysroot ++ ["var"; "tmp"]) = Some (FDir st_var_tmp) ∧
  (∀ q, (sysroot ++ ["tmp"]) `prefix_of` q → q ≠ sysroot ++ ["tmp"] → w_fs w !! q = None) ∧
  (∀ q, (sysroot ++ ["var"; "tmp"]) `prefix_of` q → q ≠ sysroot ++ ["var"; "tmp"] →
        w_fs w !! q = None).

(** Both iterations of the loop, when they succeed. *)
Lemma clean_dirs_loop_restore sysroot w w' st1 st2 s0 s1 :
  w_fs w !! sysroot = Some (FDir s0) →
  w_fs w !! (sysroot ++ ["var"]) = Some (FDir s1) →
  w_fs w !! (sysroot ++ ["tmp"]) = Some (FDir st1) →
  w_fs w !! (sysroot ++ ["var"; "tmp"]) = Some (FDir st2) →
  (0 ≤ st_mode st1 < 4096)%Z → (0 ≤ st_mode st2 < 4096)%Z →
  io_iter (clean_dir sysroot) DIRS_TO_CLEAN w = (w', Ok tt) →
  scratch_ok w' sysroot st1 st2 ∧
  (∀ q, ¬ (sysroot ++ ["tmp"]) `prefix_of` q → ¬ (sysroot ++ ["var"; "tmp"]) `prefix_of` q →
        w_fs w' !! q = w_fs w !! q).
Proof.
  intros H0 Hvar Htmp Hvtmp Hm1 Hm2 Hrun. unfold DIRS_TO_CLEAN in Hrun. cbn [io_iter] in Hrun.
  apply io_bind_inv in Hrun as [(w1&[]&Hr1&Hrun)|(?&_&[=])].
  apply io_bind_inv in Hrun as [(w2&[]&Hr2&[= <-])|(?&_&[=])].
  assert (Hpar1 : w_fs w !! parent (sysroot ++ ["tmp"]) = Some (FDir s0)).
  { by rewrite parent_snoc. }
  assert (Hpar2 : parent (sysroot ++ ["var"; "tmp"]) = sysroot ++ ["var"]).
  { change ["var"; "tmp"] with (["var"] ++ ["tmp"]). rewrite app_assoc. apply parent_snoc. }
  assert (Hd1 : ∀ q, sysroot ++ ["tmp"] `prefix_of` q → ¬ sysroot ++ ["var"; "tmp"] `prefix_of` q).
  { intros q H1 H2. by eapply (prefix_diverge sysroot "tmp" "var"). }
  destruct (clean_dir_restores_stat _ _ _ _ _ _ Htmp Hpar1 Hm1 Hr1)
    as (A1&B1&C1).
  rewrite <-(C1 (sysroot ++ ["var"; "tmp"])) in Hvtmp by (intros H; by apply (Hd1 _ H)).
  rewrite <-(C1 (sysroot ++ ["var"])) in Hvar
    by (intros H; apply prefix_app_inv, prefix_cons_inv_1 in H; done).
  rewrite <-Hpar2 in Hvar.
  destruct (clean_dir_restores_stat _ _ _ _ _ _ Hvtmp Hvar Hm2 Hr2)
    as (A2&B2&C2).
  split; [split; [|split; [|split]] |].
  - rewrite C2; [done|]. intros H. by apply (Hd1 _ (reflexivity _)).
  - done.
  - intros q Hq Hne. rewrite C2 by (by apply Hd1). by apply B1.
  - done.
  - intros q Hq1 Hq2. rewrite C2, C1; done.
Qed.

(** C6: The ownership and mode round trip of [cleanup]: when the loop over
    [DIRS_TO_CLEAN] succeeds, [/tmp] and [/var/tmp] of the system root are
    empty directories with the owner, group and mode they had before (a
    [/tmp] of uid 1000 and mode [0o1777] stays so), and nothing outside
    them has changed. *)
Theorem clean_dirs_restore sysroot w w' st1 st2 s0 s1 :
  w_fs w !! sysroot = Some (FDir s0) →
  w_fs w !! (sysroot ++ ["var"]) = Some (FDir s1) →
  w_fs w !! (sysroot ++ ["tmp"]) = Some (FDir st1) →
  w_fs w !! (sysroot ++ ["var"; "tmp"]) = Some (FDir st2) →
  (0 ≤ st_mode st1 < 4096)%Z → (0 ≤ st_mode st2 < 4096)%Z →
  io_iter (clean_dir sysroot) DIRS_TO_CLEAN w = (w', Ok tt) →
  scratch_ok w' sysroot st1 st2 ∧
  (∀ q, ¬ (sysroot ++ ["tmp"]) `prefix_of` q → ¬ (sysroot ++ ["var"; "tmp"]) `prefix_of` q →
        w_fs w' !! q = w_fs w !! q).
Proof. apply clean_dirs_loop_restore. Qed.

(** ** The mode of a created directory *)

(** C17: bounds. When an iteration of [prepare]'s loop over [DIRS_TO_CREATE]
    returns, its path resolves to a directory whose mode is the table's mode
    reduced to the twelve permission bits, [m mod 0o10000]: the sticky bit of
    [0o1777] is kept, and no integer in the table can store more. *)
Theorem create_dir_mode_bounds sysroot m d w w' :
  create_dir sysroot (m, d) w = (w', Ok tt) →
  ∃ q st, resolve (w_fs w') (sysroot ++ d) = Ok (q, FDir st) ∧
          st_mode st = (m mod 4096)%Z ∧ (0 ≤ st_mode st < 4096)%Z.
Proof.
  unfold create_dir. cbn [fst snd]. intros H.
  apply io_bind_inv in H as [(w1&[]&Hmk&Hch)|(e&_&?)]; [|done].
  apply makedirs_rev_isdir in Hmk. rewrite reverse_involutive in Hmk. unfold isdir_b in Hmk.
  destruct (resolve (w_fs w1) (sysroot ++ d)) as [[q [st| |]]|] eqn:R; try done.
  exists q, (set_mode m st). rewrite set_mode_mod. split_and!; [|done|apply Z.mod_pos_bound; lia..].
  revert Hch. unfold os_chmod. rewrite R. case_match; [|done]. intros [= <-]. cbn [set_fs w_fs].
  change (FDir (set_mode m st)) with (update_stat (set_mode m) (FDir st)) at 1.
  unfold resolve. rewrite (follow_update _ _ _ q (FDir st)) by (by eapply follow_lookup).
  fold (resolve (w_fs w1) (sysroot ++ d)). rewrite R. by rewrite bool_decide_true.
Qed.

(** ** The invariant of the file system *)

Section Invariant.
Context `{GenHost}.

Lemma os_path_realpath_wf p : io_preserves (os_path_realpath p).
Proof. by apply io_preserves_query. Qed.

Lemma require_dir_wf sysroot : io_preserves (require_dir sysroot).
Proof. unfold require_dir. io_wf. Qed.

Lemma drop_resolv_conf_wf sysroot : io_preserves (drop_resolv_conf sysroot).
Proof. unfold drop_resolv_conf. io_wf. Qed.

Lemma write_config_files_wf g sysroot : io_preserves (write_config_files g sysroot).
Proof. unfold write_config_files, write_config_file. io_wf. Qed.

Lemma clean_dir_wf sysroot d : io_preserves (clean_dir sysroot d).
Proof. unfold clean_dir. io_wf. Qed.

Lemma create_dirs_wf sysroot : io_preserves (create_dirs sysroot).
Proof. unfold create_dirs, create_dir. io_wf. Qed.

Lemma copy_qemu_to_sysroot_wf g sysroot : io_preserves (copy_qemu_to_sysroot g sysroot).
Proof. unfold copy_qemu_to_sysroot. io_wf. Qed.

#[local] Hint Resolve os_path_realpath_wf require_dir_wf drop_resolv_conf_wf
  write_config_files_wf clean_dir_wf create_dirs_wf copy_qemu_to_sysroot_wf : bolt_wf.

Lemma prepare_root_wf g sysroot : io_preserves (prepare_root g sysroot).
Proof. unfold prepare_root. io_wf. Qed.

#[local] Hint Resolve prepare_root_wf : bolt_wf.

(** [cleanup] keeps the file system a tree rooted at a directory with
    every mode within [0o7777], whether it returns or raises part-way. *)
Theorem cleanup_preserves_wf g sysroot w :
  world_wf w → world_wf (fst (cleanup g sysroot w)).
Proof. revert w. change (io_preserves (cleanup g sysroot)). unfold cleanup. io_wf. Qed.

(** so does [prepare], given that [opkg update] does; every call it
    makes to the file system keeps the invariant, on success and on error. *)
Theorem prepare_preserves_wf g sysroot w :
  (∀ p, io_preserves (opkg_update p)) →
  world_wf w → world_wf (fst (prepare g sysroot w)).
Proof. intros Hopkg. revert w. change (io_preserves (prepare g sysroot)). unfold prepare. io_wf. Qed.

End Invariant.

(** A system root whose [/tmp] belongs to uid 1000 with mode [0o1777] and
    holds a file, cleaned by root. *)
Definition scratch_world : world :=
  World (<[ [] := FDir (Stat 493 0 0) ]> $ <[ ["srv"] := FDir (Stat 493 0 0) ]> $
         <[ sample_root := FDir (Stat 493 0 0) ]> $
         <[ sample_root ++ ["tmp"] := FDir (Stat 1023 1000 1000) ]> $
         <[ sample_root ++ ["tmp"; "build.log"] := FFile (Stat 420 1000 1000) "log" ]> $
         <[ sample_root ++ ["var"] := FDir (Stat 493 0 0) ]> $
         {[ sample_root ++ ["var"; "tmp"] := FDir (Stat 1023 0 0) ]})
        ∅ 0 0 18 [].

Definition scratch_after_tmp : world := fst (clean_dir sample_root ["tmp"] scratch_world).

Lemma clean_dir_restores_witness :
  clean_dir sample_root ["tmp"] scratch_world = (scratch_after_tmp, Ok tt) ∧
  w_fs scratch_after_tmp !! (sample_root ++ ["tmp"]) = Some (FDir (Stat 1023 1000 1000)).
Proof.
  assert (Hrun : clean_dir sample_root ["tmp"] scratch_world = (scratch_after_tmp, Ok tt))
    by (vm_compute; reflexivity).
  split; [exact Hrun|].
  refine (proj1 (clean_dir_restores sample_root ["tmp"] (Stat 1023 1000 1000) (Stat 493 0 0)
                   scratch_world scratch_after_tmp _ _ _ Hrun));
    [vm_compute; reflexivity | vm_compute; reflexivity | simpl; lia].
Defined.

Lemma clean_dir_root_ok_witness : ∃ w', clean_dir sample_root ["tmp"] scratch_world = (w', Ok tt).
Proof.
  apply (clean_dir_root_ok sample_root ["tmp"] (Stat 1023 1000 1000) (Stat 493 0 0));
    [reflexivity | vm_compute; reflexivity | vm_compute; reflexivity | simpl; congruence].
Defined.

Definition scratch_cleaned : world := fst (io_iter (clean_dir sample_root) DIRS_TO_CLEAN scratch_world).

Lemma clean_dirs_restore_witness :
  io_iter (clean_dir sample_root) DIRS_TO_CLEAN scratch_world = (scratch_cleaned, Ok tt) ∧
  scratch_ok scratch_cleaned sample_root (Stat 1023 1000 1000) (Stat 1023 0 0).
Proof.
  assert (Hrun : io_iter (clean_dir sample_root) DIRS_TO_CLEAN scratch_world = (scratch_cleaned, Ok tt))
    by (vm_compute; reflexivity).
  split; [exact Hrun|].
  refine (proj1 (clean_dirs_restore sample_root scratch_world scratch_cleaned
                   (Stat 1023 1000 1000) (Stat 1023 0 0) (Stat 493 0 0) (Stat 493 0 0)
                   _ _ _ _ _ _ Hrun));
    [vm_compute; reflexivity.. | simpl; lia | simpl; lia].
Defined.

Lemma entry_points_require_dir_witness :
  @prepare sample_gen_host sample_generator ["srv"; "missing"] host_world =
  (host_world, Err (no_such_directory ["srv"; "missing"])).
Proof.
  apply (@entry_points_require_dir sample_gen_host sample_generator ["srv"; "missing"] "image.xml").
  vm_compute. reflexivity.
Defined.

(** [cleanup] right after a successful [prepare] of an empty root fails:
    [prepare] creates [/var] but not [/var/tmp], and the loop of [cleanup]
    [lstat]s [/var/tmp] ([FileNotFoundError]). *)
Theorem cleanup_after_prepare_fails :
  snd (@prepare sample_gen_host stable_aarch64 sample_root host_world) = Ok tt ∧
  snd (cleanup stable_aarch64 sample_root
         (fst (@prepare sample_gen_host stable_aarch64 sample_root host_world))) =
  Err (OSError ENOENT "/srv/root/var/tmp").
Proof. split; vm_compute; reflexivity. Qed.

(** The same machine, used by uid 1000, who may not write to the
    root-owned [0o755] system root. *)
Definition user_world : world := World (w_fs host_world) (w_environ host_world) 1000 1000 18 [].

Lemma create_dirs_root_witness :
  ∃ w', create_dirs sample_root host_world = (w', Ok tt) ∧
        ∃ s, w_fs w' !! (sample_root ++ ["tmp"]) = Some (FDir s) ∧ st_mode s = 1023%Z.
Proof.
  destruct (create_dirs_root sample_root (Stat 493 0 0) host_world) as (w'&Hrun&Hm&_).
  - reflexivity.
  - vm_compute. reflexivity.
  - intros md Hin. left. unfold DIRS_TO_CREATE in Hin.
    repeat (apply elem_of_cons in Hin as [->|Hin]; [vm_compute; reflexivity|]).
    by apply elem_of_nil in Hin.
  - exists w'. split; [exact Hrun|]. apply Hm. unfold DIRS_TO_CREATE.
    repeat (first [apply list_elem_of_here | apply list_elem_of_further]).
Defined.

Lemma create_dirs_denied_witness :
  create_dirs sample_root user_world =
  (user_world, Err (OSError EACCES (render_path (sample_root ++ ["dev"])))).
Proof.
  apply (create_dirs_denied sample_root (Stat 493 0 0)); vm_compute; reflexivity.
Defined.

Lemma prepare_denied_witness :
  ∃ w', @prepare sample_gen_host stable_aarch64 sample_root user_world =
        (w', Err (OSError EACCES (render_path (sample_root ++ ["dev"])))) ∧
        w_fs w' = w_fs user_world.
Proof.
  apply (@prepare_denied sample_gen_host stable_aarch64 sample_root (Stat 493 0 0));
    vm_compute; reflexivity.
Defined.

Lemma stable_aarch64_init :
  @generator_init sample_gen_host "stable" "aarch64" "musl" true false None None = Ok stable_aarch64.
Proof. vm_compute. reflexivity. Qed.

Lemma config_files_render_witness :
  (λ ct : path * string, (ct.1, py_format ct.2 (g_context stable_aarch64))) <$>
    zip conffile_list template_list =
  (λ pt : path * string, (pt.1, Ok pt.2)) <$>
    expected_config "stable" "aarch64" "musl" true (py_or None "http://archive.boltlinux.org/dists").
Proof. apply (@config_files_render sample_gen_host _ _ _ _ _ _ _ _ stable_aarch64_init). Defined.

(** A system root that has [etc] and [etc/opkg] and no configuration. *)
Definition conf_world : world :=
  World (<[ [] := FDir (Stat 493 0 0) ]> $ <[ ["srv"] := FDir (Stat 493 0 0) ]> $
         <[ sample_root := FDir (Stat 493 0 0) ]> $
         <[ sample_root ++ ["etc"] := FDir (Stat 493 0 0) ]> $
         {[ sample_root ++ ["etc"; "opkg"] := FDir (Stat 493 0 0) ]})
        ∅ 0 0 18 [].

Lemma write_config_files_root_witness :
  ∃ w', write_config_files stable_aarch64 sample_root conf_world = (w', Ok tt) ∧
        ∃ st, w_fs w' !! (sample_root ++ ["etc"; "opkg"; "feeds.conf"]) =
              Some (FFile st ("src/gz main " +:+ py_or None "http://archive.boltlinux.org/dists" +:+
                              "/" +:+ "stable" +:+ "/core/" +:+ "aarch64" +:+ "/" +:+ "musl" +:+
                              "/main" +:+ nl)).
Proof.
  destruct (@write_config_files_root sample_gen_host "stable" "aarch64" "musl" true false None None
              stable_aarch64 sample_root conf_world (Stat 493 0 0) (Stat 493 0 0)
              stable_aarch64_init) as (w'&Hrun&Htexts&_).
  - reflexivity.
  - vm_compute. reflexivity.
  - vm_compute. reflexivity.
  - intros p Hp. left. unfold conffile_list in Hp.
    repeat (apply elem_of_cons in Hp as [->|Hp]; [vm_compute; reflexivity|]).
    by apply elem_of_nil in Hp.
  - exists w'. split; [exact Hrun|]. apply Htexts. unfold expected_config.
    apply list_elem_of_further, list_elem_of_further, list_elem_of_here.
Defined.

(** An x86_64 image needs no emulator; an aarch64 image on a host
    without QEMU cannot be prepared with [copy_qemu]. *)
Definition x86_64_generator : generator :=
  Generator "stable" "x86_64" "musl" true true "http://archive.boltlinux.org/dists"
            "/root/.cache" ∅.

Lemma copy_qemu_no_match_witness :
  @copy_qemu_to_sysroot sample_gen_host x86_64_generator sample_root host_world =
  (host_world, Ok tt).
Proof. apply (@copy_qemu_no_match sample_gen_host). vm_compute. reflexivity. Defined.

Lemma copy_qemu_missing_witness :
  @copy_qemu_to_sysroot sample_gen_host stable_aarch64 sample_root host_world =
  (host_world, Err (GeneratorError ("could not find QEMU executable " +:+ dquote +:+
                                    "qemu-aarch64-static" +:+ dquote +:+ "."))).
Proof. apply (@copy_qemu_missing sample_gen_host); vm_compute; [discriminate | reflexivity]. Defined.

Lemma cleanup_preserves_wf_witness :
  world_wf scratch_world ∧ world_wf (fst (cleanup stable_aarch64 sample_root scratch_world)).
Proof.
  assert (Hw : world_wf scratch_world) by (apply (bool_decide_unpack _); vm_compute; reflexivity).
  split; [exact Hw | apply cleanup_preserves_wf; exact Hw].
Defined.

Lemma prepare_preserves_wf_witness :
  world_wf host_world ∧
  world_wf (fst (@prepare sample_gen_host stable_aarch64 sample_root host_world)).
Proof.
  assert (Hw : world_wf host_world) by (apply (bool_decide_unpack _); vm_compute; reflexivity).
  split; [exact Hw|]. apply (@prepare_preserves_wf sample_gen_host); [|exact Hw].
  intros p. apply io_invariant_ret.
Defined.

Lemma create_dir_mode_bounds_witness :
  create_dir sample_root (1023%Z, ["tmp"]) host_world =
    (fst (create_dir sample_root (1023%Z, ["tmp"]) host_world), Ok tt) ∧
  ∃ q st, resolve (w_fs (fst (create_dir sample_root (1023%Z, ["tmp"]) host_world)))
                  (sample_root ++ ["tmp"]) = Ok (q, FDir st) ∧
          st_mode st = 1023%Z ∧ (0 ≤ st_mode st < 4096)%Z.
Proof.
  assert (H : create_dir sample_root (1023%Z, ["tmp"]) host_world =
              (fst (create_dir sample_root (1023%Z, ["tmp"]) host_world), Ok tt))
    by (vm_compute; reflexivity).
  split; [exact H|]. destruct (create_dir_mode_bounds _ _ _ _ _ H) as (q&st&A&B&C).
  exists q, st. split_and!; [exact A|rewrite B; reflexivity|lia..].
Defined.
