(* ===== verification/Customize.v ===== *)
(** * The directive pipeline of [customize], as a small-step machine

    [ImageGenerator.customize] applies the parts of a specification one
    after the other: a log line, then [part.apply(sysroot, env=env)]; the
    first exception ends the loop and propagates.  This file states that
    contract as a relation on configurations (the parts still to run, the
    world): [pipeline_step] runs one part that returns, [pipeline_fails]
    one that raises.  [apply_parts_refines] shows that the loop of
    [Generator.apply_parts] implements exactly this machine: it returns
    after a run of steps that consumes every part, or raises the exception
    of the first failing part, in the world that part left. *)

From S2P Require Import Prelude PyStr SysFs Generator.

(** The world with lines appended to the log. *)
Definition with_log (w : world) (msgs : list string) : world :=
  World (w_fs w) (w_environ w) (w_euid w) (w_egid w) (w_umask w) (w_log w ++ msgs).

Section Pipeline.
Context (sysroot : path) (env : gmap string string).

(** The world in which a part's [apply] runs: after its log line. *)
Definition before_apply (p : nat * nat * directive) (w : world) : world := fst (log_info (applying_message p) w).

Inductive pipeline_step : list (nat * nat * directive) * world → list (nat * nat * directive) * world → Prop :=
| pipeline_apply p ps w w' :
    d_apply p.2 sysroot env (before_apply p w) = (w', Ok tt) →
    pipeline_step (p :: ps, w) (ps, w').

Inductive pipeline_fails : list (nat * nat * directive) * world → world → exn → Prop :=
| pipeline_raise p ps w w' e :
    d_apply p.2 sysroot env (before_apply p w) = (w', Err e) →
    pipeline_fails (p :: ps, w) w' e.

Lemma apply_parts_nil w : apply_parts sysroot env [] w = (w, Ok tt).
Proof. done. Qed.

Lemma apply_parts_cons p ps w :
  apply_parts sysroot env (p :: ps) w =
  match d_apply p.2 sysroot env (before_apply p w) with
  | (w1, Ok _) => apply_parts sysroot env ps w1
  | (w1, Err e) => (w1, Err e)
  end.
Proof. reflexivity. Qed.

Lemma pipeline_step_cons p ps w c :
  pipeline_step (p :: ps, w) c ↔ c.1 = ps ∧ d_apply p.2 sysroot env (before_apply p w) = (c.2, Ok tt).
Proof.
  split; [by inversion 1|]. destruct c as [ps' w']. simpl. intros [-> H]. by constructor.
Qed.

Lemma pipeline_fails_cons p ps w w' e :
  pipeline_fails (p :: ps, w) w' e ↔ d_apply p.2 sysroot env (before_apply p w) = (w', Err e).
Proof. split; [by inversion 1|]. by constructor. Qed.

Lemma pipeline_nil_stuck w c : rtc pipeline_step ([], w) c → c = ([], w).
Proof. intros H. apply rtc_inv in H as [<-|(y&Hy&_)]; [done|inversion Hy]. Qed.

Lemma pipeline_fails_nil w w' e : ¬ pipeline_fails ([], w) w' e.
Proof. inversion 1. Qed.

(** A run from a part that returns goes through the world it leaves. *)
Lemma pipeline_rtc_cons p ps w w1 c :
  d_apply p.2 sysroot env (before_apply p w) = (w1, Ok tt) →
  rtc pipeline_step (p :: ps, w) c ↔ c = (p :: ps, w) ∨ rtc pipeline_step (ps, w1) c.
Proof.
  intros E. split.
  - intros H. apply rtc_inv in H as [<-|([ps' w']&Hy&Hr)]; [by left|right].
    apply pipeline_step_cons in Hy as [Hps Hy]. simpl in *. subst. congruence.
  - intros [->|H]; [done|]. eapply rtc_l; [|exact H]. by constructor.
Qed.

(** refinement. The loop of [customize] implements the pipeline: it
    returns exactly when a run of steps consumes every part, ending in the
    world it returns, and raises [e] exactly when a run of steps reaches a
    part whose [apply] raises [e], in the world that part left.  Parts after
    the failing one never run. *)
Lemma apply_parts_pipeline parts w w' r :
  apply_parts sysroot env parts w = (w', r) ↔
  (r = Ok tt ∧ rtc pipeline_step (parts, w) ([], w')) ∨
  (∃ e c, r = Err e ∧ rtc pipeline_step (parts, w) c ∧ pipeline_fails c w' e).
Proof.
  revert w. induction parts as [|p ps IH]; intros w.
  - rewrite apply_parts_nil. split.
    + intros [= <- <-]. by left.
    + intros [[-> Hr]|(e&c&->&Hr&Hf)]; apply pipeline_nil_stuck in Hr; [by simplify_eq|].
      subst c. by apply pipeline_fails_nil in Hf.
  - rewrite apply_parts_cons. destruct (d_apply _ _ _ _) as [w1 [[]|e]] eqn:E.
    + rewrite IH. setoid_rewrite (pipeline_rtc_cons _ _ _ _ _ E). split.
      * intros [[-> Hr]|(e&c&->&Hr&Hf)]; [by left; eauto|right; eauto 10].
      * intros [[-> [Hr|Hr]]|(e&c&->&[->|Hr]&Hf)]; [done|by left|..|right; eauto].
        apply pipeline_fails_cons in Hf. congruence.
    + split.
      * intros [= <- <-]. right. exists e, (p :: ps, w). split_and!; [done..|by constructor].
      * intros [[-> Hr]|(e'&c&->&Hr&Hf)].
        -- apply rtc_inv in Hr as [Hr|(y&Hy&_)]; [done|].
           destruct y. apply pipeline_step_cons in Hy as [_ Hy]. congruence.
        -- apply rtc_inv in Hr as [<-|(y&Hy&_)].
           ++ apply pipeline_fails_cons in Hf. congruence.
           ++ destruct y. apply pipeline_step_cons in Hy as [_ Hy]. congruence.
Qed.

(** C5: refinement. The loop of [customize] implements the pipeline: it
    returns exactly when a run of steps consumes every part, ending in the
    world it returns, and raises [e] exactly when a run of steps reaches a
    part whose [apply] raises [e], in the world that part left.  Parts after
    the failing one never run. *)
Theorem apply_parts_refines parts w w' r :
  apply_parts sysroot env parts w = (w', r) ↔
  (r = Ok tt ∧ rtc pipeline_step (parts, w) ([], w')) ∨
  (∃ e c, r = Err e ∧ rtc pipeline_step (parts, w) c ∧ pipeline_fails c w' e).
Proof. apply apply_parts_pipeline. Qed.

(** A step consumes a part: no run of the pipeline is infinite. *)
Lemma pipeline_sn (parts : list (nat * nat * directive)) (w : world) : sn (pipeline_step) (parts, w).
Proof.
  remember (length parts) as n eqn:Hn. revert parts w Hn.
  induction n as [|n IH]; intros parts w Hn; constructor; intros [ps' w'] Hs;
    inversion Hs; subst; simpl in Hn; [done|]. apply IH. lia.
Qed.

(** A configuration from which a part raises has no step. *)
Lemma pipeline_fails_nf c w' e : pipeline_fails c w' e → nf (pipeline_step) c.
Proof. inversion 1 as [p ps w w1 e1 E]. intros [c' Hs]. inversion Hs. congruence. Qed.

Lemma pipeline_nil_nf w : nf (pipeline_step) ([], w).
Proof. intros [c Hs]. inversion Hs. Qed.

(** liveness. Every run of [customize]'s loop terminates
    ([sn]: no infinite sequence of steps), and from any parts and world the
    pipeline reaches a configuration with no step left that is either
    final (every part applied) or stuck on a part that raises; [apply_parts]
    returns exactly the world and result of that configuration. *)
Theorem pipeline_terminates parts w :
  sn (pipeline_step) (parts, w) ∧
  ∃ c, rtc (pipeline_step) (parts, w) c ∧ nf (pipeline_step) c ∧
       ((c.1 = [] ∧ apply_parts sysroot env parts w = (c.2, Ok tt)) ∨
        (∃ w' e, pipeline_fails c w' e ∧ apply_parts sysroot env parts w = (w', Err e))).
Proof.
  split; [apply pipeline_sn|]. revert w. induction parts as [|p ps IH]; intros w.
  - exists ([], w). split_and!; [done|apply pipeline_nil_nf|by left].
  - rewrite apply_parts_cons. destruct (d_apply _ _ _ _) as [w1 [[]|e]] eqn:E.
    + destruct (IH w1) as (c&Hr&Hnf&Hend). exists c. split_and!; [|done|done].
      eapply rtc_l; [by constructor|exact Hr].
    + assert (Hf : pipeline_fails (p :: ps, w) w1 e) by by constructor.
      exists (p :: ps, w). split_and!; [done|by eapply pipeline_fails_nf|right; eauto].
Qed.

End Pipeline.

(** ** [customize] *)

Section CustomizeRefines.
Context `{GenHost}.

Lemma require_dir_ok sysroot w q st :
  resolve (w_fs w) sysroot = Ok (q, FDir st) → require_dir sysroot w = (w, Ok tt).
Proof. intros E. unfold require_dir, mbind, io_bind, os_path_isdir, isdir_b. by rewrite E. Qed.

Lemma log_info_with_log msg w : log_info msg w = (with_log w [msg], Ok tt).
Proof. done. Qed.

Lemma with_log_app w l1 l2 : with_log (with_log w l1) l2 = with_log w (l1 ++ l2).
Proof. unfold with_log. simpl. by rewrite app_assoc. Qed.

(** The three log lines [customize] writes before it loads. *)
Definition customize_banner (specfile : string) : list string :=
  ["================"; "loading specfile " +:+ specfile; "================"].

(** On a directory, [customize] logs its banner, then loads the parts and
    runs them on the resolved root with the scoped environment. *)
Lemma customize_after_banner g sysroot specfile w q st :
  resolve (w_fs w) sysroot = Ok (q, FDir st) →
  customize g sysroot specfile w =
  (parts ← load_parts specfile; env ← prepare_environment g q; apply_parts q env parts)
    (with_log w (customize_banner specfile)).
Proof.
  intros Hdir. unfold customize.
  rewrite (io_bind_ok _ _ _ _ _ (require_dir_ok _ _ _ _ Hdir)).
  rewrite (io_bind_ok _ _ _ _ _ (log_info_with_log _ _)).
  rewrite (io_bind_ok _ _ _ _ _ (log_info_with_log _ _)), with_log_app.
  rewrite (io_bind_ok _ _ _ _ _ (log_info_with_log _ _)), with_log_app.
  unfold mbind at 1, io_bind at 1, os_path_realpath. cbn [w_fs with_log]. by rewrite Hdir.
Qed.

(** C4: refinement of the whole method. On an existing directory whose
    specification loads, [customize] logs its banner, resolves the system
    root, and then behaves as the pipeline over the loaded parts, run on the
    resolved root with the scoped environment: the allowed variables of the
    environment, overridden by the generator's identity. *)
Theorem customize_refines g sysroot specfile w q st w2 parts w' r :
  resolve (w_fs w) sysroot = Ok (q, FDir st) →
  load_parts specfile (with_log w (customize_banner specfile)) = (w2, Ok parts) →
  customize g sysroot specfile w = (w', r) ↔
  let env := inject_identity g q (copy_allowed (w_environ w2)) in
  (r = Ok tt ∧ rtc (pipeline_step q env) (parts, w2) ([], w')) ∨
  (∃ e c, r = Err e ∧ rtc (pipeline_step q env) (parts, w2) c ∧ pipeline_fails q env c w' e).
Proof.
  intros Hdir Hload. rewrite (customize_after_banner _ _ _ _ _ _ Hdir).
  rewrite (io_bind_ok _ _ _ _ _ Hload).
  unfold mbind at 1, io_bind at 1, prepare_environment.
  apply apply_parts_pipeline.
Qed.

End CustomizeRefines.

(** ** Witnesses *)


Definition customized_world : world :=
  fst (@customize sample_gen_host stable_aarch64 sample_root "image.spec" sample_world).

Lemma customize_refines_witness :
  resolve (w_fs sample_world) sample_root = Ok (sample_root, FDir (Stat 493 0 0)) ∧
  @load_parts sample_gen_host "image.spec" (with_log sample_world (customize_banner "image.spec")) =
    (with_log sample_world (customize_banner "image.spec"), Ok []) ∧
  let env := inject_identity stable_aarch64 sample_root
               (copy_allowed (w_environ (with_log sample_world (customize_banner "image.spec")))) in
  (Ok tt = @Ok unit tt ∧
   rtc (pipeline_step sample_root env) ([], with_log sample_world (customize_banner "image.spec"))
       ([], customized_world)) ∨
  (∃ e c, Ok tt = Err e ∧
   rtc (pipeline_step sample_root env) ([], with_log sample_world (customize_banner "image.spec")) c ∧
   pipeline_fails sample_root env c customized_world e).
Proof.
  assert (H1 : resolve (w_fs sample_world) sample_root = Ok (sample_root, FDir (Stat 493 0 0)))
    by (vm_compute; reflexivity).
  assert (H2 : @load_parts sample_gen_host "image.spec" (with_log sample_world (customize_banner "image.spec")) =
               (with_log sample_world (customize_banner "image.spec"), Ok [])) by reflexivity.
  split; [exact H1|]. split; [exact H2|].
  apply (proj1 (@customize_refines sample_gen_host stable_aarch64 sample_root "image.spec"
                  sample_world _ _ _ _ _ _ H1 H2)).
  vm_compute; reflexivity.
Defined.
