(* ===== verification/PrepareRoot.v ===== *)
(** * [prepare] on a fresh system root, end to end

    [prepare_root] is the body of [ImageGenerator.prepare] after the
    directory check: the directory table, the [/var/run] link,
    [_write_config_files], and the copies of the host's [/etc/hosts] and
    [/etc/resolv.conf].  [prepare_root_fresh] composes the theorems of
    [Bootstrap] on each step: run as root on an empty system root (without
    QEMU), it succeeds, leaves the layout [prepared] (every directory with
    its mode, the link, every configuration file with its text, and the
    two network files of the host with their contents and permission
    bits), writes nothing but [prepare_written], and keeps the process
    root.  [prepare_fresh] lifts it to [prepare] itself, up to the call of
    [opkg update]; it shows that the [hosts] template of
    [_write_config_files] does not survive [prepare]: the copy of the
    host's file replaces it.  [copy_qemu_copies] is the QEMU step of
    [prepare] when the host has the binary. *)

From S2P Require Import Prelude PyStr SysFs FsWf Generator Bootstrap Customize.

(** ** The paths involved *)

Definition dir_paths : list path := snd <$> DIRS_TO_CREATE.

Lemma prepare_paths :
  Forall (λ d, d ≠ []) dir_paths ∧
  ["etc"] ∈ dir_paths ∧ ["etc"; "opkg"] ∈ dir_paths ∧ ["var"] ∈ dir_paths ∧
  ["var"; "run"] ∉ dir_paths ∧ ["var"; "run"] ∉ conffile_list ∧
  ["etc"; "resolv.conf"] ∉ dir_paths ∧ ["etc"; "resolv.conf"] ∉ conffile_list ∧
  ["etc"] ∉ conffile_list ∧ ["etc"; "opkg"] ∉ conffile_list ∧ ["var"; "run"] ≠ ["etc"; "resolv.conf"] ∧
  Forall (λ p, p ∉ dir_paths ∧ p ≠ [] ∧ p ≠ ["var"; "run"]) conffile_list ∧
  ["etc"; "hosts"] ∈ conffile_list.
Proof. apply (bool_decide_unpack _). vm_compute. reflexivity. Qed.

Lemma not_in_dirs sysroot p :
  p ∉ dir_paths → ∀ md, md ∈ DIRS_TO_CREATE → sysroot ++ p ≠ sysroot ++ md.2.
Proof.
  intros Hp md Hmd Heq. apply app_inv_head in Heq. subst p. apply Hp.
  by apply list_elem_of_fmap_2.
Qed.

Lemma not_in_conf sysroot p : p ∉ conffile_list → ∀ c, c ∈ conffile_list → sysroot ++ p ≠ sysroot ++ c.
Proof. intros Hp c Hc Heq. apply app_inv_head in Heq. by subst p. Qed.

Lemma not_elem_of_two (x a b : path) : x ≠ a → x ≠ b → x ∉ [a; b].
Proof. intros Ha Hb [?|?%list_elem_of_singleton]%elem_of_cons; congruence. Qed.

Lemma dir_path_of md : md ∈ DIRS_TO_CREATE → md.2 ∈ dir_paths.
Proof. apply list_elem_of_fmap_2. Qed.

Lemma expected_config_path release arch libc verify repo_base p text :
  (p, text) ∈ expected_config release arch libc verify repo_base → p ∈ conffile_list.
Proof.
  intros H. change conffile_list with (fst <$> expected_config release arch libc verify repo_base).
  exact (list_elem_of_fmap_2 fst _ _ H).
Qed.

(** ** The process identity across the steps *)

Lemma euid_after {A} (m : io A) w w' r :
  (∀ e gid u, io_invariant (ids_are e gid u) m) → m w = (w', r) → w_euid w' = w_euid w.
Proof.
  intros Hm Hw. destruct (Hm (w_euid w) (w_egid w) (w_umask w) w) as [He _]; [done|].
  by rewrite Hw in He.
Qed.

Lemma create_dirs_ids sysroot : ∀ e gid u, io_invariant (ids_are e gid u) (create_dirs sysroot).
Proof. intros e gid u. unfold create_dirs, create_dir. io_wf. Qed.

Lemma write_config_files_ids g sysroot : ∀ e gid u, io_invariant (ids_are e gid u) (write_config_files g sysroot).
Proof. intros e gid u. unfold write_config_files, write_config_file. io_wf. Qed.

(** ** Where a step writes *)

(** The system root holds nothing yet: no entry lies strictly below it. *)
Definition root_empty (m : gmap path fnode) (sysroot : path) : Prop :=
  map_Forall (λ q _, ¬ (sysroot `prefix_of` q ∧ q ≠ sysroot)) m.

#[export] Instance root_empty_dec m sysroot : Decision (root_empty m sysroot).
Proof. unfold root_empty. apply _. Defined.

Lemma root_empty_lookup m sysroot d : root_empty m sysroot → d ≠ [] → m !! (sysroot ++ d) = None.
Proof.
  intros He Hd. destruct (m !! (sysroot ++ d)) as [n|] eqn:E; [|done]. exfalso.
  apply (He _ _ E). split; [by exists d|]. intros Heq. by apply (app_ne_self sysroot d).
Qed.

Section Frame.
Context (sysroot : path).

(** [wb] differs from [wa] at most at [sysroot ++ d] for the [d] of [T]. *)
Definition only_at (T : list path) (wa wb : world) : Prop :=
  ∀ q, (∀ d, d ∈ T → q ≠ sysroot ++ d) → w_fs wb !! q = w_fs wa !! q.

Lemma only_at_trans T1 T2 wa wb wc : only_at T1 wa wb → only_at T2 wb wc → only_at (T2 ++ T1) wa wc.
Proof.
  intros H1 H2 q Hq. rewrite H2, H1; [done|..]; intros d Hd; apply Hq; set_solver.
Qed.

Lemma only_at_insert w d n : only_at [d] w (set_fs w (<[sysroot ++ d := n]> (w_fs w))).
Proof. intros q Hq. apply lookup_insert_ne. intros <-. by apply (Hq d); [left|]. Qed.

Lemma only_at_lookup T wa wb d : only_at T wa wb → d ∉ T → w_fs wb !! (sysroot ++ d) = w_fs wa !! (sysroot ++ d).
Proof. intros H Hd. apply H. intros d' Hd' ?%app_inv_head. by subst. Qed.

End Frame.

Ltac prepare_paths_hyps :=
  destruct prepare_paths as (Hne & Hetc & Hopkg & Hvar & Hvrd & Hvrc & Hrcd & Hrcc & Hetcc & Hopkgc &
                             Hvrrc & Hconf & Hhosts).

Lemma generator_init_copy_qemu `{GenHost} release arch libc verify copy_qemu repo_base cache_dir g :
  generator_init release arch libc verify copy_qemu repo_base cache_dir = Ok g → g_copy_qemu g = copy_qemu.
Proof. unfold generator_init. destruct (String.eqb _ ""); [discriminate|]. by intros [= <-]. Qed.

(** Root copies the host's two network files into [sysroot/etc], where the
    first is already a regular file and the second is missing. *)
Lemma stage_copies sysroot w3 est hst hd rst rd :
  w_euid w3 = 0%Z → w_fs w3 !! (sysroot ++ ["etc"]) = Some (FDir est) →
  (∃ st d, w_fs w3 !! (sysroot ++ ["etc"; "hosts"]) = Some (FFile st d)) →
  w_fs w3 !! (sysroot ++ ["etc"; "resolv.conf"]) = None →
  w_fs w3 !! ["etc"; "hosts"] = Some (FFile hst hd) →
  w_fs w3 !! ["etc"; "resolv.conf"] = Some (FFile rst rd) →
  (∀ d, ["etc"; "hosts"] ≠ sysroot ++ d) → (∀ d, ["etc"; "resolv.conf"] ≠ sysroot ++ d) →
  ∃ w5, io_iter (λ f : path, shutil_copy2 f (sysroot ++ f)) [["etc"; "hosts"]; ["etc"; "resolv.conf"]] w3
          = (w5, Ok tt) ∧
    (∃ st, w_fs w5 !! (sysroot ++ ["etc"; "hosts"]) = Some (FFile st hd) ∧ st_mode st = (st_mode hst mod 4096)%Z) ∧
    (∃ st, w_fs w5 !! (sysroot ++ ["etc"; "resolv.conf"]) = Some (FFile st rd) ∧
           st_mode st = (st_mode rst mod 4096)%Z) ∧
    only_at sysroot [["etc"; "resolv.conf"]; ["etc"; "hosts"]] w3 w5 ∧ w_euid w5 = w_euid w3.
Proof.
  intros E3 He Hh Hn Hsh Hsr Oh Or.
  destruct (shutil_copy2_root w3 ["etc"; "hosts"] (sysroot ++ ["etc"; "hosts"]) hst hd est E3 Hsh)
    as [st4 R4]; [by rewrite parent_app|by right|by intros ?%eq_sym%(Oh ["etc"; "hosts"])|].
  destruct (shutil_copy2_root (set_fs w3 (<[sysroot ++ ["etc"; "hosts"] := FFile (set_mode (st_mode hst) st4) hd]>
                                           (w_fs w3))) ["etc"; "resolv.conf"] (sysroot ++ ["etc"; "resolv.conf"]) rst rd est)
    as [st5 R5]; cbn [set_fs w_fs w_euid]; [done| | | |by intros ?%eq_sym%(Or ["etc"; "resolv.conf"])|].
  - rewrite lookup_insert_ne; [done|]. by intros ?%eq_sym%(Or ["etc"; "hosts"]).
  - rewrite parent_app by done. rewrite lookup_insert_ne; [done|]. by apply app_ne_head.
  - left. rewrite lookup_insert_ne; [done|]. by apply app_ne_head.
  - eexists. split_and!.
    + cbn [io_iter]. rewrite (io_bind_ok _ _ _ _ _ R4). cbn [io_iter].
      rewrite (io_bind_ok _ _ _ _ _ R5). reflexivity.
    + eexists. split; [|apply set_mode_mod]. cbn [set_fs w_fs].
      rewrite lookup_insert_ne by (by apply app_ne_head). apply lookup_insert_eq.
    + eexists. split; [|apply set_mode_mod]. apply lookup_insert_eq.
    + exact (only_at_trans _ [_] [_] _ _ _ (only_at_insert _ _ _ _) (only_at_insert _ _ _ _)).
    + done.
Qed.

Section Fresh.
Context (sysroot : path) (w : world) (s0 : stat).
Hypothesis (Hr : w_euid w = 0%Z).
Hypothesis (Hroot : w_fs w !! sysroot = Some (FDir s0)).
Hypothesis (Hempty : root_empty (w_fs w) sysroot).

(** A file that exists is outside an empty root. *)
Lemma outside_root q st data : w_fs w !! q = Some (FFile st data) → ∀ d, q ≠ sysroot ++ d.
Proof.
  intros Hq d ->. destruct (decide (d = [])) as [->|Hd].
  - rewrite app_nil_r, Hroot in Hq. done.
  - rewrite root_empty_lookup in Hq by done. done.
Qed.

Lemma fresh_lookup T w' d : only_at sysroot T w w' → d ∉ T → d ≠ [] → w_fs w' !! (sysroot ++ d) = None.
Proof. intros HT Hd Hd0. rewrite (only_at_lookup _ _ _ _ _ HT Hd). by apply root_empty_lookup. Qed.

(** Every directory of the table is there with its mode. *)
Definition dirs_made (w' : world) : Prop :=
  ∀ m d, (m, d) ∈ DIRS_TO_CREATE → ∃ s, w_fs w' !! (sysroot ++ d) = Some (FDir s) ∧ st_mode s = m.

Lemma dirs_made_dir w' d : dirs_made w' → d ∈ dir_paths → ∃ s, w_fs w' !! (sysroot ++ d) = Some (FDir s).
Proof.
  intros Hd ([m d'] & -> & Hmd)%list_elem_of_fmap. destruct (Hd m d' Hmd) as (s&?&_). eauto.
Qed.

Lemma dirs_made_keep T w1 w2 : dirs_made w1 → only_at sysroot T w1 w2 → (∀ d, d ∈ T → d ∉ dir_paths) → dirs_made w2.
Proof.
  intros Hd HT Hdis m d Hmd. rewrite (only_at_lookup _ _ _ _ _ HT); [by apply Hd|].
  intros HdT. by apply (Hdis d HdT), (dir_path_of (m, d)).
Qed.

(** [for mode, name in DIRS_TO_CREATE: ...] *)
Lemma stage_dirs :
  ∃ w1, create_dirs sysroot w = (w1, Ok tt) ∧ w_euid w1 = 0%Z ∧ dirs_made w1 ∧ only_at sysroot dir_paths w w1.
Proof.
  prepare_paths_hyps. rewrite Forall_forall in Hne.
  destruct (create_dirs_table sysroot s0 w Hr Hroot) as (w1&R&Hm&Hf).
  { intros md Hmd. left. by apply root_empty_lookup, Hne, dir_path_of. }
  exists w1. split_and!; [done| |done|].
  - by rewrite (euid_after _ _ _ _ (create_dirs_ids sysroot) R).
  - intros q Hq. apply Hf. intros md Hmd. by apply Hq, dir_path_of.
Qed.

(** [if not os.path.exists(var_run_symlink): os.symlink("../run", var_run_symlink)] *)
Lemma stage_link w1 :
  w_euid w1 = 0%Z → dirs_made w1 → only_at sysroot dir_paths w w1 →
  os_path_exists (sysroot ++ ["var"; "run"]) w1 = (w1, Ok false) ∧
  os_symlink "../run" (sysroot ++ ["var"; "run"]) w1 =
    (set_fs w1 (<[sysroot ++ ["var"; "run"] := FLink (new_stat w1 511) "../run"]> (w_fs w1)), Ok tt).
Proof.
  intros E1 D1 U1. prepare_paths_hyps.
  assert (Hn : w_fs w1 !! (sysroot ++ ["var"; "run"]) = None) by (by apply (fresh_lookup dir_paths)).
  destruct (dirs_made_dir w1 ["var"] D1 Hvar) as [s Hs]. split.
  - unfold os_path_exists, exists_b. by rewrite resolve_none.
  - apply (os_symlink_root _ _ _ s); [done|done|]. by rewrite parent_app.
Qed.

(** [self._write_config_files(sysroot)] after the link. *)
Lemma stage_config `{GenHost} release arch libc verify copy_qemu repo_base cache_dir g w2 :
  generator_init release arch libc verify copy_qemu repo_base cache_dir = Ok g →
  w_euid w2 = 0%Z → dirs_made w2 → only_at sysroot (["var"; "run"] :: dir_paths) w w2 →
  ∃ w3, write_config_files g sysroot w2 = (w3, Ok tt) ∧ w_euid w3 = 0%Z ∧
    (∀ p text, (p, text) ∈ expected_config release arch libc verify
                             (py_or repo_base "http://archive.boltlinux.org/dists") →
               ∃ st, w_fs w3 !! (sysroot ++ p) = Some (FFile st text)) ∧
    only_at sysroot conffile_list w2 w3.
Proof.
  intros Hinit E2 D2 U2. prepare_paths_hyps. rewrite Forall_forall in Hne, Hconf.
  destruct (dirs_made_dir w2 ["etc"] D2 Hetc) as [est He].
  destruct (dirs_made_dir w2 ["etc"; "opkg"] D2 Hopkg) as [ost Ho].
  destruct (write_config_files_texts release arch libc verify copy_qemu repo_base cache_dir g sysroot w2 est ost
              Hinit E2 He Ho) as (w3&R&Ht&Hf).
  { intros p Hp. left. destruct (Hconf p Hp) as (?&?&?).
    apply (fresh_lookup (["var"; "run"] :: dir_paths)); [done| |done]. by apply not_elem_of_cons. }
  exists w3. split_and!; [done| |done|done].
  by rewrite (euid_after _ _ _ _ (write_config_files_ids g sysroot) R).
Qed.

End Fresh.

(** ** [prepare] on a fresh system root *)

Lemma run_prepare_root `{GenHost} g sysroot w w1 w2 w3 w5 :
  g_copy_qemu g = false →
  create_dirs sysroot w = (w1, Ok tt) →
  os_path_exists (sysroot ++ ["var"; "run"]) w1 = (w1, Ok false) →
  os_symlink "../run" (sysroot ++ ["var"; "run"]) w1 = (w2, Ok tt) →
  write_config_files g sysroot w2 = (w3, Ok tt) →
  io_iter (λ f : path, shutil_copy2 f (sysroot ++ f)) [["etc"; "hosts"]; ["etc"; "resolv.conf"]] w3 = (w5, Ok tt) →
  prepare_root g sysroot w = (w5, Ok tt).
Proof.
  intros Hq R1 R2 R3 R4 R5. unfold prepare_root. rewrite (io_bind_ok _ _ _ _ _ R1). cbv beta zeta.
  rewrite (io_bind_ok _ _ _ _ _ R2). cbv beta iota. rewrite (io_bind_ok _ _ _ _ _ R3), Hq.
  cbv beta iota. rewrite io_bind_ret, (io_bind_ok _ _ _ _ _ R4). exact R5.
Qed.

(** The root paths [prepare] writes: the two network files, the
    configuration files, the link and the directory table. *)
Definition prepare_written : list path :=
  ["etc"; "resolv.conf"] :: ["etc"; "hosts"] :: conffile_list ++ ["var"; "run"] :: dir_paths.

(** The system root as [prepare] leaves it: the directories with their
    modes, the link, the configuration files [cfg] but [/etc/hosts], and
    the two network files with the given contents and modes. *)
Definition prepared (cfg : list (path * string)) (sysroot : path) (hosts resolv : string)
    (hmode rmode : Z) (w' : world) : Prop :=
  dirs_made sysroot w' ∧
  (∃ st, w_fs w' !! (sysroot ++ ["var"; "run"]) = Some (FLink st "../run")) ∧
  (∀ p text, (p, text) ∈ cfg → p ≠ ["etc"; "hosts"] → ∃ st, w_fs w' !! (sysroot ++ p) = Some (FFile st text)) ∧
  (∃ st, w_fs w' !! (sysroot ++ ["etc"; "hosts"]) = Some (FFile st hosts) ∧ st_mode st = hmode) ∧
  (∃ st, w_fs w' !! (sysroot ++ ["etc"; "resolv.conf"]) = Some (FFile st resolv) ∧ st_mode st = rmode).

Lemma prepare_root_fresh `{GenHost} release arch libc verify repo_base cache_dir g sysroot w s0
    hst hd rst rd :
  generator_init release arch libc verify false repo_base cache_dir = Ok g →
  w_euid w = 0%Z → w_fs w !! sysroot = Some (FDir s0) → root_empty (w_fs w) sysroot →
  w_fs w !! ["etc"; "hosts"] = Some (FFile hst hd) →
  w_fs w !! ["etc"; "resolv.conf"] = Some (FFile rst rd) →
  ∃ w', prepare_root g sysroot w = (w', Ok tt) ∧ w_euid w' = 0%Z ∧
    prepared (expected_config release arch libc verify (py_or repo_base "http://archive.boltlinux.org/dists"))
             sysroot hd rd (st_mode hst mod 4096) (st_mode rst mod 4096) w' ∧
    only_at sysroot prepare_written w w'.
Proof.
  intros Hinit Hr Hroot He Hh Hrc. prepare_paths_hyps. rewrite Forall_forall in Hconf.
  assert (Hcd : ∀ d, d ∈ conffile_list → d ∉ dir_paths) by (intros d Hd; apply (Hconf d Hd)).
  destruct (stage_dirs sysroot w s0 Hr Hroot He) as (w1&R1&E1&D1&U1).
  destruct (stage_link sysroot w He w1 E1 D1 U1) as [R2a R2b].
  set (w2 := set_fs w1 _) in R2b.
  pose proof (only_at_trans _ _ [_] _ _ _ U1 (only_at_insert _ _ _ _) : only_at sysroot _ w w2) as U2.
  assert (D2 : dirs_made sysroot w2).
  { apply (dirs_made_keep _ _ _ _ D1 (only_at_insert _ _ _ _)). by intros d ->%list_elem_of_singleton. }
  destruct (stage_config sysroot w He release arch libc verify false repo_base cache_dir g w2
              Hinit E1 D2 U2) as (w3&R3&E3&T3&U3).
  pose proof (dirs_made_keep _ _ _ _ D2 U3 Hcd) as D3.
  destruct (dirs_made_dir sysroot w3 ["etc"] D3 Hetc) as [est He3].
  destruct (stage_copies sysroot w3 est hst hd rst rd E3 He3) as (w5&R5&H5&RC5&U5&E5).
  - destruct (T3 ["etc"; "hosts"] ETC_HOSTS) as [st Hst]; [|eauto].
    do 5 apply list_elem_of_further. apply list_elem_of_here.
  - apply (fresh_lookup sysroot w He _ _ _ (only_at_trans _ _ _ _ _ _ U2 U3)); [|done].
    rewrite elem_of_app, elem_of_app, list_elem_of_singleton. intros [?|[?|?]]; congruence.
  - rewrite (only_at_trans _ _ _ _ _ _ U2 U3); [done|]. intros d _. by apply (outside_root _ _ _ Hroot He _ _ _ Hh).
  - rewrite (only_at_trans _ _ _ _ _ _ U2 U3); [done|]. intros d _. by apply (outside_root _ _ _ Hroot He _ _ _ Hrc).
  - by apply (outside_root _ _ _ Hroot He _ _ _ Hh).
  - by apply (outside_root _ _ _ Hroot He _ _ _ Hrc).
  - exists w5. unfold prepared.
    split_and!; [exact (run_prepare_root _ _ _ _ _ _ _ (generator_init_copy_qemu _ _ _ _ _ _ _ _ Hinit)
                          R1 R2a R2b R3 R5)|congruence| | | |done|done|].
    + apply (dirs_made_keep _ _ _ _ D3 U5). intros d [?|?%list_elem_of_singleton]%elem_of_cons; subst; auto.
    + rewrite (only_at_lookup _ _ _ _ _ U5), (only_at_lookup _ _ _ _ _ U3); [|done|].
      * eexists. apply lookup_insert_eq.
      * apply not_elem_of_two; [done|]. intros [=].
    + intros p text Hp Hph. pose proof (expected_config_path _ _ _ _ _ _ _ Hp).
      rewrite (only_at_lookup _ _ _ _ _ U5); [by apply T3|].
      apply not_elem_of_two; [intros ->|]; done.
    + exact (only_at_trans _ _ _ _ _ _ (only_at_trans _ _ _ _ _ _ U2 U3) U5).
Qed.

(** ** The QEMU binary *)

Lemma parent_last (p : path) : p ≠ [] → parent p ++ [last_component p] = p.
Proof.
  intros Hp. destruct (exists_last Hp) as (p'&x&->). unfold last_component.
  by rewrite parent_snoc, last_snoc.
Qed.

(** C28: functional.  When the host has the QEMU binary of the target
    architecture at [exe] and the directory of [exe] exists in the system
    root, [_copy_qemu_to_sysroot], run as root, logs the copy and places
    the binary at the same path under the root, with its contents and
    permission bits; nothing else changes. *)
Theorem copy_qemu_copies `{GenHost} g sysroot w exe st data tst :
  w_euid w = 0%Z → sysroot ≠ [] → exe ≠ [] →
  qemu_binary_for (g_arch g) qemu_prefix_map ≠ "" →
  find_executable w (qemu_binary_for (g_arch g) qemu_prefix_map) = Some exe →
  w_fs w !! exe = Some (FFile st data) →
  w_fs w !! (sysroot ++ parent exe) = Some (FDir tst) →
  (w_fs w !! (sysroot ++ exe) = None ∨ ∃ st' d, w_fs w !! (sysroot ++ exe) = Some (FFile st' d)) →
  ∃ st', copy_qemu_to_sysroot g sysroot w =
    (set_fs (with_log w ["copying QEMU binary " +:+ dquote +:+ render_path exe +:+ dquote +:+ "."])
            (<[sysroot ++ exe := FFile (set_mode (st_mode st) st') data]> (w_fs w)), Ok tt).
Proof.
  intros Hr Hs He Hq Hf Hexe Hdir Hdst. unfold copy_qemu_to_sysroot.
  destruct (String.eqb_spec (qemu_binary_for (g_arch g) qemu_prefix_map) "") as [E|_]; [done|].
  unfold mbind at 1, io_bind at 1, get_world. rewrite Hf. cbv beta iota zeta.
  assert (Hex : os_path_exists (sysroot ++ parent exe) w = (w, Ok true)).
  { unfold os_path_exists, exists_b. by rewrite (resolve_dir _ _ _ Hdir). }
  rewrite (io_bind_ok _ _ _ _ _ Hex), io_bind_ret.
  set (msg := "copying QEMU binary " +:+ dquote +:+ render_path exe +:+ dquote +:+ ".").
  rewrite (io_bind_ok _ _ _ _ _ (eq_refl : log_info msg w = (with_log w [msg], Ok tt))).
  assert (Ht : (sysroot ++ parent exe) ++ [last_component exe] = sysroot ++ exe)
    by (by rewrite <-app_assoc, parent_last).
  destruct (shutil_copy2_into_root (with_log w [msg]) exe (sysroot ++ parent exe) st data tst)
    as [st' Hc]; rewrite ?Ht; [done..| |].
  - intros Heq. apply (f_equal length) in Heq. rewrite length_app in Heq. destruct sysroot; [done|].
    simpl in Heq. lia.
  - rewrite Ht in Hc. by exists st'.
Qed.

(** The world [prepare] hands to [opkg update]: the entry check passes
    and the log line is written. *)
Lemma prepare_unfold `{GenHost} g sysroot w s0 :
  w_fs w !! sysroot = Some (FDir s0) →
  prepare g sysroot w = (prepare_root g sysroot ≫= λ _, opkg_update sysroot)
                          (with_log w ["preparing system root."]).
Proof.
  intros H0. unfold prepare.
  assert (Hd : isdir_b w sysroot = true) by (unfold isdir_b; by rewrite (resolve_dir _ _ _ H0)).
  rewrite (io_bind_ok _ _ _ _ _ (require_dir_true _ _ Hd)).
  rewrite (io_bind_ok _ _ _ _ _ (eq_refl : log_info "preparing system root." w =
                                            (with_log w ["preparing system root."], Ok tt))).
  assert (Hreal : os_path_realpath sysroot (with_log w ["preparing system root."]) =
                  (with_log w ["preparing system root."], Ok sysroot)).
  { unfold os_path_realpath. by rewrite (resolve_dir (w_fs (with_log w _)) _ _ H0). }
  by rewrite (io_bind_ok _ _ _ _ _ Hreal).
Qed.

(** C9: functional.  [prepare], run as root on an empty system root by a
    generator built without QEMU, hands [opkg update] a root where every
    directory of [DIRS_TO_CREATE] is there with its mode, [/var/run] links
    to [../run], and every configuration file but [/etc/hosts] holds its
    formatted template.  [/etc/hosts] and [/etc/resolv.conf] are the host's
    files, contents and permission bits, so the [hosts] template written by
    [_write_config_files] is replaced.  Nothing else is written, in the
    root or outside it, and the process is still root. *)
Theorem prepare_fresh `{GenHost} release arch libc verify repo_base cache_dir g sysroot w s0
    hst hd rst rd :
  generator_init release arch libc verify false repo_base cache_dir = Ok g →
  w_euid w = 0%Z → w_fs w !! sysroot = Some (FDir s0) → root_empty (w_fs w) sysroot →
  w_fs w !! ["etc"; "hosts"] = Some (FFile hst hd) →
  w_fs w !! ["etc"; "resolv.conf"] = Some (FFile rst rd) →
  ∃ w', prepare g sysroot w = opkg_update sysroot w' ∧ w_euid w' = 0%Z ∧
    prepared (expected_config release arch libc verify (py_or repo_base "http://archive.boltlinux.org/dists"))
             sysroot hd rd (st_mode hst mod 4096) (st_mode rst mod 4096) w' ∧
    only_at sysroot prepare_written w w'.
Proof.
  intros Hinit Hr Hroot He Hh Hrc. rewrite (prepare_unfold _ _ _ _ Hroot).
  destruct (prepare_root_fresh release arch libc verify repo_base cache_dir g sysroot
              (with_log w ["preparing system root."]) s0 hst hd rst rd Hinit Hr Hroot He Hh Hrc)
    as (w' & R & E & P & U).
  exists w'. rewrite (io_bind_ok _ _ _ _ _ R). by split_and!.
Qed.

(** On [host_world], [prepare] of [/srv/root] keeps the host's [/etc/hosts]
    in place of the template. *)
Lemma prepare_fresh_witness :
  @generator_init sample_gen_host "stable" "aarch64" "musl" true false None None = Ok stable_aarch64 ∧
  root_empty (w_fs host_world) sample_root ∧
  ∃ w', @prepare sample_gen_host stable_aarch64 sample_root host_world = (w', Ok tt) ∧
        ∃ st, w_fs w' !! (sample_root ++ ["etc"; "hosts"]) = Some (FFile st "127.0.0.1 builder").
Proof.
  assert (Hinit : @generator_init sample_gen_host "stable" "aarch64" "musl" true false None None =
                  Ok stable_aarch64) by reflexivity.
  assert (He : root_empty (w_fs host_world) sample_root)
    by (apply (bool_decide_unpack _); vm_compute; reflexivity).
  split_and!; [exact Hinit|exact He|].
  destruct (@prepare_fresh sample_gen_host _ _ _ _ _ _ _ sample_root host_world (Stat 493 0 0)
              (Stat 420 0 0) "127.0.0.1 builder" (Stat 420 0 0) "nameserver 192.0.2.1" Hinit)
    as (w' & R & _ & (_ & _ & _ & (st & Hst & _) & _) & _); [reflexivity|reflexivity|exact He|reflexivity|reflexivity|].
  exists w'. split; [exact R|]. exists st. exact Hst.
Defined.

(** A host with [qemu-aarch64-static] in [/usr/bin], and a system root
    with [/usr/bin]. *)
Definition qemu_host : GenHost := {|
  host_machine := "x86_64";
  target_for_machine := λ a, a +:+ "-linux-musl";
  user_cache_dir := "/root/.cache";
  find_executable := λ _ n, if String.eqb n "qemu-aarch64-static"
                            then Some ["usr"; "bin"; "qemu-aarch64-static"] else None;
  load_parts := λ _, mret [];
  opkg_update := λ _, mret tt
|}.

Definition qemu_world : world :=
  set_fs host_world
    (<[sample_root ++ ["usr"; "bin"] := FDir (Stat 493 0 0)]> $ <[sample_root ++ ["usr"] := FDir (Stat 493 0 0)]> $
     <[["usr"; "bin"; "qemu-aarch64-static"] := FFile (Stat 493 0 0) "ELF"]> $
     <[["usr"; "bin"] := FDir (Stat 493 0 0)]> $ <[["usr"] := FDir (Stat 493 0 0)]> (w_fs host_world)).

Lemma copy_qemu_copies_witness :
  ∃ w', @copy_qemu_to_sysroot qemu_host stable_aarch64 sample_root qemu_world = (w', Ok tt) ∧
        ∃ st, w_fs w' !! (sample_root ++ ["usr"; "bin"; "qemu-aarch64-static"]) = Some (FFile st "ELF").
Proof.
  destruct (@copy_qemu_copies qemu_host stable_aarch64 sample_root qemu_world ["usr"; "bin"; "qemu-aarch64-static"]
              (Stat 493 0 0) "ELF" (Stat 493 0 0)) as [st' H];
    [reflexivity|done|done|vm_compute; congruence|reflexivity|vm_compute; reflexivity|vm_compute; reflexivity
    |left; vm_compute; reflexivity|].
  eexists. split; [exact H|]. eexists. cbn [set_fs w_fs]. apply lookup_insert_eq.
Defined.
