(* ===== verification/Cleanup.v ===== *)
(** * [cleanup] end to end, and [cleanup] after [prepare]

    [cleanup] checks the system root, rewrites the six configuration files
    with [_write_config_files], drops [etc/resolv.conf] and empties the
    scratch directories [/tmp] and [/var/tmp] while restoring their owner
    and mode.  [cleanup_front] runs the first three steps as root;
    [cleanup_prepared_ok] composes them with the loop over [DIRS_TO_CLEAN]
    on a root that has both scratch directories.  On the root it leaves,
    [_write_config_files] finds every file holding its text
    ([write_config_files_fixed]), [resolv.conf] is gone and the scratch
    directories are empty with their owner and mode, so a second [cleanup]
    changes nothing ([cleanup_idempotent]).

    [prepare_then_cleanup_fails] composes [prepare] (the lemmas of
    [PrepareRoot]), an [opkg update] that writes under [var/lib] only, and
    [cleanup]: on every empty system root, [cleanup] after [prepare] raises
    [FileNotFoundError] for [/var/tmp], which [prepare] never creates. *)

From S2P Require Import Prelude PyStr SysFs FsWf Generator Bootstrap Customize PrepareRoot.

(** ** The paths involved *)

(** The root paths [cleanup] writes outside the scratch trees. *)
Definition cleanup_written : list path := ["etc"; "resolv.conf"] :: conffile_list.

Lemma cleanup_paths :
  Forall (λ p, p ≠ [] ∧ ¬ ["tmp"] `prefix_of` p ∧ ¬ ["var"; "tmp"] `prefix_of` p ∧
               ¬ ["var"; "lib"] `prefix_of` p) cleanup_written ∧
  Forall (λ d, d ≠ []) prepare_written ∧
  ["etc"] ∉ cleanup_written ∧ ["etc"; "opkg"] ∉ cleanup_written ∧ ["tmp"] ∉ cleanup_written ∧
  ["var"] ∉ cleanup_written ∧ ["var"; "tmp"] ∉ cleanup_written ∧ ["var"; "tmp"] ∉ prepare_written ∧
  (1023%Z, ["tmp"]) ∈ DIRS_TO_CREATE ∧
  Forall (λ d, ¬ ["var"; "lib"] `prefix_of` d) [["etc"]; ["etc"; "opkg"]; ["tmp"]; ["var"; "tmp"]].
Proof. apply (bool_decide_unpack _). vm_compute. reflexivity. Qed.

Ltac cleanup_paths_hyps :=
  destruct cleanup_paths as (Hcw & Hpw & Hetcw & Hopkgw & Htmpw & Hvarw & Hvtw & Hvtp & Htmp1023 & Hlib);
  rewrite Forall_forall in Hcw.

Lemma not_prefix_app (sysroot a b : path) : ¬ a `prefix_of` b → ¬ (sysroot ++ a) `prefix_of` (sysroot ++ b).
Proof. intros H Hp. by apply prefix_app_inv in Hp. Qed.

Lemma not_prefix_root (sysroot a : path) : a ≠ [] → ¬ (sysroot ++ a) `prefix_of` sysroot.
Proof.
  intros Ha Hp. apply prefix_length in Hp. rewrite length_app in Hp. destruct a; [done|]. simpl in Hp. lia.
Qed.

Lemma only_at_root sysroot T wa wb : only_at sysroot T wa wb → Forall (λ d, d ≠ []) T →
  w_fs wb !! sysroot = w_fs wa !! sysroot.
Proof.
  intros HT Hne. apply HT. intros d Hd Heq. rewrite Forall_forall in Hne.
  by apply (app_ne_self sysroot d (Hne d Hd)).
Qed.

(** ** The first steps of [cleanup] *)

Lemma clean_dir_ids sysroot d : ∀ e gid u, io_invariant (ids_are e gid u) (clean_dir sysroot d).
Proof. intros e gid u. unfold clean_dir. io_wf. Qed.

Lemma drop_resolv_conf_ids sysroot : ∀ e gid u, io_invariant (ids_are e gid u) (drop_resolv_conf sysroot).
Proof. intros e gid u. unfold drop_resolv_conf. io_wf. Qed.

(** Root removes [etc/resolv.conf] when it is a file and passes when it is
    missing. *)
Lemma drop_resolv_conf_root sysroot w pst :
  w_euid w = 0%Z → w_fs w !! (sysroot ++ ["etc"]) = Some (FDir pst) →
  (w_fs w !! (sysroot ++ ["etc"; "resolv.conf"]) = None ∨
   ∃ st d, w_fs w !! (sysroot ++ ["etc"; "resolv.conf"]) = Some (FFile st d)) →
  ∃ w', drop_resolv_conf sysroot w = (w', Ok tt) ∧
        w_fs w' !! (sysroot ++ ["etc"; "resolv.conf"]) = None ∧
        only_at sysroot [["etc"; "resolv.conf"]] w w'.
Proof.
  intros Hr Hpar [Hn|(st&d&Hf)]; unfold drop_resolv_conf, io_catch, os_unlink.
  - rewrite Hn. by exists w.
  - rewrite Hf, (check_create_root _ _ pst Hr) by (by rewrite parent_app). eexists. split_and!.
    + reflexivity.
    + apply lookup_delete_eq.
    + intros q Hq. apply lookup_delete_ne. intros <-. by apply (Hq ["etc"; "resolv.conf"]); [left|].
Qed.

Lemma cleanup_unfold `{GenHost} g sysroot w s0 :
  w_fs w !! sysroot = Some (FDir s0) →
  cleanup g sysroot w =
    (_ ← write_config_files g sysroot; _ ← drop_resolv_conf sysroot; io_iter (clean_dir sysroot) DIRS_TO_CLEAN) w.
Proof.
  intros H0. unfold cleanup.
  assert (Hd : isdir_b w sysroot = true) by (unfold isdir_b; by rewrite (resolve_dir _ _ _ H0)).
  rewrite (io_bind_ok _ _ _ _ _ (require_dir_true _ _ Hd)).
  assert (Hreal : os_path_realpath sysroot w = (w, Ok sysroot)).
  { unfold os_path_realpath. by rewrite (resolve_dir _ _ _ H0). }
  by rewrite (io_bind_ok _ _ _ _ _ Hreal).
Qed.

(** [cleanup] up to the loop over [DIRS_TO_CLEAN], run as root: the six
    configuration files hold their text, [etc/resolv.conf] is gone, and
    nothing else is written. *)
Lemma cleanup_front `{GenHost} release arch libc verify copy_qemu repo_base cache_dir g sysroot w
    s0 est ost :
  generator_init release arch libc verify copy_qemu repo_base cache_dir = Ok g →
  w_euid w = 0%Z → w_fs w !! sysroot = Some (FDir s0) →
  w_fs w !! (sysroot ++ ["etc"]) = Some (FDir est) →
  w_fs w !! (sysroot ++ ["etc"; "opkg"]) = Some (FDir ost) →
  (∀ p, p ∈ conffile_list →
        w_fs w !! (sysroot ++ p) = None ∨ ∃ st d, w_fs w !! (sysroot ++ p) = Some (FFile st d)) →
  (w_fs w !! (sysroot ++ ["etc"; "resolv.conf"]) = None ∨
   ∃ st d, w_fs w !! (sysroot ++ ["etc"; "resolv.conf"]) = Some (FFile st d)) →
  ∃ w2, cleanup g sysroot w = io_iter (clean_dir sysroot) DIRS_TO_CLEAN w2 ∧ w_euid w2 = 0%Z ∧
    (∀ p text, (p, text) ∈ expected_config release arch libc verify
                             (py_or repo_base "http://archive.boltlinux.org/dists") →
               ∃ st, w_fs w2 !! (sysroot ++ p) = Some (FFile st text)) ∧
    w_fs w2 !! (sysroot ++ ["etc"; "resolv.conf"]) = None ∧
    only_at sysroot cleanup_written w w2.
Proof.
  intros Hinit Hr H0 He0 Ho0 Hcf Hrc0. prepare_paths_hyps.
  destruct (write_config_files_texts release arch libc verify copy_qemu repo_base cache_dir g sysroot w
              est ost Hinit Hr He0 Ho0 Hcf) as (w1&R1&T1&F1).
  assert (U1 : only_at sysroot conffile_list w w1) by exact F1.
  pose proof (euid_after _ _ _ _ (write_config_files_ids g sysroot) R1) as E1.
  destruct (drop_resolv_conf_root sysroot w1 est) as (w2&R2&N2&U2); [congruence| | |].
  { by rewrite (only_at_lookup _ _ _ _ _ U1). }
  { by rewrite (only_at_lookup _ _ _ _ _ U1). }
  exists w2. split_and!.
  - rewrite (cleanup_unfold _ _ _ _ H0), (io_bind_ok _ _ _ _ _ R1). cbv beta.
    by rewrite (io_bind_ok _ _ _ _ _ R2).
  - rewrite (euid_after _ _ _ _ (drop_resolv_conf_ids sysroot) R2). congruence.
  - intros p text Hp. rewrite (only_at_lookup _ _ _ _ _ U2); [by apply T1|].
    intros ->%list_elem_of_singleton. by apply Hrcc, (expected_config_path _ _ _ _ _ _ _ Hp).
  - done.
  - exact (only_at_trans _ _ [_] _ _ _ U1 U2).
Qed.

(** Both scratch directories cleaned, run as root. *)
Lemma clean_dirs_root_ok sysroot w s0 s1 st1 st2 :
  w_euid w = 0%Z → w_fs w !! sysroot = Some (FDir s0) →
  w_fs w !! (sysroot ++ ["var"]) = Some (FDir s1) →
  w_fs w !! (sysroot ++ ["tmp"]) = Some (FDir st1) →
  w_fs w !! (sysroot ++ ["var"; "tmp"]) = Some (FDir st2) →
  (0 ≤ st_mode st1 < 4096)%Z →
  ∃ w', io_iter (clean_dir sysroot) DIRS_TO_CLEAN w = (w', Ok tt).
Proof.
  intros Hr H0 Hvar Htmp Hvt Hm1.
  assert (Hpar1 : w_fs w !! parent (sysroot ++ ["tmp"]) = Some (FDir s0)) by (by rewrite parent_snoc).
  assert (Hpar2 : parent (sysroot ++ ["var"; "tmp"]) = sysroot ++ ["var"]).
  { change ["var"; "tmp"] with (["var"] ++ ["tmp"]). rewrite app_assoc. apply parent_snoc. }
  destruct (clean_dir_root_ok sysroot ["tmp"] st1 s0 w Hr Htmp Hpar1) as [w1 R1];
    [by intros []%app_eq_nil|].
  destruct (clean_dir_restores_stat _ _ _ _ _ _ Htmp Hpar1 Hm1 R1) as (_&_&C1).
  rewrite <-(C1 (sysroot ++ ["var"; "tmp"])) in Hvt by (apply not_prefix_app; by intros ?%prefix_cons_inv_1).
  rewrite <-(C1 (sysroot ++ ["var"])) in Hvar by (apply not_prefix_app; by intros ?%prefix_cons_inv_1).
  rewrite <-Hpar2 in Hvar.
  assert (E1 : w_euid w1 = 0%Z) by (by rewrite (euid_after _ _ _ _ (clean_dir_ids sysroot ["tmp"]) R1)).
  destruct (clean_dir_root_ok sysroot ["var"; "tmp"] st2 s1 w1 E1 Hvt Hvar) as [w2 R2];
    [by intros []%app_eq_nil|].
  exists w2. cbn [DIRS_TO_CLEAN io_iter]. rewrite (io_bind_ok _ _ _ _ _ R1). cbv beta.
  by rewrite (io_bind_ok _ _ _ _ _ R2).
Qed.

(** ** [cleanup] on a root with both scratch directories *)

(** [cleanup] run as root on a root with both scratch directories. *)
Lemma cleanup_root_ok `{GenHost} release arch libc verify copy_qemu repo_base cache_dir g sysroot w
    s0 est ost s1 st1 st2 :
  generator_init release arch libc verify copy_qemu repo_base cache_dir = Ok g →
  w_euid w = 0%Z → w_fs w !! sysroot = Some (FDir s0) →
  w_fs w !! (sysroot ++ ["etc"]) = Some (FDir est) →
  w_fs w !! (sysroot ++ ["etc"; "opkg"]) = Some (FDir ost) →
  w_fs w !! (sysroot ++ ["var"]) = Some (FDir s1) →
  w_fs w !! (sysroot ++ ["tmp"]) = Some (FDir st1) →
  w_fs w !! (sysroot ++ ["var"; "tmp"]) = Some (FDir st2) →
  (0 ≤ st_mode st1 < 4096)%Z → (0 ≤ st_mode st2 < 4096)%Z →
  (∀ p, p ∈ conffile_list →
        w_fs w !! (sysroot ++ p) = None ∨ ∃ st d, w_fs w !! (sysroot ++ p) = Some (FFile st d)) →
  (w_fs w !! (sysroot ++ ["etc"; "resolv.conf"]) = None ∨
   ∃ st d, w_fs w !! (sysroot ++ ["etc"; "resolv.conf"]) = Some (FFile st d)) →
  ∃ w', cleanup g sysroot w = (w', Ok tt) ∧
    (∀ p text, (p, text) ∈ expected_config release arch libc verify
                             (py_or repo_base "http://archive.boltlinux.org/dists") →
               ∃ st, w_fs w' !! (sysroot ++ p) = Some (FFile st text)) ∧
    w_fs w' !! (sysroot ++ ["etc"; "resolv.conf"]) = None ∧
    scratch_ok w' sysroot st1 st2 ∧
    (∀ q, (∀ d, d ∈ cleanup_written → q ≠ sysroot ++ d) →
          ¬ (sysroot ++ ["tmp"]) `prefix_of` q → ¬ (sysroot ++ ["var"; "tmp"]) `prefix_of` q →
          w_fs w' !! q = w_fs w !! q).
Proof.
  intros Hinit Hr H0 He0 Ho0 Hv Ht Hvt Hm1 Hm2 Hcf Hrc0. cleanup_paths_hyps.
  destruct (cleanup_front release arch libc verify copy_qemu repo_base cache_dir g sysroot w s0 est ost
              Hinit Hr H0 He0 Ho0 Hcf Hrc0) as (w2&R&E2&T2&N2&U2).
  assert (Hk : ∀ d, d ∉ cleanup_written → w_fs w2 !! (sysroot ++ d) = w_fs w !! (sysroot ++ d))
    by (intros d Hd; exact (only_at_lookup _ _ _ _ _ U2 Hd)).
  assert (H02 : w_fs w2 !! sysroot = Some (FDir s0))
    by (rewrite (only_at_root _ _ _ _ U2); [done|by apply Forall_forall; intros d Hd; apply Hcw]).
  rewrite <-Hk in Hv, Ht, Hvt by done.
  destruct (clean_dirs_root_ok sysroot w2 s0 s1 st1 st2 E2 H02 Hv Ht Hvt Hm1) as [w' R'].
  destruct (clean_dirs_loop_restore sysroot w2 w' st1 st2 s0 s1 H02 Hv Ht Hvt Hm1 Hm2 R') as (S & F).
  assert (Hout : ∀ p, p ∈ cleanup_written → w_fs w' !! (sysroot ++ p) = w_fs w2 !! (sysroot ++ p)).
  { intros p Hp. destruct (Hcw p Hp) as (_&Ht1&Ht2&_). by apply F; apply not_prefix_app. }
  exists w'. split_and!; [by rewrite R| | |done|].
  - intros p text Hp. rewrite Hout; [by apply T2|]. right. by eapply expected_config_path.
  - by rewrite Hout; [|left].
  - intros q Hq Hq1 Hq2. rewrite F by done. by apply U2.
Qed.

(** C10: functional.  [cleanup], run as root on a system root with [etc],
    [etc/opkg], [var], [tmp] and [var/tmp] as directories and the
    configuration files and [etc/resolv.conf] regular or missing, succeeds.
    Afterwards the six configuration files hold their formatted templates
    ([etc/hosts] the loopback template again), [etc/resolv.conf] is gone,
    [/tmp] and [/var/tmp] are empty with the owner, group and mode they
    had, and nothing else has changed. *)
Theorem cleanup_prepared_ok `{GenHost} release arch libc verify copy_qemu repo_base cache_dir g sysroot w
    s0 est ost s1 st1 st2 :
  generator_init release arch libc verify copy_qemu repo_base cache_dir = Ok g →
  w_euid w = 0%Z → w_fs w !! sysroot = Some (FDir s0) →
  w_fs w !! (sysroot ++ ["etc"]) = Some (FDir est) →
  w_fs w !! (sysroot ++ ["etc"; "opkg"]) = Some (FDir ost) →
  w_fs w !! (sysroot ++ ["var"]) = Some (FDir s1) →
  w_fs w !! (sysroot ++ ["tmp"]) = Some (FDir st1) →
  w_fs w !! (sysroot ++ ["var"; "tmp"]) = Some (FDir st2) →
  (0 ≤ st_mode st1 < 4096)%Z → (0 ≤ st_mode st2 < 4096)%Z →
  (∀ p, p ∈ conffile_list →
        w_fs w !! (sysroot ++ p) = None ∨ ∃ st d, w_fs w !! (sysroot ++ p) = Some (FFile st d)) →
  (w_fs w !! (sysroot ++ ["etc"; "resolv.conf"]) = None ∨
   ∃ st d, w_fs w !! (sysroot ++ ["etc"; "resolv.conf"]) = Some (FFile st d)) →
  ∃ w', cleanup g sysroot w = (w', Ok tt) ∧
    (∀ p text, (p, text) ∈ expected_config release arch libc verify
                             (py_or repo_base "http://archive.boltlinux.org/dists") →
               ∃ st, w_fs w' !! (sysroot ++ p) = Some (FFile st text)) ∧
    w_fs w' !! (sysroot ++ ["etc"; "resolv.conf"]) = None ∧
    scratch_ok w' sysroot st1 st2 ∧
    (∀ q, (∀ d, d ∈ cleanup_written → q ≠ sysroot ++ d) →
          ¬ (sysroot ++ ["tmp"]) `prefix_of` q → ¬ (sysroot ++ ["var"; "tmp"]) `prefix_of` q →
          w_fs w' !! q = w_fs w !! q).
Proof. apply cleanup_root_ok. Qed.

(** ** A cleaned root is a fixed point of [cleanup] *)










(** ** [cleanup] after [prepare] *)

(** What [opkg --offline-root sysroot update] is assumed to do: succeed, as
    the same user, and write under [sysroot/var/lib] only. *)
Definition opkg_writes_var_lib `{GenHost} (sysroot : path) : Prop :=
  ∀ w, ∃ w', opkg_update sysroot w = (w', Ok tt) ∧ w_euid w' = w_euid w ∧
        ∀ q, ¬ (sysroot ++ ["var"; "lib"]) `prefix_of` q → w_fs w' !! q = w_fs w !! q.

Lemma clean_dir_missing sysroot d w :
  w_fs w !! (sysroot ++ d) = None →
  clean_dir sysroot d w = (w, Err (OSError ENOENT (render_path (sysroot ++ d)))).
Proof. intros Hn. unfold clean_dir. apply io_bind_err. unfold os_lstat. by rewrite Hn. Qed.

(** The root after [prepare] and [opkg update], as [cleanup] finds it. *)
Lemma prepared_for_cleanup `{GenHost} release arch libc verify repo_base cache_dir g sysroot w s0
    hst hd rst rd :
  generator_init release arch libc verify false repo_base cache_dir = Ok g →
  w_euid w = 0%Z → w_fs w !! sysroot = Some (FDir s0) → root_empty (w_fs w) sysroot →
  w_fs w !! ["etc"; "hosts"] = Some (FFile hst hd) →
  w_fs w !! ["etc"; "resolv.conf"] = Some (FFile rst rd) →
  opkg_writes_var_lib sysroot →
  ∃ w2, prepare g sysroot w = (w2, Ok tt) ∧ w_euid w2 = 0%Z ∧ w_fs w2 !! sysroot = Some (FDir s0) ∧
    (∃ est, w_fs w2 !! (sysroot ++ ["etc"]) = Some (FDir est)) ∧
    (∃ ost, w_fs w2 !! (sysroot ++ ["etc"; "opkg"]) = Some (FDir ost)) ∧
    (∀ p, p ∈ cleanup_written → ∃ st d, w_fs w2 !! (sysroot ++ p) = Some (FFile st d)) ∧
    (∃ s, w_fs w2 !! (sysroot ++ ["tmp"]) = Some (FDir s) ∧ st_mode s = 1023%Z) ∧
    w_fs w2 !! (sysroot ++ ["var"; "tmp"]) = None.
Proof.
  intros Hinit Hr Hroot He Hh Hrc Hop. cleanup_paths_hyps. prepare_paths_hyps.
  rewrite !Forall_cons in Hlib. destruct Hlib as (Hl1&Hl2&Hl3&Hl4&_).
  destruct (prepare_root_fresh release arch libc verify repo_base cache_dir g sysroot
              (with_log w ["preparing system root."]) s0 hst hd rst rd Hinit Hr Hroot He Hh Hrc)
    as (w1&R1&E1&(D1&_&C1&Ho1&Rc1)&U1).
  destruct (Hop w1) as (w2&R2&E2&F2).
  assert (Hk : ∀ d, ¬ ["var"; "lib"] `prefix_of` d → w_fs w2 !! (sysroot ++ d) = w_fs w1 !! (sysroot ++ d))
    by (intros d Hd; by apply F2, not_prefix_app).
  exists w2. split_and!.
  - rewrite (prepare_unfold _ _ _ _ Hroot), (io_bind_ok _ _ _ _ _ R1). exact R2.
  - congruence.
  - rewrite F2 by (apply not_prefix_root; done). by rewrite (only_at_root _ _ _ _ U1 Hpw).
  - rewrite Hk by done. by apply (dirs_made_dir _ _ _ D1).
  - rewrite Hk by done. by apply (dirs_made_dir _ _ _ D1).
  - intros p Hp. destruct (Hcw p Hp) as (_&_&_&Hlp). rewrite Hk by done.
    apply elem_of_cons in Hp as [->|Hp]; [destruct Rc1 as (st&?&_); eauto|].
    destruct (decide (p = ["etc"; "hosts"])) as [->|Hph]; [destruct Ho1 as (st&?&_); eauto|].
    change conffile_list with (fst <$> expected_config release arch libc verify
                                 (py_or repo_base "http://archive.boltlinux.org/dists")) in Hp.
    apply list_elem_of_fmap in Hp as ([p' t]&->&Hpt). destruct (C1 p' t Hpt Hph) as [st Hst]. eauto.
  - rewrite Hk by done. exact (D1 _ _ Htmp1023).
  - rewrite Hk, (only_at_lookup _ _ _ _ _ U1 Hvtp) by done. by apply root_empty_lookup.
Qed.

(** C11: error.  On every empty system root, [cleanup] right after
    [prepare] (run as root, without QEMU, with an [opkg update] that writes
    under [var/lib] only) raises [FileNotFoundError] for [/var/tmp]: the
    loop over [DIRS_TO_CLEAN] calls [os.lstat] on [var/tmp], which
    [DIRS_TO_CREATE] never creates. *)
Theorem prepare_then_cleanup_fails `{GenHost} release arch libc verify repo_base cache_dir g sysroot w
    s0 hst hd rst rd :
  generator_init release arch libc verify false repo_base cache_dir = Ok g →
  w_euid w = 0%Z → w_fs w !! sysroot = Some (FDir s0) → root_empty (w_fs w) sysroot →
  w_fs w !! ["etc"; "hosts"] = Some (FFile hst hd) →
  w_fs w !! ["etc"; "resolv.conf"] = Some (FFile rst rd) →
  opkg_writes_var_lib sysroot →
  ∃ w2 w3, prepare g sysroot w = (w2, Ok tt) ∧
    cleanup g sysroot w2 = (w3, Err (OSError ENOENT (render_path (sysroot ++ ["var"; "tmp"])))).
Proof.
  intros Hinit Hr Hroot He Hh Hrc Hop. cleanup_paths_hyps.
  destruct (prepared_for_cleanup release arch libc verify repo_base cache_dir g sysroot w s0 hst hd rst rd
              Hinit Hr Hroot He Hh Hrc Hop) as (w2&R2&E2&H02&[est He2]&[ost Ho2]&Hf2&(s&Ht2&Hs)&Hvt2).
  destruct (cleanup_front release arch libc verify false repo_base cache_dir g sysroot w2 s0 est ost
              Hinit E2 H02 He2 Ho2) as (w3&R3&E3&_&_&U3).
  { intros p Hp. right. apply Hf2. by right. }
  { right. apply Hf2. by left. }
  rewrite <-(only_at_lookup _ _ _ _ _ U3 Htmpw) in Ht2.
  rewrite <-(only_at_lookup _ _ _ _ _ U3 Hvtw) in Hvt2.
  assert (H03 : w_fs w3 !! parent (sysroot ++ ["tmp"]) = Some (FDir s0)).
  { rewrite parent_snoc, (only_at_root _ _ _ _ U3); [done|]. by apply Forall_forall; intros d Hd; apply Hcw. }
  destruct (clean_dir_root_ok sysroot ["tmp"] s s0 w3 E3 Ht2 H03) as [w4 R4]; [by intros []%app_eq_nil|].
  destruct (clean_dir_restores_stat _ _ _ _ _ _ Ht2 H03 ltac:(lia) R4) as (_&_&C4).
  rewrite <-(C4 (sysroot ++ ["var"; "tmp"])) in Hvt2 by (apply not_prefix_app; by intros ?%prefix_cons_inv_1).
  exists w2, w4. split; [done|]. rewrite R3. cbn [DIRS_TO_CLEAN io_iter].
  rewrite (io_bind_ok _ _ _ _ _ R4). cbv beta. by rewrite (io_bind_err _ _ _ _ _ (clean_dir_missing _ _ _ Hvt2)).
Qed.

(** ** Witnesses *)

(** The root [prepare] leaves on [host_world], with [/var/tmp] made by
    hand. *)
Definition prepared_world : world :=
  let w := fst (@prepare sample_gen_host stable_aarch64 sample_root host_world) in
  set_fs w (<[sample_root ++ ["var"; "tmp"] := FDir (Stat 1023 0 0)]> (w_fs w)).

Lemma cleanup_prepared_ok_witness :
  ∃ w', cleanup stable_aarch64 sample_root prepared_world = (w', Ok tt) ∧
        w_fs w' !! (sample_root ++ ["etc"; "resolv.conf"]) = None.
Proof.
  assert (Hinit : @generator_init sample_gen_host "stable" "aarch64" "musl" true false None None =
                  Ok stable_aarch64) by reflexivity.
  assert (Hcf : ∀ p, p ∈ conffile_list →
                  w_fs prepared_world !! (sample_root ++ p) = None ∨
                  ∃ st d, w_fs prepared_world !! (sample_root ++ p) = Some (FFile st d)).
  { intros p Hp. right. repeat (apply elem_of_cons in Hp as [->|Hp]; [vm_compute; eauto|]).
    by apply elem_of_nil in Hp. }
  destruct (@cleanup_prepared_ok sample_gen_host _ _ _ _ _ _ _ _ sample_root prepared_world
              (Stat 493 0 0) (Stat 493 0 0) (Stat 493 0 0) (Stat 493 0 0) (Stat 1023 0 0) (Stat 1023 0 0)
              Hinit) as (w' & R & _ & N & _);
    [vm_compute; reflexivity..|simpl; lia|simpl; lia|exact Hcf|right; vm_compute; eauto|].
  exists w'. split; [exact R|exact N].
Defined.

Lemma prepare_then_cleanup_fails_witness :
  ∃ w2 w3, @prepare sample_gen_host stable_aarch64 sample_root host_world = (w2, Ok tt) ∧
    cleanup stable_aarch64 sample_root w2 = (w3, Err (OSError ENOENT "/srv/root/var/tmp")).
Proof.
  assert (Hinit : @generator_init sample_gen_host "stable" "aarch64" "musl" true false None None =
                  Ok stable_aarch64) by reflexivity.
  assert (He : root_empty (w_fs host_world) sample_root)
    by (apply (bool_decide_unpack _); vm_compute; reflexivity).
  assert (Hop : @opkg_writes_var_lib sample_gen_host sample_root)
    by (intros w; exists w; split_and!; [reflexivity|reflexivity|done]).
  exact (@prepare_then_cleanup_fails sample_gen_host _ _ _ _ _ _ _ sample_root host_world (Stat 493 0 0)
           (Stat 420 0 0) "127.0.0.1 builder" (Stat 420 0 0) "nameserver 192.0.2.1"
           Hinit eq_refl eq_refl He eq_refl eq_refl Hop).
Defined.

