(* ===== verification/ConfigLinks.v ===== *)
(** * [_write_config_files] writes through symbolic links in the root

    [_write_config_files] opens [sysroot + conffile] with [open(..., "w+")],
    which follows a symbolic link.  [prepare] and [cleanup] run it as root
    on a tree that packages have filled, so a link in the image such as
    [etc/passwd -> /etc/passwd] makes it overwrite the host's file.
    [write_config_file_link] is one such write; [write_config_files_follow_link]
    runs the whole loop on a root whose [etc/passwd] is that link: it
    succeeds, the host's [/etc/passwd] now holds the image's [passwd]
    template, and the link in the root is left as it was. *)

From S2P Require Import Prelude PyStr SysFs FsWf Generator Bootstrap Customize PrepareRoot.

Lemma resolve_link_file m p lst t st d :
  m !! p = Some (FLink lst t) → m !! link_dest p t = Some (FFile st d) →
  resolve m p = Ok (link_dest p t, FFile st d).
Proof. intros Hp Hq. unfold resolve, max_symlinks. simpl. rewrite Hp. simpl. by rewrite Hq. Qed.

Lemma link_dest_etc_passwd p : link_dest p "/etc/passwd" = ["etc"; "passwd"].
Proof. reflexivity. Qed.

(** One configuration file whose path in the root is a link to a regular
    file: root writes the text into the target, and the link stays. *)
Lemma write_config_file_link g sysroot p t text w lst tgt st d :
  w_euid w = 0%Z → py_format t (g_context g) = Ok text →
  w_fs w !! (sysroot ++ p) = Some (FLink lst tgt) →
  w_fs w !! link_dest (sysroot ++ p) tgt = Some (FFile st d) →
  write_config_file g sysroot (p, t) w =
    (set_fs w (<[link_dest (sysroot ++ p) tgt := FFile st text]> (w_fs w)), Ok tt).
Proof.
  intros Hr Hf Hl Hq.
  assert (Hne : link_dest (sysroot ++ p) tgt ≠ sysroot ++ p) by (intros Heq; rewrite Heq in Hq; congruence).
  assert (W : ∀ w0 d0 data, w_euid w0 = 0%Z → w_fs w0 !! (sysroot ++ p) = Some (FLink lst tgt) →
                w_fs w0 !! link_dest (sysroot ++ p) tgt = Some (FFile st d0) →
                write_file (sysroot ++ p) data w0 =
                  (set_fs w0 (<[link_dest (sysroot ++ p) tgt := FFile st data]> (w_fs w0)), Ok tt)).
  { intros w0 d0 data Hr0 Hl0 Hq0. unfold write_file. rewrite (resolve_link_file _ _ _ _ _ _ Hl0 Hq0).
    by rewrite can_write_root. }
  unfold write_config_file. cbn [fst snd].
  rewrite (io_bind_ok _ _ _ _ _ (W w d "" Hr Hl Hq)), Hf. cbv beta.
  rewrite (io_bind_ok _ _ _ _ _ (eq_refl : io_of (Ok text) (set_fs w (<[link_dest (sysroot ++ p) tgt := FFile st ""]> (w_fs w))) = (_, Ok text))).
  rewrite (W _ "" text); [|done|by cbn [set_fs w_fs]; rewrite lookup_insert_ne|by cbn [set_fs w_fs]; rewrite lookup_insert_eq].
  by rewrite set_fs_set_fs, set_fs_fs, insert_insert_eq.
Qed.

(** ** The loop around [etc/passwd] *)

Definition conf_before : list (path * string) := take 3 (zip conffile_list template_list).
Definition conf_after : list (path * string) := drop 4 (zip conffile_list template_list).

Lemma conf_split : zip conffile_list template_list = conf_before ++ (["etc"; "passwd"], ETC_PASSWD) :: conf_after.
Proof. reflexivity. Qed.

Lemma conf_around :
  NoDup (fst <$> conf_before) ∧ NoDup (fst <$> conf_after) ∧
  Forall (λ ct : path * string, Forall (λ ct' : path * string, ct.1 ≠ [] ∧ parent ct.1 ≠ ct'.1) conf_before) conf_before ∧
  Forall (λ ct : path * string, Forall (λ ct' : path * string, ct.1 ≠ [] ∧ parent ct.1 ≠ ct'.1) conf_after) conf_after ∧
  Forall (λ ct : path * string, ct.1 ≠ [] ∧ ct.1 ∈ conffile_list ∧ ct.1 ≠ ["etc"; "passwd"] ∧
            ct.1 ≠ ["etc"] ∧ ct.1 ≠ ["etc"; "opkg"] ∧
            (parent ct.1 = ["etc"] ∨ parent ct.1 = ["etc"; "opkg"])) (conf_before ++ conf_after) ∧
  Forall (λ d : path, d ∉ (fst <$> conf_before))
         ([["etc"]; ["etc"; "opkg"]; ["etc"; "passwd"]] ++ (fst <$> conf_after)) ∧
  Forall (λ p : path, 2 ≤ length p) conffile_list.
Proof. apply (bool_decide_unpack _). vm_compute. reflexivity. Qed.

Lemma passwd_format ctx : py_format ETC_PASSWD ctx = Ok ETC_PASSWD.
Proof. vm_compute. reflexivity. Qed.

Lemma conf_texts `{GenHost} release arch libc verify copy_qemu repo_base cache_dir g :
  generator_init release arch libc verify copy_qemu repo_base cache_dir = Ok g →
  ∀ ct, ct ∈ zip conffile_list template_list → ∃ text, py_format ct.2 (g_context g) = Ok text.
Proof.
  intros Hinit ct Hct. pose proof (config_files_text _ _ _ _ _ _ _ _ Hinit) as Hrender.
  assert (Hm : (ct.1, py_format ct.2 (g_context g)) ∈
               (λ pt : path * string, (pt.1, Ok pt.2)) <$>
                 expected_config release arch libc verify (py_or repo_base "http://archive.boltlinux.org/dists")).
  { rewrite <-Hrender. apply list_elem_of_fmap. by exists ct. }
  apply list_elem_of_fmap in Hm as (pt&[= _ Hpt]&_). eauto.
Qed.

Lemma apart_in_root sysroot (L : list (path * string)) :
  Forall (λ ct : path * string, Forall (λ ct' : path * string, ct.1 ≠ [] ∧ parent ct.1 ≠ ct'.1) L) L →
  Forall (λ ct : path * string, Forall (λ ct' : path * string, parent (sysroot ++ ct.1) ≠ sysroot ++ ct'.1) L) L.
Proof.
  intros H. eapply Forall_impl; [exact H|]. intros ct Hct. eapply Forall_impl; [exact Hct|].
  intros ct' [Hne Hp]. rewrite parent_app by done. by apply app_ne_head.
Qed.

Lemma ready_of sysroot w est ost (L : list (path * string)) :
  w_fs w !! (sysroot ++ ["etc"]) = Some (FDir est) → w_fs w !! (sysroot ++ ["etc"; "opkg"]) = Some (FDir ost) →
  Forall (λ ct : path * string, ct.1 ≠ [] ∧ (parent ct.1 = ["etc"] ∨ parent ct.1 = ["etc"; "opkg"]) ∧
            (w_fs w !! (sysroot ++ ct.1) = None ∨ ∃ st d, w_fs w !! (sysroot ++ ct.1) = Some (FFile st d))) L →
  Forall (conf_ready sysroot w) L.
Proof.
  intros He Ho H. eapply Forall_impl; [exact H|]. intros ct (Hne&Hp&Hx). split_and!; [|rewrite parent_app by done|done].
  - by intros [_ ?]%app_eq_nil.
  - destruct Hp as [Hp|Hp]; rewrite Hp; eauto.
Qed.

Lemma write_config_iter_ids g sysroot L : ∀ e gid u, io_invariant (ids_are e gid u) (io_iter (write_config_file g sysroot) L).
Proof. intros e gid u. apply io_invariant_iter. intros ct. unfold write_config_file. io_wf. Qed.

Lemma last_ne (sysroot : path) x y : x ≠ y → sysroot ++ [x] ≠ ["etc"; y].
Proof. intros Hxy Heq. apply (f_equal last) in Heq. rewrite last_snoc in Heq. simpl in Heq. congruence. Qed.

(** The three files before [etc/passwd], as [write_config_files_texts]
    has them. *)
Lemma conf_before_run `{GenHost} release arch libc verify copy_qemu repo_base cache_dir g sysroot w est ost :
  generator_init release arch libc verify copy_qemu repo_base cache_dir = Ok g →
  w_euid w = 0%Z →
  w_fs w !! (sysroot ++ ["etc"]) = Some (FDir est) →
  w_fs w !! (sysroot ++ ["etc"; "opkg"]) = Some (FDir ost) →
  (∀ p, p ∈ conffile_list → p ≠ ["etc"; "passwd"] →
        w_fs w !! (sysroot ++ p) = None ∨ ∃ st d, w_fs w !! (sysroot ++ p) = Some (FFile st d)) →
  ∃ w1, io_iter (write_config_file g sysroot) conf_before w = (w1, Ok tt) ∧ w_euid w1 = 0%Z ∧
    (∀ d, d ∉ (fst <$> conf_before) → w_fs w1 !! (sysroot ++ d) = w_fs w !! (sysroot ++ d)) ∧
    (∀ q, (∀ p, p ∈ conffile_list → q ≠ sysroot ++ p) → w_fs w1 !! q = w_fs w !! q).
Proof.
  intros Hinit Hr He Ho Hcf. destruct conf_around as (Nb & _ & Ab & _ & Hall & _).
  rewrite Forall_app in Hall. destruct Hall as [Hb _].
  destruct (write_config_loop g sysroot conf_before w Hr Nb) as (w1&R1&_&F1).
  { apply (ready_of _ _ est ost); [done|done|]. eapply Forall_impl; [exact Hb|].
    intros ct (?&?&?&_&_&?). split_and!; [done|done|by apply Hcf]. }
  { by apply apart_in_root. }
  { apply Forall_forall. intros ct Hct. apply (conf_texts _ _ _ _ _ _ _ _ Hinit).
    rewrite conf_split. apply elem_of_app. by left. }
  rewrite Forall_forall in Hb. exists w1. split_and!; [done| | |].
  - by rewrite (euid_after _ _ _ _ (write_config_iter_ids g sysroot conf_before) R1).
  - intros d Hd. apply F1. intros ct Hct ?%app_inv_head. subst d. apply Hd. by apply list_elem_of_fmap_2.
  - intros q Hq. apply F1. intros ct Hct. apply Hq. apply (Hb ct Hct).
Qed.

(** C13: safety.  The writes of [_write_config_files] are not confined to
    the system root.  Run as root on a root whose [etc/passwd] is a
    symbolic link to [/etc/passwd] (the other files regular or missing),
    it succeeds, the host's [/etc/passwd] then holds the image's [passwd]
    template with its own owner and mode kept, and the link in the root is
    left as it was.  [prepare] and [cleanup] both call it. *)
Theorem write_config_files_follow_link `{GenHost} release arch libc verify copy_qemu repo_base cache_dir
    g sysroot w est ost lst hst hd :
  generator_init release arch libc verify copy_qemu repo_base cache_dir = Ok g →
  w_euid w = 0%Z → sysroot ≠ [] →
  w_fs w !! (sysroot ++ ["etc"]) = Some (FDir est) →
  w_fs w !! (sysroot ++ ["etc"; "opkg"]) = Some (FDir ost) →
  (∀ p, p ∈ conffile_list → p ≠ ["etc"; "passwd"] →
        w_fs w !! (sysroot ++ p) = None ∨ ∃ st d, w_fs w !! (sysroot ++ p) = Some (FFile st d)) →
  w_fs w !! (sysroot ++ ["etc"; "passwd"]) = Some (FLink lst "/etc/passwd") →
  w_fs w !! ["etc"; "passwd"] = Some (FFile hst hd) →
  ∃ w', write_config_files g sysroot w = (w', Ok tt) ∧
        w_fs w' !! ["etc"; "passwd"] = Some (FFile hst ETC_PASSWD) ∧
        w_fs w' !! (sysroot ++ ["etc"; "passwd"]) = Some (FLink lst "/etc/passwd").
Proof.
  intros Hinit Hr Hs He Ho Hcf Hl Hh.
  destruct conf_around as (Nb & Na & Ab & Aa & Hall & Hdisj & Hlen).
  rewrite Forall_app in Hall. destruct Hall as [Hb Ha]. rewrite Forall_forall in Hlen, Hdisj.
  pose proof (conf_texts _ _ _ _ _ _ _ _ Hinit) as Ht. rewrite conf_split in Ht.
  assert (Hout : ∀ p, p ∈ conffile_list → ["etc"; "passwd"] ≠ sysroot ++ p).
  { intros p Hp Heq. specialize (Hlen p Hp). apply (f_equal length) in Heq. rewrite length_app in Heq.
    destruct sysroot; [done|]. simpl in Heq. lia. }
  destruct (conf_before_run _ _ _ _ _ _ _ g sysroot w est ost Hinit Hr He Ho Hcf)
    as (w1&R1&E1&In1&Out1).
  rewrite Forall_forall in Hb, Ha.
  assert (Hd : ∀ d, d ∈ [["etc"]; ["etc"; "opkg"]; ["etc"; "passwd"]] ++ (fst <$> conf_after) →
                    w_fs w1 !! (sysroot ++ d) = w_fs w !! (sysroot ++ d)) by (intros d Hd'; by apply In1, Hdisj).
  assert (Hl1 := Hl). rewrite <-Hd in Hl1 by (do 2 apply list_elem_of_further; apply list_elem_of_here).
  assert (Hh1 := Hh). rewrite <-Out1 in Hh1 by (intros p Hp; by apply Hout).
  assert (R2 : write_config_file g sysroot (["etc"; "passwd"], ETC_PASSWD) w1 =
               (set_fs w1 (<[["etc"; "passwd"] := FFile hst ETC_PASSWD]> (w_fs w1)), Ok tt)).
  { rewrite <-(link_dest_etc_passwd (sysroot ++ ["etc"; "passwd"])).
    apply (write_config_file_link g sysroot ["etc"; "passwd"] ETC_PASSWD ETC_PASSWD w1 lst "/etc/passwd" hst hd);
      [congruence|apply passwd_format|done|done]. }
  set (w2 := set_fs w1 (<[["etc"; "passwd"] := FFile hst ETC_PASSWD]> (w_fs w1))) in R2.
  assert (H2 : ∀ q, q ≠ ["etc"; "passwd"] → w_fs w2 !! q = w_fs w1 !! q)
    by (intros q Hq; apply lookup_insert_ne; congruence).
  destruct (write_config_loop g sysroot conf_after w2 E1 Na) as (w3&R3&_&F3).
  { apply (ready_of _ _ est ost).
    - rewrite H2 by (apply last_ne; discriminate). rewrite Hd; [done|apply list_elem_of_here].
    - rewrite H2 by (change ["etc"; "opkg"] with (["etc"] ++ ["opkg"]); rewrite app_assoc;
                      apply last_ne; discriminate).
      rewrite Hd; [done|apply list_elem_of_further, list_elem_of_here].
    - apply Forall_forall. intros ct Hct. destruct (Ha ct Hct) as (?&Hc&?&_&_&?). split_and!; [done|done|].
      rewrite H2 by (apply not_eq_sym, Hout, Hc). rewrite Hd; [by apply Hcf|].
      do 3 apply list_elem_of_further. by apply list_elem_of_fmap_2. }
  { by apply apart_in_root. }
  { apply Forall_forall. intros ct Hct. apply Ht. apply elem_of_app. right. by right. }
  exists w3. split_and!.
  - unfold write_config_files. rewrite conf_split, io_iter_app, (io_bind_ok _ _ _ _ _ R1). cbn [io_iter].
    by rewrite (io_bind_ok _ _ _ _ _ R2).
  - rewrite F3; [apply lookup_insert_eq|]. intros ct Hct. apply Hout, (Ha ct Hct).
  - rewrite F3.
    + rewrite H2 by (apply not_eq_sym, Hout; do 3 apply list_elem_of_further; apply list_elem_of_here). exact Hl1.
    + intros ct Hct ?%app_inv_head. destruct (Ha ct Hct) as (_&_&?&_). congruence.
Qed.

(** A root whose [etc/passwd] links to the host's [/etc/passwd]. *)
Definition link_world : world :=
  set_fs host_world
    (<[sample_root ++ ["etc"; "passwd"] := FLink (Stat 511 0 0) "/etc/passwd"]> $
     <[sample_root ++ ["etc"; "opkg"] := FDir (Stat 493 0 0)]> $
     <[sample_root ++ ["etc"] := FDir (Stat 493 0 0)]> $
     <[["etc"; "passwd"] := FFile (Stat 420 0 0) "root:x:0:0:root:/root:/bin/bash"]> (w_fs host_world)).

Lemma write_config_files_follow_link_witness :
  ∃ w', write_config_files stable_aarch64 sample_root link_world = (w', Ok tt) ∧
        w_fs w' !! ["etc"; "passwd"] = Some (FFile (Stat 420 0 0) ETC_PASSWD).
Proof.
  assert (Hinit : @generator_init sample_gen_host "stable" "aarch64" "musl" true false None None =
                  Ok stable_aarch64) by reflexivity.
  assert (Hcf : ∀ p, p ∈ conffile_list → p ≠ ["etc"; "passwd"] →
                  w_fs link_world !! (sample_root ++ p) = None ∨
                  ∃ st d, w_fs link_world !! (sample_root ++ p) = Some (FFile st d)).
  { intros p Hp Hne. left.
    repeat (apply elem_of_cons in Hp as [->|Hp]; [first [done|vm_compute; reflexivity]|]).
    by apply elem_of_nil in Hp. }
  destruct (@write_config_files_follow_link sample_gen_host _ _ _ _ _ _ _ _ sample_root link_world
              (Stat 493 0 0) (Stat 493 0 0) (Stat 511 0 0) (Stat 420 0 0) "root:x:0:0:root:/root:/bin/bash"
              Hinit) as (w' & R & Hp & _);
    [reflexivity|done|vm_compute; reflexivity|vm_compute; reflexivity|exact Hcf
    |vm_compute; reflexivity|vm_compute; reflexivity|].
  exists w'. split; [exact R|exact Hp].
Defined.
