(* ===== verification/Loader.v ===== *)
(** * Loading an image specification: [customize]'s [open] and [SpecfileParser.load]

    [ImageGenerator.customize] reads the specification with
    [with open(specfile, "r", encoding="utf-8") as f:
    parts = SpecfileParser.load(f)].  The parser ([osimage/specfile.py]) is
    not under [src/]; it is modelled from the specification (section 4.4):
    the text is scanned into raw parts in document order, each with its
    structural tag, its line range and its node ([scan], a parameter: the
    syntax of the document is not specified), and every tag is resolved to
    a directive kind ([kind_of], the registry of directive classes); an
    unknown tag raises [MalformedSpecfile] naming the tag and its line (the
    wording of the message is the model's).  Nothing is executed while
    loading.

    [loader_host] plugs this loader into a [GenHost], and
    [customize_unknown_directive] shows the composition: a specification
    with an unknown tag makes [customize] raise before any directive runs,
    with the file system untouched. *)

From S2P Require Import Prelude PyStr XmlDoc SysFs Generator Customize.

(** A part of the specification as the scanner delivers it. *)
Record raw_part : Type := RawPart {
  rp_tag : string;
  rp_start : nat;
  rp_end : nat;
  rp_node : xnode
}.

(** The path [open] reads for a file name; the model has no working
    directory, so a relative name is taken from [/]. *)
Definition abs_path (name : string) : path := normalize_go [] (py_split slash name).

Section Loader.
Context (scan : string → res (list raw_part)) (kind_of : string → option (xnode → directive)).

Definition unknown_directive (r : raw_part) : exn :=
  MalformedSpecfile ("unknown directive '" +:+ rp_tag r +:+ "' on line " +:+
                     py_str_nat (rp_start r) +:+ ".").

(** One raw part: its kind resolved from its tag. *)
Definition load_part (r : raw_part) : res (nat * nat * directive) :=
  match kind_of (rp_tag r) with
  | Some make => Ok (rp_start r, rp_end r, make (rp_node r))
  | None => raise (unknown_directive r)
  end.

(** [SpecfileParser.load(f)] on the text of [f]. *)
Definition specfile_parser_load (text : string) : res (list (nat * nat * directive)) :=
  raws ← scan text;
  res_fold (λ parts r, p ← load_part r; Ok (parts ++ [p])) [] raws.

(** [with open(specfile, "r", encoding="utf-8") as f:
    parts = SpecfileParser.load(f)] *)
Definition load_specfile (specfile : string) : io (list (nat * nat * directive)) :=
  read_regular (abs_path specfile) ≫= λ '(_, _, text), io_of (specfile_parser_load text).

(** The collaborators of the generator, with this loader. *)
Definition loader_host (base : GenHost) : GenHost := {|
  host_machine := @host_machine base;
  target_for_machine := @target_for_machine base;
  user_cache_dir := @user_cache_dir base;
  find_executable := @find_executable base;
  load_parts := load_specfile;
  opkg_update := @opkg_update base
|}.

End Loader.

Section LoaderTheorems.
Context (scan : string → res (list raw_part)) (kind_of : string → option (xnode → directive)).

(** The parts keep the document order and the line ranges of the scan:
    loading succeeds exactly when every tag has a kind, and then the
    [i]-th part is the [i]-th raw part with its directive. *)
Lemma specfile_parser_load_ok text raws parts :
  scan text = Ok raws →
  specfile_parser_load scan kind_of text = Ok parts ↔
  Forall2 (λ r p, ∃ make, kind_of (rp_tag r) = Some make ∧ p = (rp_start r, rp_end r, make (rp_node r)))
          raws parts.
Proof.
  intros Hscan. unfold specfile_parser_load. rewrite Hscan. simpl.
  rewrite (res_fold_snoc_ok (load_part kind_of)). simpl. split.
  - intros (ys&->&Hys). eapply Forall2_impl; [exact Hys|]. intros r p. unfold load_part.
    destruct (kind_of (rp_tag r)); [intros [= <-]; eauto|done].
  - intros Hall. exists parts. split; [done|]. eapply Forall2_impl; [exact Hall|].
    intros r p (make&Hk&->). unfold load_part. by rewrite Hk.
Qed.

(** The first unknown tag is reported. *)
Lemma specfile_parser_load_unknown text raws pre r post :
  scan text = Ok raws → raws = pre ++ r :: post →
  Forall (λ r, is_Some (kind_of (rp_tag r))) pre → kind_of (rp_tag r) = None →
  specfile_parser_load scan kind_of text = Err (unknown_directive r).
Proof.
  intros Hscan -> Hpre Hr. unfold specfile_parser_load. rewrite Hscan. simpl.
  apply (res_fold_snoc_err (load_part kind_of)). exists pre, r, post. split_and!; [done| |].
  - eapply Forall_impl; [exact Hpre|]. intros x [make Hk]. unfold load_part. rewrite Hk. eauto.
  - unfold load_part. by rewrite Hr.
Qed.

(** C21: A specification with an unknown directive tag stops [customize]
    at loading: after the three banner lines it raises the
    [MalformedSpecfile] of the first unknown tag, before the environment is
    computed or any directive is applied, and the file system is as it
    was. *)
Theorem customize_unknown_directive base g sysroot specfile w q st qs sts text raws pre r post :
  resolve (w_fs w) sysroot = Ok (q, FDir st) →
  resolve (w_fs w) (abs_path specfile) = Ok (qs, FFile sts text) →
  scan text = Ok raws → raws = pre ++ r :: post →
  Forall (λ r, is_Some (kind_of (rp_tag r))) pre → kind_of (rp_tag r) = None →
  @customize (loader_host scan kind_of base) g sysroot specfile w =
    (with_log w (customize_banner specfile), Err (unknown_directive r)).
Proof.
  intros Hdir Hspec Hscan Hraws Hpre Hr.
  rewrite (@customize_after_banner (loader_host scan kind_of base) _ _ _ _ _ _ Hdir).
  apply io_bind_err. cbn [load_parts loader_host]. unfold load_specfile.
  assert (Hread : read_regular (abs_path specfile) (with_log w (customize_banner specfile)) =
                  (with_log w (customize_banner specfile), Ok (qs, sts, text))).
  { unfold read_regular. cbn [w_fs with_log]. by rewrite Hspec. }
  rewrite (io_bind_ok _ _ _ _ _ Hread). unfold io_of.
  by rewrite (specfile_parser_load_unknown _ _ _ _ _ Hscan Hraws Hpre Hr).
Qed.

End LoaderTheorems.

(** ** Witnesses *)

(** A specification with a known part, then an unknown one. *)
Definition sample_scan (_ : string) : res (list raw_part) :=
  Ok [RawPart "user" 1 4 (XText ""); RawPart "frobnicate" 5 7 (XText "")].

Definition sample_kinds (tag : string) : option (xnode → directive) :=
  if String.eqb tag "user" then Some (λ _, ok_directive) else None.

Definition spec_world : world :=
  set_fs sample_world (<[ ["srv"; "image.spec"] := FFile (Stat 420 0 0) "<image/>" ]> (w_fs sample_world)).

Lemma customize_unknown_directive_witness :
  resolve (w_fs spec_world) sample_root = Ok (sample_root, FDir (Stat 493 0 0)) ∧
  resolve (w_fs spec_world) (abs_path "/srv/image.spec") =
    Ok (["srv"; "image.spec"], FFile (Stat 420 0 0) "<image/>") ∧
  Forall (λ r, is_Some (sample_kinds (rp_tag r))) [RawPart "user" 1 4 (XText "")] ∧
  @customize (loader_host sample_scan sample_kinds sample_gen_host) stable_aarch64 sample_root
    "/srv/image.spec" spec_world =
    (with_log spec_world (customize_banner "/srv/image.spec"),
     Err (unknown_directive (RawPart "frobnicate" 5 7 (XText "")))).
Proof.
  assert (H1 : resolve (w_fs spec_world) sample_root = Ok (sample_root, FDir (Stat 493 0 0)))
    by (vm_compute; reflexivity).
  assert (H2 : resolve (w_fs spec_world) (abs_path "/srv/image.spec") =
               Ok (["srv"; "image.spec"], FFile (Stat 420 0 0) "<image/>"))
    by (vm_compute; reflexivity).
  assert (H3 : Forall (λ r, is_Some (sample_kinds (rp_tag r))) [RawPart "user" 1 4 (XText "")])
    by (apply (bool_decide_unpack _); vm_compute; reflexivity).
  split_and!; [exact H1|exact H2|exact H3|].
  apply (customize_unknown_directive sample_scan sample_kinds sample_gen_host _ _ _ _ _ _ _ _ _
           [RawPart "user" 1 4 (XText ""); RawPart "frobnicate" 5 7 (XText "")]
           [RawPart "user" 1 4 (XText "")] (RawPart "frobnicate" 5 7 (XText "")) [] H1 H2);
    [reflexivity|reflexivity|exact H3|reflexivity].
Defined.
