(* ===== verification/Platform.v ===== *)
(** * Host introspection: [boltpack/platform.py], class [Platform]

    The static methods of [Platform] read the process environment ([PATH]),
    test and read files ([/etc/target], [/etc/os-release],
    [config.guess]), run [uname], [gcc -dumpmachine], [config.guess] and
    [dpkg-buildflags], and ask the package manager for its main
    architecture.  Those calls are the class [PlatformHost]; every method is
    a definition of the section [Platform] over it, composed as the code
    composes them.

    Python values are kept as the code has them: a method that may return
    [None] returns an [option string], and [if not result] tests
    [py_truthy] (both [None] and [""] are false).  The exceptions the code
    can raise are [res] errors: reading [/etc/target] when it is a
    directory, and [is_bolt] calling [.lower()] on [None].

    [libc_vendor] has no [return] statement, so it returns [None] and
    [tools_type] formats it as ["None"]; [tools_type_default] states it. *)

From S2P Require Import Prelude PyStr.

(** ** What the class needs from the host *)

Class PlatformHost : Type := {
  (** [os.environ] *)
  p_environ : gmap string string;
  (** [os.path.exists(p)] *)
  p_exists : string → bool;
  (** [open(p, "r", encoding="utf-8").read()] on an existing path: its
      text, or the [OSError] it raises (a directory, no permission) *)
  p_read : string → res string;
  (** [subprocess.run(argv, stdout=PIPE, stderr=DEVNULL).stdout] decoded *)
  p_run : list string → string;
  (** [PackageManager.instance().main_architecture()] *)
  p_main_architecture : option string
}.

(** [bool(x)] for a string or [None]. *)
Definition py_truthy (x : option string) : bool :=
  match x with
  | Some v => negb (String.eqb v "")
  | None => false
  end.

(** [str(x)] / ["{}".format(x)] for a string or [None]. *)
Definition py_str_opt (x : option string) : string :=
  match x with
  | Some v => v
  | None => "None"
  end.

(** [seq[0]] of a [str.split] result, which is never empty. *)
Definition head_str (l : list string) : string := default "" (head l).

(** ** [_key_value_file_lookup] *)

(** [k, v = [x.strip() for x in line.split("=", 1)]]; [None] for the
    [ValueError] of a line without [=]. *)
Definition split_key_value (line : string) : option (string * string) :=
  match py_strip <$> py_split1 "="%char line with
  | [k; v] => Some (k, v)
  | _ => None
  end.

(** The loop over the lines of the file. *)
Fixpoint lookup_lines (attr_name : string) (lines : list string) : option string :=
  match lines with
  | [] => None
  | line :: rest =>
      match split_key_value line with
      | Some (k, v) => if String.eqb k attr_name then Some v else lookup_lines attr_name rest
      | None => lookup_lines attr_name rest
      end
  end.

(** ** [re.sub(r"\s*-fdebug-prefix-map=\S+\s*", " ", value)] *)

Definition debug_prefix_map : string := "-fdebug-prefix-map=".

(** The length of the match of the pattern at the start of [s].  The
    greedy [\s*] is followed by [-], which is not a space, and the greedy
    [\S+] by [\s*], which always matches: backtracking never changes the
    match, so each part takes the longest run it can. *)
Definition match_debug_prefix_map (s : string) : option nat :=
  let n1 := span_count is_py_space s in
  let s1 := str_drop n1 s in
  if String.prefix debug_prefix_map s1 then
    let s2 := str_drop (String.length debug_prefix_map) s1 in
    let n2 := span_count (λ c, negb (is_py_space c)) s2 in
    if bool_decide (n2 = 0) then None
    else Some (n1 + String.length debug_prefix_map + n2 +
               span_count is_py_space (str_drop n2 s2))
  else None.

(** The scan of [re.sub]: try a match at each position, left to right;
    replace a match by one space and go on after it, else keep the
    character. *)
Fixpoint strip_debug_prefix_map_go (fuel : nat) (s : string) : string :=
  match fuel with
  | 0 => s
  | S fuel' =>
      match s with
      | EmptyString => EmptyString
      | String c s' =>
          match match_debug_prefix_map s with
          | Some n => " " +:+ strip_debug_prefix_map_go fuel' (str_drop n s)
          | None => String c (strip_debug_prefix_map_go fuel' s')
          end
      end
  end.

(** Each step consumes at least one character: the length is enough fuel. *)
Definition strip_debug_prefix_map (value : string) : string :=
  strip_debug_prefix_map_go (String.length value) value.

Section Platform.
Context `{PlatformHost}.

(** [Platform._key_value_file_lookup(attr_name, filename)] *)
Definition _key_value_file_lookup (attr_name filename : string) : res (option string) :=
  if p_exists filename then
    text ← p_read filename;
    Ok (lookup_lines attr_name (py_lines (universal_newlines text)))
  else Ok None.

(** ** [find_executable] *)

Definition default_search_path : list string :=
  ["/tools/bin"; "/tools/sbin"; "/usr/local/bin"; "/usr/local/sbin";
   "/bin"; "/sbin"; "/usr/bin"; "/usr/sbin"].

(** [os.environ.get("PATH", "").split(os.pathsep) + [...]] *)
Definition search_path : list string :=
  py_split ":"%char (default "" (p_environ !! "PATH")) ++ default_search_path.

(** The loop over the search path. *)
Fixpoint first_location (executable_name : string) (paths : list string) : option string :=
  match paths with
  | [] => None
  | path :: rest =>
      let location := os_path_join path executable_name in
      if p_exists location then Some location else first_location executable_name rest
  end.

(** [Platform.find_executable(executable_name, fallback)] *)
Definition find_executable (executable_name : string) (fallback : option string) : option string :=
  match first_location executable_name search_path with
  | Some location => Some location
  | None => fallback
  end.

(** ** [uname] and the names derived from it *)

(** [Platform._uname], with the arguments of [uname] *)
Definition _uname (args : list string) : string :=
  let uname := find_executable "uname" None in
  if negb (py_truthy uname) then ""
  else py_strip (p_run (py_str_opt uname :: args)).

Definition kernel_name : string := _uname ["-s"].
Definition machine_name : string := _uname ["-m"].

(** [Platform.libc_vendor]: the expression is evaluated and dropped; with
    no [return] the method returns [None]. *)
Definition libc_vendor : option string :=
  let _ := head_str (py_split slash (py_lower (_uname ["-o"]))) in None.

(** [Platform.is_bolt] *)
Definition is_bolt : res bool :=
  result ← _key_value_file_lookup "ID" "/etc/os-release";
  match result with
  | Some r => Ok (String.eqb (py_lower r) "bolt")
  | None => raise (AttributeError "'NoneType' object has no attribute 'lower'")
  end.

(** ** The target and the tools *)

Definition CONFIG_GUESS : string := "/usr/share/misc/config.guess".

(** [Platform.config_guess] *)
Definition config_guess : string :=
  let gcc := find_executable "gcc" None in
  if py_truthy gcc then py_strip (p_run [py_str_opt gcc; "-dumpmachine"])
  else if p_exists CONFIG_GUESS then py_strip (p_run [CONFIG_GUESS])
  else "".

(** [Platform.target_machine] *)
Definition target_machine : res string :=
  result ← _key_value_file_lookup "TARGET_MACHINE" "/etc/target";
  let result := if py_truthy result then result else p_main_architecture in
  Ok (if py_truthy result then py_str_opt result
      else head_str (py_split "-"%char config_guess)).

(** [Platform.target_type] *)
Definition target_type : res string :=
  result ← _key_value_file_lookup "TARGET_TYPE" "/etc/target";
  Ok (if py_truthy result then py_str_opt result else config_guess).

(** [Platform.tools_machine] *)
Definition tools_machine : res string :=
  result ← _key_value_file_lookup "TOOLS_TYPE" "/etc/target";
  let result := if py_truthy result
                then Some (head_str (py_split1 "-"%char (py_str_opt result)))
                else result in
  Ok (if py_truthy result then py_str_opt result else machine_name).

(** [Platform.tools_type] *)
Definition tools_type : res string :=
  result ← _key_value_file_lookup "TOOLS_TYPE" "/etc/target";
  Ok (if py_truthy result then py_str_opt result
      else machine_name +:+ "-tools-linux-" +:+ py_str_opt libc_vendor).

(** ** Build flags *)

(** [Platform._dpkg_build_flags] *)
Definition _dpkg_build_flags : gmap string string :=
  let dpkg_buildflags := find_executable "dpkg-buildflags" None in
  if negb (py_truthy dpkg_buildflags) then ∅
  else
    let exe := py_str_opt dpkg_buildflags in
    foldl (λ build_flags flag,
             let flag := py_strip flag in
             if String.eqb flag "" then build_flags
             else <[flag := strip_debug_prefix_map (py_strip (p_run [exe; "--get"; flag]))]>
                    build_flags)
          ∅ (py_splitlines (p_run [exe; "--list"])).

Definition hardening_cflags : string :=
  "-g -O2 -fstack-protector-strong -Wformat -Werror=format-security".

(** [Platform.build_flags] *)
Definition build_flags : gmap string string :=
  if py_contains "linux" (py_lower kernel_name) && p_exists "/etc/debian_version" then
    _dpkg_build_flags
  else if py_truthy (find_executable "gcc" None) then
    <["CFLAGS" := hardening_cflags]> $ <["CXXFLAGS" := hardening_cflags]> $
    <["CPPFLAGS" := "-Wdate-time -D_FORTIFY_SOURCE=2"]> $ {["LDFLAGS" := "-Wl,-z,relro"]}
  else ∅.

End Platform.

(** ** Key/value files written as the tools write them *)

Definition kv_line (kv : string * string) : string := kv.1 +:+ "=" +:+ kv.2 +:+ nl.

Definition render_kv (kvs : list (string * string)) : string :=
  foldr (λ kv acc, kv_line kv +:+ acc) "" kvs.

Definition no_char (c : ascii) (s : string) : bool := str_all (λ d, negb (bool_decide (d = c))) s.

(** A key without [=], key and value on one line, without carriage
    returns, and without surrounding blanks. *)
Definition clean_kv (kv : string * string) : bool :=
  no_char "="%char kv.1 && no_char newline kv.1 && no_char newline kv.2 &&
  no_char carriage_return kv.1 && no_char carriage_return kv.2 &&
  String.eqb (py_strip kv.1) kv.1 && String.eqb (py_strip kv.2) kv.2.

Fixpoint assoc_first (attr_name : string) (kvs : list (string * string)) : option string :=
  match kvs with
  | [] => None
  | (k, v) :: rest => if String.eqb k attr_name then Some v else assoc_first attr_name rest
  end.

Lemma clean_kv_spec kv :
  clean_kv kv = true →
  no_char "="%char kv.1 = true ∧ no_char newline kv.1 = true ∧ no_char newline kv.2 = true ∧
  no_char carriage_return kv.1 = true ∧ no_char carriage_return kv.2 = true ∧
  py_strip kv.1 = kv.1 ∧ py_strip kv.2 = kv.2.
Proof. unfold clean_kv. rewrite !andb_true_iff, !String.eqb_eq. naive_solver. Qed.

Lemma render_kv_no_cr kvs :
  Forall (λ kv, clean_kv kv = true) kvs → no_char carriage_return (render_kv kvs) = true.
Proof.
  induction 1 as [|[k v] kvs Hkv _ IH]; [done|].
  apply clean_kv_spec in Hkv as (_&_&_&Hk&Hv&_). unfold no_char in *. simpl in *.
  rewrite str_all_app, IH, andb_true_r. unfold kv_line. rewrite !str_all_app. simpl.
  by rewrite Hk, Hv.
Qed.

Lemma py_lines_render kvs :
  Forall (λ kv, clean_kv kv = true) kvs → py_lines (render_kv kvs) = kv_line <$> kvs.
Proof.
  unfold py_lines. induction 1 as [|[k v] kvs Hkv _ IH]; [done|].
  apply clean_kv_spec in Hkv as (_&Hk&Hv&_). simpl in Hk, Hv.
  change (render_kv ((k, v) :: kvs)) with (kv_line (k, v) +:+ render_kv kvs).
  assert (E : kv_line (k, v) +:+ render_kv kvs = (k +:+ "=" +:+ v) +:+ String newline (render_kv kvs)).
  { unfold kv_line, nl. by rewrite <-!string_app_assoc. }
  rewrite E, py_lines_go_line, IH.
  - unfold kv_line, nl. by rewrite string_app_nil_l, <-!string_app_assoc.
  - unfold no_char in *. rewrite !str_all_app, Hk, Hv. done.
Qed.

Lemma split_key_value_line kv : clean_kv kv = true → split_key_value (kv_line kv) = Some kv.
Proof.
  destruct kv as [k v]. intros (Heq&_&_&_&_&Hk&Hv)%clean_kv_spec. simpl in *.
  unfold split_key_value, kv_line. simpl.
  change ("=" +:+ v +:+ nl) with (String "="%char (v +:+ nl)).
  rewrite py_split1_app by done. simpl. by rewrite Hk, py_strip_app_newline.
Qed.

(** ** The scan of [re.sub] *)

Lemma str_drop_length n s : String.length (str_drop n s) = String.length s - n.
Proof. revert s; induction n as [|n IH]; intros [|c s]; simpl; rewrite ?IH; lia. Qed.

Lemma span_count_le p s : span_count p s ≤ String.length s.
Proof. induction s as [|c s IH]; simpl; [lia|]. destruct (p c); simpl; lia. Qed.

Lemma prefix_length a b : String.prefix a b = true → String.length a ≤ String.length b.
Proof.
  revert b; induction a as [|c a IH]; intros [|d b]; simpl; try done; [lia|].
  destruct (ascii_dec c d); [|done]. intros H%IH. lia.
Qed.

(** A match is at least one character long and within the string. *)
Lemma match_debug_prefix_map_bounds s n :
  match_debug_prefix_map s = Some n → 1 ≤ n ≤ String.length s.
Proof.
  unfold match_debug_prefix_map. cbv zeta.
  set (n1 := span_count is_py_space s). set (s1 := str_drop n1 s).
  set (s2 := str_drop (String.length debug_prefix_map) s1).
  set (n2 := span_count (λ c, negb (is_py_space c)) s2).
  destruct (String.prefix debug_prefix_map s1) eqn:Hp; [|done].
  case_bool_decide as Hn2; [done|]. intros [= <-]. apply prefix_length in Hp.
  pose proof (span_count_le is_py_space s). pose proof (span_count_le (λ c, negb (is_py_space c)) s2).
  pose proof (span_count_le is_py_space (str_drop n2 s2)).
  assert (String.length s1 = String.length s - n1) by apply str_drop_length.
  assert (String.length s2 = String.length s1 - String.length debug_prefix_map) by apply str_drop_length.
  pose proof (str_drop_length n2 s2).
  change (String.length debug_prefix_map) with 19 in *. unfold n1, n2 in *. lia.
Qed.

Lemma strip_debug_prefix_map_go_fuel f1 f2 s :
  String.length s ≤ f1 → String.length s ≤ f2 →
  strip_debug_prefix_map_go f1 s = strip_debug_prefix_map_go f2 s.
Proof.
  revert f2 s. induction f1 as [|f1 IH]; intros f2 s H1 H2.
  { destruct s; [|simpl in H1; lia]. by destruct f2. }
  destruct s as [|c s]; [by destruct f2|]. destruct f2 as [|f2]; [simpl in H2; lia|].
  cbn [strip_debug_prefix_map_go]. destruct (match_debug_prefix_map (String c s)) as [n|] eqn:M.
  - apply match_debug_prefix_map_bounds in M. f_equal. apply IH; rewrite str_drop_length; lia.
  - f_equal. apply IH; simpl in *; lia.
Qed.

(** The scan of [re.sub] terminates within as many steps as the value
    has characters: any larger bound gives the same result. *)
Theorem strip_debug_prefix_map_terminates s fuel :
  String.length s ≤ fuel → strip_debug_prefix_map_go fuel s = strip_debug_prefix_map s.
Proof. intros H. by apply strip_debug_prefix_map_go_fuel. Qed.

Lemma py_contains_prefix a s : String.prefix a s = true → py_contains a s = true.
Proof. destruct s; simpl; intros ->; done. Qed.

Lemma py_contains_drop a k s : py_contains a (str_drop k s) = true → py_contains a s = true.
Proof.
  revert s; induction k as [|k IH]; intros [|c s]; simpl; try done.
  intros H%IH. by rewrite H, orb_true_r.
Qed.

Lemma match_debug_prefix_map_contains s n :
  match_debug_prefix_map s = Some n → py_contains debug_prefix_map s = true.
Proof.
  unfold match_debug_prefix_map. destruct (String.prefix debug_prefix_map _) eqn:Hp; [|done].
  intros _. by apply (py_contains_drop _ (span_count is_py_space s)), py_contains_prefix.
Qed.

(** A value without [-fdebug-prefix-map=] is left as it is. *)
Theorem strip_debug_prefix_map_absent s :
  py_contains debug_prefix_map s = false → strip_debug_prefix_map s = s.
Proof.
  unfold strip_debug_prefix_map. generalize (String.length s). intros fuel.
  revert s; induction fuel as [|fuel IH]; intros s Hs; [done|].
  destruct s as [|c s]; [done|]. cbn [strip_debug_prefix_map_go].
  destruct (match_debug_prefix_map (String c s)) eqn:M.
  - apply match_debug_prefix_map_contains in M. congruence.
  - f_equal. apply IH. simpl in Hs. by apply orb_false_iff in Hs as [_ ?].
Qed.

(** ** No [-fdebug-prefix-map] option survives the [re.sub] *)

(** An option [-fdebug-prefix-map=VALUE] starts at the beginning of [t]:
    the prefix followed by a character that is not a space. *)
Definition option_at (t : string) : bool :=
  String.prefix debug_prefix_map t &&
  match str_drop (String.length debug_prefix_map) t with
  | String d _ => negb (is_py_space d)
  | EmptyString => false
  end.

Fixpoint has_option (t : string) : bool :=
  option_at t || match t with String _ t' => has_option t' | EmptyString => false end.

Definition no_space (w : string) : bool := str_all (λ c, negb (is_py_space c)) w.

Lemma prefix_app_inv a t : String.prefix a t = true → ∃ r, t = a +:+ r.
Proof.
  revert t; induction a as [|c a IH]; intros [|d t]; simpl; try done; [eauto|eauto|].
  destruct (ascii_dec c d) as [<-|]; [|done]. intros (r&->)%IH. by exists r.
Qed.

Lemma str_drop_app a r : str_drop (String.length a) (a +:+ r) = r.
Proof. induction a as [|c a IH]; [done|]. exact IH. Qed.

Lemma option_at_word t :
  option_at t = true → ∃ d t', t = debug_prefix_map +:+ String d t' ∧ is_py_space d = false.
Proof.
  unfold option_at. intros [(r&->)%prefix_app_inv Hd]%andb_prop.
  rewrite str_drop_app in Hd. destruct r as [|d t']; [done|].
  exists d, t'. split; [done|]. by destruct (is_py_space d).
Qed.

(** The scan matches where an option starts. *)
Lemma match_debug_prefix_map_option d t' :
  is_py_space d = false → ∃ n, match_debug_prefix_map (debug_prefix_map +:+ String d t') = Some n.
Proof.
  intros Hd. unfold match_debug_prefix_map. cbv zeta.
  assert (Hsp : span_count is_py_space (debug_prefix_map +:+ String d t') = 0) by reflexivity.
  rewrite Hsp. cbn [str_drop].
  assert (Hp : String.prefix debug_prefix_map (debug_prefix_map +:+ String d t') = true).
  { clear. induction debug_prefix_map as [|c a IH]; [done|]. simpl. by destruct (ascii_dec c c). }
  rewrite Hp, str_drop_app. simpl. rewrite Hd. simpl. eauto.
Qed.

(** The output is copied from the input except where a match became one
    space: a prefix of the output without spaces is a prefix of the input. *)
Lemma strip_go_word fuel s w r :
  String.length s ≤ fuel → no_space w = true →
  strip_debug_prefix_map_go fuel s = w +:+ r → ∃ s', s = w +:+ s'.
Proof.
  revert fuel s r. induction w as [|a w IH]; intros fuel s r Hlen Hw Hs; [by exists s|].
  apply andb_prop in Hw as [Ha Hw].
  destruct fuel as [|fuel]; [destruct s; simpl in *; [done|lia]|].
  destruct s as [|c s0]; [done|]. cbn [strip_debug_prefix_map_go] in Hs.
  destruct (match_debug_prefix_map (String c s0)).
  - injection Hs as <- _. done.
  - injection Hs as <- Hs. destruct (IH fuel s0 r) as [s' ->]; [simpl in Hlen; lia|done|done|].
    by exists s'.
Qed.

Lemma strip_go_no_option fuel s :
  String.length s ≤ fuel → has_option (strip_debug_prefix_map_go fuel s) = false.
Proof.
  revert s. induction fuel as [|fuel IH]; intros s Hlen.
  { destruct s; simpl in *; [done|lia]. }
  destruct s as [|c s0]; [done|]. cbn [strip_debug_prefix_map_go].
  destruct (match_debug_prefix_map (String c s0)) as [n|] eqn:M.
  - apply match_debug_prefix_map_bounds in M. simpl. apply IH.
    rewrite str_drop_length. lia.
  - simpl. rewrite IH by (simpl in Hlen; lia). rewrite orb_false_r.
    destruct (option_at (String c _)) eqn:Ho; [exfalso|done].
    apply option_at_word in Ho as (d&t'&Heq&Hd).
    unfold debug_prefix_map in Heq. rewrite string_app_cons in Heq. injection Heq as Hc Heq. subst c.
    destruct (strip_go_word fuel s0 ("fdebug-prefix-map=" +:+ String d "") t') as [s' ->].
    + simpl in Hlen. lia.
    + unfold no_space. rewrite str_all_app. simpl. by rewrite Hd.
    + rewrite Heq, <-string_app_assoc. done.
    + destruct (match_debug_prefix_map_option d s' Hd) as [n Hn].
      assert (Hs : String "-" (("fdebug-prefix-map=" +:+ String d "") +:+ s') =
                   debug_prefix_map +:+ String d s') by (by rewrite <-string_app_assoc).
      rewrite Hs, Hn in M. done.
Qed.

(** C23: After the [re.sub] of [_dpkg_build_flags], a flag value holds no
    [-fdebug-prefix-map=VALUE] option anywhere: every match is replaced by
    one space, so the text around a removed option cannot join into a new
    one.  (The prefix followed by a space or at the end is no option and
    stays, as [\S+] needs a character.) *)
Theorem strip_debug_prefix_map_no_option s : has_option (strip_debug_prefix_map s) = false.
Proof. by apply strip_go_no_option. Qed.

(** ** Theorems *)

Section PlatformTheorems.
Context `{PlatformHost}.

Lemma first_location_Some name ps l :
  first_location name ps = Some l ↔
  ∃ pre p post, ps = pre ++ p :: post ∧ l = os_path_join p name ∧ p_exists l = true ∧
                Forall (λ q, p_exists (os_path_join q name) = false) pre.
Proof.
  induction ps as [|q ps IH]; simpl.
  { split; [done|]. intros ([|]&?&?&?&_); discriminate. }
  destruct (p_exists (os_path_join q name)) eqn:E.
  - split; [intros [= <-]; exists [], q, ps; auto|].
    intros ([|r pre]&p&post&Hps&->&Hex&Hpre); injection Hps as -> ->; [done|].
    inversion Hpre; congruence.
  - rewrite IH. split.
    + intros (pre&p&post&->&->&Hex&Hpre). exists (q :: pre), p, post. auto.
    + intros ([|r pre]&p&post&Hps&->&Hex&Hpre); injection Hps as -> ->; [congruence|].
      inversion Hpre. eauto 7.
Qed.

Lemma first_location_None name ps :
  first_location name ps = None ↔ Forall (λ q, p_exists (os_path_join q name) = false) ps.
Proof.
  induction ps as [|q ps IH]; simpl; [split; auto|].
  rewrite Forall_cons. destruct (p_exists (os_path_join q name)) eqn:E.
  - split; [discriminate | intros [? _]; congruence].
  - rewrite IH. split; [intros; split; done | intros [_ ?]; done].
Qed.

(** C27: [find_executable] returns the first location of the search path
    ([$PATH], then the eight fixed directories) where the name exists, and
    the fallback when there is none. *)
Theorem find_executable_spec name fallback l :
  find_executable name fallback = Some l ↔
  (∃ pre p post, search_path = pre ++ p :: post ∧ l = os_path_join p name ∧
                 p_exists l = true ∧ Forall (λ q, p_exists (os_path_join q name) = false) pre) ∨
  (Forall (λ q, p_exists (os_path_join q name) = false) search_path ∧ fallback = Some l).
Proof.
  unfold find_executable. destruct (first_location name search_path) as [l'|] eqn:E.
  - rewrite <-first_location_Some, E. split; [intros [= ->]; auto|].
    intros [Hl|[Hnone _]]; [done|]. apply first_location_None in Hnone. congruence.
  - rewrite <-first_location_None, <-first_location_Some, E. naive_solver.
Qed.

(** C37: With [PATH] unset, [os.environ.get("PATH", "").split(":")] is [[""]]:
    the bare name, relative to the working directory, is tried first and
    wins over the fixed directories. *)
Theorem find_executable_path_unset name fallback :
  p_environ !! "PATH" = None → p_exists name = true → find_executable name fallback = Some name.
Proof.
  intros Hp Hn. unfold find_executable, search_path. rewrite Hp. simpl.
  assert (Hj : os_path_join "" name = name).
  { unfold os_path_join. by destruct (py_startswith name "/"). }
  by rewrite Hj, Hn.
Qed.

(** C26: Round trip of [_key_value_file_lookup]: reading back a file of
    [KEY=value] lines gives the value of the first line with that key, and
    [None] when no line has it. *)
Theorem key_value_file_lookup_roundtrip attr_name filename kvs :
  p_exists filename = true → p_read filename = Ok (render_kv kvs) →
  Forall (λ kv, clean_kv kv = true) kvs →
  _key_value_file_lookup attr_name filename = Ok (assoc_first attr_name kvs).
Proof.
  intros He Hr Hc. unfold _key_value_file_lookup. rewrite He, Hr. simpl.
  rewrite universal_newlines_id by (by apply render_kv_no_cr).
  rewrite py_lines_render by done. f_equal. clear He Hr.
  induction Hc as [|[k v] kvs Hkv _ IH]; [done|].
  rewrite fmap_cons. cbn [lookup_lines assoc_first].
  rewrite split_key_value_line by done. by rewrite IH.
Qed.

(** C35: [libc_vendor] returns [None], so without a [TOOLS_TYPE] entry
    [tools_type] is the machine name followed by ["-tools-linux-None"]. *)
Theorem tools_type_default r :
  _key_value_file_lookup "TOOLS_TYPE" "/etc/target" = Ok r → py_truthy r = false →
  tools_type = Ok (machine_name +:+ "-tools-linux-None").
Proof. intros Hl Hr. unfold tools_type. rewrite Hl. simpl. by rewrite Hr. Qed.

(** C36: [is_bolt] raises [AttributeError] ([None.lower()]) on a host without
    [/etc/os-release], instead of answering [False]. *)
Theorem is_bolt_no_os_release :
  p_exists "/etc/os-release" = false →
  is_bolt = Err (AttributeError "'NoneType' object has no attribute 'lower'").
Proof. intros He. unfold is_bolt, _key_value_file_lookup. by rewrite He. Qed.

(** [is_bolt] answers iff [/etc/os-release] has an [ID], and then tells
    whether it is [bolt] in any case. *)
Theorem is_bolt_ok_iff b :
  is_bolt = Ok b ↔
  ∃ id, _key_value_file_lookup "ID" "/etc/os-release" = Ok (Some id) ∧
        b = String.eqb (py_lower id) "bolt".
Proof.
  unfold is_bolt. destruct (_key_value_file_lookup "ID" "/etc/os-release") as [[id|]|e];
    simpl; naive_solver.
Qed.

End PlatformTheorems.

(** ** Witnesses on a concrete host *)

(** A build host with [PATH] unset, [uname] in [/usr/bin] and in the
    working directory, an [/etc/target] naming the target, and no
    [/etc/os-release]. *)
Definition sample_target : list (string * string) :=
  [("TARGET_MACHINE", "aarch64"); ("TARGET_TYPE", "aarch64-linux-musl")].

Definition sample_platform : PlatformHost := {|
  p_environ := ∅;
  p_exists := λ p, bool_decide (p ∈ ["uname"; "/usr/bin/uname"; "/etc/target"]);
  p_read := λ p, if String.eqb p "/etc/target" then Ok (render_kv sample_target)
                 else raise (OSError ENOENT p);
  p_run := λ argv, if bool_decide (argv = ["uname"; "-m"]) then "x86_64" +:+ nl else "";
  p_main_architecture := None
|}.

Lemma find_executable_path_unset_witness :
  @find_executable sample_platform "uname" None = Some "uname".
Proof. apply (@find_executable_path_unset sample_platform); vm_compute; reflexivity. Defined.

Lemma key_value_file_lookup_roundtrip_witness :
  @_key_value_file_lookup sample_platform "TARGET_TYPE" "/etc/target" =
  Ok (Some "aarch64-linux-musl").
Proof.
  apply (@key_value_file_lookup_roundtrip sample_platform "TARGET_TYPE" "/etc/target" sample_target);
    [reflexivity | reflexivity | apply (bool_decide_unpack _); vm_compute; reflexivity].
Defined.

Lemma tools_type_default_witness : @tools_type sample_platform = Ok "x86_64-tools-linux-None".
Proof.
  rewrite (@tools_type_default sample_platform None); [|vm_compute; reflexivity..].
  vm_compute. reflexivity.
Defined.

Lemma is_bolt_no_os_release_witness :
  @is_bolt sample_platform = Err (AttributeError "'NoneType' object has no attribute 'lower'").
Proof. apply (@is_bolt_no_os_release sample_platform). vm_compute. reflexivity. Defined.

Lemma strip_debug_prefix_map_terminates_witness :
  strip_debug_prefix_map_go 100 "-O2 -fdebug-prefix-map=/build=. -g" =
  strip_debug_prefix_map "-O2 -fdebug-prefix-map=/build=. -g" ∧
  strip_debug_prefix_map "-O2 -fdebug-prefix-map=/build=. -g" = "-O2 -g".
Proof. split; [apply strip_debug_prefix_map_terminates; vm_compute; lia | vm_compute; reflexivity]. Defined.

Lemma strip_debug_prefix_map_absent_witness :
  strip_debug_prefix_map "-g -O2 -Wformat" = "-g -O2 -Wformat".
Proof. apply strip_debug_prefix_map_absent. vm_compute. reflexivity. Defined.
